(** * Real-time collaboration engine: operational transformation and
      document/session state (server/core/collaboration.py)

    The development embeds the Python module shallowly:

    - Python [int] is [Z]; [str] document content is [list ascii];
      identifiers produced by [uuid.uuid4()] are drawn from a counter;
    - [Operation] instances live in an object store: the
      transformation functions receive and return references, so that
      "returns its argument" and "builds a new object" are different
      things, as they are in Python;
    - the dataclass [Operation] annotates [position: int],
      [content: Optional[str]] and [length: Optional[int]], and nothing
      in the program checks a value against its annotation.  The class
      is therefore embedded at two levels.  [Operation] has the three
      fields at their declared types and [OperationalTransform] is the
      class on such operations: the statements about the
      transformation itself are made there.  [Untyped.Operation] has
      the three fields as Python values, and
      [Untyped.transform_operation] and [Untyped.apply_operation] are
      the same methods with the dynamic typing of Python written out
      (an operator applied to operands it does not support raises
      [TypeError]): the engine, which builds its operations from
      client messages, runs on these.  On operations whose fields have
      their declared types the two levels agree
      ([apply_operation_untyped], [transform_operation_untyped]);
    - a [value] is what a JSON scalar decodes to: [None], a [bool], an
      [int] or a [str].  Arrays, objects and numbers with a fraction
      or an exponent are not modelled as values of these fields;
    - dictionaries are finite maps and [self.connections] a finite set
      of keys into the connection objects: the order in which Python
      iterates over a dictionary is not modelled, and no statement
      below depends on it;
    - exceptions are values of [exn]; an exception keeps the state
      reached so far, as a Python exception keeps earlier mutations;
    - each handler runs to its end before the next event is taken: the
      interleaving of coroutines at the [await] of a send is not
      modelled. *)

From Stdlib Require Import ZArith Lia Ascii String List.
From stdpp Require Import gmap strings list fin_maps.

Local Open Scope Z_scope.

(** ** Python strings and slices *)

Abbreviation str := (list ascii).

Definition txt (s : string) : str := list_ascii_of_string s.

(** [len(s)] *)
Definition len (s : str) : Z := Z.of_nat (length s).

(** Normalisation of a slice bound [i] against a sequence of length
    [n]: a negative bound counts from the end, and the result is
    clamped into [0, n]. *)
Definition slice_bound (n i : Z) : nat :=
  Z.to_nat (if i <? 0 then Z.max 0 (i + n) else Z.min i n).

(** [s[:i]] *)
Definition slice_to (s : str) (i : Z) : str :=
  take (slice_bound (len s) i) s.

(** [s[i:]] *)
Definition slice_from (s : str) (i : Z) : str :=
  drop (slice_bound (len s) i) s.

(** ** Exceptions and the state-and-exception monad *)

Inductive exn : Type :=
| KeyError
| ValueError
| TypeError
| AttributeError
| InvalidRef. (* a dangling reference: never arises from Python code *)

Definition M (S A : Type) : Type := S -> S * (exn + A).

Definition ret {S A} (a : A) : M S A := fun s => (s, inr a).

Definition raise {S A} (e : exn) : M S A := fun s => (s, inl e).

Definition bind {S A B} (c : M S A) (k : A -> M S B) : M S B :=
  fun s => match c s with
           | (s', inr a) => k a s'
           | (s', inl e) => (s', inl e)
           end.

Definition get {S} : M S S := fun s => (s, inr s).

Definition modify {S} (f : S -> S) : M S unit := fun s => (f s, inr tt).

(** [try: c  except Exception as e: h e] *)
Definition try_except {S A} (c : M S A) (h : exn -> M S A) : M S A :=
  fun s => match c s with
           | (s', inl e) => h e s'
           | r => r
           end.

Notation "'let!' x ':=' c 'in' k" := (bind c (fun x => k))
  (at level 10, x pattern, c at level 100, k at level 200).

(** An expression that may raise, and its use inside a computation. *)
Definition and_then {A B} (r : exn + A) (k : A -> exn + B) : exn + B :=
  match r with
  | inl x => inl x
  | inr a => k a
  end.

Notation "'let?' x ':=' c 'in' k" := (and_then c (fun x => k))
  (at level 10, x pattern, c at level 100, k at level 200).

Definition lift_exn {S A} (r : exn + A) : M S A := fun s => (s, r).

(** ** The operation model *)

Abbreviation uuid := N.
Abbreviation ref := nat.

Inductive OperationType : Type := INSERT | DELETE | RETAIN | ATTRIBUTES.

(** [OperationType(value)]: lookup of an enum member by value *)
Definition OperationType_of_value (v : string) : option OperationType :=
  if String.eqb v "insert" then Some INSERT
  else if String.eqb v "delete" then Some DELETE
  else if String.eqb v "retain" then Some RETAIN
  else if String.eqb v "attributes" then Some ATTRIBUTES
  else None.

Definition OperationType_value (t : OperationType) : string :=
  match t with
  | INSERT => "insert"
  | DELETE => "delete"
  | RETAIN => "retain"
  | ATTRIBUTES => "attributes"
  end.

Record Operation : Type := mkOperation {
  op_type : OperationType;
  op_position : Z;
  op_content : option str;
  op_length : option Z;
  op_attributes : option (list (string * string));
  op_timestamp : Z;
  op_user_id : uuid;
  operation_id : uuid
}.

(** [content or ''] and [length or 0]: a missing field counts as the
    empty string, respectively as 0. *)
Definition or_empty (c : option str) : str :=
  match c with Some c => c | None => [] end.

Definition or_0 (l : option Z) : Z :=
  match l with Some l => l | None => 0 end.

Definition content_or_empty (op : Operation) : str := or_empty (op_content op).

Definition length_or_0 (op : Operation) : Z := or_0 (op_length op).

(** An object store, of objects of type [O], together with the source
    of fresh identifiers. *)
Record Store (O : Type) : Type := mkMem {
  objs : list O;
  uuid_next : uuid
}.

Arguments mkMem {O} objs uuid_next.
Arguments objs {O} _.
Arguments uuid_next {O} _.

(** The store of [Operation] instances whose fields have their
    declared types. *)
Abbreviation Mem := (Store Operation).

Definition deref {O} (r : ref) : M (Store O) O :=
  fun m => match objs m !! r with
           | Some o => (m, inr o)
           | None => (m, inl InvalidRef)
           end.

(** [str(uuid.uuid4())] *)
Definition uuid4 {O} : M (Store O) uuid :=
  fun m => (mkMem (objs m) (N.succ (uuid_next m)), inr (uuid_next m)).

Definition alloc {O} (o : O) : M (Store O) ref :=
  fun m => (mkMem (objs m ++ [o]) (uuid_next m), inr (length (objs m))).

(** [Operation(type=.., position=.., content=.., length=..,
    timestamp=.., user_id=..)]: [attributes] keeps its default [None]
    and [operation_id] comes from the default factory. *)
Definition new_Operation (type : OperationType) (position : Z)
    (content : option str) (length : option Z) (timestamp : Z)
    (user_id : uuid) : M Mem ref :=
  let! oid := uuid4 in
  alloc (mkOperation type position content length None timestamp user_id oid).

(** ** OperationalTransform (collaboration.py, lines 159-310) *)

Module OperationalTransform.

Definition _handle_overlapping_deletes (r1 r2 : ref) : M Mem (ref * ref) :=
  let! op1 := deref r1 in
  let! op2 := deref r2 in
  let start1 := op_position op1 in
  let end1 := op_position op1 + length_or_0 op1 in
  let start2 := op_position op2 in
  let end2 := op_position op2 + length_or_0 op2 in
  let union_start := Z.min start1 start2 in
  let union_end := Z.max end1 end2 in
  let! op1_prime :=
    new_Operation DELETE union_start None (Some (union_end - union_start))
      (op_timestamp op1) (op_user_id op1) in
  let! op2_prime :=
    new_Operation RETAIN 0 None (Some 0) (op_timestamp op2) (op_user_id op2) in
  ret (op1_prime, op2_prime).

(** The INSERT-against-DELETE branch of [transform_operation]. *)
Definition transform_insert_delete (r1 r2 : ref) (op1 op2 : Operation)
  : M Mem (ref * ref) :=
  if op_position op1 <=? op_position op2 then
    let! op2_prime :=
      new_Operation (op_type op2)
        (op_position op2 + len (content_or_empty op1))
        None (op_length op2) (op_timestamp op2) (op_user_id op2) in
    ret (r1, op2_prime)
  else if op_position op1 >=? op_position op2 + length_or_0 op2 then
    let! op1_prime :=
      new_Operation (op_type op1)
        (op_position op1 - length_or_0 op2)
        (op_content op1) None (op_timestamp op1) (op_user_id op1) in
    ret (op1_prime, r2)
  else
    let! op1_prime :=
      new_Operation (op_type op1) (op_position op2)
        (op_content op1) None (op_timestamp op1) (op_user_id op1) in
    let! op2_prime :=
      new_Operation (op_type op2) (op_position op2)
        None (Some (length_or_0 op2 + len (content_or_empty op1)))
        (op_timestamp op2) (op_user_id op2) in
    ret (op1_prime, op2_prime).

(** [transform_operation(op1, op2)].  The DELETE-against-INSERT branch
    calls [transform_operation(op2, op1)], which then takes the
    INSERT-against-DELETE branch: the call is written out as that
    branch on the swapped arguments. *)
Definition transform_operation (r1 r2 : ref) : M Mem (ref * ref) :=
  let! op1 := deref r1 in
  let! op2 := deref r2 in
  match op_type op1, op_type op2 with
  | INSERT, INSERT =>
      if op_position op1 <=? op_position op2 then
        let! op2_prime :=
          new_Operation (op_type op2)
            (op_position op2 + len (content_or_empty op1))
            (op_content op2) None (op_timestamp op2) (op_user_id op2) in
        ret (r1, op2_prime)
      else
        let! op1_prime :=
          new_Operation (op_type op1)
            (op_position op1 + len (content_or_empty op2))
            (op_content op1) None (op_timestamp op1) (op_user_id op1) in
        ret (op1_prime, r2)
  | DELETE, DELETE =>
      if op_position op1 + length_or_0 op1 <=? op_position op2 then
        let! op2_prime :=
          new_Operation (op_type op2)
            (op_position op2 - length_or_0 op1)
            None (op_length op2) (op_timestamp op2) (op_user_id op2) in
        ret (r1, op2_prime)
      else if op_position op2 + length_or_0 op2 <=? op_position op1 then
        let! op1_prime :=
          new_Operation (op_type op1)
            (op_position op1 - length_or_0 op2)
            None (op_length op1) (op_timestamp op1) (op_user_id op1) in
        ret (op1_prime, r2)
      else _handle_overlapping_deletes r1 r2
  | INSERT, DELETE => transform_insert_delete r1 r2 op1 op2
  | DELETE, INSERT =>
      let! (op2_prime, op1_prime) := transform_insert_delete r2 r1 op2 op1 in
      ret (op1_prime, op2_prime)
  | _, _ => ret (r1, r2)
  end.

(** [apply_operation(content, operation)], on the fields of the
    operation object. *)
Definition apply_operation (content : str) (operation : Operation) : str :=
  match op_type operation with
  | INSERT =>
      let pos := Z.min (op_position operation) (len content) in
      slice_to content pos ++ content_or_empty operation
        ++ slice_from content pos
  | DELETE =>
      let start := Z.min (op_position operation) (len content) in
      let end_ := Z.min (start + length_or_0 operation) (len content) in
      slice_to content start ++ slice_from content end_
  | RETAIN => content
  | ATTRIBUTES => content
  end.

End OperationalTransform.

(** ** Python values and the operators the module applies to them *)

Inductive value : Type :=
| VNone
| VBool (b : bool)
| VInt (z : Z)
| VStr (s : str).

(** [bool] is a subclass of [int]: in arithmetic and comparisons [True]
    counts as 1 and [False] as 0. *)
Definition as_int (v : value) : option Z :=
  match v with
  | VInt z => Some z
  | VBool b => Some (Z.b2z b)
  | VNone | VStr _ => None
  end.

(** The truth value of [v]: [None], [False], 0 and the empty string
    are false. *)
Definition truthy (v : value) : bool :=
  match v with
  | VNone => false
  | VBool b => b
  | VInt z => negb (z =? 0)
  | VStr [] => false
  | VStr (_ :: _) => true
  end.

(** [a or b] *)
Definition py_or (a b : value) : value := if truthy a then a else b.

(** The order of strings: by code point, a proper prefix first. *)
Fixpoint str_compare (a b : str) : comparison :=
  match a, b with
  | [], [] => Eq
  | [], _ :: _ => Lt
  | _ :: _, [] => Gt
  | x :: a', y :: b' =>
      match Ascii.compare x y with
      | Eq => str_compare a' b'
      | c => c
      end
  end.

(** The order behind [<], [<=], [>] and [>=]: numbers compare with
    numbers and strings with strings; any other pair of operands
    raises [TypeError]. *)
Definition py_compare (a b : value) : exn + comparison :=
  match as_int a, as_int b with
  | Some x, Some y => inr (x ?= y)
  | _, _ =>
      match a, b with
      | VStr s, VStr t => inr (str_compare s t)
      | _, _ => inl TypeError
      end
  end.

(** [a < b] *)
Definition py_lt (a b : value) : exn + bool :=
  let? c := py_compare a b in
  inr match c with Lt => true | _ => false end.

(** [a <= b] *)
Definition py_le (a b : value) : exn + bool :=
  let? c := py_compare a b in
  inr match c with Gt => false | _ => true end.

(** [a > b] *)
Definition py_gt (a b : value) : exn + bool :=
  let? c := py_compare a b in
  inr match c with Gt => true | _ => false end.

(** [a >= b] *)
Definition py_ge (a b : value) : exn + bool :=
  let? c := py_compare a b in
  inr match c with Lt => false | _ => true end.

(** [a + b]: the sum of two numbers or the concatenation of two
    strings. *)
Definition py_add (a b : value) : exn + value :=
  match as_int a, as_int b with
  | Some x, Some y => inr (VInt (x + y))
  | _, _ =>
      match a, b with
      | VStr s, VStr t => inr (VStr (s ++ t))
      | _, _ => inl TypeError
      end
  end.

(** [a - b] *)
Definition py_sub (a b : value) : exn + value :=
  match as_int a, as_int b with
  | Some x, Some y => inr (VInt (x - y))
  | _, _ => inl TypeError
  end.

(** [len(v)] *)
Definition py_len (v : value) : exn + Z :=
  match v with
  | VStr s => inr (len s)
  | VNone | VBool _ | VInt _ => inl TypeError
  end.

(** [min(a, b)] and [max(a, b)]: the second argument is taken when it
    is smaller, respectively greater, than the first. *)
Definition py_min (a b : value) : exn + value :=
  let? smaller := py_lt b a in
  inr (if smaller then b else a).

Definition py_max (a b : value) : exn + value :=
  let? greater := py_gt b a in
  inr (if greater then b else a).

(** [s[:i]] and [s[i:]]: the bound is a number or [None], which stands
    for the end, respectively the start, of the sequence. *)
Definition py_slice_to (s : str) (i : value) : exn + str :=
  match i with
  | VNone => inr s
  | VBool _ | VInt _ | VStr _ =>
      match as_int i with
      | Some z => inr (slice_to s z)
      | None => inl TypeError
      end
  end.

Definition py_slice_from (s : str) (i : value) : exn + str :=
  match i with
  | VNone => inr s
  | VBool _ | VInt _ | VStr _ =>
      match as_int i with
      | Some z => inr (slice_from s z)
      | None => inl TypeError
      end
  end.

(** [s + v] for a string [s] *)
Definition py_concat (s : str) (v : value) : exn + str :=
  match v with
  | VStr t => inr (s ++ t)
  | VNone | VBool _ | VInt _ => inl TypeError
  end.

(** ** Operations with unchecked fields (collaboration.py, lines
       72-82 and 159-310) *)

Module Untyped.

(** An [Operation] instance as Python holds it: [position], [content]
    and [length] are whatever they were given. *)
Record Operation : Type := mkOperation {
  op_type : OperationType;
  op_position : value;
  op_content : value;
  op_length : value;
  op_attributes : option (list (string * string));
  op_timestamp : Z;
  op_user_id : uuid;
  operation_id : uuid
}.

(** [Operation(type=.., position=.., content=.., length=..,
    timestamp=.., user_id=..)]: the constructor checks nothing. *)
Definition new_Operation (type : OperationType)
    (position content length : value) (timestamp : Z) (user_id : uuid)
  : M (Store Operation) ref :=
  let! oid := uuid4 in
  alloc (mkOperation type position content length None timestamp user_id oid).

Definition _handle_overlapping_deletes (r1 r2 : ref)
  : M (Store Operation) (ref * ref) :=
  let! op1 := deref r1 in
  let! op2 := deref r2 in
  let start1 := op_position op1 in
  let! end1 :=
    lift_exn (py_add (op_position op1) (py_or (op_length op1) (VInt 0))) in
  let start2 := op_position op2 in
  let! end2 :=
    lift_exn (py_add (op_position op2) (py_or (op_length op2) (VInt 0))) in
  let! union_start := lift_exn (py_min start1 start2) in
  let! union_end := lift_exn (py_max end1 end2) in
  let! length := lift_exn (py_sub union_end union_start) in
  let! op1_prime :=
    new_Operation DELETE union_start VNone length
      (op_timestamp op1) (op_user_id op1) in
  let! op2_prime :=
    new_Operation RETAIN (VInt 0) VNone (VInt 0)
      (op_timestamp op2) (op_user_id op2) in
  ret (op1_prime, op2_prime).

(** The INSERT-against-DELETE branch of [transform_operation]. *)
Definition transform_insert_delete (r1 r2 : ref) (op1 op2 : Operation)
  : M (Store Operation) (ref * ref) :=
  let! before := lift_exn (py_le (op_position op1) (op_position op2)) in
  if before then
    let! shift := lift_exn (py_len (py_or (op_content op1) (VStr []))) in
    let! position := lift_exn (py_add (op_position op2) (VInt shift)) in
    let! op2_prime :=
      new_Operation (op_type op2) position VNone (op_length op2)
        (op_timestamp op2) (op_user_id op2) in
    ret (r1, op2_prime)
  else
    let! end2 :=
      lift_exn (py_add (op_position op2) (py_or (op_length op2) (VInt 0))) in
    let! after := lift_exn (py_ge (op_position op1) end2) in
    if after then
      let! position :=
        lift_exn (py_sub (op_position op1) (py_or (op_length op2) (VInt 0))) in
      let! op1_prime :=
        new_Operation (op_type op1) position (op_content op1) VNone
          (op_timestamp op1) (op_user_id op1) in
      ret (op1_prime, r2)
    else
      let! op1_prime :=
        new_Operation (op_type op1) (op_position op2) (op_content op1) VNone
          (op_timestamp op1) (op_user_id op1) in
      let! grow := lift_exn (py_len (py_or (op_content op1) (VStr []))) in
      let! length :=
        lift_exn (py_add (py_or (op_length op2) (VInt 0)) (VInt grow)) in
      let! op2_prime :=
        new_Operation (op_type op2) (op_position op2) VNone length
          (op_timestamp op2) (op_user_id op2) in
      ret (op1_prime, op2_prime).

(** [transform_operation(op1, op2)]; the DELETE-against-INSERT branch
    is written out as for the typed level. *)
Definition transform_operation (r1 r2 : ref)
  : M (Store Operation) (ref * ref) :=
  let! op1 := deref r1 in
  let! op2 := deref r2 in
  match op_type op1, op_type op2 with
  | INSERT, INSERT =>
      let! before := lift_exn (py_le (op_position op1) (op_position op2)) in
      if before then
        let! shift := lift_exn (py_len (py_or (op_content op1) (VStr []))) in
        let! position := lift_exn (py_add (op_position op2) (VInt shift)) in
        let! op2_prime :=
          new_Operation (op_type op2) position (op_content op2) VNone
            (op_timestamp op2) (op_user_id op2) in
        ret (r1, op2_prime)
      else
        let! shift := lift_exn (py_len (py_or (op_content op2) (VStr []))) in
        let! position := lift_exn (py_add (op_position op1) (VInt shift)) in
        let! op1_prime :=
          new_Operation (op_type op1) position (op_content op1) VNone
            (op_timestamp op1) (op_user_id op1) in
        ret (op1_prime, r2)
  | DELETE, DELETE =>
      let! end1 :=
        lift_exn (py_add (op_position op1) (py_or (op_length op1) (VInt 0))) in
      let! before := lift_exn (py_le end1 (op_position op2)) in
      if before then
        let! position :=
          lift_exn (py_sub (op_position op2)
                      (py_or (op_length op1) (VInt 0))) in
        let! op2_prime :=
          new_Operation (op_type op2) position VNone (op_length op2)
            (op_timestamp op2) (op_user_id op2) in
        ret (r1, op2_prime)
      else
        let! end2 :=
          lift_exn (py_add (op_position op2)
                      (py_or (op_length op2) (VInt 0))) in
        let! after := lift_exn (py_le end2 (op_position op1)) in
        if after then
          let! position :=
            lift_exn (py_sub (op_position op1)
                        (py_or (op_length op2) (VInt 0))) in
          let! op1_prime :=
            new_Operation (op_type op1) position VNone (op_length op1)
              (op_timestamp op1) (op_user_id op1) in
          ret (op1_prime, r2)
        else _handle_overlapping_deletes r1 r2
  | INSERT, DELETE => transform_insert_delete r1 r2 op1 op2
  | DELETE, INSERT =>
      let! (op2_prime, op1_prime) := transform_insert_delete r2 r1 op2 op1 in
      ret (op1_prime, op2_prime)
  | _, _ => ret (r1, r2)
  end.

(** [apply_operation(content, operation)]; [content] is the content of
    a document, which is always a string. *)
Definition apply_operation (content : str) (operation : Operation)
  : exn + str :=
  match op_type operation with
  | INSERT =>
      let? pos := py_min (op_position operation) (VInt (len content)) in
      let? head := py_slice_to content pos in
      let? spliced :=
        py_concat head (py_or (op_content operation) (VStr [])) in
      let? tail := py_slice_from content pos in
      inr (spliced ++ tail)
  | DELETE =>
      let? start := py_min (op_position operation) (VInt (len content)) in
      let? stop :=
        py_add start (py_or (op_length operation) (VInt 0)) in
      let? end_ := py_min stop (VInt (len content)) in
      let? head := py_slice_to content start in
      let? tail := py_slice_from content end_ in
      inr (head ++ tail)
  | RETAIN => inr content
  | ATTRIBUTES => inr content
  end.

End Untyped.

(** The store of the operations the engine holds. *)
Abbreviation Heap := (Store Untyped.Operation).

(** *** Operations whose fields have their declared types *)

Definition value_of_content (content : option str) : value :=
  match content with
  | Some s => VStr s
  | None => VNone
  end.

Definition value_of_length (length : option Z) : value :=
  match length with
  | Some n => VInt n
  | None => VNone
  end.

(** A typed operation as the object it is. *)
Definition untyped (op : Operation) : Untyped.Operation :=
  Untyped.mkOperation (op_type op) (VInt (op_position op))
    (value_of_content (op_content op)) (value_of_length (op_length op))
    (op_attributes op) (op_timestamp op) (op_user_id op) (operation_id op).

Definition untyped_store (m : Mem) : Heap :=
  mkMem (untyped <$> objs m) (uuid_next m).

(** The fields of [op] have their declared types: [position] is an
    [int], [content] a [str] or [None], [length] an [int] or [None]. *)
Definition has_declared_types (op : Untyped.Operation) : bool :=
  match Untyped.op_position op, Untyped.op_content op,
        Untyped.op_length op with
  | VInt _, (VNone | VStr _), (VNone | VInt _) => true
  | _, _, _ => false
  end.


(** ** Presence, document, workspace and connection state *)

Inductive PresenceStatus : Type := ONLINE | AWAY | BUSY | OFFLINE.

Record UserPresence : Type := mkUserPresence {
  up_user_id : uuid;
  up_username : string;
  up_status : PresenceStatus;
  up_cursor_position : Z;
  up_selection_start : Z;
  up_selection_end : Z;
  up_last_seen : Z;
  up_avatar_color : string;
  up_current_document : option string;
  up_active : bool
}.

(** [operations] is a [deque(maxlen=1000)] and [pending_operations] a
    list; both hold references to [Operation] objects of the engine's
    store. *)
Record DocumentState : Type := mkDocumentState {
  doc_document_id : string;
  doc_content : str;
  doc_version : Z;
  doc_operations : list ref;
  doc_active_users : gmap uuid UserPresence;
  doc_pending_operations : list ref;
  doc_last_modified : Z;
  doc_conflict_resolution_needed : bool
}.

Record WorkspaceState : Type := mkWorkspaceState {
  ws_workspace_id : string;
  ws_name : string;
  ws_active_users : gmap uuid UserPresence;
  ws_documents : gmap string DocumentState;
  ws_permissions : gmap string (list string);
  ws_created_at : Z;
  ws_last_activity : Z
}.

(** The fields of [core.security.User] that this module reads. *)
Record User : Type := mkUser {
  user_id : uuid;
  user_username : string
}.

(** A [WebSocketConnection] object; the socket itself is the transport
    of the environment. *)
Record WebSocketConnection : Type := mkWebSocketConnection {
  conn_user : User;
  conn_workspace_id : string;
  conn_connected_at : Z;
  conn_last_ping : Z;
  conn_is_active : bool
}.

(** ** Messages *)

(** The payloads the engine passes to [send_json]. *)
Inductive Message : Type :=
| initial_state (id name : string)
    (active_users : list (uuid * string * PresenceStatus * string * Z))
    (documents : list string)
| operation_message (document_id : string) (type : OperationType)
    (position content length : value) (user : uuid) (timestamp : Z)
| cursor_update (user : uuid) (document_id : option string)
    (position selection_start selection_end : Z)
| user_joined (id : uuid) (username avatar_color : string)
| user_left (user : uuid)
| pong (timestamp : Z)
| note_created (note : string) (created_by : uuid)
| note_updated (note : string) (updated_by : uuid)
| general_update (data : string) (from_user : uuid).

(** The decoded [data["operation"]] dictionary: a key that is absent
    is [None].  The values of [position], [content] and [length] are
    carried as they come, whatever their JSON type; the value of
    [type] is taken to be a string. *)
Record RawOperation : Type := mkRawOperation {
  raw_type : option string;
  raw_position : option value;
  raw_content : option value;
  raw_length : option value
}.

(** The decoded client message [data], restricted to the keys the
    engine reads.  Outside the operation, values are taken to have the
    JSON type the engine expects. *)
Record ClientMessage : Type := mkClientMessage {
  msg_type : option string;
  msg_operation : option RawOperation;
  msg_document_id : option string;
  msg_position : option Z;
  msg_selection_start : option Z;
  msg_selection_end : option Z
}.

Inductive LogLevel : Type := INFO | WARNING | ERROR.

(** ** The engine *)

Record Stats : Type := mkStats {
  total_connections : Z;
  active_workspaces : Z;
  operations_processed : Z;
  conflicts_resolved : Z;
  messages_sent : Z
}.

(** The dictionary [get_workspace_stats] returns. *)
Record WorkspaceStats : Type := mkWorkspaceStats {
  st_total_workspaces : Z;
  st_active_connections : Z;
  st_total_users : Z;
  st_operations_processed : Z;
  st_conflicts_resolved : Z;
  st_messages_sent : Z
}.

(** The dictionary [health_check] returns. *)
Record Health : Type := mkHealth {
  h_healthy : bool;
  h_active_connections : Z;
  h_total_connections : Z;
  h_active_workspaces : Z;
  h_operations_per_minute : Z;
  h_last_activity : Z
}.

(** [CollaborationEngine].  [sockets] holds the connection objects of
    the running [handle_websocket] coroutines, by connection id;
    [connections] is the key set of [self.connections], whose values are
    those same objects.  [sent] lists the calls of
    [websocket.send_text], oldest first; [log] the logger calls. *)
Record Engine : Type := mkEngine {
  mem : Heap;
  sockets : gmap uuid WebSocketConnection;
  connections : gset uuid;
  user_connections : gmap uuid (list uuid);
  workspace_connections : gmap string (list uuid);
  workspaces : gmap string WorkspaceState;
  stats : Stats;
  sent : list (uuid * Message);
  log : list (LogLevel * string)
}.

(** What the environment decides during one handler run: the reading
    of the clock and which transports accept a send or a ping. *)
Record Env : Type := mkEnv {
  now : Z;
  link_up : uuid -> bool
}.

Definition engine_init : Engine :=
  mkEngine (mkMem [] 0%N) ∅ ∅ ∅ ∅ ∅ (mkStats 0 0 0 0 0) [] [].

(** *** Field updates *)

Definition with_mem (f : Heap -> Heap) (e : Engine) : Engine :=
  mkEngine (f (mem e)) (sockets e) (connections e) (user_connections e)
    (workspace_connections e) (workspaces e) (stats e) (sent e) (log e).

Definition with_sockets
    (f : gmap uuid WebSocketConnection -> gmap uuid WebSocketConnection)
    (e : Engine) : Engine :=
  mkEngine (mem e) (f (sockets e)) (connections e) (user_connections e)
    (workspace_connections e) (workspaces e) (stats e) (sent e) (log e).

Definition with_connections (f : gset uuid -> gset uuid) (e : Engine)
  : Engine :=
  mkEngine (mem e) (sockets e) (f (connections e)) (user_connections e)
    (workspace_connections e) (workspaces e) (stats e) (sent e) (log e).

Definition with_user_connections
    (f : gmap uuid (list uuid) -> gmap uuid (list uuid)) (e : Engine)
  : Engine :=
  mkEngine (mem e) (sockets e) (connections e) (f (user_connections e))
    (workspace_connections e) (workspaces e) (stats e) (sent e) (log e).

Definition with_workspace_connections
    (f : gmap string (list uuid) -> gmap string (list uuid)) (e : Engine)
  : Engine :=
  mkEngine (mem e) (sockets e) (connections e) (user_connections e)
    (f (workspace_connections e)) (workspaces e) (stats e) (sent e) (log e).

Definition with_workspaces
    (f : gmap string WorkspaceState -> gmap string WorkspaceState)
    (e : Engine) : Engine :=
  mkEngine (mem e) (sockets e) (connections e) (user_connections e)
    (workspace_connections e) (f (workspaces e)) (stats e) (sent e) (log e).

Definition with_stats (f : Stats -> Stats) (e : Engine) : Engine :=
  mkEngine (mem e) (sockets e) (connections e) (user_connections e)
    (workspace_connections e) (workspaces e) (f (stats e)) (sent e) (log e).

Definition with_sent
    (f : list (uuid * Message) -> list (uuid * Message)) (e : Engine)
  : Engine :=
  mkEngine (mem e) (sockets e) (connections e) (user_connections e)
    (workspace_connections e) (workspaces e) (stats e) (f (sent e)) (log e).

Definition with_log
    (f : list (LogLevel * string) -> list (LogLevel * string)) (e : Engine)
  : Engine :=
  mkEngine (mem e) (sockets e) (connections e) (user_connections e)
    (workspace_connections e) (workspaces e) (stats e) (sent e) (f (log e)).

Definition set_is_active (b : bool) (c : WebSocketConnection)
  : WebSocketConnection :=
  mkWebSocketConnection (conn_user c) (conn_workspace_id c)
    (conn_connected_at c) (conn_last_ping c) b.

Definition set_last_ping (t : Z) (c : WebSocketConnection)
  : WebSocketConnection :=
  mkWebSocketConnection (conn_user c) (conn_workspace_id c)
    (conn_connected_at c) t (conn_is_active c).

Definition set_active_users
    (f : gmap uuid UserPresence -> gmap uuid UserPresence)
    (w : WorkspaceState) : WorkspaceState :=
  mkWorkspaceState (ws_workspace_id w) (ws_name w) (f (ws_active_users w))
    (ws_documents w) (ws_permissions w) (ws_created_at w)
    (ws_last_activity w).

Definition set_documents
    (f : gmap string DocumentState -> gmap string DocumentState)
    (w : WorkspaceState) : WorkspaceState :=
  mkWorkspaceState (ws_workspace_id w) (ws_name w) (ws_active_users w)
    (f (ws_documents w)) (ws_permissions w) (ws_created_at w)
    (ws_last_activity w).

Definition set_pending_operations (f : list ref -> list ref)
    (d : DocumentState) : DocumentState :=
  mkDocumentState (doc_document_id d) (doc_content d) (doc_version d)
    (doc_operations d) (doc_active_users d) (f (doc_pending_operations d))
    (doc_last_modified d) (doc_conflict_resolution_needed d).

Definition set_last_activity (t : Z) (w : WorkspaceState) : WorkspaceState :=
  mkWorkspaceState (ws_workspace_id w) (ws_name w) (ws_active_users w)
    (ws_documents w) (ws_permissions w) (ws_created_at w) t.

(** *** Small pieces of Python *)

(** Runs a computation on the object store inside the engine. *)
Definition lift_mem {A} (c : M Heap A) : M Engine A :=
  fun e => let '(m', r) := c (mem e) in (with_mem (fun _ => m') e, r).

(** [logger.info / warning / error] *)
Definition logger (level : LogLevel) (text : string) : M Engine unit :=
  modify (with_log (fun l => l ++ [(level, text)])).

(** [for x in l: f x] *)
Fixpoint for_each {S A} (l : list A) (f : A -> M S unit) : M S unit :=
  match l with
  | [] => ret tt
  | x :: l' => let! _ := f x in for_each l' f
  end.

(** A loop that carries one variable. *)
Fixpoint fold_m {S A B} (f : B -> A -> M S B) (l : list A) (acc : B)
  : M S B :=
  match l with
  | [] => ret acc
  | x :: l' => let! acc' := f acc x in fold_m f l' acc'
  end.

(** [d[k]] on a [defaultdict(list)]: a missing key is first bound to
    an empty list. *)
Definition defaultdict_touch `{Countable K} (k : K)
    (d : gmap K (list uuid)) : gmap K (list uuid) :=
  match d !! k with
  | Some _ => d
  | None => <[k := []]> d
  end.

Definition defaultdict_get `{Countable K} (k : K)
    (d : gmap K (list uuid)) : list uuid :=
  match d !! k with
  | Some l => l
  | None => []
  end.

(** [l.remove(x)]: drops the first occurrence of [x]. *)
Fixpoint list_remove_first (x : uuid) (l : list uuid) : list uuid :=
  match l with
  | [] => []
  | y :: l' => if decide (x = y) then l' else y :: list_remove_first x l'
  end.

(** [l[-n:]] for a positive [n] *)
Definition last_n {A} (n : nat) (l : list A) : list A :=
  drop (length l - n) l.

(** [deque.append] on a [deque(maxlen=maxlen)]: a full deque first
    drops its oldest entry. *)
Definition deque_append {A} (maxlen : nat) (q : list A) (x : A) : list A :=
  if (maxlen <=? length q)%nat then drop 1 q ++ [x] else q ++ [x].

(** [timedelta(minutes=n)], in microseconds *)
Definition timedelta_minutes (n : Z) : Z := n * 60 * 1000000.

(** ** CollaborationEngine (collaboration.py, lines 312-933) *)

Module CollaborationEngine.

(** [WebSocketConnection.send_json]: hands the message to the
    transport; a transport error is logged and marks the connection
    inactive. *)
Definition send_json (env : Env) (conn_id : uuid) (data : Message)
  : M Engine unit :=
  let! _ := modify (with_sent (fun l => l ++ [(conn_id, data)])) in
  if link_up env conn_id then ret tt
  else
    let! _ := logger WARNING "Failed to send WebSocket message" in
    modify (with_sockets (alter (set_is_active false) conn_id)).

(** [WebSocketConnection.ping] *)
Definition ping (env : Env) (conn_id : uuid) : M Engine unit :=
  if link_up env conn_id then
    modify (with_sockets (alter (set_last_ping (now env)) conn_id))
  else
    let! _ := logger WARNING "WebSocket ping failed" in
    modify (with_sockets (alter (set_is_active false) conn_id)).

(** [self.connections.get(conn_id)] *)
Definition connections_get (e : Engine) (conn_id : uuid)
  : option WebSocketConnection :=
  if decide (conn_id ∈ connections e) then sockets e !! conn_id else None.

Definition _generate_avatar_color (user : uuid) : string :=
  let colors :=
    ["#EF4444"; "#F97316"; "#F59E0B"; "#EAB308";
     "#84CC16"; "#22C55E"; "#10B981"; "#14B8A6";
     "#06B6D4"; "#0EA5E9"; "#3B82F6"; "#6366F1";
     "#8B5CF6"; "#A855F7"; "#D946EF"; "#EC4899"]%string in
  (* [hash(user_id)] is taken to be the identifier's number *)
  let hash_value := Z.of_N user in
  nth (Z.to_nat (hash_value mod 16)) colors EmptyString.

Definition _authenticate_websocket_user : M Engine User :=
  let! id := lift_mem uuid4 in
  ret (mkUser id "testuser").

Definition _initialize_workspace (env : Env) (workspace_id : string)
  : M Engine unit :=
  let workspace :=
    mkWorkspaceState workspace_id
      ("Workspace " +:+ substring 0 8 workspace_id)
      ∅ ∅ ∅ (now env) (now env) in
  let! _ := modify (with_workspaces <[workspace_id := workspace]>) in
  let! _ := modify (with_stats (fun s =>
    mkStats (total_connections s) (active_workspaces s + 1)
      (operations_processed s) (conflicts_resolved s) (messages_sent s))) in
  logger INFO "Initialized workspace".

(** [self.workspaces[workspace_id]] *)
Definition workspaces_getitem (workspace_id : string)
  : M Engine WorkspaceState :=
  let! e := get in
  match workspaces e !! workspace_id with
  | Some w => ret w
  | None => raise KeyError
  end.

Definition _add_user_to_workspace (env : Env) (workspace_id : string)
    (user : User) : M Engine unit :=
  let! _ := workspaces_getitem workspace_id in
  let presence :=
    mkUserPresence (user_id user) (user_username user) ONLINE 0 0 0
      (now env) (_generate_avatar_color (user_id user)) None true in
  modify (with_workspaces (alter (fun w =>
    set_last_activity (now env)
      (set_active_users <[user_id user := presence]> w)) workspace_id)).

(** The [initial_state] payload built from a workspace; the users and
    documents come in the order of the finite map. *)
Definition initial_state_of (workspace : WorkspaceState) : Message :=
  initial_state (ws_workspace_id workspace) (ws_name workspace)
    ((fun presence : UserPresence =>
        (up_user_id presence, up_username presence, up_status presence,
         up_avatar_color presence, up_cursor_position presence))
     <$> (snd <$> map_to_list (ws_active_users workspace)))
    (fst <$> map_to_list (ws_documents workspace)).

Definition _send_initial_state (env : Env) (conn_id : uuid)
    (workspace_id : string) : M Engine unit :=
  let! workspace := workspaces_getitem workspace_id in
  send_json env conn_id (initial_state_of workspace).

(** The body of the loop of [_broadcast_to_workspace]: the turn of one
    connection id. *)
Definition deliver (env : Env) (message : Message)
    (exclude_user : option uuid) (conn_id : uuid) : M Engine unit :=
  let! e := get in
  match connections_get e conn_id with
  | Some connection =>
      if conn_is_active connection then
        if match exclude_user with
           | Some u => bool_decide (user_id (conn_user connection) = u)
           | None => false
           end
        then ret tt
        else
          let! _ := send_json env conn_id message in
          modify (with_stats (fun s =>
            mkStats (total_connections s) (active_workspaces s)
              (operations_processed s) (conflicts_resolved s)
              (messages_sent s + 1)))
      else ret tt
  | None => ret tt
  end.

Definition _broadcast_to_workspace (env : Env) (workspace_id : string)
    (message : Message) (exclude_user : option uuid) : M Engine unit :=
  let! e := get in
  let connection_ids :=
    match workspace_connections e !! workspace_id with
    | Some l => l
    | None => []
    end in
  for_each connection_ids (deliver env message exclude_user).

Definition _broadcast_user_joined (env : Env) (workspace_id : string)
    (user : User) : M Engine unit :=
  _broadcast_to_workspace env workspace_id
    (user_joined (user_id user) (user_username user)
       (_generate_avatar_color (user_id user)))
    (Some (user_id user)).

(** [workspace.documents[document_id]], through the workspace and
    document keys that name the object. *)
Definition document_get (workspace_id document_id : string)
  : M Engine DocumentState :=
  let! workspace := workspaces_getitem workspace_id in
  match ws_documents workspace !! document_id with
  | Some d => ret d
  | None => raise KeyError
  end.

(** An assignment to fields of that document object. *)
Definition document_update (workspace_id document_id : string)
    (f : DocumentState -> DocumentState) : M Engine unit :=
  modify (with_workspaces
    (alter (set_documents (alter f document_id)) workspace_id)).

(** The body of the loop of [_apply_operational_transformation]: one
    pending operation met by the operation rebased so far. *)
Definition rebase_against (operation transformed_op pending_op : ref)
  : M Engine ref :=
  let! pending := lift_mem (deref pending_op) in
  let! incoming := lift_mem (deref operation) in
  if bool_decide (Untyped.op_user_id pending ≠ Untyped.op_user_id incoming)
  then
    let! (transformed_op', _) :=
      lift_mem (Untyped.transform_operation transformed_op pending_op) in
    ret transformed_op'
  else ret transformed_op.

Definition _apply_operational_transformation
    (workspace_id document_id : string) (operation : ref) : M Engine ref :=
  let! document := document_get workspace_id document_id in
  let! transformed_op :=
    fold_m (rebase_against operation)
      (doc_pending_operations document) operation in
  let! _ := document_update workspace_id document_id
    (set_pending_operations (fun l => l ++ [transformed_op])) in
  let! _ := document_update workspace_id document_id (fun d =>
    if (10 <? length (doc_pending_operations d))%nat then
      set_pending_operations (last_n 10) d
    else d) in
  ret transformed_op.

Definition _broadcast_operation (env : Env) (workspace_id document_id : string)
    (operation : ref) (exclude_user : option uuid) : M Engine unit :=
  let! op := lift_mem (deref operation) in
  _broadcast_to_workspace env workspace_id
    (operation_message document_id (Untyped.op_type op)
       (Untyped.op_position op) (Untyped.op_content op)
       (Untyped.op_length op) (Untyped.op_user_id op)
       (Untyped.op_timestamp op))
    exclude_user.

(** [_save_document_state] and [_save_workspace_state] have an empty
    body. *)
Definition _save_document_state : M Engine unit := ret tt.
Definition _save_workspace_state : M Engine unit := ret tt.

(** [d[key]] on a decoded dictionary *)
Definition getitem {A} (field : option A) : M Engine A :=
  match field with
  | Some v => ret v
  | None => raise KeyError
  end.

(** [d.get(key)] on a decoded dictionary *)
Definition dict_get (field : option value) : value := default VNone field.

(** The assignments of [_handle_operation] that follow a successful
    [apply_operation]. *)
Definition applied (content : str) (transformed_operation : ref) (time : Z)
    (d : DocumentState) : DocumentState :=
  mkDocumentState (doc_document_id d) content (doc_version d + 1)
    (deque_append 1000 (doc_operations d) transformed_operation)
    (doc_active_users d) (doc_pending_operations d) time
    (doc_conflict_resolution_needed d).

Definition _handle_operation (env : Env) (conn_id : uuid)
    (connection : WebSocketConnection) (data : ClientMessage)
  : M Engine unit :=
  try_except
    (let! raw := getitem (msg_operation data) in
     let! type_value := getitem (raw_type raw) in
     let! type :=
       match OperationType_of_value type_value with
       | Some t => ret t
       | None => raise ValueError
       end in
     let! position := getitem (raw_position raw) in
     let! operation :=
       lift_mem (Untyped.new_Operation type position
                   (dict_get (raw_content raw)) (dict_get (raw_length raw))
                   (now env) (user_id (conn_user connection))) in
     match msg_document_id data with
     | None | Some EmptyString =>
         logger WARNING "Operation without document_id"
     | Some document_id =>
         let! workspace := workspaces_getitem (conn_workspace_id connection) in
         let! _ :=
           match ws_documents workspace !! document_id with
           | Some _ => ret tt
           | None =>
               modify (with_workspaces
                 (alter (set_documents
                    <[document_id :=
                        mkDocumentState document_id [] 0 [] ∅ [] (now env)
                          false]>)
                    (conn_workspace_id connection)))
           end in
         let! transformed_operation :=
           _apply_operational_transformation
             (conn_workspace_id connection) document_id operation in
         let! transformed := lift_mem (deref transformed_operation) in
         let! document :=
           document_get (conn_workspace_id connection) document_id in
         let! content :=
           lift_exn (Untyped.apply_operation (doc_content document)
                       transformed) in
         let! _ := document_update (conn_workspace_id connection) document_id
           (applied content transformed_operation (now env)) in
         let! _ :=
           _broadcast_operation env (conn_workspace_id connection)
             document_id transformed_operation
             (Some (user_id (conn_user connection))) in
         let! _ := _save_document_state in
         modify (with_stats (fun s =>
           mkStats (total_connections s) (active_workspaces s)
             (operations_processed s + 1) (conflicts_resolved s)
             (messages_sent s)))
     end)
    (fun _ => logger ERROR "Error handling operation").

Definition _handle_cursor_move (env : Env) (conn_id : uuid)
    (connection : WebSocketConnection) (data : ClientMessage)
  : M Engine unit :=
  let! workspace := workspaces_getitem (conn_workspace_id connection) in
  let user := user_id (conn_user connection) in
  match ws_active_users workspace !! user with
  | Some user_presence =>
      let position := default 0 (msg_position data) in
      let selection_start := default 0 (msg_selection_start data) in
      let selection_end := default 0 (msg_selection_end data) in
      let! _ := modify (with_workspaces (alter (set_active_users (alter
        (fun p =>
           mkUserPresence (up_user_id p) (up_username p) (up_status p)
             position selection_start selection_end (now env)
             (up_avatar_color p) (up_current_document p) (up_active p))
        user)) (conn_workspace_id connection))) in
      _broadcast_to_workspace env (conn_workspace_id connection)
        (cursor_update user (msg_document_id data)
           position selection_start selection_end)
        (Some user)
  | None => ret tt
  end.

(** The class defines no [_handle_document_open],
    [_handle_document_close] or [_handle_presence_update]: looking the
    attribute up raises [AttributeError]. *)
Definition _handle_collaboration_message (env : Env) (conn_id : uuid)
    (connection : WebSocketConnection) (data : ClientMessage)
  : M Engine unit :=
  let message_type := msg_type data in
  if bool_decide (message_type = Some "operation"%string) then
    _handle_operation env conn_id connection data
  else if bool_decide (message_type = Some "cursor_move"%string) then
    _handle_cursor_move env conn_id connection data
  else if bool_decide (message_type = Some "document_open"%string) then
    raise AttributeError
  else if bool_decide (message_type = Some "document_close"%string) then
    raise AttributeError
  else if bool_decide (message_type = Some "presence_update"%string) then
    raise AttributeError
  else if bool_decide (message_type = Some "ping"%string) then
    send_json env conn_id (pong (now env))
  else logger WARNING "Unknown message type".

Definition _cleanup_connection (env : Env) (connection_id : uuid)
  : M Engine unit :=
  let! e := get in
  match connections_get e connection_id with
  | None => ret tt
  | Some connection =>
      let user := user_id (conn_user connection) in
      let workspace_id := conn_workspace_id connection in
      let! _ := modify (with_connections (fun s => s ∖ {[connection_id]})) in
      let! _ := modify (with_user_connections (fun d =>
        alter (list_remove_first connection_id) user
          (defaultdict_touch user d))) in
      let! _ := modify (with_workspace_connections (fun d =>
        alter (list_remove_first connection_id) workspace_id
          (defaultdict_touch workspace_id d))) in
      let! e := get in
      let! _ :=
        match defaultdict_get user (user_connections e) with
        | [] =>
            match workspaces e !! workspace_id with
            | Some workspace =>
                match ws_active_users workspace !! user with
                | Some _ =>
                    let! _ := modify (with_workspaces
                      (alter (set_active_users (delete user))
                         workspace_id)) in
                    _broadcast_to_workspace env workspace_id (user_left user)
                      None
                | None => ret tt
                end
            | None => ret tt
            end
        | _ :: _ => ret tt
        end in
      logger INFO "Connection cleaned up"
  end.

(** [handle_websocket] up to its message loop.  An exception ends the
    coroutine through its [except] and [finally] clauses. *)
Definition handle_websocket_open (env : Env) (workspace_id : string)
  : M Engine unit :=
  let! user := _authenticate_websocket_user in
  let! connection_id := lift_mem uuid4 in
  let connection :=
    mkWebSocketConnection user workspace_id (now env) (now env) true in
  let! _ := modify (with_sockets <[connection_id := connection]>) in
  let! _ := modify (with_connections (fun s => {[connection_id]} ∪ s)) in
  let! _ := modify (with_user_connections (fun d =>
    alter (fun l => l ++ [connection_id]) (user_id user)
      (defaultdict_touch (user_id user) d))) in
  let! _ := modify (with_workspace_connections (fun d =>
    alter (fun l => l ++ [connection_id]) workspace_id
      (defaultdict_touch workspace_id d))) in
  try_except
    (let! e := get in
     let! _ :=
       match workspaces e !! workspace_id with
       | Some _ => ret tt
       | None => _initialize_workspace env workspace_id
       end in
     let! _ := _add_user_to_workspace env workspace_id user in
     let! _ := _send_initial_state env connection_id workspace_id in
     let! _ := _broadcast_user_joined env workspace_id user in
     let! _ := modify (with_stats (fun s =>
       mkStats (total_connections s + 1) (active_workspaces s)
         (operations_processed s) (conflicts_resolved s)
         (messages_sent s))) in
     logger INFO "User connected to workspace")
    (fun _ =>
       let! _ := logger ERROR "WebSocket error" in
       let! _ := _cleanup_connection env connection_id in
       modify (with_sockets (delete connection_id))).

(** One turn of the message loop of the coroutine that serves
    [conn_id]; [text] is [None] when the frame is not valid JSON. *)
Definition handle_websocket_message (env : Env) (conn_id : uuid)
    (connection : WebSocketConnection) (text : option ClientMessage)
  : M Engine unit :=
  match text with
  | None => logger WARNING "Invalid JSON received"
  | Some data =>
      try_except (_handle_collaboration_message env conn_id connection data)
        (fun _ => logger ERROR "Error handling message")
  end.

(** The end of [handle_websocket]: the socket closes, the [finally]
    clause runs and the coroutine, with its connection object, is gone. *)
Definition handle_websocket_close (env : Env) (conn_id : uuid)
  : M Engine unit :=
  let! _ := _cleanup_connection env conn_id in
  modify (with_sockets (delete conn_id)).

(** One turn of the [_cleanup_inactive_connections] loop *)
Definition _cleanup_inactive_connections (env : Env) : M Engine unit :=
  let! e := get in
  let inactive_connections :=
    List.filter (fun conn_id =>
      match sockets e !! conn_id with
      | Some connection =>
          timedelta_minutes 5 <? now env - conn_last_ping connection
      | None => false
      end) (elements (connections e)) in
  for_each inactive_connections (_cleanup_connection env).

(** One turn of the [_heartbeat_monitor] loop *)
Definition _heartbeat_monitor (env : Env) : M Engine unit :=
  let! e := get in
  for_each (elements (connections e)) (fun conn_id =>
    let! e := get in
    match sockets e !! conn_id with
    | Some connection =>
        if conn_is_active connection then ping env conn_id else ret tt
    | None => ret tt
    end).

(** One turn of the [_sync_workspace_states] loop *)
Definition _sync_workspace_states : M Engine unit :=
  let! e := get in
  for_each (map_to_list (workspaces e)) (fun _ => _save_workspace_state).

(** [broadcast_note_created], [broadcast_note_updated] and
    [broadcast_update] share this body; [message] is the payload each
    of them builds. *)
Definition broadcast_to_collaborators (env : Env) (user : uuid)
    (message : Message) : M Engine unit :=
  let! e := get in
  for_each (map_to_list (workspaces e)) (fun '(workspace_id, workspace) =>
    if decide (is_Some (ws_active_users workspace !! user)) then
      _broadcast_to_workspace env workspace_id message (Some user)
    else ret tt).

Definition broadcast_note_created (env : Env) (user : uuid) (note : string)
  : M Engine unit :=
  broadcast_to_collaborators env user (note_created note user).

Definition broadcast_note_updated (env : Env) (user : uuid) (note : string)
  : M Engine unit :=
  broadcast_to_collaborators env user (note_updated note user).

Definition broadcast_update (env : Env) (user : uuid) (update_data : string)
  : M Engine unit :=
  broadcast_to_collaborators env user (general_update update_data user).

(** [get_connection_count]: the registered connections whose
    [is_active] flag is set. *)
Definition get_connection_count (e : Engine) : Z :=
  Z.of_nat (length (List.filter (fun conn_id =>
    match sockets e !! conn_id with
    | Some connection => conn_is_active connection
    | None => false
    end) (elements (connections e)))).

(** [get_workspace_stats] *)
Definition get_workspace_stats (e : Engine) : WorkspaceStats :=
  mkWorkspaceStats
    (Z.of_nat (size (workspaces e)))
    (Z.of_nat (size (connections e)))
    (Z.of_nat (size (user_connections e)))
    (operations_processed (stats e))
    (conflicts_resolved (stats e))
    (messages_sent (stats e)).

(** [health_check].  The engine record does not carry
    [self.initialized]; the flag is an argument here. *)
Definition health_check (env : Env) (initialized : bool) (e : Engine)
  : Health :=
  mkHealth initialized
    (get_connection_count e)
    (Z.of_nat (size (connections e)))
    (Z.of_nat (size (workspaces e)))
    (operations_processed (stats e))
    (match ws_last_activity <$> (snd <$> map_to_list (workspaces e)) with
     | [] => now env
     | t :: ts => foldr Z.max t ts
     end).

End CollaborationEngine.

(** ** The engine as a transition system *)

(** What can happen to a running engine: a socket is accepted, a
    frame arrives, a socket closes, a background task takes a turn, or
    the note API asks for a broadcast.  [shutdown], which ends the
    engine and drops its whole state, is not among them. *)
Inductive Event : Type :=
| Connect (workspace_id : string)
| Receive (conn_id : uuid) (text : option ClientMessage)
| Close (conn_id : uuid)
| CleanupTick
| HeartbeatTick
| SyncTick
| NoteCreated (user : uuid) (note : string)
| NoteUpdated (user : uuid) (note : string)
| Update (user : uuid) (update_data : string).

Definition handler (env : Env) (ev : Event) : M Engine unit :=
  match ev with
  | Connect workspace_id =>
      CollaborationEngine.handle_websocket_open env workspace_id
  | Receive conn_id text =>
      let! e := get in
      match sockets e !! conn_id with
      | Some connection =>
          CollaborationEngine.handle_websocket_message env conn_id
            connection text
      | None => ret tt
      end
  | Close conn_id =>
      let! e := get in
      match sockets e !! conn_id with
      | Some _ => CollaborationEngine.handle_websocket_close env conn_id
      | None => ret tt
      end
  | CleanupTick => CollaborationEngine._cleanup_inactive_connections env
  | HeartbeatTick => CollaborationEngine._heartbeat_monitor env
  | SyncTick => CollaborationEngine._sync_workspace_states
  | NoteCreated user note =>
      CollaborationEngine.broadcast_note_created env user note
  | NoteUpdated user note =>
      CollaborationEngine.broadcast_note_updated env user note
  | Update user update_data =>
      CollaborationEngine.broadcast_update env user update_data
  end.

Definition step (env : Env) (ev : Event) (e : Engine) : Engine :=
  fst (handler env ev e).

(** The states the engine can be in. *)
Inductive reachable : Engine -> Prop :=
| reachable_init : reachable engine_init
| reachable_step env ev e : reachable e -> reachable (step env ev e).

(** The engine after a sequence of events, each with its environment. *)
Definition run (evs : list (Env * Event)) (e : Engine) : Engine :=
  foldl (fun e '(env, ev) => step env ev e) e evs.

(** ** Notions used in the statements *)

(** *** The object store *)

(** Store [m'] extends store [m]: every object of [m] is still there,
    at the same reference and with the same fields. *)
Definition extends {O} (m m' : Store O) : Prop :=
  exists new, objs m' = objs m ++ new.

(** *** Operations *)

(** The end of the range [[position, position + length)] of a delete. *)
Definition range_end (op : Operation) : Z := op_position op + length_or_0 op.

(** An insert or delete generated against [base]: its position, and
    for a delete its whole range, lies inside [base]. *)
Definition valid_for (base : str) (op : Operation) : Prop :=
  0 <= op_position op /\
  match op_type op with
  | INSERT => op_position op <= len base
  | DELETE => 0 <= length_or_0 op /\ range_end op <= len base
  | _ => False
  end.

(** Two deletes whose ranges overlap: the case [transform_operation]
    hands to [_handle_overlapping_deletes]. *)
Definition overlapping_deletes (a b : Operation) : Prop :=
  op_type a = DELETE /\ op_type b = DELETE /\
  op_position b < range_end a /\ op_position a < range_end b.

(** An insert whose position is strictly inside the range of a delete. *)
Definition insert_inside_delete (i d : Operation) : Prop :=
  op_type i = INSERT /\ op_type d = DELETE /\
  op_position d < op_position i < range_end d.

(** Equality of two operations in every field but [operation_id]. *)
Definition same_but_id (a b : Operation) : Prop :=
  op_type a = op_type b /\ op_position a = op_position b /\
  op_content a = op_content b /\ op_length a = op_length b /\
  op_attributes a = op_attributes b /\ op_timestamp a = op_timestamp b /\
  op_user_id a = op_user_id b.

(** *** Documents and their history *)

(** The document [d] of workspace [w], if both exist. *)
Definition document_at (e : Engine) (w d : string) : option DocumentState :=
  match workspaces e !! w with
  | Some ws => ws_documents ws !! d
  | None => None
  end.

(** The pending buffer after an append: at most its last ten entries. *)
Definition trim_pending (l : list ref) : list ref :=
  if (10 <? length l)%nat then last_n 10 l else l.

(** The document a first operation on an unseen id starts from. *)
Definition fresh_document (d : string) (t : Z) : DocumentState :=
  mkDocumentState d [] 0 [] ∅ [] t false.

(** The document after the operation stored at [t] has been rebased
    and put into the pending buffer of [doc]. *)
Definition document_pending (doc : DocumentState) (t : ref) : DocumentState :=
  set_pending_operations (fun l => trim_pending (l ++ [t])) doc.

(** The document after that operation has then been applied at time
    [time], giving the content [content]. *)
Definition document_after (doc : DocumentState) (t : ref) (content : str)
    (time : Z) : DocumentState :=
  mkDocumentState (doc_document_id doc) content (doc_version doc + 1)
    (deque_append 1000 (doc_operations doc) t)
    (doc_active_users doc)
    (trim_pending (doc_pending_operations doc ++ [t]))
    time (doc_conflict_resolution_needed doc).

(** Folding the stored history over a string: [None] when a reference
    of the history is not in the store or an operation raises. *)
Fixpoint replay (m : Heap) (history : list ref) (acc : str) : option str :=
  match history with
  | [] => Some acc
  | r :: rest =>
      match objs m !! r with
      | Some op =>
          match Untyped.apply_operation acc op with
          | inr acc' => replay m rest acc'
          | inl _ => None
          end
      | None => None
      end
  end.

(** The coherence of a document with its stored history, as long as
    the history can still hold every applied operation. *)
Definition history_coherent (m : Heap) (doc : DocumentState) : Prop :=
  0 <= doc_version doc /\
  (doc_version doc <= 1000 ->
   Z.of_nat (length (doc_operations doc)) = doc_version doc /\
   replay m (doc_operations doc) [] = Some (doc_content doc)).

(** *** Runs of a handler *)

(** A relation [R] between the engine before and after holds for every
    run of the computation [c], however it ends. *)
Definition preserves {A} (R : Engine -> Engine -> Prop) (c : M Engine A)
  : Prop :=
  forall e e' r, c e = (e', r) -> R e e'.

(** The computation [c] never ends with an exception. *)
Definition no_raise {A} (c : M Engine A) : Prop :=
  forall e e' r, c e = (e', r) -> exists a, r = inr a.

(** Only the object store changed, and it only grew. *)
Definition mem_only (e e' : Engine) : Prop :=
  e' = with_mem (fun _ => mem e') e /\ extends (mem e) (mem e').

(** What a connection object keeps for its whole life. *)
Definition conn_static (c : WebSocketConnection) : User * string :=
  (conn_user c, conn_workspace_id c).

(** Only transport bookkeeping changed: connection liveness flags and
    ping times, the sent messages, the log and the message counter. *)
Definition io_only (e e' : Engine) : Prop :=
  mem e' = mem e /\ workspaces e' = workspaces e /\
  connections e' = connections e /\
  user_connections e' = user_connections e /\
  workspace_connections e' = workspace_connections e /\
  operations_processed (stats e') = operations_processed (stats e) /\
  forall c, conn_static <$> sockets e' !! c = conn_static <$> sockets e !! c.

(** No document changed and no operation was counted; the object
    store may have grown. *)
Definition documents_kept (e e' : Engine) : Prop :=
  extends (mem e) (mem e') /\
  operations_processed (stats e') = operations_processed (stats e) /\
  forall w d, document_at e' w d = document_at e w d.

(** One operation was counted and applied to the document [d] of
    workspace [w] (created on the spot when absent); no other document
    changed. *)
Definition applied_to (time : Z) (w d : string) (e e' : Engine) : Prop :=
  let doc := default (fresh_document d time) (document_at e w d) in
  exists t top content,
    extends (mem e) (mem e') /\
    objs (mem e') !! t = Some top /\
    Untyped.apply_operation (doc_content doc) top = inr content /\
    operations_processed (stats e') = operations_processed (stats e) + 1 /\
    document_at e' w d = Some (document_after doc t content time) /\
    forall w' d', (w', d') <> (w, d) ->
      document_at e' w' d' = document_at e w' d'.

(** An operation was rebased and put into the pending buffer of the
    document [d] of workspace [w] (created on the spot when absent),
    and [apply_operation] then raised on it: content, version and
    history of the document are as they were, no operation was counted
    and no other document changed. *)
Definition left_pending (time : Z) (w d : string) (e e' : Engine) : Prop :=
  let doc := default (fresh_document d time) (document_at e w d) in
  exists t top x,
    extends (mem e) (mem e') /\
    objs (mem e') !! t = Some top /\
    Untyped.apply_operation (doc_content doc) top = inl x /\
    operations_processed (stats e') = operations_processed (stats e) /\
    document_at e' w d = Some (document_pending doc t) /\
    forall w' d', (w', d') <> (w, d) ->
      document_at e' w' d' = document_at e w' d'.

(** *** Rebasing *)

(** Following the claim's words: the incoming operation is transformed
    against the pending operations of the other users, one after the
    other, and of each result of [transform_operation] only the first
    component, the transformed incoming operation, is kept; the
    transformed counterpart of the pending operation is dropped. *)
Fixpoint first_components (user : uuid) (pending : list ref) (incoming : ref)
  : M Heap ref :=
  match pending with
  | [] => ret incoming
  | pending_op :: rest =>
      let! pending := deref pending_op in
      if bool_decide (Untyped.op_user_id pending ≠ user) then
        let! transformed := Untyped.transform_operation incoming pending_op in
        first_components user rest (fst transformed)
      else first_components user rest incoming
  end.

(** *** Operation messages *)

(** The type and position that [_handle_operation] reads from a
    message, when the keys are there and the type is a known one. *)
Definition operation_of (data : ClientMessage)
  : option (OperationType * value) :=
  match msg_operation data with
  | Some raw =>
      match raw_type raw with
      | Some type_value =>
          match OperationType_of_value type_value, raw_position raw with
          | Some type, Some position => Some (type, position)
          | _, _ => None
          end
      | None => None
      end
  | None => None
  end.

(** The messages [_handle_operation] rejects by itself: the operation,
    its type or its position is missing, the type is unknown, or the
    document id is missing or empty. *)
Definition malformed (data : ClientMessage) : Prop :=
  operation_of data = None \/ msg_document_id data = None
  \/ msg_document_id data = Some EmptyString.

(** Following the spec's words ("Insert carries content; Delete
    carries length"): an operation whose fields do not fit its type. *)
Definition fields_inconsistent (raw : RawOperation) : Prop :=
  (raw_type raw = Some "insert"%string /\
   (raw_content raw = None \/ raw_length raw <> None)) \/
  (raw_type raw = Some "delete"%string /\
   (raw_length raw = None \/ raw_content raw <> None)).

(** *** Presence *)

(** The presence entry of user [u] in workspace [w]. *)
Definition presence_at (e : Engine) (w : string) (u : uuid)
  : option UserPresence :=
  match workspaces e !! w with
  | Some ws => ws_active_users ws !! u
  | None => None
  end.

(** The fields of a presence entry other than the cursor position, the
    selection bounds, the status and the last-seen time. *)
Definition same_identity (p p' : UserPresence) : Prop :=
  up_user_id p' = up_user_id p /\ up_username p' = up_username p /\
  up_avatar_color p' = up_avatar_color p /\
  up_current_document p' = up_current_document p /\
  up_active p' = up_active p.

(** Of the objects and workspaces, only the presence entry of user
    [u0] in workspace [w0] may differ, and only outside the fields of
    [same_identity]. *)
Definition presence_only (w0 : string) (u0 : uuid) (e e' : Engine) : Prop :=
  mem e' = mem e /\
  (forall w,
     set_active_users (fun _ => ∅) <$> workspaces e' !! w
     = set_active_users (fun _ => ∅) <$> workspaces e !! w) /\
  (forall w u, (w, u) <> (w0, u0) ->
     presence_at e' w u = presence_at e w u) /\
  match presence_at e w0 u0, presence_at e' w0 u0 with
  | Some p, Some p' => same_identity p p'
  | None, None => True
  | _, _ => False
  end.

(** Connection [c] is registered and active: a broadcast reaches it. *)
Definition receives (e : Engine) (c : uuid) : bool :=
  match CollaborationEngine.connections_get e c with
  | Some connection => conn_is_active connection
  | None => false
  end.

(** The users an [initial_state] message lists. *)
Definition listed_users (m : Message) : list uuid :=
  match m with
  | initial_state _ _ active_users _ =>
      (fun x : uuid * string * PresenceStatus * string * Z =>
         x.1.1.1.1) <$> active_users
  | _ => []
  end.

(** User [u] has no presence entry in workspace [w], under any key,
    and no later [uuid4] can produce [u]. *)
Definition absent (w : string) (u : uuid) (e : Engine) : Prop :=
  (u < uuid_next (mem e))%N /\
  forall ws k p,
    workspaces e !! w = Some ws -> ws_active_users ws !! k = Some p ->
    k <> u /\ up_user_id p <> u.

(** A run during which an absent user stays absent. *)
Definition keeps_out (w : string) (u : uuid) (e e' : Engine) : Prop :=
  absent w u e -> absent w u e'.

(** *** Well-formed engine states *)

(** What every reachable state satisfies: a connection id is the
    successor of the id of its user (both come from consecutive
    [uuid4] calls) and has been issued; a registered connection has its
    object, and its user a presence entry in its workspace; presence
    entries are keyed by their user id; no connection id is listed
    twice in a workspace, and listed ids have been issued. *)
Definition well_formed (e : Engine) : Prop :=
  (forall c conn,
     sockets e !! c = Some conn ->
     c = N.succ (user_id (conn_user conn)) /\ (c < uuid_next (mem e))%N) /\
  (forall c,
     c ∈ connections e ->
     exists conn,
       sockets e !! c = Some conn /\
       is_Some (presence_at e (conn_workspace_id conn)
                  (user_id (conn_user conn)))) /\
  (forall w ws k p,
     workspaces e !! w = Some ws -> ws_active_users ws !! k = Some p ->
     up_user_id p = k) /\
  (forall w l,
     workspace_connections e !! w = Some l ->
     NoDup l /\ forall c, c ∈ l -> (c < uuid_next (mem e))%N).

(** The state in the middle of [handle_websocket], when the connection
    of user [u] to workspace [w] is registered and the presence entry
    of [u] is not made yet. *)
Definition joining (w : string) (u : uuid) (e : Engine) : Prop :=
  (forall c conn,
     sockets e !! c = Some conn ->
     c = N.succ (user_id (conn_user conn)) /\ (c < uuid_next (mem e))%N) /\
  (forall c,
     c ∈ connections e ->
     exists conn,
       sockets e !! c = Some conn /\
       (is_Some (presence_at e (conn_workspace_id conn)
                   (user_id (conn_user conn)))
        \/ (conn_workspace_id conn = w /\ user_id (conn_user conn) = u))) /\
  (forall w' ws k p,
     workspaces e !! w' = Some ws -> ws_active_users ws !! k = Some p ->
     up_user_id p = k) /\
  (forall w' l,
     workspace_connections e !! w' = Some l ->
     NoDup l /\ forall c, c ∈ l -> (c < uuid_next (mem e))%N).

(** A run that keeps the state well formed. *)
Definition keeps_wf (e e' : Engine) : Prop :=
  well_formed e -> well_formed e'.

(** A run that keeps the state well formed and connection [c]
    unregistered. *)
Definition keeps_wf_without (c : uuid) (e e' : Engine) : Prop :=
  well_formed e /\ c ∉ connections e ->
  well_formed e' /\ c ∉ connections e'.

(** *** Sample operations, messages and sessions *)

Definition insert_op (position : Z) (text : string) (user : uuid)
    (id : uuid) : Operation :=
  mkOperation INSERT position (Some (txt text)) None None 0 user id.

Definition delete_op (position length : Z) (user : uuid) (id : uuid)
  : Operation :=
  mkOperation DELETE position None (Some length) None 0 user id.

(** An operation message whose fields have their declared types. *)
Definition operation_data (type : string) (position : Z)
    (content : option str) (length : option Z) (document_id : string)
  : ClientMessage :=
  mkClientMessage (Some "operation"%string)
    (Some (mkRawOperation (Some type) (Some (VInt position))
             (VStr <$> content) (VInt <$> length)))
    (Some document_id) None None None.

(** An operation message with the given values in its fields. *)
Definition raw_operation_data (type : string) (position content length : value)
    (document_id : string) : ClientMessage :=
  mkClientMessage (Some "operation"%string)
    (Some (mkRawOperation (Some type) (Some position) (Some content)
             (Some length)))
    (Some document_id) None None None.

(** An environment in which every transport works. *)
Definition calm : Env := mkEnv 0 (fun _ => true).

(** Two clients in workspace ["w"]: users 0 and 2 on connections 1
    and 3. *)
Definition two_clients : Engine :=
  run [(calm, Connect "w"); (calm, Connect "w")] engine_init.

(** Two clients in workspace ["w"], the transport of the second of
    which has failed its last ping. *)
Definition one_client_unreachable : Engine :=
  run [(calm, Connect "w"); (calm, Connect "w");
       (mkEnv 0 (fun c => negb (N.eqb c 3)), HeartbeatTick)] engine_init.

(** One client joins workspace ["w"] and inserts ["a"] at the start of
    document ["d"] 1001 times. *)
Definition long_session : list (Env * Event) :=
  (calm, Connect "w")
  :: repeat (calm, Receive 1%N
               (Some (operation_data "insert" 0 (Some (txt "a")) None "d")))
       1001.


(** ** Notions used in the statements about sessions *)

(** Whether a broadcast that excludes [exclude_user] reaches
    connection [c]: it is registered, active, and not of that user. *)
Definition reached (e : Engine) (exclude_user : option uuid) (c : uuid)
  : bool :=
  match CollaborationEngine.connections_get e c with
  | Some connection =>
      conn_is_active connection &&
      negb match exclude_user with
           | Some u => bool_decide (user_id (conn_user connection) = u)
           | None => false
           end
  | None => false
  end.

(** The connections a broadcast to workspace [w] reaches, in the order
    of the workspace's connection list. *)
Definition audience (e : Engine) (w : string) (exclude_user : option uuid)
  : list uuid :=
  List.filter (reached e exclude_user)
    (defaultdict_get w (workspace_connections e)).

(** A connection object later in its life: it keeps its user, its
    workspace and its connection time, and is not active again once it
    has been marked inactive. *)
Definition conn_aged (old new : WebSocketConnection) : Prop :=
  conn_user new = conn_user old /\
  conn_workspace_id new = conn_workspace_id old /\
  conn_connected_at new = conn_connected_at old /\
  (conn_is_active new = true -> conn_is_active old = true).

(** A workspace whose documents and presence entries may have changed:
    it keeps its id, name, permissions and times, and the users who
    have a presence entry. *)
Definition ws_kept (old new : WorkspaceState) : Prop :=
  ws_workspace_id new = ws_workspace_id old /\
  ws_name new = ws_name old /\
  ws_permissions new = ws_permissions old /\
  ws_created_at new = ws_created_at old /\
  ws_last_activity new = ws_last_activity old /\
  dom (ws_active_users new) = dom (ws_active_users old).

(** A run that registers and unregisters nothing: the connection
    table and both indices are the same, every connection object and
    every workspace is still there, and the counters of connections,
    workspaces and conflicts are unchanged. *)
Definition registry_kept (e e' : Engine) : Prop :=
  connections e' = connections e /\
  user_connections e' = user_connections e /\
  workspace_connections e' = workspace_connections e /\
  (forall c, option_Forall2 conn_aged (sockets e !! c) (sockets e' !! c)) /\
  (forall w, option_Forall2 ws_kept (workspaces e !! w) (workspaces e' !! w)) /\
  total_connections (stats e') = total_connections (stats e) /\
  active_workspaces (stats e') = active_workspaces (stats e) /\
  conflicts_resolved (stats e') = conflicts_resolved (stats e) /\
  (uuid_next (mem e) <= uuid_next (mem e'))%N.

(** The two indices list exactly the registered connections, each
    under its workspace and under its user, and list none twice. *)
Definition indexed (e : Engine) : Prop :=
  (forall w c,
     c ∈ defaultdict_get w (workspace_connections e) <->
     exists conn, CollaborationEngine.connections_get e c = Some conn /\
                  conn_workspace_id conn = w) /\
  (forall u c,
     c ∈ defaultdict_get u (user_connections e) <->
     exists conn, CollaborationEngine.connections_get e c = Some conn /\
                  user_id (conn_user conn) = u) /\
  (forall w, NoDup (defaultdict_get w (workspace_connections e))) /\
  (forall u, NoDup (defaultdict_get u (user_connections e))).

(** What holds of the indices, the counters and the presence entries
    in every state the engine can be in. *)
Definition consistent (e : Engine) : Prop :=
  indexed e /\
  (forall u, is_Some (user_connections e !! u) ->
     (u < uuid_next (mem e))%N) /\
  Z.of_nat (size (user_connections e)) = total_connections (stats e) /\
  Z.of_nat (size (workspaces e)) = active_workspaces (stats e) /\
  conflicts_resolved (stats e) = 0 /\
  (forall c conn,
     sockets e !! c = Some conn ->
     is_Some (workspaces e !! conn_workspace_id conn)) /\
  (forall w u,
     is_Some (presence_at e w u) ->
     exists c conn,
       CollaborationEngine.connections_get e c = Some conn /\
       user_id (conn_user conn) = u /\ conn_workspace_id conn = w).

(** The engine once connection [c], of user [u] in workspace [w], is
    taken out of the connection table and of both indices. *)
Definition unregistered (c u : uuid) (w : string) (e : Engine) : Engine :=
  with_workspace_connections
    (fun d => alter (list_remove_first c) w (defaultdict_touch w d))
    (with_user_connections
       (fun d => alter (list_remove_first c) u (defaultdict_touch u d))
       (with_connections (fun s => s ∖ {[c]}) e)).

(** The engine once, besides, the presence entry of [u] is taken out
    of workspace [w]. *)
Definition departed (c u : uuid) (w : string) (e : Engine) : Engine :=
  with_workspaces (alter (set_active_users (delete u)) w)
    (unregistered c u w e).

(** The presence entry [_add_user_to_workspace] makes. *)
Definition new_presence (env : Env) (u : uuid) : UserPresence :=
  mkUserPresence u "testuser" ONLINE 0 0 0 (now env)
    (CollaborationEngine._generate_avatar_color u) None true.

(** The engine in the middle of [handle_websocket], before anything is
    sent: two identifiers are drawn, for the user and for the
    connection; the connection is registered; the workspace is made
    when it is not there; the user has a presence entry in it. *)
Definition joined (env : Env) (w : string) (e : Engine) : Engine :=
  let u := uuid_next (mem e) in
  let c := N.succ u in
  let connection :=
    mkWebSocketConnection (mkUser u "testuser") w (now env) (now env) true in
  let e1 :=
    with_workspace_connections
      (fun d => alter (fun l => l ++ [c]) w (defaultdict_touch w d))
      (with_user_connections
         (fun d => alter (fun l => l ++ [c]) u (defaultdict_touch u d))
         (with_connections (fun s => {[c]} ∪ s)
            (with_sockets <[c := connection]>
               (with_mem (fun m => mkMem (objs m) (N.succ c)) e)))) in
  let e2 :=
    match workspaces e !! w with
    | Some _ => e1
    | None =>
        with_log (fun l => l ++ [(INFO, "Initialized workspace"%string)])
          (with_stats (fun s =>
             mkStats (total_connections s) (active_workspaces s + 1)
               (operations_processed s) (conflicts_resolved s)
               (messages_sent s))
             (with_workspaces
                <[w := mkWorkspaceState w
                         ("Workspace " +:+ substring 0 8 w)
                         ∅ ∅ ∅ (now env) (now env)]> e1))
    end in
  with_workspaces
    (alter (fun ws =>
       set_last_activity (now env)
         (set_active_users <[u := new_presence env u]> ws)) w) e2.

(** A workspace later in the life of the engine: all that may differ
    are its documents and its presence entries. *)
Definition ws_static (old new : WorkspaceState) : Prop :=
  ws_workspace_id new = ws_workspace_id old /\
  ws_name new = ws_name old /\
  ws_permissions new = ws_permissions old /\
  ws_created_at new = ws_created_at old /\
  ws_last_activity new = ws_last_activity old.

(** A run that makes and drops no connection object and no workspace,
    reactivates no connection and leaves the times of every workspace
    alone. *)
Definition session_kept (e e' : Engine) : Prop :=
  (forall c, option_Forall2 conn_aged (sockets e !! c) (sockets e' !! c)) /\
  (forall w, option_Forall2 ws_static (workspaces e !! w) (workspaces e' !! w)).

(** The buffers of a document are bounded: the history has the size
    the version gives and the pending buffer, which also takes the
    operations that were rebased and then not applied, at most ten
    entries; both hold references to stored operations only. *)
Definition buffers_bounded (m : Heap) (doc : DocumentState) : Prop :=
  0 <= doc_version doc /\
  Z.of_nat (length (doc_operations doc)) = Z.min (doc_version doc) 1000 /\
  Z.min (doc_version doc) 10
    <= Z.of_nat (length (doc_pending_operations doc)) <= 10 /\
  (forall r, r ∈ doc_operations doc -> is_Some (objs m !! r)) /\
  (forall r, r ∈ doc_pending_operations doc -> is_Some (objs m !! r)).

(** A run that touches the object store and the workspaces only. *)
Definition documents_only (e e' : Engine) : Prop :=
  sockets e' = sockets e /\ connections e' = connections e /\
  user_connections e' = user_connections e /\
  workspace_connections e' = workspace_connections e /\
  stats e' = stats e /\ sent e' = sent e /\ log e' = log e.

(** The user and the payload of a broadcast the note API asks for. *)
Definition note_message (ev : Event) : option (uuid * Message) :=
  match ev with
  | NoteCreated user note => Some (user, note_created note user)
  | NoteUpdated user note => Some (user, note_updated note user)
  | Update user update_data => Some (user, general_update update_data user)
  | _ => None
  end.

(** The fields of the operation of a message have the types that
    [Operation] declares: the position is an integer; the content is
    a string, [null] or left out; the length is an integer, [null] or
    left out. *)
Definition declared_fields (raw : RawOperation) : bool :=
  match raw_position raw, CollaborationEngine.dict_get (raw_content raw),
        CollaborationEngine.dict_get (raw_length raw) with
  | Some (VInt _), (VNone | VStr _), (VNone | VInt _) => true
  | _, _, _ => false
  end.

(** The pending operations of [doc] that are not by [user], the ones an
    operation of [user] is transformed against, have fields of the
    declared types. *)
Definition pending_declared (m : Heap) (user : uuid) (doc : DocumentState)
  : Prop :=
  forall r p,
    r ∈ doc_pending_operations doc -> objs m !! r = Some p ->
    Untyped.op_user_id p <> user -> has_declared_types p = true.

(** One client in workspace ["w"] that has inserted ["a"] at the start
    of document ["d"]. *)
Definition one_edit : Engine :=
  run [(calm, Connect "w");
       (calm, Receive 1%N
          (Some (operation_data "insert" 0 (Some (txt "a")) None "d")))]
    engine_init.

(** One client in workspace ["w"] that has sent an insert into
    document ["d"] whose position is [null]. *)
Definition stalled_edit : Engine :=
  run [(calm, Connect "w");
       (calm, Receive 1%N
          (Some (raw_operation_data "insert" VNone (VStr (txt "a")) VNone
                   "d")))]
    engine_init.

(** Two clients in workspace ["w"], the first of which has sent that
    insert. *)
Definition stalled_pair : Engine :=
  step calm
    (Receive 1%N
       (Some (raw_operation_data "insert" VNone (VStr (txt "a")) VNone "d")))
    two_clients.
(** ** Facts about slices *)

Section Slices.

Implicit Types (s x y z : str) (i j : Z).

Lemma len_nonneg s : 0 <= len s.
Proof. unfold len. lia. Qed.

Lemma len_app x y : len (x ++ y) = len x + len y.
Proof. unfold len. rewrite length_app. lia. Qed.

Lemma slice_bound_in_range n i :
  0 <= i <= n -> slice_bound n i = Z.to_nat i.
Proof.
  intros Hi. unfold slice_bound.
  destruct (Z.ltb_spec i 0); [lia |]. f_equal. lia.
Qed.

Lemma slice_to_app x y : slice_to (x ++ y) (len x) = x.
Proof.
  unfold slice_to. rewrite slice_bound_in_range.
  - unfold len. rewrite Nat2Z.id. by rewrite take_app_length.
  - rewrite len_app. pose proof (len_nonneg x). pose proof (len_nonneg y). lia.
Qed.

Lemma slice_from_app x y : slice_from (x ++ y) (len x) = y.
Proof.
  unfold slice_from. rewrite slice_bound_in_range.
  - unfold len. rewrite Nat2Z.id. by rewrite drop_app_length.
  - rewrite len_app. pose proof (len_nonneg x). pose proof (len_nonneg y). lia.
Qed.

(** A string cut at two positions. *)
Lemma str_split3 s i j :
  0 <= i <= j -> j <= len s ->
  exists x y z, s = x ++ y ++ z /\ len x = i /\ len y = j - i.
Proof.
  intros Hij Hj.
  exists (take (Z.to_nat i) s),
         (take (Z.to_nat (j - i)) (drop (Z.to_nat i) s)),
         (drop (Z.to_nat (j - i)) (drop (Z.to_nat i) s)).
  unfold len in *. rewrite !take_drop. split; [done |].
  rewrite !length_take, length_drop. lia.
Qed.

Lemma str_split2 s i :
  0 <= i <= len s -> exists x y, s = x ++ y /\ len x = i.
Proof.
  intros Hi. exists (take (Z.to_nat i) s), (drop (Z.to_nat i) s).
  unfold len in *. rewrite take_drop. split; [done |].
  rewrite length_take. lia.
Qed.

Lemma str_split4 s i j k :
  0 <= i <= j -> j <= k -> k <= len s ->
  exists x y z w, s = x ++ y ++ z ++ w /\ len x = i /\ len y = j - i
                  /\ len z = k - j.
Proof.
  intros Hij Hjk Hk.
  destruct (str_split3 s i j) as (x & y & t & -> & Hx & Hy); [lia | lia |].
  rewrite !len_app in Hk.
  destruct (str_split2 t (k - j)) as (z & w & -> & Hz).
  { pose proof (len_nonneg t). lia. }
  by exists x, y, z, w.
Qed.

End Slices.

(** ** Facts about [apply_operation] *)

Section Apply.

Import OperationalTransform.

Implicit Types (x y z base : str) (op : Operation).

(** An in-range insert splices its text at its position. *)
Lemma apply_insert_at base x y op :
  base = x ++ y ->
  op_type op = INSERT -> op_position op = len x ->
  apply_operation base op = x ++ content_or_empty op ++ y.
Proof.
  intros -> Ht Hp. unfold apply_operation. rewrite Ht, Hp.
  assert (Z.min (len x) (len (x ++ y)) = len x) as ->.
  { rewrite len_app. pose proof (len_nonneg y). lia. }
  by rewrite slice_to_app, slice_from_app.
Qed.

(** An in-range delete removes exactly its range. *)
Lemma apply_delete_at base x y z op :
  base = x ++ y ++ z ->
  op_type op = DELETE -> op_position op = len x ->
  length_or_0 op = len y ->
  apply_operation base op = x ++ z.
Proof.
  intros -> Ht Hp Hl. unfold apply_operation. rewrite Ht, Hp, Hl.
  pose proof (len_nonneg y). pose proof (len_nonneg z).
  assert (Z.min (len x) (len (x ++ y ++ z)) = len x) as ->.
  { rewrite !len_app. lia. }
  assert (Z.min (len x + len y) (len (x ++ y ++ z)) = len (x ++ y)) as ->.
  { rewrite !len_app. lia. }
  rewrite slice_to_app.
  by rewrite (app_assoc x y z), slice_from_app.
Qed.

End Apply.

(** ** Object stores *)

Section Stores.

Context {O : Type}.

Implicit Types (m : Store O) (r : ref) (o : O).

Lemma lookup_new (l : list O) o : (l ++ [o]) !! length l = Some o.
Proof. by rewrite list_lookup_middle. Qed.

Lemma lookup_old (l k : list O) r o :
  l !! r = Some o -> (l ++ k) !! r = Some o.
Proof. apply lookup_app_l_Some. Qed.

Lemma extends_refl m : extends m m.
Proof. exists []. by rewrite app_nil_r. Qed.

Lemma extends_trans m1 m2 m3 : extends m1 m2 -> extends m2 m3 -> extends m1 m3.
Proof.
  intros [k1 H1] [k2 H2]. exists (k1 ++ k2). by rewrite H2, H1, app_assoc.
Qed.

Lemma extends_lookup m m' r o :
  extends m m' -> objs m !! r = Some o -> objs m' !! r = Some o.
Proof. intros [k ->] H. by apply lookup_old. Qed.

End Stores.

(** ** Running the transformation on an object store *)

Section TransformRuns.

Import OperationalTransform.

Implicit Types (m : Mem) (r : ref) (a b : Operation).

Lemma new_Operation_run m t p c l ts u :
  new_Operation t p c l ts u m =
    (mkMem (objs m ++ [mkOperation t p c l None ts u (uuid_next m)])
           (N.succ (uuid_next m)),
     inr (length (objs m))).
Proof. reflexivity. Qed.

End TransformRuns.

(** Evaluates a call of [transform_operation] whose two arguments are
    known objects of the store, splitting on the branch taken. *)
Ltac run_transform Ha Hb :=
  unfold OperationalTransform.transform_operation,
    OperationalTransform.transform_insert_delete,
    OperationalTransform._handle_overlapping_deletes, bind, deref, ret;
  rewrite ?Ha, ?Hb; cbn beta iota;
  repeat match goal with
    | H : op_type _ = _ |- _ => rewrite H
    end;
  cbn beta iota;
  repeat match goal with
    | |- context [if ?x <=? ?y then _ else _] =>
        destruct (Z.leb_spec x y); cbn beta iota
    | |- context [if ?x >=? ?y then _ else _] =>
        rewrite (Z.geb_leb x y); destruct (Z.leb_spec y x); cbn beta iota
    end;
  rewrite ?Ha; cbn beta iota; rewrite ?Hb; cbn beta iota;
  rewrite ?new_Operation_run; cbn [objs uuid_next];
  rewrite ?new_Operation_run; cbn [objs uuid_next].

(** ** Convergence of the transformation *)

Ltac solve_lookup :=
  first [ apply lookup_new
        | apply lookup_old; first [eassumption | apply lookup_new]
        | eassumption ].

Ltac finish_run :=
  eexists _, _, _, _, _;
  split; [reflexivity |]; split; [solve_lookup |]; split; [solve_lookup |].

Ltac side :=
  first [ done
        | by rewrite <- ?app_assoc
        | (unfold range_end, length_or_0, content_or_empty in *;
           cbn [op_type op_position op_content op_length or_0 or_empty];
           rewrite ?len_app; lia) ].

Section Convergence.

Import OperationalTransform.

Implicit Types (m : Mem) (r : ref) (a b : Operation) (base : str).

(** Both orders of application agree for every pair of in-range
    inserts and deletes, outside two cases: two deletes with
    overlapping ranges, and an insert of a non-empty text strictly
    inside the range of a delete. *)
Lemma transform_converges base m r1 r2 a b :
  objs m !! r1 = Some a -> objs m !! r2 = Some b ->
  valid_for base a -> valid_for base b ->
  ~ overlapping_deletes a b ->
  (insert_inside_delete a b -> content_or_empty a = []) ->
  (insert_inside_delete b a -> content_or_empty b = []) ->
  exists m' r1' r2' a' b',
    transform_operation r1 r2 m = (m', inr (r1', r2')) /\
    objs m' !! r1' = Some a' /\ objs m' !! r2' = Some b' /\
    apply_operation (apply_operation base a) b'
    = apply_operation (apply_operation base b) a'.
Proof.
  intros Ha Hb [Hpa Hva] [Hpb Hvb] Hov Hab Hba.
  destruct (op_type a) eqn:Hta; try done;
  destruct (op_type b) eqn:Htb; try done.
  - (* insert, insert *)
    run_transform Ha Hb; finish_run.
    + destruct (str_split3 base (op_position a) (op_position b))
        as (x & y & z & -> & Hx & Hy); [lia | lia |].
      rewrite (apply_insert_at _ x (y ++ z) a) by side.
      rewrite (apply_insert_at (x ++ y ++ z) (x ++ y) z b) by side.
      rewrite (apply_insert_at _ (x ++ content_or_empty a ++ y) z) by side.
      rewrite (apply_insert_at _ x (y ++ content_or_empty b ++ z) a) by side.
      cbn. by rewrite <- !app_assoc.
    + destruct (str_split3 base (op_position b) (op_position a))
        as (x & y & z & -> & Hx & Hy); [lia | lia |].
      rewrite (apply_insert_at _ (x ++ y) z a) by side.
      rewrite (apply_insert_at (x ++ y ++ z) x (y ++ z) b) by side.
      rewrite (apply_insert_at _ x (y ++ content_or_empty a ++ z) b) by side.
      rewrite (apply_insert_at _ (x ++ content_or_empty b ++ y) z) by side.
      cbn. by rewrite <- !app_assoc.
  - (* insert a, delete b *)
    destruct Hvb as [Hlb Heb]. unfold range_end in *.
    run_transform Ha Hb; finish_run.
    + destruct (str_split4 base (op_position a) (op_position b)
                  (op_position b + length_or_0 b))
        as (x & y & z & w & -> & Hx & Hy & Hz); [lia | lia | lia |].
      rewrite (apply_insert_at _ x (y ++ z ++ w) a) by side.
      rewrite (apply_delete_at (x ++ y ++ z ++ w) (x ++ y) z w b) by side.
      rewrite (apply_delete_at _ (x ++ content_or_empty a ++ y) z w) by side.
      rewrite (apply_insert_at _ x (y ++ w) a) by side.
      by rewrite <- !app_assoc.
    + destruct (str_split4 base (op_position b)
                  (op_position b + length_or_0 b) (op_position a))
        as (x & y & z & w & -> & Hx & Hy & Hz); [lia | lia | lia |].
      rewrite (apply_insert_at _ (x ++ y ++ z) w a) by side.
      rewrite (apply_delete_at (x ++ y ++ z ++ w) x y (z ++ w) b) by side.
      rewrite (apply_delete_at _ x y (z ++ content_or_empty a ++ w) b) by side.
      rewrite (apply_insert_at _ (x ++ z) w) by side.
      cbn. by rewrite <- !app_assoc.
    + assert (content_or_empty a = []) as Hc.
      { apply Hab. unfold insert_inside_delete, range_end.
        repeat split; first [assumption | lia]. }
      assert (len (content_or_empty a) = 0) as Hc0 by (by rewrite Hc).
      destruct (str_split4 base (op_position b) (op_position a)
                  (op_position b + length_or_0 b))
        as (x & y & z & w & -> & Hx & Hy & Hz); [lia | lia | lia |].
      rewrite (apply_insert_at _ (x ++ y) (z ++ w) a) by side.
      rewrite (apply_delete_at (x ++ y ++ z ++ w) x (y ++ z) w b) by side.
      rewrite (apply_delete_at _ x (y ++ z) w).
      2:{ rewrite Hc. simpl. by rewrite <- !app_assoc. }
      2-4: side.
      rewrite (apply_insert_at _ x w) by side.
      unfold content_or_empty in *. cbn [op_content]. by rewrite Hc.
  - (* delete a, insert b *)
    destruct Hva as [Hla Hea]. unfold range_end in *.
    run_transform Ha Hb; finish_run.
    + destruct (str_split4 base (op_position b) (op_position a)
                  (op_position a + length_or_0 a))
        as (x & y & z & w & -> & Hx & Hy & Hz); [lia | lia | lia |].
      rewrite (apply_delete_at _ (x ++ y) z w a) by side.
      rewrite (apply_insert_at (x ++ y ++ z ++ w) x (y ++ z ++ w) b) by side.
      rewrite (apply_insert_at _ x (y ++ w) b) by side.
      rewrite (apply_delete_at _ (x ++ content_or_empty b ++ y) z w) by side.
      by rewrite <- !app_assoc.
    + destruct (str_split4 base (op_position a)
                  (op_position a + length_or_0 a) (op_position b))
        as (x & y & z & w & -> & Hx & Hy & Hz); [lia | lia | lia |].
      rewrite (apply_delete_at _ x y (z ++ w) a) by side.
      rewrite (apply_insert_at (x ++ y ++ z ++ w) (x ++ y ++ z) w b) by side.
      rewrite (apply_insert_at _ (x ++ z) w) by side.
      rewrite (apply_delete_at _ x y (z ++ content_or_empty b ++ w) a) by side.
      cbn [op_content content_or_empty]. by rewrite <- !app_assoc.
    + assert (content_or_empty b = []) as Hc.
      { apply Hba. unfold insert_inside_delete, range_end.
        repeat split; first [assumption | lia]. }
      assert (len (content_or_empty b) = 0) as Hc0 by (by rewrite Hc).
      destruct (str_split4 base (op_position a) (op_position b)
                  (op_position a + length_or_0 a))
        as (x & y & z & w & -> & Hx & Hy & Hz); [lia | lia | lia |].
      rewrite (apply_delete_at _ x (y ++ z) w a) by side.
      rewrite (apply_insert_at (x ++ y ++ z ++ w) (x ++ y) (z ++ w) b) by side.
      rewrite (apply_insert_at _ x w) by side.
      rewrite (apply_delete_at _ x (y ++ z) w).
      2:{ rewrite Hc. simpl. by rewrite <- !app_assoc. }
      2-4: side.
      unfold content_or_empty in *. cbn [op_content]. by rewrite Hc.
  - (* delete, delete *)
    destruct Hva as [Hla Hea]. destruct Hvb as [Hlb Heb].
    unfold range_end in *.
    run_transform Ha Hb.
    3:{ exfalso. apply Hov. unfold overlapping_deletes, range_end.
        repeat split; first [assumption | lia]. }
    all: finish_run.
    + destruct (str_split4 base (op_position a)
                  (op_position a + length_or_0 a) (op_position b))
        as (x & y & z & t & -> & Hx & Hy & Hz); [lia | lia | lia |].
      rewrite !len_app in Heb.
      destruct (str_split2 t (length_or_0 b)) as (w & v & -> & Hw).
      { pose proof (len_nonneg t). lia. }
      rewrite (apply_delete_at _ x y (z ++ w ++ v) a) by side.
      rewrite (apply_delete_at (x ++ y ++ z ++ w ++ v) (x ++ y ++ z) w v b)
        by side.
      rewrite (apply_delete_at _ (x ++ z) w v) by side.
      rewrite (apply_delete_at _ x y (z ++ v) a) by side.
      by rewrite <- !app_assoc.
    + destruct (str_split4 base (op_position b)
                  (op_position b + length_or_0 b) (op_position a))
        as (x & y & z & t & -> & Hx & Hy & Hz); [lia | lia | lia |].
      rewrite !len_app in Hea.
      destruct (str_split2 t (length_or_0 a)) as (w & v & -> & Hw).
      { pose proof (len_nonneg t). lia. }
      rewrite (apply_delete_at _ (x ++ y ++ z) w v a) by side.
      rewrite (apply_delete_at (x ++ y ++ z ++ w ++ v) x y (z ++ w ++ v) b)
        by side.
      rewrite (apply_delete_at _ x y (z ++ v) b) by side.
      rewrite (apply_delete_at _ (x ++ z) w v) by side.
      by rewrite <- !app_assoc.
Qed.

(** Scenario 1: two inserts at the same position converge, the first
    argument's text coming first. *)
Example scenario_two_inserts :
  exists m' a' b',
    transform_operation 0%nat 1%nat
      (mkMem [insert_op 0 "cat" 1 10; insert_op 0 "dog" 2 11] 20%N)
    = (m', inr (0%nat, 2%nat)) /\
    objs m' !! 0%nat = Some a' /\ objs m' !! 2%nat = Some b' /\
    op_position a' = 0 /\ op_position b' = 3 /\
    apply_operation (apply_operation [] (insert_op 0 "cat" 1 10)) b'
      = txt "catdog" /\
    apply_operation (apply_operation [] (insert_op 0 "dog" 2 11)) a'
      = txt "catdog".
Proof. eexists _, _, _. repeat split. Qed.

(** C1, at one input: on the base ["hello"], with A the delete of
    [[0,5)] and B the insert of ["X"] at 2 (both in range, not two
    deletes), [transform_operation] returns the delete grown to length
    6 and the insert moved to 0; applying A then B' gives ["X"] while
    applying B then A' gives the empty string.  The two orders do not
    converge. *)
Theorem transform_diverges_insert_inside_delete :
  let base := txt "hello" in
  let A := delete_op 0 5 1 10 in
  let B := insert_op 2 "X" 2 11 in
  valid_for base A /\ valid_for base B /\ ~ overlapping_deletes A B /\
  exists m' rA' rB' A' B',
    transform_operation 0%nat 1%nat (mkMem [A; B] 20%N)
      = (m', inr (rA', rB')) /\
    objs m' !! rA' = Some A' /\ objs m' !! rB' = Some B' /\
    op_type A' = DELETE /\ op_position A' = 0 /\ op_length A' = Some 6 /\
    op_type B' = INSERT /\ op_position B' = 0 /\
    apply_operation (apply_operation base A) B' = txt "X" /\
    apply_operation (apply_operation base B) A' = [] /\
    apply_operation (apply_operation base A) B'
      <> apply_operation (apply_operation base B) A'.
Proof.
  cbv zeta. split; [| split; [| split]].
  - repeat split; by vm_compute.
  - repeat split; by vm_compute.
  - intros (_ & Hb & _). discriminate Hb.
  - eexists _, _, _, _, _. repeat split. discriminate.
Qed.

End Convergence.

(** ** The two levels of [Operation] agree on declared types *)

Section Values.

Implicit Types (x y : Z) (v : value).

Lemma py_le_int x y : py_le (VInt x) (VInt y) = inr (x <=? y).
Proof. reflexivity. Qed.

Lemma py_ge_int x y : py_ge (VInt x) (VInt y) = inr (x >=? y).
Proof. reflexivity. Qed.

Lemma py_min_int x y : py_min (VInt x) (VInt y) = inr (VInt (Z.min x y)).
Proof.
  unfold py_min, py_lt, py_compare, and_then. cbn.
  destruct (Z.compare_spec y x); do 2 f_equal; lia.
Qed.

Lemma py_max_int x y : py_max (VInt x) (VInt y) = inr (VInt (Z.max x y)).
Proof.
  unfold py_max, py_gt, py_compare, and_then. cbn.
  destruct (Z.compare_spec y x); do 2 f_equal; lia.
Qed.

Lemma py_or_length (l : option Z) :
  py_or (value_of_length l) (VInt 0) = VInt (or_0 l).
Proof.
  destruct l as [z |]; [| done]. unfold py_or. cbn.
  destruct (Z.eqb_spec z 0) as [-> |]; done.
Qed.

Lemma py_or_content (c : option str) :
  py_or (value_of_content c) (VStr []) = VStr (or_empty c).
Proof. by destruct c as [[| a s] |]. Qed.

End Values.

Section Refinement.

Import OperationalTransform.

Implicit Types (m : Mem) (h : Heap) (r : ref) (op : Operation).

(** On an operation whose fields have their declared types
    [apply_operation] does not raise, and returns what the typed level
    computes. *)
Lemma apply_operation_untyped (content : str) op :
  Untyped.apply_operation content (untyped op)
  = inr (apply_operation content op).
Proof.
  unfold Untyped.apply_operation, apply_operation, untyped,
    content_or_empty, length_or_0.
  cbn [Untyped.op_type Untyped.op_position Untyped.op_content
         Untyped.op_length].
  destruct (op_type op); [| | done | done].
  - rewrite py_min_int, py_or_content.
    cbn [and_then py_slice_to py_slice_from py_concat as_int].
    by rewrite <- app_assoc.
  - rewrite py_min_int, py_or_length.
    cbn [and_then py_add as_int]. rewrite py_min_int.
    by cbn [and_then py_slice_to py_slice_from as_int].
Qed.

Lemma lookup_untyped_store m r :
  objs (untyped_store m) !! r = untyped <$> objs m !! r.
Proof. unfold untyped_store. cbn. apply list_lookup_fmap. Qed.

Lemma untyped_store_alloc m o next :
  untyped_store (mkMem (objs m ++ [o]) next)
  = mkMem (objs (untyped_store m) ++ [untyped o]) next.
Proof. unfold untyped_store. cbn. by rewrite fmap_app. Qed.

Lemma new_Operation_untyped_run h t p c l ts u :
  Untyped.new_Operation t p c l ts u h =
    (mkMem (objs h ++ [Untyped.mkOperation t p c l None ts u (uuid_next h)])
           (N.succ (uuid_next h)),
     inr (length (objs h))).
Proof. reflexivity. Qed.

Lemma new_Operation_untyped m t p c l ts u :
  Untyped.new_Operation t (VInt p) (value_of_content c) (value_of_length l)
    ts u (untyped_store m)
  = let '(m', r) := new_Operation t p c l ts u m in (untyped_store m', r).
Proof.
  rewrite new_Operation_untyped_run, new_Operation_run.
  rewrite untyped_store_alloc. cbn. by rewrite length_fmap.
Qed.

End Refinement.

(** Evaluates a run of the untyped transformation, splitting on every
    test and on every operator that may raise. *)
Ltac run_untyped :=
  unfold Untyped.transform_operation, Untyped.transform_insert_delete,
    Untyped._handle_overlapping_deletes, Untyped.new_Operation, uuid4, alloc,
    bind, deref, ret, lift_exn;
  repeat (cbn beta iota;
    match goal with
    | |- context [match objs ?m !! ?r with _ => _ end] =>
        destruct (objs m !! r) eqn:?
    | |- context [match Untyped.op_type ?a with _ => _ end] =>
        destruct (Untyped.op_type a) eqn:?
    | |- context [match py_le ?a ?b with _ => _ end] =>
        destruct (py_le a b) as [? | []] eqn:?
    | |- context [match py_ge ?a ?b with _ => _ end] =>
        destruct (py_ge a b) as [? | []] eqn:?
    | |- context [match py_len ?a with _ => _ end] =>
        destruct (py_len a) eqn:?
    | |- context [match py_add ?a ?b with _ => _ end] =>
        destruct (py_add a b) eqn:?
    | |- context [match py_sub ?a ?b with _ => _ end] =>
        destruct (py_sub a b) eqn:?
    | |- context [match py_min ?a ?b with _ => _ end] =>
        destruct (py_min a b) eqn:?
    | |- context [match py_max ?a ?b with _ => _ end] =>
        destruct (py_max a b) eqn:?
    end);
  cbn beta iota.

Section UntypedRuns.

Implicit Types (h : Heap) (r : ref) (a b : Untyped.Operation).

(** [Untyped.transform_operation] only adds objects to the store,
    however it ends. *)
Lemma transform_operation_untyped_grows h r1 r2 h' res :
  Untyped.transform_operation r1 r2 h = (h', res) ->
  extends h h' /\ (uuid_next h <= uuid_next h')%N.
Proof.
  run_untyped; intros [= <- _]; cbn [objs uuid_next];
    (split; [| lia]);
    first [ exists []; by rewrite app_nil_r
          | by eexists
          | rewrite <- app_assoc; by eexists ].
Qed.

(** The results of a run that does not raise are objects of the
    store, and the first keeps the author, the time and the type of
    the first argument. *)
Lemma transform_operation_untyped_first h r1 r2 a h' x y :
  objs h !! r1 = Some a ->
  Untyped.transform_operation r1 r2 h = (h', inr (x, y)) ->
  is_Some (objs h' !! y) /\
  exists a',
    objs h' !! x = Some a' /\
    Untyped.op_user_id a' = Untyped.op_user_id a /\
    Untyped.op_timestamp a' = Untyped.op_timestamp a /\
    Untyped.op_type a' = Untyped.op_type a.
Proof.
  intros Ha. revert Ha.
  run_untyped; intros Ha; try done; intros [= <- <- <-];
    injection Ha as <-; cbn [objs];
    (split; [eexists; solve_lookup |]);
    eexists; (split; [solve_lookup |]); simplify_eq; by repeat split.
Qed.

End UntypedRuns.

Section TransformRefinement.

Import OperationalTransform.

Implicit Types (m : Mem) (r : ref).

(** On a store of operations whose fields have their declared types
    [transform_operation] does not raise, and does what the typed
    level does. *)
Lemma transform_operation_untyped m r1 r2 :
  Untyped.transform_operation r1 r2 (untyped_store m)
  = let '(m', res) := transform_operation r1 r2 m in (untyped_store m', res).
Proof.
  unfold Untyped.transform_operation, transform_operation,
    Untyped.transform_insert_delete, transform_insert_delete,
    Untyped._handle_overlapping_deletes, _handle_overlapping_deletes,
    bind, deref, ret, lift_exn.
  rewrite lookup_untyped_store.
  destruct (objs m !! r1) as [a |] eqn:Ha;
    cbn [fmap option_fmap option_map]; [| done].
  rewrite lookup_untyped_store.
  destruct (objs m !! r2) as [b |] eqn:Hb;
    cbn [fmap option_fmap option_map]; [| done].
  cbn [untyped Untyped.op_type].
  unfold content_or_empty, length_or_0.
  destruct (op_type a), (op_type b); cbn beta iota; try done;
    repeat first
      [ rewrite lookup_untyped_store
      | rewrite Ha
      | rewrite Hb
      | rewrite py_or_content
      | rewrite py_or_length
      | rewrite py_le_int
      | rewrite py_ge_int
      | rewrite py_min_int
      | rewrite py_max_int
      | progress cbn [fmap option_fmap option_map untyped Untyped.op_type
                        Untyped.op_position Untyped.op_content
                        Untyped.op_length Untyped.op_timestamp
                        Untyped.op_user_id py_len py_add py_sub as_int]
      | progress cbn beta iota
      | match goal with
        | |- context [if ?c then _ else _] => destruct c
        end ];
    unfold Untyped.new_Operation, new_Operation, uuid4, alloc, bind,
      untyped_store;
    cbn [objs uuid_next]; rewrite ?fmap_app, ?length_app, ?length_fmap;
    reflexivity.
Qed.

End TransformRefinement.

Section Declared.

Import OperationalTransform.

Implicit Types (h : Heap) (r : ref) (a b : Untyped.Operation).

Lemma declared_untyped a :
  has_declared_types a = true -> exists op, a = untyped op.
Proof.
  destruct a as [t p c l attrs ts u id]. unfold has_declared_types. cbn.
  destruct p as [| | p |]; try done.
  destruct c as [| | | c]; try done;
    destruct l as [| | l |]; try done; intros _.
  - by exists (mkOperation t p None None attrs ts u id).
  - by exists (mkOperation t p None (Some l) attrs ts u id).
  - by exists (mkOperation t p (Some c) None attrs ts u id).
  - by exists (mkOperation t p (Some c) (Some l) attrs ts u id).
Qed.

Lemma untyped_declared op : has_declared_types (untyped op) = true.
Proof.
  unfold has_declared_types, untyped. cbn.
  by destruct (op_content op), (op_length op).
Qed.

(** Two operations whose fields have their declared types are
    transformed without an exception, into operations of that kind. *)
Lemma transform_operation_declared h r1 r2 a b :
  objs h !! r1 = Some a -> objs h !! r2 = Some b ->
  has_declared_types a = true -> has_declared_types b = true ->
  exists h' x y a',
    Untyped.transform_operation r1 r2 h = (h', inr (x, y)) /\
    objs h' !! x = Some a' /\ has_declared_types a' = true.
Proof.
  intros Ha Hb Da Db.
  apply declared_untyped in Da as [a0 ->].
  apply declared_untyped in Db as [b0 ->].
  unfold Untyped.transform_operation, Untyped.transform_insert_delete,
    Untyped._handle_overlapping_deletes, bind, deref, ret, lift_exn.
  rewrite Ha, Hb. cbn [untyped Untyped.op_type].
  destruct (op_type a0), (op_type b0); cbn beta iota;
    repeat first
      [ rewrite Ha
      | rewrite Hb
      | rewrite py_or_content
      | rewrite py_or_length
      | rewrite py_le_int
      | rewrite py_ge_int
      | rewrite py_min_int
      | rewrite py_max_int
      | progress cbn [untyped Untyped.op_type
                        Untyped.op_position Untyped.op_content
                        Untyped.op_length Untyped.op_timestamp
                        Untyped.op_user_id py_len py_add py_sub as_int]
      | progress cbn beta iota
      | match goal with
        | |- context [if ?c then _ else _] => destruct c
        end ];
    unfold Untyped.new_Operation, uuid4, alloc, bind;
    cbn [objs uuid_next];
    eexists _, _, _, _; (split; [reflexivity |]); cbn [objs];
    (split; [solve_lookup |]);
    first [ apply untyped_declared
          | unfold has_declared_types; cbn;
            by destruct (op_content a0), (op_length a0) ].
Qed.

End Declared.

(** ** The delete-against-delete rule *)

Section DeleteDelete.

Import OperationalTransform.

Implicit Types (m : Mem) (r : ref) (a b : Operation).

(** C2, as the code has it: for two deletes A = [[s1,e1)] and
    B = [[s2,e2)], when [e1 <= s2] (disjoint or adjacent, A first) A is
    returned itself and B' is a delete of B's length at [s2 - len A];
    otherwise when [e2 <= s1] (B first) B is returned itself and A' is
    a delete of A's length at [s1 - len B]; otherwise (the ranges
    overlap) A' is the delete of [[min s1 s2, max e1 e2)] and B' is a
    retain of length 0 at position 0. *)
Theorem transform_delete_delete m r1 r2 a b :
  objs m !! r1 = Some a -> objs m !! r2 = Some b ->
  op_type a = DELETE -> op_type b = DELETE ->
  exists m' r1' r2' a' b',
    transform_operation r1 r2 m = (m', inr (r1', r2')) /\
    objs m' !! r1' = Some a' /\ objs m' !! r2' = Some b' /\
    (range_end a <= op_position b ->
       r1' = r1 /\ a' = a /\
       op_type b' = DELETE /\
       op_position b' = op_position b - length_or_0 a /\
       op_length b' = op_length b) /\
    (op_position b < range_end a -> range_end b <= op_position a ->
       r2' = r2 /\ b' = b /\
       op_type a' = DELETE /\
       op_position a' = op_position a - length_or_0 b /\
       op_length a' = op_length a) /\
    (op_position b < range_end a -> op_position a < range_end b ->
       op_type a' = DELETE /\
       op_position a' = Z.min (op_position a) (op_position b) /\
       op_length a' = Some (Z.max (range_end a) (range_end b)
                            - Z.min (op_position a) (op_position b)) /\
       op_type b' = RETAIN /\ op_position b' = 0 /\ op_length b' = Some 0).
Proof.
  intros Ha Hb Hta Htb. unfold range_end.
  run_transform Ha Hb; finish_run.
  - repeat split; intros; first [done | lia].
  - repeat split; intros; first [done | lia].
  - repeat split; intros; first [done | lia].
Qed.

Lemma transform_delete_delete_witness :
  let m := mkMem [delete_op 1 3 1 10; delete_op 2 3 2 11] 20%N in
  exists m' r1' r2' a' b',
    transform_operation 0%nat 1%nat m = (m', inr (r1', r2')) /\
    objs m' !! r1' = Some a' /\ objs m' !! r2' = Some b' /\
    op_type a' = DELETE /\ op_position a' = 1 /\ op_length a' = Some 4 /\
    op_type b' = RETAIN /\ op_position b' = 0 /\ op_length b' = Some 0.
Proof.
  intros m.
  destruct (transform_delete_delete m 0%nat 1%nat
              (delete_op 1 3 1 10) (delete_op 2 3 2 11))
    as (m' & r1' & r2' & a' & b' & Hrun & Ha' & Hb' & _ & _ & Hov);
    [reflexivity | reflexivity | reflexivity | reflexivity |].
  exists m', r1', r2', a', b'.
  split; [exact Hrun |]. split; [exact Ha' |]. split; [exact Hb' |].
  apply Hov; vm_compute; reflexivity.
Defined.

(** C2 as stated fails on adjacent ranges: for A = [[0,2)] and
    B = [[2,4)] the result is not one merged delete of [[0,4)] with a
    retain; A is returned unchanged and B' is the delete of [[0,2)]. *)
Lemma adjacent_deletes_are_shifted_not_merged :
  let A := delete_op 0 2 1 10 in
  let B := delete_op 2 2 2 11 in
  range_end A = op_position B /\
  exists m' A' B',
    transform_operation 0%nat 1%nat (mkMem [A; B] 20%N)
      = (m', inr (0%nat, 2%nat)) /\
    objs m' !! 0%nat = Some A' /\ objs m' !! 2%nat = Some B' /\
    A' = A /\ op_length A' <> Some 4 /\
    op_type B' = DELETE /\ op_type B' <> RETAIN /\
    op_position B' = 0 /\ op_length B' = Some 2.
Proof.
  cbv zeta. split; [reflexivity |].
  eexists _, _, _. repeat split; discriminate.
Qed.

End DeleteDelete.

(** ** Totality and clamping of [apply_operation] *)

Section ApplyClamped.

Import OperationalTransform.

Implicit Types (content : str) (op : Operation).

(** C3, for deletes whose length is absent or non-negative: with a
    non-negative position, an insert splices its text at
    [min(position, len)], a delete removes the range
    [[min(position, len), min(position + length, len))], a retain
    returns the content unchanged, and the length of the result follows
    from these bounds.  The length of an operation that is not a
    delete is not read and may be anything.  [apply_operation] uses
    only [min], slices and concatenation: run on the operation as an
    object, with the dynamic typing of Python, it does not raise and
    returns this result. *)
Theorem apply_operation_clamped content op :
  0 <= op_position op ->
  (op_type op = DELETE -> 0 <= length_or_0 op) ->
  let n := len content in
  let out := apply_operation content op in
  Untyped.apply_operation content (untyped op) = inr out /\
  match op_type op with
  | INSERT =>
      let pos := Z.min (op_position op) n in
      0 <= pos <= n /\
      out = take (Z.to_nat pos) content ++ content_or_empty op
              ++ drop (Z.to_nat pos) content /\
      len out = n + len (content_or_empty op)
  | DELETE =>
      let start := Z.min (op_position op) n in
      let end_ := Z.min (op_position op + length_or_0 op) n in
      0 <= start <= end_ /\ end_ <= n /\
      out = take (Z.to_nat start) content ++ drop (Z.to_nat end_) content /\
      len out = n - (end_ - start)
  | RETAIN | ATTRIBUTES => out = content
  end.
Proof.
  intros Hp Hl n out. subst out.
  split; [apply apply_operation_untyped |].
  unfold apply_operation.
  pose proof (len_nonneg content) as Hn. fold n in Hn.
  destruct (op_type op); [| | done | done].
  - cbv zeta. fold n.
    set (pos := Z.min (op_position op) n).
    assert (0 <= pos <= n) as Hpos by (subst pos; lia).
    unfold slice_to, slice_from. fold n.
    rewrite slice_bound_in_range by done.
    split; [done |]. split; [done |].
    rewrite !len_app. unfold len at 1 3. rewrite length_take, length_drop.
    unfold n, len in *. lia.
  - cbv zeta. fold n. specialize (Hl eq_refl).
    set (start := Z.min (op_position op) n).
    assert (Z.min (start + length_or_0 op) n
            = Z.min (op_position op + length_or_0 op) n) as -> by (subst start; lia).
    set (end_ := Z.min (op_position op + length_or_0 op) n).
    assert (0 <= start <= end_) as Hse by (subst start end_; lia).
    assert (end_ <= n) as Hen by (subst end_; lia).
    unfold slice_to, slice_from. fold n.
    rewrite !slice_bound_in_range by lia.
    split; [done |]. split; [done |]. split; [done |].
    rewrite len_app. unfold len at 1 2. rewrite length_take, length_drop.
    unfold n, len in *. lia.
Qed.

Lemma apply_operation_clamped_witness :
  let content := txt "hello" in
  let op := delete_op 3 10 1 10 in
  let out := apply_operation content op in
  (Untyped.apply_operation content (untyped op) = inr out /\
   0 <= 3 <= 5 /\ 5 <= 5 /\
   out = take 3 content ++ drop 5 content /\ len out = 5 - (5 - 3))
  /\ out = txt "hel".
Proof.
  intros content op out. split; [| reflexivity].
  apply (apply_operation_clamped content op);
    [| intros _]; vm_compute; discriminate.
Defined.

(** C3 as stated fails for a delete with a negative length: position 5
    and length -3 on ["abc"] give the bounds [[3, 2)], and the result
    is ["abcabc"]: nothing is removed, the content grows, and neither
    the range formula nor the length formula of the claim holds. *)
Lemma apply_delete_negative_length :
  let content := txt "abc" in
  let op := delete_op 5 (-3) 1 10 in
  let out := apply_operation content op in
  let start := Z.min (op_position op) (len content) in
  let end_ := Z.min (op_position op + length_or_0 op) (len content) in
  0 <= op_position op /\
  start = 3 /\ end_ = 2 /\
  out = txt "abcabc" /\
  out <> take (Z.to_nat start) content ++ drop (Z.to_nat end_) content /\
  len out <> len content - (end_ - start) /\
  len content < len out.
Proof. cbv zeta. repeat split; by vm_compute. Qed.

End ApplyClamped.

(** ** Purity of the transformation *)

Section Purity.

Import OperationalTransform.

Implicit Types (m : Mem) (r : ref) (a b : Operation).

(** [transform_operation] only adds objects to the store. *)
Lemma transform_operation_extends m r1 r2 m' res :
  transform_operation r1 r2 m = (m', res) -> extends m m'.
Proof.
  unfold transform_operation, transform_insert_delete,
    _handle_overlapping_deletes, bind, deref, ret.
  destruct (objs m !! r1) as [a |] eqn:Ha; cbn beta iota;
    [| intros [= <- _]; exists []; by rewrite app_nil_r].
  destruct (objs m !! r2) as [b |] eqn:Hb; cbn beta iota;
    [| intros [= <- _]; exists []; by rewrite app_nil_r].
  destruct (op_type a), (op_type b); cbn beta iota;
    repeat match goal with
      | |- context [if ?c then _ else _] => destruct c; cbn beta iota
      end;
    rewrite ?Ha, ?Hb; cbn beta iota;
    rewrite ?new_Operation_run; cbn [objs uuid_next];
    rewrite ?new_Operation_run; cbn [objs uuid_next];
    intros [= <- _]; cbn [objs];
    first [ by eexists | exists []; by rewrite app_nil_r
          | rewrite <- app_assoc; by eexists ].
Qed.

(** C4, as the code has it: two calls on equal operations, in any two
    stores, return operations that agree in every field except
    [operation_id] (an operation built by the call gets a fresh one),
    and neither call changes any object already in its store: the
    inputs are left as they were and the results that differ from them
    are new objects. *)
Theorem transform_pure_up_to_operation_id m1 m2 p1 p2 q1 q2 a b :
  objs m1 !! p1 = Some a -> objs m1 !! p2 = Some b ->
  objs m2 !! q1 = Some a -> objs m2 !! q2 = Some b ->
  exists m1' m2' x1 y1 x2 y2 a1 b1 a2 b2,
    transform_operation p1 p2 m1 = (m1', inr (x1, y1)) /\
    transform_operation q1 q2 m2 = (m2', inr (x2, y2)) /\
    objs m1' !! x1 = Some a1 /\ objs m1' !! y1 = Some b1 /\
    objs m2' !! x2 = Some a2 /\ objs m2' !! y2 = Some b2 /\
    same_but_id a1 a2 /\ same_but_id b1 b2 /\
    extends m1 m1' /\ extends m2 m2' /\
    objs m1' !! p1 = Some a /\ objs m1' !! p2 = Some b /\
    objs m2' !! q1 = Some a /\ objs m2' !! q2 = Some b.
Proof.
  intros Hp1 Hp2 Hq1 Hq2.
  destruct (transform_operation p1 p2 m1) as [m1' res1] eqn:E1.
  destruct (transform_operation q1 q2 m2) as [m2' res2] eqn:E2.
  pose proof (transform_operation_extends _ _ _ _ _ E1) as X1.
  pose proof (transform_operation_extends _ _ _ _ _ E2) as X2.
  pose proof (extends_lookup _ _ _ _ X1 Hp1) as Hp1'.
  pose proof (extends_lookup _ _ _ _ X1 Hp2) as Hp2'.
  pose proof (extends_lookup _ _ _ _ X2 Hq1) as Hq1'.
  pose proof (extends_lookup _ _ _ _ X2 Hq2) as Hq2'.
  revert E1 E2.
  unfold transform_operation, transform_insert_delete,
    _handle_overlapping_deletes, bind, deref, ret.
  rewrite Hp1, Hp2, Hq1, Hq2. cbn beta iota.
  destruct (op_type a), (op_type b); cbn beta iota;
    repeat match goal with
      | |- context [if ?c then _ else _] => destruct c; cbn beta iota
      end;
    rewrite ?Hp1, ?Hp2, ?Hq1, ?Hq2; cbn beta iota;
    rewrite ?new_Operation_run; cbn [objs uuid_next];
    rewrite ?new_Operation_run; cbn [objs uuid_next];
    intros [= <- <-] [= <- <-];
    eexists _, _, _, _, _, _, _, _, _, _;
    (split; [reflexivity |]); (split; [reflexivity |]);
    cbn [objs] in *;
    (split; [first [eassumption | apply lookup_new
                   | apply lookup_old, lookup_new] |]);
    (split; [first [eassumption | apply lookup_new
                   | apply lookup_old, lookup_new] |]);
    (split; [first [eassumption | apply lookup_new
                   | apply lookup_old, lookup_new] |]);
    (split; [first [eassumption | apply lookup_new
                   | apply lookup_old, lookup_new] |]);
    repeat split; assumption.
Qed.

Lemma transform_pure_up_to_operation_id_witness :
  let a := insert_op 0 "cat" 1 10 in
  let b := insert_op 0 "dog" 2 11 in
  exists m1' m2' x1 y1 x2 y2 a1 b1 a2 b2,
    transform_operation 0%nat 1%nat (mkMem [a; b] 20%N)
      = (m1', inr (x1, y1)) /\
    transform_operation 1%nat 2%nat (mkMem [b; a; b] 30%N)
      = (m2', inr (x2, y2)) /\
    objs m1' !! x1 = Some a1 /\ objs m1' !! y1 = Some b1 /\
    objs m2' !! x2 = Some a2 /\ objs m2' !! y2 = Some b2 /\
    same_but_id a1 a2 /\ same_but_id b1 b2 /\
    extends (mkMem [a; b] 20%N) m1' /\ extends (mkMem [b; a; b] 30%N) m2' /\
    objs m1' !! 0%nat = Some a /\ objs m1' !! 1%nat = Some b /\
    objs m2' !! 1%nat = Some a /\ objs m2' !! 2%nat = Some b.
Proof.
  intros a b.
  apply (transform_pure_up_to_operation_id
           (mkMem [a; b] 20%N) (mkMem [b; a; b] 30%N)
           0%nat 1%nat 1%nat 2%nat a b); reflexivity.
Defined.

(** C4 as stated fails on [operation_id]: calling
    [transform_operation] twice on the same two operations returns, for
    the operation that is rebuilt, two objects whose [operation_id]
    differ. *)
Lemma transform_twice_differs_in_operation_id :
  let a := insert_op 0 "cat" 1 10 in
  let b := insert_op 0 "dog" 2 11 in
  exists m1 m2 y1 y2 b1 b2,
    transform_operation 0%nat 1%nat (mkMem [a; b] 20%N)
      = (m1, inr (0%nat, y1)) /\
    transform_operation 0%nat 1%nat m1 = (m2, inr (0%nat, y2)) /\
    objs m2 !! y1 = Some b1 /\ objs m2 !! y2 = Some b2 /\
    operation_id b1 = 20%N /\ operation_id b2 = 21%N /\ b1 <> b2.
Proof.
  cbv zeta. eexists _, _, _, _, _, _. repeat split. discriminate.
Qed.

End Purity.

(** ** Further properties of the transformation and of [apply_operation] *)

Section TransformFacts.

Import OperationalTransform.

Implicit Types (m : Mem) (r : ref) (a b : Operation) (base content : str).

Lemma app_grows (x t z : str) : t <> [] -> x ++ z <> x ++ t ++ z.
Proof.
  intros Ht Heq. apply (f_equal (@length ascii)) in Heq.
  rewrite !length_app in Heq. destruct t; [done |]. simpl in Heq. lia.
Qed.

(** The length of the content after an in-range delete. *)
Lemma len_apply_delete content op :
  op_type op = DELETE -> 0 <= op_position op -> 0 <= length_or_0 op ->
  op_position op + length_or_0 op <= len content ->
  len (apply_operation content op) = len content - length_or_0 op.
Proof.
  intros Ht Hp Hl He.
  destruct (str_split3 content (op_position op)
              (op_position op + length_or_0 op))
    as (x & y & z & -> & Hx & Hy); [lia | lia |].
  rewrite (apply_delete_at _ x y z op) by first [done | lia].
  rewrite !len_app. lia.
Qed.

(** X1: both orders of application agree for every pair of in-range
    inserts and deletes, outside two cases: two deletes with
    overlapping ranges, and an insert of a non-empty text strictly
    inside the range of a delete. *)
Theorem transform_converges_outside_conflicts base m r1 r2 a b :
  objs m !! r1 = Some a -> objs m !! r2 = Some b ->
  valid_for base a -> valid_for base b ->
  ~ overlapping_deletes a b ->
  (insert_inside_delete a b -> content_or_empty a = []) ->
  (insert_inside_delete b a -> content_or_empty b = []) ->
  exists m' r1' r2' a' b',
    transform_operation r1 r2 m = (m', inr (r1', r2')) /\
    objs m' !! r1' = Some a' /\ objs m' !! r2' = Some b' /\
    apply_operation (apply_operation base a) b'
    = apply_operation (apply_operation base b) a'.
Proof. apply transform_converges. Qed.

Lemma transform_converges_outside_conflicts_witness :
  let base := txt "hello" in
  let a := insert_op 1 "X" 1 10 in
  let b := delete_op 2 2 2 11 in
  exists m' r1' r2' a' b',
    transform_operation 0%nat 1%nat (mkMem [a; b] 20%N)
      = (m', inr (r1', r2')) /\
    objs m' !! r1' = Some a' /\ objs m' !! r2' = Some b' /\
    apply_operation (apply_operation base a) b'
    = apply_operation (apply_operation base b) a'.
Proof.
  intros base a b.
  apply (transform_converges_outside_conflicts base (mkMem [a; b] 20%N)
           0%nat 1%nat a b).
  - reflexivity.
  - reflexivity.
  - split; vm_compute; discriminate.
  - split; [| split]; vm_compute; discriminate.
  - intros (H & _). discriminate H.
  - intros (_ & _ & H & _). vm_compute in H. discriminate H.
  - intros (H & _). discriminate H.
Defined.

(** X2: an insert strictly inside the range of a delete.  The insert
    is moved to the start of the range and the delete grows by the
    length of the inserted text, in either argument order; so the site
    that applied the insert first ends with base minus the range, the
    inserted text gone with it, and the site that applied the delete
    first ends with the text in place of the range.  The two differ
    as soon as the text is not empty. *)
Theorem insert_inside_delete_diverges base m ri rd ins del :
  objs m !! ri = Some ins -> objs m !! rd = Some del ->
  valid_for base ins -> valid_for base del ->
  insert_inside_delete ins del ->
  exists x y z,
    base = x ++ y ++ z /\ len x = op_position del /\
    len y = length_or_0 del /\
    (exists m' ri' rd' ins' del',
       transform_operation ri rd m = (m', inr (ri', rd')) /\
       objs m' !! ri' = Some ins' /\ objs m' !! rd' = Some del' /\
       apply_operation (apply_operation base ins) del' = x ++ z /\
       apply_operation (apply_operation base del) ins'
         = x ++ content_or_empty ins ++ z) /\
    (exists m' rd' ri' del' ins',
       transform_operation rd ri m = (m', inr (rd', ri')) /\
       objs m' !! ri' = Some ins' /\ objs m' !! rd' = Some del' /\
       apply_operation (apply_operation base ins) del' = x ++ z /\
       apply_operation (apply_operation base del) ins'
         = x ++ content_or_empty ins ++ z) /\
    (content_or_empty ins <> [] ->
     x ++ z <> x ++ content_or_empty ins ++ z).
Proof.
  intros Hi Hd [Hpi Hvi] [Hpd Hvd] (Hti & Htd & Hin1 & Hin2).
  rewrite Htd in Hvd. destruct Hvd as [Hld Hed]. unfold range_end in *.
  destruct (str_split4 base (op_position del) (op_position ins)
              (op_position del + length_or_0 del))
    as (x & y & z & w & -> & Hx & Hy & Hz); [lia | lia | lia |].
  exists x, (y ++ z), w.
  split; [by rewrite <- app_assoc |]. split; [done |].
  split; [rewrite len_app; lia |].
  assert (forall del' ins',
            op_type del' = DELETE -> op_position del' = op_position del ->
            length_or_0 del'
              = length_or_0 del + len (content_or_empty ins) ->
            op_type ins' = INSERT -> op_position ins' = op_position del ->
            content_or_empty ins' = content_or_empty ins ->
            apply_operation (apply_operation (x ++ y ++ z ++ w) ins) del'
              = x ++ w /\
            apply_operation (apply_operation (x ++ y ++ z ++ w) del) ins'
              = x ++ content_or_empty ins ++ w) as Hsites.
  { intros del' ins' Htd' Hpd' Hld' Hti' Hpi' Hci'. split.
    - rewrite (apply_insert_at _ (x ++ y) (z ++ w) ins) by side.
      rewrite (apply_delete_at _ x (y ++ content_or_empty ins ++ z) w);
        [done | by rewrite <- !app_assoc | done | lia |].
      rewrite Hld', !len_app. lia.
    - rewrite (apply_delete_at (x ++ y ++ z ++ w) x (y ++ z) w del) by side.
      rewrite (apply_insert_at _ x w ins') by first [done | lia].
      by rewrite Hci'. }
  split; [| split; [| by apply app_grows]].
  - run_transform Hi Hd; try lia.
    eexists _, _, _, _, _. split; [reflexivity |].
    split; [solve_lookup |]. split; [solve_lookup |].
    apply Hsites; side.
  - run_transform Hd Hi; try lia.
    eexists _, _, _, _, _. split; [reflexivity |].
    split; [solve_lookup |]. split; [solve_lookup |].
    apply Hsites; side.
Qed.

Lemma insert_inside_delete_diverges_witness :
  let base := txt "hello" in
  let ins := insert_op 2 "X" 1 10 in
  let del := delete_op 1 3 2 11 in
  let m := mkMem [ins; del] 20%N in
  exists x y z,
    base = x ++ y ++ z /\ len x = op_position del /\
    len y = length_or_0 del /\
    (exists m' ri' rd' ins' del',
       transform_operation 0%nat 1%nat m = (m', inr (ri', rd')) /\
       objs m' !! ri' = Some ins' /\ objs m' !! rd' = Some del' /\
       apply_operation (apply_operation base ins) del' = x ++ z /\
       apply_operation (apply_operation base del) ins'
         = x ++ content_or_empty ins ++ z) /\
    (exists m' rd' ri' del' ins',
       transform_operation 1%nat 0%nat m = (m', inr (rd', ri')) /\
       objs m' !! ri' = Some ins' /\ objs m' !! rd' = Some del' /\
       apply_operation (apply_operation base ins) del' = x ++ z /\
       apply_operation (apply_operation base del) ins'
         = x ++ content_or_empty ins ++ z) /\
    (content_or_empty ins <> [] ->
     x ++ z <> x ++ content_or_empty ins ++ z).
Proof.
  intros base ins del m.
  apply (insert_inside_delete_diverges base m 0%nat 1%nat ins del).
  - reflexivity.
  - reflexivity.
  - split; vm_compute; discriminate.
  - split; [| split]; vm_compute; discriminate.
  - split; [reflexivity |]. split; [reflexivity |].
    split; vm_compute; reflexivity.
Defined.

(** X3: two deletes whose ranges overlap.  The first is replaced by
    one delete of the union of the two ranges and the second by a
    no-op.  The site that applied the first delete keeps what that
    delete left; the site that applied the second one then deletes
    the length of the whole union again (here the text behind the
    union is long enough for it).  The two results differ in length as
    soon as the second delete is not empty. *)
Theorem overlapping_deletes_diverge base m r1 r2 a b :
  objs m !! r1 = Some a -> objs m !! r2 = Some b ->
  valid_for base a -> valid_for base b ->
  overlapping_deletes a b ->
  let union_start := Z.min (op_position a) (op_position b) in
  let union_end := Z.max (range_end a) (range_end b) in
  union_end + length_or_0 b <= len base ->
  exists m' r1' r2' a' b',
    transform_operation r1 r2 m = (m', inr (r1', r2')) /\
    objs m' !! r1' = Some a' /\ objs m' !! r2' = Some b' /\
    apply_operation (apply_operation base a) b' = apply_operation base a /\
    len (apply_operation (apply_operation base a) b')
      = len base - length_or_0 a /\
    len (apply_operation (apply_operation base b) a')
      = len base - length_or_0 b - (union_end - union_start) /\
    (0 < length_or_0 b ->
     apply_operation (apply_operation base a) b'
     <> apply_operation (apply_operation base b) a').
Proof.
  intros Ha Hb [Hpa Hva] [Hpb Hvb] (Hta & Htb & Hov1 & Hov2) us ue Htail.
  rewrite Hta in Hva. rewrite Htb in Hvb.
  destruct Hva as [Hla Hea]. destruct Hvb as [Hlb Heb].
  subst us ue. unfold range_end in *.
  run_transform Ha Hb; try lia.
  eexists _, _, _, _, _. split; [reflexivity |].
  split; [solve_lookup |]. split; [solve_lookup |].
  match goal with
  | |- context [apply_operation (apply_operation base b) ?op] =>
      set (a' := op)
  end.
  assert (len (apply_operation base a) = len base - length_or_0 a) as L1
    by (by apply len_apply_delete).
  assert (len (apply_operation base b) = len base - length_or_0 b) as L2
    by (by apply len_apply_delete).
  assert (len (apply_operation (apply_operation base b) a')
          = len base - length_or_0 b
            - (Z.max (op_position a + length_or_0 a)
                 (op_position b + length_or_0 b)
               - Z.min (op_position a) (op_position b))) as L3.
  { subst a'. rewrite len_apply_delete; [| done | side | side |].
    - rewrite L2. side.
    - rewrite L2. side. }
  match goal with
  | |- ?l = apply_operation base a /\ _ =>
      assert (l = apply_operation base a) as Hid by done
  end.
  split; [done |]. split; [by rewrite Hid |]. split; [done |].
  intros Hpos Heq. rewrite Hid in Heq. rewrite <- Heq, L1 in L3. lia.
Qed.

Lemma overlapping_deletes_diverge_witness :
  let base := txt "hello world" in
  let a := delete_op 1 3 1 10 in
  let b := delete_op 2 3 2 11 in
  let m := mkMem [a; b] 20%N in
  let union_start := Z.min (op_position a) (op_position b) in
  let union_end := Z.max (range_end a) (range_end b) in
  exists m' r1' r2' a' b',
    transform_operation 0%nat 1%nat m = (m', inr (r1', r2')) /\
    objs m' !! r1' = Some a' /\ objs m' !! r2' = Some b' /\
    apply_operation (apply_operation base a) b' = apply_operation base a /\
    len (apply_operation (apply_operation base a) b')
      = len base - length_or_0 a /\
    len (apply_operation (apply_operation base b) a')
      = len base - length_or_0 b - (union_end - union_start) /\
    (0 < length_or_0 b ->
     apply_operation (apply_operation base a) b'
     <> apply_operation (apply_operation base b) a').
Proof.
  intros base a b m.
  apply (overlapping_deletes_diverge base m 0%nat 1%nat a b).
  - reflexivity.
  - reflexivity.
  - split; [| split]; vm_compute; discriminate.
  - split; [| split]; vm_compute; discriminate.
  - split; [reflexivity |]. split; [reflexivity |].
    split; vm_compute; reflexivity.
  - vm_compute. discriminate.
Defined.



(** An insert at a non-negative position splices its text at
    [min(position, len)]. *)
Lemma apply_insert_clamped content op :
  op_type op = INSERT -> 0 <= op_position op ->
  exists x y,
    content = x ++ y /\ len x = Z.min (op_position op) (len content) /\
    apply_operation content op = x ++ content_or_empty op ++ y.
Proof.
  intros Ht Hp. pose proof (len_nonneg content) as Hn.
  destruct (str_split2 content (Z.min (op_position op) (len content)))
    as (x & y & -> & Hx); [lia |].
  exists x, y. split; [done |]. split; [done |].
  unfold apply_operation. rewrite Ht, <- Hx.
  by rewrite slice_to_app, slice_from_app.
Qed.

(** X5: a delete of the length of the inserted text, at the place
    where the insert landed, undoes the insert. *)
Theorem insert_then_delete_restores content ins del :
  op_type ins = INSERT -> op_type del = DELETE ->
  0 <= op_position ins ->
  op_position del = Z.min (op_position ins) (len content) ->
  length_or_0 del = len (content_or_empty ins) ->
  apply_operation (apply_operation content ins) del = content.
Proof.
  intros Hti Htd Hp Hpd Hld.
  destruct (apply_insert_clamped content ins Hti Hp)
    as (x & y & -> & Hx & ->).
  apply (apply_delete_at _ x (content_or_empty ins) y); try done. lia.
Qed.

Lemma insert_then_delete_restores_witness :
  apply_operation (apply_operation (txt "abc") (insert_op 7 "XY" 1 10))
    (delete_op 3 2 1 11) = txt "abc".
Proof.
  apply (insert_then_delete_restores (txt "abc") (insert_op 7 "XY" 1 10)
           (delete_op 3 2 1 11)); first [reflexivity | by vm_compute].
Defined.

(** X6: an insert at a negative position is not rejected: the position
    counts from the end of the content, as a negative slice bound
    does, and falls back to the start when it reaches before it. *)
Theorem apply_insert_negative_position content op :
  op_type op = INSERT -> op_position op < 0 ->
  let k := Z.to_nat (Z.max 0 (len content + op_position op)) in
  apply_operation content op
    = take k content ++ content_or_empty op ++ drop k content /\
  len (apply_operation content op) = len content + len (content_or_empty op).
Proof.
  intros Ht Hp k. pose proof (len_nonneg content) as Hn.
  assert (apply_operation content op
          = take k content ++ content_or_empty op ++ drop k content) as ->.
  { unfold apply_operation. rewrite Ht. cbv zeta.
    assert (Z.min (op_position op) (len content) = op_position op) as ->
      by lia.
    unfold slice_to, slice_from, slice_bound.
    destruct (Z.ltb_spec (op_position op) 0); [| lia].
    subst k. by rewrite (Z.add_comm (op_position op)). }
  split; [done |].
  rewrite !len_app. unfold len at 1 3. rewrite length_take, length_drop.
  unfold len in *. lia.
Qed.

Lemma apply_insert_negative_position_witness :
  apply_operation (txt "hello") (insert_op (-2) "X" 1 10)
    = take 3 (txt "hello") ++ txt "X" ++ drop 3 (txt "hello") /\
  len (apply_operation (txt "hello") (insert_op (-2) "X" 1 10)) = 5 + 1.
Proof.
  apply (apply_insert_negative_position (txt "hello")
           (insert_op (-2) "X" 1 10)); [reflexivity | by vm_compute].
Defined.

(** X7: [OperationType(value)] and [.value] are inverse to each other:
    a value names a member exactly when it is the value of that member. *)
Theorem OperationType_value_round_trip (v : string) (t : OperationType) :
  OperationType_of_value v = Some t <-> v = OperationType_value t.
Proof.
  split.
  - unfold OperationType_of_value.
    repeat match goal with
      | |- context [String.eqb ?x ?y] =>
          destruct (String.eqb_spec x y) as [-> |]
      end; by intros [= <-].
  - intros ->. by destruct t.
Qed.

(** X8: two inserts at the same position.  The text of the first
    argument comes first in the common result, whoever the authors
    are. *)
Theorem equal_position_inserts_keep_argument_order base m r1 r2 a b :
  objs m !! r1 = Some a -> objs m !! r2 = Some b ->
  op_type a = INSERT -> op_type b = INSERT ->
  op_position a = op_position b ->
  0 <= op_position a <= len base ->
  exists m' r1' r2' a' b' x y,
    transform_operation r1 r2 m = (m', inr (r1', r2')) /\
    objs m' !! r1' = Some a' /\ objs m' !! r2' = Some b' /\
    base = x ++ y /\ len x = op_position a /\
    apply_operation (apply_operation base a) b'
      = x ++ content_or_empty a ++ content_or_empty b ++ y /\
    apply_operation (apply_operation base b) a'
      = x ++ content_or_empty a ++ content_or_empty b ++ y.
Proof.
  intros Ha Hb Hta Htb Hpos Hp.
  destruct (str_split2 base (op_position a)) as (x & y & -> & Hx); [done |].
  run_transform Ha Hb; [| lia].
  eexists _, _, _, _, _, x, y. split; [reflexivity |].
  split; [solve_lookup |]. split; [solve_lookup |].
  split; [done |]. split; [done |]. split.
  - rewrite (apply_insert_at _ x y a) by side.
    rewrite (apply_insert_at _ (x ++ content_or_empty a) y);
      [by rewrite <- !app_assoc | by rewrite <- !app_assoc | done | side].
  - rewrite (apply_insert_at _ x y b) by side.
    by rewrite (apply_insert_at _ x (content_or_empty b ++ y) a) by side.
Qed.

Lemma equal_position_inserts_keep_argument_order_witness :
  let a := insert_op 1 "cat" 1 10 in
  let b := insert_op 1 "dog" 2 11 in
  exists m' r1' r2' a' b' x y,
    transform_operation 0%nat 1%nat (mkMem [a; b] 20%N)
      = (m', inr (r1', r2')) /\
    objs m' !! r1' = Some a' /\ objs m' !! r2' = Some b' /\
    txt "xy" = x ++ y /\ len x = 1 /\
    apply_operation (apply_operation (txt "xy") a) b'
      = x ++ txt "cat" ++ txt "dog" ++ y /\
    apply_operation (apply_operation (txt "xy") b) a'
      = x ++ txt "cat" ++ txt "dog" ++ y.
Proof.
  intros a b.
  apply (equal_position_inserts_keep_argument_order (txt "xy")
           (mkMem [a; b] 20%N) 0%nat 1%nat a b);
    first [reflexivity | by vm_compute].
Defined.

End TransformFacts.

(** ** Reasoning about handler runs *)

Section Preserves.

Context (R : Engine -> Engine -> Prop).
Context (R_refl : forall e, R e e).
Context (R_trans : forall e1 e2 e3, R e1 e2 -> R e2 e3 -> R e1 e3).

Lemma preserves_ret {A} (a : A) : preserves R (ret a).
Proof using R_refl. intros e e' r [= <- _]. apply R_refl. Qed.

Lemma preserves_raise {A} x : preserves R (@raise Engine A x).
Proof using R_refl. intros e e' r [= <- _]. apply R_refl. Qed.

Lemma preserves_get : preserves R get.
Proof using R_refl. intros e e' r [= <- _]. apply R_refl. Qed.

Lemma preserves_lift_exn {A} (x : exn + A) : preserves R (lift_exn x).
Proof using R_refl. intros e e' r [= <- _]. apply R_refl. Qed.

Lemma preserves_modify f : (forall e, R e (f e)) -> preserves R (modify f).
Proof. intros Hf e e' r [= <- _]. apply Hf. Qed.

Lemma preserves_bind {A B} (c : M Engine A) (k : A -> M Engine B) :
  preserves R c -> (forall a, preserves R (k a)) -> preserves R (bind c k).
Proof using R_trans.
  intros Hc Hk e e' r. unfold bind.
  destruct (c e) as [e1 [x | a]] eqn:Ec.
  - intros [= <- _]. by eapply Hc.
  - intros Ek. eapply R_trans; [by eapply Hc | by eapply Hk].
Qed.

Lemma preserves_try_except {A} (c : M Engine A) h :
  preserves R c -> (forall x, preserves R (h x)) ->
  preserves R (try_except c h).
Proof using R_trans.
  intros Hc Hh e e' r. unfold try_except.
  destruct (c e) as [e1 [x | a]] eqn:Ec.
  - intros Eh. eapply R_trans; [by eapply Hc | by eapply Hh].
  - intros [= <- _]. by eapply Hc.
Qed.

Lemma preserves_for_each {A} (l : list A) f :
  (forall x, preserves R (f x)) -> preserves R (for_each l f).
Proof using R_refl R_trans.
  intros Hf. induction l as [| x l IH]; simpl.
  - apply preserves_ret.
  - apply preserves_bind; [apply Hf | intros _; apply IH].
Qed.

Lemma preserves_fold_m {A B} (f : B -> A -> M Engine B) l acc :
  (forall b x, preserves R (f b x)) -> preserves R (fold_m f l acc).
Proof using R_refl R_trans.
  intros Hf. revert acc. induction l as [| x l IH]; intros acc; simpl.
  - apply preserves_ret.
  - apply preserves_bind; [apply Hf | intros b; apply IH].
Qed.

End Preserves.

Section NoRaise.

Lemma no_raise_ret {A} (a : A) : no_raise (ret a).
Proof. intros e e' r [= _ <-]. by eexists. Qed.

Lemma no_raise_get : no_raise get.
Proof. intros e e' r [= _ <-]. by eexists. Qed.

Lemma no_raise_modify f : no_raise (modify f).
Proof. intros e e' r [= _ <-]. by eexists. Qed.

Lemma no_raise_bind {A B} (c : M Engine A) (k : A -> M Engine B) :
  no_raise c -> (forall a, no_raise (k a)) -> no_raise (bind c k).
Proof.
  intros Hc Hk e e' r. unfold bind.
  destruct (c e) as [e1 [x | a]] eqn:Ec.
  - apply Hc in Ec as [a [=]].
  - apply Hk.
Qed.

Lemma no_raise_try_except {A} (c : M Engine A) h :
  (forall x, no_raise (h x)) -> no_raise (try_except c h).
Proof.
  intros Hh e e' r. unfold try_except.
  destruct (c e) as [e1 [x | a]] eqn:Ec.
  - apply Hh.
  - intros [= _ <-]. by eexists.
Qed.

Lemma no_raise_for_each {A} (l : list A) f :
  (forall x, no_raise (f x)) -> no_raise (for_each l f).
Proof.
  intros Hf. induction l as [| x l IH]; simpl.
  - apply no_raise_ret.
  - apply no_raise_bind; [apply Hf | intros _; apply IH].
Qed.

Lemma no_raise_unit (c : M Engine unit) e e' r :
  no_raise c -> c e = (e', r) -> r = inr tt.
Proof. intros Hc E. apply Hc in E as [[] ->]. done. Qed.

End NoRaise.

(** Decomposes a goal [no_raise c] along the structure of [c]. *)
Ltac no_raise_step :=
  lazymatch goal with
  | |- no_raise (bind _ _) => apply no_raise_bind; [| intros ?]
  | |- no_raise (ret _) => apply no_raise_ret
  | |- no_raise get => apply no_raise_get
  | |- no_raise (modify _) => apply no_raise_modify
  | |- no_raise (try_except _ _) => apply no_raise_try_except; intros ?
  | |- no_raise (for_each _ _) => apply no_raise_for_each; intros ?
  | |- no_raise (match ?x with _ => _ end) => destruct x
  | |- no_raise (if ?x then _ else _) => destruct x
  | |- no_raise (let _ := _ in _) => cbv zeta
  end.

(** Decomposes a goal [preserves R c] along the structure of [c];
    [Hrefl] and [Htrans] are the proofs that [R] is a preorder. *)
Ltac preserves_step Hrefl Htrans :=
  lazymatch goal with
  | |- preserves _ (bind _ _) =>
      apply (preserves_bind _ Htrans); [| intros ?]
  | |- preserves _ (ret _) => apply (preserves_ret _ Hrefl)
  | |- preserves _ (raise _) => apply (preserves_raise _ Hrefl)
  | |- preserves _ get => apply (preserves_get _ Hrefl)
  | |- preserves _ (lift_exn _) => apply (preserves_lift_exn _ Hrefl)
  | |- preserves _ (try_except _ _) =>
      apply (preserves_try_except _ Htrans); [| intros ?]
  | |- preserves _ (for_each _ _) =>
      apply (preserves_for_each _ Hrefl Htrans); intros ?
  | |- preserves _ (fold_m _ _ _) =>
      apply (preserves_fold_m _ Hrefl Htrans); intros ? ?
  | |- preserves _ (match ?x with _ => _ end) => destruct x
  | |- preserves _ (if ?x then _ else _) => destruct x
  | |- preserves _ (let _ := _ in _) => cbv zeta
  end.

Section Frames.

Import CollaborationEngine.

Implicit Types (e : Engine) (env : Env).

Lemma io_only_refl e : io_only e e.
Proof. by repeat split. Qed.

Lemma io_only_trans e1 e2 e3 : io_only e1 e2 -> io_only e2 e3 -> io_only e1 e3.
Proof.
  intros (?&?&?&?&?&?&S1) (?&?&?&?&?&?&S2).
  repeat split; first [congruence | intros c; by rewrite S2, S1].
Qed.

Lemma documents_kept_refl e : documents_kept e e.
Proof. split; [apply extends_refl |]. by split. Qed.

Lemma documents_kept_trans e1 e2 e3 :
  documents_kept e1 e2 -> documents_kept e2 e3 -> documents_kept e1 e3.
Proof.
  intros (X1 & O1 & D1) (X2 & O2 & D2). split; [by eapply extends_trans |].
  split; [congruence |]. intros w d. by rewrite D2, D1.
Qed.

Lemma io_only_documents_kept e e' : io_only e e' -> documents_kept e e'.
Proof.
  intros (Hm & Hw & _ & _ & _ & Ho & _). split.
  - rewrite Hm. apply extends_refl.
  - split; [done |]. intros w d. unfold document_at. by rewrite Hw.
Qed.

Lemma preserves_weaken {A} (R R' : Engine -> Engine -> Prop) (c : M Engine A) :
  (forall e e', R e e' -> R' e e') -> preserves R c -> preserves R' c.
Proof. intros HR Hc e e' r E. apply HR. by eapply Hc. Qed.

Lemma io_only_logger level text : preserves io_only (logger level text).
Proof. apply preserves_modify. intros e. by repeat split. Qed.

Lemma io_only_set_flag e f conn_id :
  (forall c, conn_static (f c) = conn_static c) ->
  io_only e (with_sockets (alter f conn_id) e).
Proof.
  intros Hf. repeat split. intros c. cbn.
  destruct (decide (c = conn_id)) as [-> |].
  - rewrite lookup_alter_eq. destruct (sockets e !! conn_id); cbn; [| done].
    by rewrite Hf.
  - by rewrite lookup_alter_ne.
Qed.

Lemma io_only_send_json env conn_id data :
  preserves io_only (send_json env conn_id data).
Proof.
  unfold send_json.
  repeat preserves_step io_only_refl io_only_trans;
    try apply io_only_logger;
    apply preserves_modify; intros e;
    first [ by apply io_only_set_flag | by repeat split ].
Qed.

Lemma io_only_ping env conn_id : preserves io_only (ping env conn_id).
Proof.
  unfold ping.
  repeat preserves_step io_only_refl io_only_trans;
    try apply io_only_logger;
    apply preserves_modify; intros e; by apply io_only_set_flag.
Qed.

Lemma io_only_broadcast env workspace_id message exclude_user :
  preserves io_only
    (_broadcast_to_workspace env workspace_id message exclude_user).
Proof.
  unfold _broadcast_to_workspace, deliver.
  repeat preserves_step io_only_refl io_only_trans;
    try apply io_only_send_json;
    apply preserves_modify; intros e'; by repeat split.
Qed.

Lemma no_raise_logger level text : no_raise (logger level text).
Proof. apply no_raise_modify. Qed.

Lemma no_raise_send_json env conn_id data :
  no_raise (send_json env conn_id data).
Proof.
  unfold send_json. repeat no_raise_step. apply no_raise_logger.
Qed.

Lemma no_raise_broadcast env workspace_id message exclude_user :
  no_raise (_broadcast_to_workspace env workspace_id message exclude_user).
Proof.
  unfold _broadcast_to_workspace, deliver.
  repeat no_raise_step; apply no_raise_send_json.
Qed.

End Frames.

(** ** Rebasing against the pending buffer *)

Section Handlers.
Import CollaborationEngine.
Implicit Types (e : Engine) (env : Env) (m : Heap).

Lemma bind_inv {S A B} (c : M S A) (k : A -> M S B) s s' r :
  bind c k s = (s', r) ->
  (exists x, c s = (s', inl x) /\ r = inl x) \/
  (exists s1 a, c s = (s1, inr a) /\ k a s1 = (s', r)).
Proof.
  unfold bind. destruct (c s) as [s1 [x | a]].
  - intros [= <- <-]. left. by exists x.
  - intros Hk. right. by exists s1, a.
Qed.


Lemma mem_only_refl e : mem_only e e.
Proof. split; [by destruct e | apply extends_refl]. Qed.

Lemma mem_only_trans e1 e2 e3 : mem_only e1 e2 -> mem_only e2 e3 -> mem_only e1 e3.
Proof.
  intros [E1 X1] [E2 X2]. split; [| by eapply extends_trans].
  rewrite E2 at 1. rewrite E1. reflexivity.
Qed.

Lemma mem_only_lift {A} (c : M Heap A) :
  (forall m m' r, c m = (m', r) -> extends m m') ->
  preserves mem_only (lift_mem c).
Proof.
  intros Hc e e' r. unfold lift_mem.
  destruct (c (mem e)) as [m' r'] eqn:E. intros [= <- _].
  split; [reflexivity |]. cbn. by eapply Hc.
Qed.

Lemma deref_extends r m m' res : deref r m = (m', res) -> extends m m'.
Proof.
  unfold deref. destruct (objs m !! r); intros [= <- _]; apply extends_refl.
Qed.


Lemma rebase_against_mem_only operation acc p :
  preserves mem_only (rebase_against operation acc p).
Proof.
  unfold rebase_against.
  repeat preserves_step mem_only_refl mem_only_trans.
  - apply mem_only_lift, deref_extends.
  - apply mem_only_lift, deref_extends.
  - apply mem_only_lift. intros m m' r H.
    by apply transform_operation_untyped_grows in H as [? _].
Qed.

Lemma rebase_against_valid operation acc p e e' t :
  is_Some (objs (mem e) !! acc) ->
  rebase_against operation acc p e = (e', inr t) ->
  is_Some (objs (mem e') !! t).
Proof.
  intros [a Ha]. unfold rebase_against, bind, lift_mem, deref.
  destruct (objs (mem e) !! p) as [b |] eqn:Hb; [| done]. cbn.
  destruct (objs (mem e) !! operation) as [o |] eqn:Ho; [| done]. cbn.
  destruct (bool_decide _); cbn.
  - destruct (Untyped.transform_operation acc p (mem e))
      as [m' [x | [x y]]] eqn:Ht; cbn; [done |].
    intros [= <- <-]. cbn.
    destruct (transform_operation_untyped_first _ _ _ _ _ _ _ Ha Ht)
      as (_ & a' & Ha' & _).
    by eexists.
  - intros [= <- <-]. cbn. by eexists.
Qed.

Lemma rebase_fold operation pending :
  forall acc e e' res,
    fold_m (rebase_against operation) pending acc e = (e', res) ->
    mem_only e e' /\
    (is_Some (objs (mem e) !! acc) ->
     forall t, res = inr t -> is_Some (objs (mem e') !! t)).
Proof.
  intros acc e e' res H. split.
  - revert H. apply (preserves_fold_m _ mem_only_refl mem_only_trans).
    intros b x. apply rebase_against_mem_only.
  - revert acc e H.
    induction pending as [| p pending IH]; intros acc e; simpl.
    + by intros [= <- <-] Hacc t [= <-].
    + intros H Hacc t ->.
      apply bind_inv in H as [(x & _ & [=]) | (e1 & acc' & H & Hrest)].
      eapply IH; [exact Hrest | | reflexivity].
      by eapply rebase_against_valid.
Qed.


Lemma document_at_with_mem f e w d :
  document_at (with_mem f e) w d = document_at e w d.
Proof. reflexivity. Qed.

Lemma document_at_update e w d f w' d' :
  document_at (with_workspaces (alter (set_documents (alter f d)) w) e) w' d'
  = if decide (w' = w /\ d' = d) then f <$> document_at e w d
    else document_at e w' d'.
Proof.
  unfold document_at. cbn.
  destruct (decide (w' = w)) as [-> | Hw].
  - rewrite lookup_alter_eq.
    destruct (workspaces e !! w) as [ws |]; cbn.
    + destruct (decide (d' = d)) as [-> | Hd].
      * rewrite lookup_alter_eq. by rewrite decide_True.
      * rewrite lookup_alter_ne by done. rewrite decide_False; [done | tauto].
    + by destruct (decide _).
  - rewrite lookup_alter_ne by done. rewrite decide_False; [done | tauto].
Qed.

Lemma document_get_run e w d doc :
  document_at e w d = Some doc -> document_get w d e = (e, inr doc).
Proof.
  unfold document_at, document_get, workspaces_getitem, bind, get.
  destruct (workspaces e !! w) as [ws |]; [| done]. cbn.
  by intros ->.
Qed.

Lemma trim_pending_suffix (l : list ref) :
  exists evicted, l = evicted ++ trim_pending l /\
    length (trim_pending l) = Nat.min 10 (length l).
Proof.
  unfold trim_pending, last_n.
  destruct (Nat.ltb_spec 10 (length l)).
  - exists (take (length l - 10) l). rewrite take_drop. split; [done |].
    rewrite length_drop. lia.
  - exists []. split; [done | lia].
Qed.

Lemma trimmed_pending (doc0 : DocumentState) :
  doc_pending_operations
    (if (10 <? length (doc_pending_operations doc0))%nat
     then set_pending_operations (last_n 10) doc0
     else doc0) = trim_pending (doc_pending_operations doc0).
Proof.
  unfold trim_pending.
  by destruct (10 <? length (doc_pending_operations doc0))%nat.
Qed.

(** What a run of [_apply_operational_transformation] does to the
    engine. *)
Lemma apply_ot_run w d operation e doc e' res :
  document_at e w d = Some doc ->
  _apply_operational_transformation w d operation e = (e', res) ->
  extends (mem e) (mem e') /\ stats e' = stats e /\
  (forall w' d', (w', d') <> (w, d) ->
     document_at e' w' d' = document_at e w' d') /\
  match res with
  | inr t =>
      (is_Some (objs (mem e) !! operation) -> is_Some (objs (mem e') !! t)) /\
      document_at e' w d = Some (document_pending doc t)
  | inl _ =>
      document_at e' w d = Some doc /\ doc_pending_operations doc <> []
  end.
Proof.
  intros Hdoc. unfold _apply_operational_transformation.
  intros H. apply bind_inv in H as [(x & H & ->) | (e1 & doc1 & H & Hrest)];
    rewrite (document_get_run _ _ _ _ Hdoc) in H; [done |].
  injection H as <- <-.
  apply bind_inv in Hrest as [(x & H & ->) | (e2 & t & H & Hrest)].
  - destruct (doc_pending_operations doc) eqn:Hp; [done |].
    apply rebase_fold in H as [[He' Hext] _].
    split; [done |]. rewrite He'. split; [done |].
    split; [done |]. by rewrite document_at_with_mem.
  - apply rebase_fold in H as [[He2 Hext] Hvalid].
    unfold document_update, bind, modify, ret in Hrest.
    cbv beta iota in Hrest. injection Hrest as <- <-.
    split; [done |]. split; [by rewrite He2 |]. split.
    + intros w' d' Hne. rewrite !document_at_update.
      rewrite !decide_False; [by rewrite He2 | |];
        intros [-> ->]; by apply Hne.
    + split; [intros Hop; by eapply Hvalid |].
      rewrite !document_at_update.
      rewrite !decide_True by done.
      rewrite He2, document_at_with_mem, Hdoc. cbn [fmap option_fmap option_map].
      f_equal. unfold document_pending, trim_pending, set_pending_operations.
      cbn.
      match goal with
      | |- context [if ?b then _ else _] => by destruct b
      end.
Qed.

(** The rebased operation keeps the author, the time and the type of
    the incoming one. *)
Lemma rebase_against_first operation acc p e e' t a :
  objs (mem e) !! acc = Some a ->
  rebase_against operation acc p e = (e', inr t) ->
  exists a',
    objs (mem e') !! t = Some a' /\
    Untyped.op_user_id a' = Untyped.op_user_id a /\
    Untyped.op_timestamp a' = Untyped.op_timestamp a /\
    Untyped.op_type a' = Untyped.op_type a.
Proof.
  intros Ha. unfold rebase_against, bind, lift_mem, deref.
  destruct (objs (mem e) !! p) as [b |] eqn:Hb; [| done]. cbn.
  destruct (objs (mem e) !! operation) as [o |] eqn:Ho; [| done]. cbn.
  destruct (bool_decide _); cbn.
  - destruct (Untyped.transform_operation acc p (mem e))
      as [m' [x | [x y]]] eqn:Ht; cbn; [done |].
    intros [= <- <-]. cbn.
    by destruct (transform_operation_untyped_first _ _ _ _ _ _ _ Ha Ht).
  - intros [= <- <-]. by exists a.
Qed.

Lemma rebase_fold_first operation pending :
  forall acc e e' t a,
    objs (mem e) !! acc = Some a ->
    fold_m (rebase_against operation) pending acc e = (e', inr t) ->
    exists a',
      objs (mem e') !! t = Some a' /\
      Untyped.op_user_id a' = Untyped.op_user_id a /\
      Untyped.op_timestamp a' = Untyped.op_timestamp a /\
      Untyped.op_type a' = Untyped.op_type a.
Proof.
  induction pending as [| p pending IH]; intros acc e e' t a Ha; simpl.
  - intros [= <- <-]. by exists a.
  - intros H. apply bind_inv in H as [(x & _ & [=]) | (e1 & acc' & H & Hrest)].
    destruct (rebase_against_first _ _ _ _ _ _ _ Ha H)
      as (a1 & Ha1 & U1 & T1 & Y1).
    destruct (IH _ _ _ _ _ Ha1 Hrest) as (a' & Ha' & U & T & Y).
    exists a'. repeat split; congruence.
Qed.

Lemma apply_ot_first w d operation e e' t a :
  objs (mem e) !! operation = Some a ->
  _apply_operational_transformation w d operation e = (e', inr t) ->
  exists a',
    objs (mem e') !! t = Some a' /\
    Untyped.op_user_id a' = Untyped.op_user_id a /\
    Untyped.op_timestamp a' = Untyped.op_timestamp a /\
    Untyped.op_type a' = Untyped.op_type a.
Proof.
  intros Ha. unfold _apply_operational_transformation.
  intros H. apply bind_inv in H as [(x & _ & [=]) | (e1 & doc & H & Hrest)].
  assert (e1 = e) as ->.
  { unfold document_get, workspaces_getitem, bind, get in H.
    destruct (workspaces e !! w) as [ws |]; [| done]. cbn in H.
    destruct (ws_documents ws !! d); by injection H. }
  apply bind_inv in Hrest as [(x & _ & [=]) | (e2 & t' & H2 & Hrest)].
  destruct (rebase_fold_first _ _ _ _ _ _ _ Ha H2) as (a' & Ha' & Hk).
  unfold document_update, bind, modify, ret in Hrest.
  injection Hrest as <- <-. by exists a'.
Qed.

(** The loop of [_apply_operational_transformation] is the chain of
    first components. *)
Lemma rebase_against_first_component operation op acc p e e' res :
  objs (mem e) !! operation = Some op ->
  rebase_against operation acc p e = (e', res) ->
  e' = with_mem (fun _ => mem e') e /\
  (let! pending := deref p in
   if bool_decide (Untyped.op_user_id pending ≠ Untyped.op_user_id op) then
     let! transformed := Untyped.transform_operation acc p in
     ret (fst transformed)
   else ret acc) (mem e) = (mem e', res).
Proof.
  intros Hop. unfold rebase_against, bind, lift_mem, deref.
  destruct (objs (mem e) !! p) as [pending_op |]; cbn beta iota;
    [| intros [= <- <-]; split; [by destruct e | done]].
  cbn [mem with_mem]. rewrite Hop. cbn beta iota.
  destruct (bool_decide _); cbn beta iota.
  - cbn [mem with_mem].
    destruct (Untyped.transform_operation acc p (mem e))
      as [m1 [x | [acc' y]]]; cbn beta iota;
      intros [= <- <-]; split; done.
  - intros [= <- <-]. split; [by destruct e | done].
Qed.

Lemma rebase_fold_first_components operation op pending :
  forall acc e e' res,
    objs (mem e) !! operation = Some op ->
    fold_m (rebase_against operation) pending acc e = (e', res) ->
    first_components (Untyped.op_user_id op) pending acc (mem e)
    = (mem e', res).
Proof.
  induction pending as [| p pending IH]; intros acc e e' res Hop; simpl.
  - by intros [= <- <-].
  - intros H.
    apply bind_inv in H as [(x & H & ->) | (e1 & acc' & H & Hrest)].
    + apply (rebase_against_first_component operation op) in H as [_ H];
        [| done].
      revert H. unfold bind, deref.
      destruct (objs (mem e) !! p) as [pending_op |]; cbn beta iota;
        [| by intros [= <- <-]].
      destruct (bool_decide _); cbn beta iota; [| done].
      destruct (Untyped.transform_operation acc p (mem e))
        as [m1 [y | [acc1 y]]]; cbn beta iota; [| done].
      by intros [= <- <-].
    + pose proof (rebase_against_mem_only operation acc p _ _ _ H)
        as [_ Hext].
      apply (rebase_against_first_component operation op) in H as [_ H];
        [| done].
      apply IH in Hrest; [| by eapply extends_lookup].
      revert Hrest H. unfold bind, deref.
      destruct (objs (mem e) !! p) as [pending_op |]; cbn beta iota;
        [| done].
      destruct (bool_decide _); cbn beta iota.
      * destruct (Untyped.transform_operation acc p (mem e))
          as [m1 [y | [acc1 y]]]; cbn beta iota; [done |].
        by intros Hrest [= -> <-].
      * by intros Hrest [= -> <-].
Qed.

(** C10: rebasing an incoming operation leaves every stored operation
    object as it was (the store only grows).  The rebased operation is
    the incoming one taken through [transform_operation] against each
    pending operation of another user in turn, keeping the first
    component of each result and dropping the second: it has the
    author, the time and the type of the incoming operation.  The
    pending buffer of the document becomes the old buffer followed by
    the rebased operation, cut to its last ten entries: the old
    entries keep their order and their objects, and an entry leaves
    only from the front, when the buffer exceeds ten.  When a
    transformation raises the document is unchanged. *)
Theorem rebase_keeps_pending_operations w d operation op e doc e' res :
  document_at e w d = Some doc ->
  objs (mem e) !! operation = Some op ->
  _apply_operational_transformation w d operation e = (e', res) ->
  (forall r o, objs (mem e) !! r = Some o -> objs (mem e') !! r = Some o) /\
  first_components (Untyped.op_user_id op) (doc_pending_operations doc)
    operation (mem e) = (mem e', res) /\
  match res with
  | inr transformed =>
      (exists top,
         objs (mem e') !! transformed = Some top /\
         Untyped.op_user_id top = Untyped.op_user_id op /\
         Untyped.op_timestamp top = Untyped.op_timestamp op /\
         Untyped.op_type top = Untyped.op_type op) /\
      exists doc' evicted,
        document_at e' w d = Some doc' /\
        doc_pending_operations doc'
          = trim_pending (doc_pending_operations doc ++ [transformed]) /\
        doc_pending_operations doc ++ [transformed]
          = evicted ++ doc_pending_operations doc' /\
        length (doc_pending_operations doc')
          = Nat.min 10 (length (doc_pending_operations doc) + 1)
  | inl _ => document_at e' w d = Some doc
  end.
Proof.
  intros Hdoc Hop H.
  destruct (apply_ot_run _ _ _ _ _ _ _ Hdoc H) as (Hext & _ & _ & Hres).
  split; [intros r o; by apply extends_lookup |].
  split.
  { revert H. unfold _apply_operational_transformation.
    intros H.
    apply bind_inv in H as [(x & H & ->) | (e1 & doc1 & H & Hrest)];
      rewrite (document_get_run _ _ _ _ Hdoc) in H; [done |].
    injection H as <- <-.
    apply bind_inv in Hrest as [(x & H & ->) | (e2 & t & H & Hrest)].
    - by apply (rebase_fold_first_components operation op).
    - apply (rebase_fold_first_components operation op) in H; [| done].
      unfold document_update, bind, modify, ret in Hrest.
      cbv beta iota in Hrest. by injection Hrest as <- <-. }
  destruct res as [x | t]; [by destruct Hres |].
  destruct Hres as (_ & Hdoc').
  split; [by eapply apply_ot_first |].
  destruct (trim_pending_suffix (doc_pending_operations doc ++ [t]))
    as (evicted & Hev & Hlen).
  exists (document_pending doc t), evicted.
  cbn [document_pending set_pending_operations doc_pending_operations].
  split; [done |]. split; [done |]. split; [done |].
  rewrite Hlen, length_app. cbn [length]. done.
Qed.

(** Two clients; the first has inserted ["cat"] into document ["d"],
    and an insert of ["dog"] by the second is in the store, at
    reference 1. *)
Lemma rebase_keeps_pending_operations_witness :
  let op := untyped (insert_op 1 "dog" 2 99) in
  let e :=
    with_mem (fun m => mkMem (objs m ++ [op]) (uuid_next m))
      (step calm (Receive 1%N (Some (operation_data "insert" 0
                                       (Some (txt "cat")) None "d")))
         two_clients) in
  let '(e', res) := _apply_operational_transformation "w" "d" 1%nat e in
  res = inr 2%nat /\
  (forall r o, objs (mem e) !! r = Some o -> objs (mem e') !! r = Some o) /\
  first_components 2%N [0%nat] 1%nat (mem e) = (mem e', res) /\
  (exists top,
     objs (mem e') !! 2%nat = Some top /\
     Untyped.op_user_id top = 2%N /\ Untyped.op_position top = VInt 4) /\
  exists doc',
    document_at e' "w" "d" = Some doc' /\
    doc_pending_operations doc' = [0%nat; 2%nat].
Proof.
  intros op e.
  destruct (_apply_operational_transformation "w" "d" 1%nat e)
    as [e' res] eqn:Hrun.
  assert (exists doc, document_at e "w" "d" = Some doc /\
            doc_pending_operations doc = [0%nat])
    as (doc & Hdoc & Hpending).
  { vm_compute. eexists. split; reflexivity. }
  assert (res = inr 2%nat /\
          exists top, objs (mem e') !! 2%nat = Some top /\
                      Untyped.op_position top = VInt 4) as [Hres Hpos].
  { vm_compute in Hrun. injection Hrun as <- <-.
    split; [reflexivity |]. eexists. split; reflexivity. }
  destruct (rebase_keeps_pending_operations "w" "d" 1%nat op e doc e' res
              Hdoc eq_refl Hrun) as (Hkept & Hfirst & Hbuffer).
  split; [exact Hres |]. split; [exact Hkept |].
  rewrite Hpending in Hfirst. split; [exact Hfirst |].
  rewrite Hres in Hbuffer.
  destruct Hbuffer as ((top & Htop & Huser & _) & doc' & evicted & Hdoc' & Hp' & _).
  split.
  - exists top. split; [exact Htop |]. split; [exact Huser |].
    destruct Hpos as (top' & Htop' & Hp). rewrite Htop in Htop'.
    by injection Htop' as ->.
  - exists doc'. split; [exact Hdoc' |].
    rewrite Hp', Hpending. reflexivity.
Defined.

Lemma document_at_create e w d doc w' d' :
  document_at
    (with_workspaces (alter (set_documents <[d := doc]>) w) e) w' d'
  = if decide (w' = w /\ d' = d)
    then (match workspaces e !! w with Some _ => Some doc | None => None end)
    else document_at e w' d'.
Proof.
  unfold document_at. cbn.
  destruct (decide (w' = w)) as [-> | Hw].
  - rewrite lookup_alter_eq.
    destruct (workspaces e !! w) as [ws |]; cbn.
    + destruct (decide (d' = d)) as [-> | Hd].
      * rewrite lookup_insert_eq. by rewrite decide_True.
      * rewrite lookup_insert_ne by done. rewrite decide_False; [done | tauto].
    + by destruct (decide _).
  - rewrite lookup_alter_ne by done. rewrite decide_False; [done | tauto].
Qed.

Lemma getitem_ok {A} (field : option A) e e' v :
  getitem field e = (e', inr v) -> e' = e /\ field = Some v.
Proof. destruct field; by intros [= <- <-]. Qed.

Lemma getitem_err {A} (field : option A) e e' x :
  getitem field e = (e', inl x) -> e' = e.
Proof. destruct field; by intros [= <-]. Qed.

Lemma handle_operation_effect env conn_id connection data e e' r :
  _handle_operation env conn_id connection data e = (e', r) ->
  r = inr tt /\ extends (mem e) (mem e') /\
  (documents_kept e e' \/
   exists d, msg_document_id data = Some d /\
     (applied_to (now env) (conn_workspace_id connection) d e e' \/
      left_pending (now env) (conn_workspace_id connection) d e e')).
Proof.
  unfold _handle_operation, try_except.
  match goal with
  | |- context [match ?c e with _ => _ end] =>
      destruct (c e) as [e1 res1] eqn:Hbody
  end.
  assert (extends (mem e) (mem e1) /\
          (documents_kept e e1 \/
           exists d, msg_document_id data = Some d /\
             ((res1 = inr tt /\
               applied_to (now env) (conn_workspace_id connection) d e e1) \/
              ((exists x, res1 = inl x) /\
               left_pending (now env) (conn_workspace_id connection) d e e1))))
    as Hmain.
  { clear e' r.
    pose proof (extends_refl (mem e)) as Xe.
    pose proof (documents_kept_refl e) as Ke.
    apply bind_inv in Hbody as [(x & H & ->) | (e2 & raw & H & Hbody)];
      [apply getitem_err in H as ->; split; [done | by left] |].
    apply getitem_ok in H as [-> Hraw].
    apply bind_inv in Hbody as [(x & H & ->) | (e2 & ty & H & Hbody)];
      [apply getitem_err in H as ->; split; [done | by left] |].
    apply getitem_ok in H as [-> Hty].
    apply bind_inv in Hbody as [(x & H & ->) | (e2 & type & H & Hbody)].
    { destruct (OperationType_of_value ty); injection H as <-;
        (split; [done | by left]). }
    assert (e2 = e) as ->
      by (destruct (OperationType_of_value ty); by injection H as <-).
    clear H.
    apply bind_inv in Hbody as [(x & H & ->) | (e2 & position & H & Hbody)];
      [apply getitem_err in H as ->; split; [done | by left] |].
    apply getitem_ok in H as [-> Hposition].
    apply bind_inv in Hbody as [(x & H & ->) | (e2 & operation & H & Hbody)];
      [done |].
    unfold lift_mem in H. rewrite new_Operation_untyped_run in H.
    injection H as <- <-.
    set (op := Untyped.mkOperation type position (dict_get (raw_content raw))
                 (dict_get (raw_length raw)) None (now env)
                 (user_id (conn_user connection)) (uuid_next (mem e))) in *.
    set (m1 := mkMem (objs (mem e) ++ [op]) (N.succ (uuid_next (mem e)))) in *.
    set (e2 := with_mem (fun _ => m1) e) in *.
    assert (extends (mem e) (mem e2)) as X2 by (by eexists).
    assert (documents_kept e e2) as K2 by (by split).
    assert (objs (mem e2) !! length (objs (mem e)) = Some op) as Hop
      by apply lookup_new.
    destruct (msg_document_id data) as [[| c0 d0] |] eqn:Hd;
      [injection Hbody as <- <-; split; [done | by left] | |
       injection Hbody as <- <-; split; [done | by left]].
    set (d := String c0 d0) in *.
    set (w := conn_workspace_id connection) in *.
    apply bind_inv in Hbody as [(x & H & ->) | (e3 & ws & H & Hbody)].
    { unfold workspaces_getitem, bind, get in H.
      destruct (workspaces e2 !! w); injection H as <-;
        (split; [done | by left]). }
    assert (e3 = e2 /\ workspaces e !! w = Some ws) as [-> Hws].
    { unfold workspaces_getitem, bind, get, ret, raise in H.
      cbv beta iota in H. change (workspaces e2) with (workspaces e) in H.
      destruct (workspaces e !! w) as [ws0 |]; [| done].
      injection H as He Hw. split; [done | by rewrite Hw]. }
    clear H.
    apply bind_inv in Hbody as [(x & H & ->) | (e3 & [] & H & Hbody)].
    { destruct (ws_documents ws !! d); by injection H. }
    set (doc0 := default (fresh_document d (now env)) (document_at e w d)).
    assert (document_at e3 w d = Some doc0 /\
            (forall w' d', (w', d') <> (w, d) ->
               document_at e3 w' d' = document_at e w' d') /\
            (doc_pending_operations doc0 = [] \/
             forall w' d', document_at e3 w' d' = document_at e w' d') /\
            mem e3 = mem e2 /\ stats e3 = stats e)
      as (Hdoc3 & Hothers3 & Hnew & Hm3 & Hs3).
    { assert (document_at e w d = ws_documents ws !! d) as Hde
        by (unfold document_at; by rewrite Hws).
      subst doc0. rewrite Hde.
      destruct (ws_documents ws !! d) as [doc |] eqn:Hdoc.
      - injection H as <-. cbn [default].
        split; [exact Hde |]. split; [done |]. split; [by right | done].
      - injection H as <-. cbn [default].
        rewrite document_at_create, decide_True by done.
        change (workspaces e2) with (workspaces e). rewrite Hws.
        split; [done |]. split.
        + intros w' d' Hne. rewrite document_at_create.
          rewrite decide_False; [done |]. intros [-> ->]. by apply Hne.
        + split; [by left | done]. }
    clear H.
    apply bind_inv in Hbody as [(x & H & ->) | (e4 & t & H & Hbody)].
    { destruct (apply_ot_run _ _ _ _ _ _ _ Hdoc3 H)
        as (X4 & S4 & O4 & D4 & Hne).
      rewrite Hm3 in X4. split; [by eapply extends_trans |].
      destruct Hnew as [Hnil | Hsame]; [done |]. left.
      split; [by eapply extends_trans |]. split; [by rewrite S4, Hs3 |].
      intros w' d'. destruct (decide ((w', d') = (w, d))) as [[= -> ->] | Hne'].
      - by rewrite D4, <- Hsame, Hdoc3.
      - by rewrite O4, Hsame. }
    destruct (apply_ot_run _ _ _ _ _ _ _ Hdoc3 H)
      as (X4 & S4 & O4 & Hvalid & Hdoc4).
    rewrite Hm3 in X4, Hvalid.
    destruct Hvalid as [top Htop]; [by eexists |].
    clear H.
    assert (forall w' d', (w', d') <> (w, d) ->
              document_at e4 w' d' = document_at e w' d') as Hothers4.
    { intros w' d' Hne. rewrite O4 by done. by apply Hothers3. }
    apply bind_inv in Hbody as [(x & H & ->) | (e5 & top' & H & Hbody)].
    { unfold lift_mem, deref in H. by rewrite Htop in H. }
    unfold lift_mem, deref in H. rewrite Htop in H. injection H as <- <-.
    assert (with_mem (fun _ => mem e4) e4 = e4) as Heq4 by (by destruct e4).
    rewrite Heq4 in Hbody.
    apply bind_inv in Hbody as [(x & H & ->) | (e5 & doc4 & H & Hbody)];
      rewrite (document_get_run _ _ _ _ Hdoc4) in H; [done |].
    injection H as <- <-.
    cbn [document_pending set_pending_operations doc_content] in Hbody.
    apply bind_inv in Hbody as [(x & H & ->) | (e5 & content & H & Hbody)].
    { injection H as <- Happly.
      split; [by eapply extends_trans |]. right. exists d. split; [done |].
      right. split; [by eexists |].
      exists t, top, x. fold doc0.
      split; [by eapply extends_trans |]. split; [done |].
      split; [done |]. split; [by rewrite S4, Hs3 |]. by split. }
    injection H as <- Happly.
    apply bind_inv in Hbody as [(x & H & ->) | (e6 & [] & H & Hbody)]; [done |].
    unfold document_update, modify in H. injection H as <-.
    match type of Hbody with
    | context [with_workspaces ?f e4] =>
        set (e5 := with_workspaces f e4) in *
    end.
    assert (mem e5 = mem e4) as Hm5 by done.
    assert (stats e5 = stats e) as Hs5 by (cbn; by rewrite S4).
    assert (document_at e5 w d
            = Some (document_after doc0 t content (now env))) as Hdoc5.
    { subst e5. rewrite document_at_update, decide_True by done.
      by rewrite Hdoc4. }
    assert (forall w' d', (w', d') <> (w, d) ->
              document_at e5 w' d' = document_at e w' d') as Hothers5.
    { intros w' d' Hne. subst e5. rewrite document_at_update.
      rewrite decide_False by (intros [-> ->]; by apply Hne).
      by apply Hothers4. }
    clearbody e5.
    assert (forall e6 r6,
      _broadcast_operation env w d t (Some (user_id (conn_user connection))) e5
        = (e6, r6) -> r6 = inr tt /\ io_only e5 e6) as Hbroadcast.
    { intros e6 r6 H. unfold _broadcast_operation in H.
      apply bind_inv in H as [(y & H & _) | (e7 & top2 & H & H')];
        unfold lift_mem, deref in H; rewrite Hm5, Htop in H; [done |].
      injection H as <- <-.
      assert (with_mem (fun _ => mem e4) e5 = e5) as Heq
        by (rewrite <- Hm5; by destruct e5).
      rewrite Heq in H'. split.
      - by eapply no_raise_unit; [apply no_raise_broadcast |].
      - by eapply io_only_broadcast. }
    apply bind_inv in Hbody as [(x & H & ->) | (e6 & [] & H & Hbody)];
      [by apply Hbroadcast in H as [[=] _] |].
    apply Hbroadcast in H as [_ (Hm6 & Hw6 & _ & _ & _ & Ho6 & _)].
    unfold _save_document_state, bind, ret, modify in Hbody.
    injection Hbody as <- <-.
    split.
    { cbn. rewrite Hm6, Hm5. by eapply extends_trans. }
    right. exists d. split; [done |]. left. split; [done |].
    exists t, top, content. fold doc0. cbn. rewrite Hm6, Hm5.
    split; [by eapply extends_trans |].
    split; [done |]. split; [done |]. split; [by rewrite Ho6, Hs5 |].
    assert (forall w' d',
      document_at (with_stats (fun s =>
        mkStats (total_connections s) (active_workspaces s)
          (operations_processed s + 1) (conflicts_resolved s)
          (messages_sent s)) e6) w' d' = document_at e5 w' d') as Hd6.
    { intros w' d'. unfold document_at. cbn. by rewrite Hw6. }
    split; [by rewrite Hd6 |].
    intros w' d' Hne. rewrite Hd6. by apply Hothers5. }
  destruct Hmain as [X1 Hres1].
  assert (forall e0, extends (mem e1) (mem e0) ->
            operations_processed (stats e0) = operations_processed (stats e1) ->
            (forall w d, document_at e0 w d = document_at e1 w d) ->
            documents_kept e e1 \/
            (exists d, msg_document_id data = Some d /\
               (applied_to (now env) (conn_workspace_id connection) d e e1 \/
                left_pending (now env) (conn_workspace_id connection) d e e1)) ->
            documents_kept e e0 \/
            (exists d, msg_document_id data = Some d /\
               (applied_to (now env) (conn_workspace_id connection) d e e0 \/
                left_pending (now env) (conn_workspace_id connection) d e e0)))
    as Hlift.
  { intros e0 X0 O0 D0 [K | (d & Hd & [A | L])].
    - left. eapply documents_kept_trans; [exact K |]. by split.
    - right. exists d. split; [done |]. left.
      destruct A as (t & top & content & A1 & A2 & A3 & A4 & A5 & A6).
      exists t, top, content.
      split; [by eapply extends_trans |].
      split; [by eapply extends_lookup |]. split; [done |].
      split; [by rewrite O0 |]. split; [by rewrite D0 |].
      intros w' d' Hne. rewrite D0. by apply A6.
    - right. exists d. split; [done |]. right.
      destruct L as (t & top & x & A1 & A2 & A3 & A4 & A5 & A6).
      exists t, top, x.
      split; [by eapply extends_trans |].
      split; [by eapply extends_lookup |]. split; [done |].
      split; [by rewrite O0 |]. split; [by rewrite D0 |].
      intros w' d' Hne. rewrite D0. by apply A6. }
  destruct res1 as [x | []].
  - intros H. unfold logger, modify in H. injection H as <- <-.
    split; [done |]. split; [done |].
    apply Hlift; [apply extends_refl | done | done |].
    destruct Hres1 as [K | (d & Hd & [[[=] _] | [_ L]])]; [by left |].
    right. exists d. split; [done |]. by right.
  - intros [= <- <-]. split; [done |]. split; [done |].
    destruct Hres1 as [K | (d & Hd & [[_ A] | [[x [=]] _]])]; [by left |].
    right. exists d. split; [done |]. by left.
Qed.

(** ** Events that leave every document alone *)

Ltac kept_step := preserves_step documents_kept_refl documents_kept_trans.

Lemma preserves_get_bind {A} (R : Engine -> Engine -> Prop)
    (k : Engine -> M Engine A) :
  (forall e e' r, k e e = (e', r) -> R e e') -> preserves R (bind get k).
Proof. intros Hk e e' r. unfold bind, get. apply Hk. Qed.

Lemma kept_io {A} (c : M Engine A) :
  preserves io_only c -> preserves documents_kept c.
Proof. apply preserves_weaken, io_only_documents_kept. Qed.

Lemma kept_logger level text : preserves documents_kept (logger level text).
Proof. apply kept_io, io_only_logger. Qed.

Lemma kept_broadcast env w message exclude_user :
  preserves documents_kept (_broadcast_to_workspace env w message exclude_user).
Proof. apply kept_io, io_only_broadcast. Qed.

Lemma kept_send_json env conn_id data :
  preserves documents_kept (send_json env conn_id data).
Proof. apply kept_io, io_only_send_json. Qed.

Lemma kept_simple f :
  (forall e, mem (f e) = mem e) ->
  (forall e, workspaces (f e) = workspaces e) ->
  (forall e, operations_processed (stats (f e))
             = operations_processed (stats e)) ->
  preserves documents_kept (modify f).
Proof.
  intros Hm Hw Ho. apply preserves_modify. intros e. split.
  - rewrite Hm. apply extends_refl.
  - split; [apply Ho |]. intros w d. unfold document_at. by rewrite Hw.
Qed.

Lemma document_at_alter_ws e w g w' d' :
  (forall ws, ws_documents (g ws) = ws_documents ws) ->
  document_at (with_workspaces (alter g w) e) w' d' = document_at e w' d'.
Proof.
  intros Hg. unfold document_at. cbn.
  destruct (decide (w' = w)) as [-> | Hw].
  - rewrite lookup_alter_eq. destruct (workspaces e !! w); cbn; [| done].
    by rewrite Hg.
  - by rewrite lookup_alter_ne.
Qed.

Lemma kept_alter_ws w g :
  (forall ws, ws_documents (g ws) = ws_documents ws) ->
  preserves documents_kept (modify (with_workspaces (alter g w))).
Proof.
  intros Hg. apply preserves_modify. intros e. split; [apply extends_refl |].
  split; [done |]. intros w' d'. by apply document_at_alter_ws.
Qed.

Lemma kept_uuid4 : preserves documents_kept (lift_mem uuid4).
Proof.
  intros e e' r [= <- _]. split; [| by split].
  exists []. cbn. by rewrite app_nil_r.
Qed.

Lemma kept_cleanup env conn_id :
  preserves documents_kept (_cleanup_connection env conn_id).
Proof.
  unfold _cleanup_connection.
  repeat kept_step;
    first [ apply kept_logger | apply kept_broadcast | by apply kept_alter_ws
          | by apply kept_simple ].
Qed.

Lemma kept_cursor_move env conn_id connection data :
  preserves documents_kept (_handle_cursor_move env conn_id connection data).
Proof.
  unfold _handle_cursor_move, workspaces_getitem.
  repeat kept_step;
    first [ apply kept_broadcast | by apply kept_alter_ws ].
Qed.

Lemma kept_open env w : preserves documents_kept (handle_websocket_open env w).
Proof.
  unfold handle_websocket_open, _authenticate_websocket_user.
  repeat (first [ apply (preserves_bind _ documents_kept_trans); [| intros ?]
                | apply kept_uuid4
                | apply (preserves_ret _ documents_kept_refl)
                | by apply kept_simple ]).
  apply (preserves_try_except _ documents_kept_trans).
  2:{ intros x. repeat kept_step;
        first [ apply kept_logger | apply kept_cleanup | by apply kept_simple ]. }
  apply preserves_get_bind. intros e e' r H.
  apply bind_inv in H as [(x & H & ->) | (e1 & [] & H & Hrest)].
  { destruct (workspaces e !! w); [by injection H as <- |].
    exfalso. unfold _initialize_workspace, logger, bind, modify in H. done. }
  assert (documents_kept e e1) as K1.
  { destruct (workspaces e !! w) as [ws |] eqn:Hws.
    - injection H as <-. apply documents_kept_refl.
    - unfold _initialize_workspace, logger, bind, modify in H.
      injection H as <-. split; [apply extends_refl |]. split; [done |].
      intros w' d'. unfold document_at. cbn.
      destruct (decide (w' = w)) as [-> | Hne].
      + by rewrite lookup_insert_eq, Hws.
      + by rewrite lookup_insert_ne. }
  eapply documents_kept_trans; [exact K1 |].
  revert Hrest. generalize e1 e' r. clear.
  change (preserves documents_kept
    (let! _ := _add_user_to_workspace env w a in
     let! _ := _send_initial_state env a0 w in
     let! _ := _broadcast_user_joined env w a in
     let! _ := modify (with_stats (fun s =>
       mkStats (total_connections s + 1) (active_workspaces s)
         (operations_processed s) (conflicts_resolved s)
         (messages_sent s))) in
     logger INFO "User connected to workspace")).
  unfold _add_user_to_workspace, _send_initial_state, _broadcast_user_joined,
    workspaces_getitem.
  repeat kept_step;
    first [ apply kept_logger | apply kept_broadcast | apply kept_send_json
          | by apply kept_simple | by apply kept_alter_ws ].
Qed.

Lemma kept_ping env conn_id : preserves documents_kept (ping env conn_id).
Proof. apply kept_io, io_only_ping. Qed.

Lemma kept_collaborators env user message :
  preserves documents_kept (broadcast_to_collaborators env user message).
Proof.
  unfold broadcast_to_collaborators.
  repeat kept_step; apply kept_broadcast.
Qed.

Lemma preserves_apply {A} (R : Engine -> Engine -> Prop) (c : M Engine A)
    e e' r :
  preserves R c -> c e = (e', r) -> R e e'.
Proof. intros Hc. apply Hc. Qed.

(** Every event either leaves all documents as they are, or is an
    operation message that is applied to one document, or is an
    operation message that is left in the pending buffer of one
    document without being applied. *)
Lemma handler_documents env ev e e' r :
  handler env ev e = (e', r) ->
  documents_kept e e' \/
  exists conn_id connection data d,
    ev = Receive conn_id (Some data) /\
    sockets e !! conn_id = Some connection /\
    msg_type data = Some "operation"%string /\
    msg_document_id data = Some d /\
    (applied_to (now env) (conn_workspace_id connection) d e e' \/
     left_pending (now env) (conn_workspace_id connection) d e e').
Proof.
  destruct ev as [w | conn_id text | conn_id | | | | u n | u n | u n];
    cbn [handler].
  - left. by eapply kept_open.
  - unfold bind, get.
    destruct (sockets e !! conn_id) as [connection |] eqn:Hsock;
      [| intros [= <- _]; left; apply documents_kept_refl].
    destruct text as [data |]; cbn [handle_websocket_message];
      [| intros H; left; by eapply kept_logger].
    unfold _handle_collaboration_message.
    destruct (bool_decide (msg_type data = Some "operation"%string)) eqn:Hop.
    + apply bool_decide_eq_true in Hop.
      unfold try_except.
      destruct (_handle_operation env conn_id connection data e)
        as [e1 r1] eqn:H1.
      apply handle_operation_effect in H1 as (-> & _ & [K | (d & Hd & Happ)]).
      * intros [= <- _]. by left.
      * intros [= <- _]. right. by exists conn_id, connection, data, d.
    + intros H. left. eapply preserves_apply; [| exact H].
      apply (preserves_try_except _ documents_kept_trans);
        [| intros x; apply kept_logger].
      repeat kept_step;
        first [ apply kept_cursor_move | apply kept_send_json
              | apply kept_logger ].
  - intros H. left. eapply preserves_apply; [| exact H].
    unfold handle_websocket_close.
    repeat kept_step;
      first [ apply kept_cleanup | by apply kept_simple ].
  - intros H. left. eapply preserves_apply; [| exact H].
    unfold _cleanup_inactive_connections.
    repeat kept_step. apply kept_cleanup.
  - intros H. left. eapply preserves_apply; [| exact H].
    unfold _heartbeat_monitor.
    repeat kept_step. apply kept_ping.
  - intros H. left. eapply preserves_apply; [| exact H].
    unfold _sync_workspace_states, _save_workspace_state.
    repeat kept_step.
  - left. by eapply kept_collaborators.
  - left. by eapply kept_collaborators.
  - left. by eapply kept_collaborators.
Qed.


(** ** The version counter *)

(** What an event does to the versions: either it counts no operation
    and every document keeps its version, its content and its history
    (a document that is not there may be created, empty and with
    version 0), or it is an operation message that is applied, counted
    once, and takes the version of its document up by one. *)
Lemma version_steps env ev e :
  let e' := step env ev e in
  ((operations_processed (stats e') = operations_processed (stats e) /\
    forall w d,
      match document_at e w d with
      | Some doc =>
          exists doc',
            document_at e' w d = Some doc' /\
            doc_version doc' = doc_version doc /\
            doc_content doc' = doc_content doc /\
            doc_operations doc' = doc_operations doc
      | None =>
          document_at e' w d = None \/
          exists doc',
            document_at e' w d = Some doc' /\
            doc_version doc' = 0 /\ doc_content doc' = [] /\
            doc_operations doc' = []
      end)
   \/
   (exists conn_id connection data d t top content,
      ev = Receive conn_id (Some data) /\
      sockets e !! conn_id = Some connection /\
      msg_type data = Some "operation"%string /\
      msg_document_id data = Some d /\
      let w := conn_workspace_id connection in
      let doc := default (fresh_document d (now env)) (document_at e w d) in
      objs (mem e') !! t = Some top /\
      Untyped.apply_operation (doc_content doc) top = inr content /\
      operations_processed (stats e') = operations_processed (stats e) + 1 /\
      (exists doc',
         document_at e' w d = Some doc' /\
         doc_version doc' = doc_version doc + 1 /\
         doc_content doc' = content /\
         doc_operations doc' = deque_append 1000 (doc_operations doc) t) /\
      forall w' d', (w', d') <> (w, d) ->
        document_at e' w' d' = document_at e w' d'))
  /\
  (forall w d v,
     doc_version <$> document_at e w d = Some v ->
     exists v', doc_version <$> document_at e' w d = Some v'
                /\ v <= v' <= v + 1).
Proof.
  intros e'. subst e'. unfold step.
  destruct (handler env ev e) as [e' r] eqn:H. cbn [fst].
  apply handler_documents in H
    as [(_ & Ho & Hd)
       | (conn_id & connection & data & d & -> & Hs & Ht & Hd & [Happ | Hleft])].
  - split.
    + left. split; [done |]. intros w d. rewrite Hd.
      destruct (document_at e w d) as [doc |]; [by exists doc | by left].
    + intros w d v Hv. exists v. rewrite Hd. split; [done | lia].
  - destruct Happ as (t & top & content & _ & Htop & Happly & Ho & Hdoc
                      & Hothers).
    set (w := conn_workspace_id connection) in *.
    set (doc := default (fresh_document d (now env)) (document_at e w d)) in *.
    split.
    + right. exists conn_id, connection, data, d, t, top, content.
      repeat (split; [done |]). fold w doc.
      split; [| done]. by eexists.
    + intros w' d' v Hv.
      destruct (decide ((w', d') = (w, d))) as [[= -> ->] | Hne].
      * rewrite Hdoc. cbn. eexists. split; [done |].
        subst doc. destruct (document_at e w d); [| done].
        injection Hv as <-. cbn. lia.
      * exists v. rewrite Hothers by done. split; [done | lia].
  - destruct Hleft as (t & top & x & _ & Htop & Happly & Ho & Hdoc & Hothers).
    set (w := conn_workspace_id connection) in *.
    split.
    + left. split; [done |]. intros w' d'.
      destruct (decide ((w', d') = (w, d))) as [[= -> ->] | Hne].
      * rewrite Hdoc.
        destruct (document_at e w d) as [doc |]; cbn [default].
        -- by eexists.
        -- right. by eexists.
      * rewrite Hothers by done.
        destruct (document_at e w' d') as [doc |]; [by exists doc | by left].
    + intros w' d' v Hv.
      destruct (decide ((w', d') = (w, d))) as [[= -> ->] | Hne].
      * rewrite Hdoc. destruct (document_at e w d) as [doc |]; [| done].
        injection Hv as <-. cbn. eexists. split; [done | lia].
      * exists v. rewrite Hothers by done. split; [done | lia].
Qed.

(** ** Content and history *)

Lemma replay_extends m m' history acc s :
  extends m m' -> replay m history acc = Some s ->
  replay m' history acc = Some s.
Proof.
  intros Hext. revert acc. induction history as [| r rest IH]; intros acc.
  - done.
  - simpl. destruct (objs m !! r) as [op |] eqn:Hr; [| done].
    rewrite (extends_lookup _ _ _ _ Hext Hr).
    destruct (Untyped.apply_operation acc op); [done |]. apply IH.
Qed.

Lemma replay_snoc m history acc s t top content :
  replay m history acc = Some s -> objs m !! t = Some top ->
  Untyped.apply_operation s top = inr content ->
  replay m (history ++ [t]) acc = Some content.
Proof.
  revert acc. induction history as [| r rest IH]; intros acc; simpl.
  - intros [= ->] -> ->. done.
  - destruct (objs m !! r) as [op |]; [| done].
    destruct (Untyped.apply_operation acc op); [done |]. apply IH.
Qed.

Lemma history_coherent_extends m m' doc :
  extends m m' -> history_coherent m doc -> history_coherent m' doc.
Proof.
  intros Hext [Hv Hc]. split; [done |]. intros Hle.
  destruct (Hc Hle) as [Hlen Hre]. split; [done |].
  by eapply replay_extends.
Qed.

Lemma history_coherent_fresh m d time :
  history_coherent m (fresh_document d time).
Proof. split; [done |]. by intros _. Qed.

Lemma history_coherent_pending m doc t :
  history_coherent m doc -> history_coherent m (document_pending doc t).
Proof. done. Qed.

Lemma history_coherent_after m m' doc t top content time :
  extends m m' -> objs m' !! t = Some top ->
  Untyped.apply_operation (doc_content doc) top = inr content ->
  history_coherent m doc ->
  history_coherent m' (document_after doc t content time).
Proof.
  intros Hext Ht Happly [Hv Hc]. split; [cbn; lia |].
  cbn [document_after doc_version doc_operations doc_content].
  intros Hle. destruct Hc as [Hlen Hre]; [lia |].
  unfold deque_append.
  destruct (Nat.leb_spec 1000 (length (doc_operations doc))); [lia |].
  rewrite length_app. cbn [length]. split; [lia |].
  eapply replay_snoc; [| done | done]. by eapply replay_extends.
Qed.

Lemma reachable_coherent e :
  reachable e ->
  forall w d doc, document_at e w d = Some doc -> history_coherent (mem e) doc.
Proof.
  induction 1 as [| env ev e Hreach IH]; intros w d doc Hdoc.
  - done.
  - unfold step in *. destruct (handler env ev e) as [e' r] eqn:H.
    cbn [fst] in *.
    apply handler_documents in H
      as [(Hext & _ & Hd)
         | (conn_id & connection & data & d0 & -> & Hs & Ht & Hd0
            & [Happ | Hleft])].
    + rewrite Hd in Hdoc. eapply history_coherent_extends; [done |].
      by eapply IH.
    + destruct Happ as (t & top & content & Hext & Htop & Happly & _ & Hdoc'
                        & Hothers).
      destruct (decide ((w, d) = (conn_workspace_id connection, d0)))
        as [[= -> ->] | Hne].
      * rewrite Hdoc' in Hdoc. injection Hdoc as <-.
        apply (history_coherent_after (mem e) _ _ _ top); [done | done | done |].
        destruct (document_at e (conn_workspace_id connection) d0)
          as [doc0 |] eqn:Hdoc0; cbn [default].
        -- by eapply IH.
        -- apply history_coherent_fresh.
      * rewrite Hothers in Hdoc by done.
        eapply history_coherent_extends; [done |]. by eapply IH.
    + destruct Hleft as (t & top & x & Hext & _ & _ & _ & Hdoc' & Hothers).
      destruct (decide ((w, d) = (conn_workspace_id connection, d0)))
        as [[= -> ->] | Hne].
      * rewrite Hdoc' in Hdoc. injection Hdoc as <-.
        apply history_coherent_pending.
        eapply history_coherent_extends; [done |].
        destruct (document_at e (conn_workspace_id connection) d0)
          as [doc0 |] eqn:Hdoc0; cbn [default].
        -- by eapply IH.
        -- apply history_coherent_fresh.
      * rewrite Hothers in Hdoc by done.
        eapply history_coherent_extends; [done |]. by eapply IH.
Qed.

Lemma reachable_run evs e : reachable e -> reachable (run evs e).
Proof.
  revert e. induction evs as [| [env ev] evs IH]; intros e He; [done |].
  apply IH. by constructor.
Qed.

(** C8, as the code has it: in every reachable state, a document to
    which at most 1000 operations have been applied (its version is at
    most 1000, so the bounded history has dropped nothing) has as its
    content the fold of its stored operations, in order, over the empty
    string. *)
Theorem content_is_replay_of_history e w d doc :
  reachable e ->
  document_at e w d = Some doc ->
  doc_version doc <= 1000 ->
  replay (mem e) (doc_operations doc) [] = Some (doc_content doc).
Proof.
  intros Hreach Hdoc Hle.
  destruct (reachable_coherent e Hreach w d doc Hdoc) as [_ Hc].
  by destruct (Hc Hle).
Qed.

Lemma content_is_replay_of_history_witness :
  let e := run [(calm, Connect "w");
                (calm, Receive 1%N (Some (operation_data "insert" 0
                                            (Some (txt "cat")) None "d")));
                (calm, Receive 1%N (Some (operation_data "delete" 1
                                            None (Some 1) "d")))]
             engine_init in
  exists doc,
    document_at e "w" "d" = Some doc /\
    doc_content doc = txt "ct" /\ doc_version doc = 2 /\
    replay (mem e) (doc_operations doc) [] = Some (doc_content doc).
Proof.
  intros e.
  assert (exists doc, document_at e "w" "d" = Some doc /\
            doc_content doc = txt "ct" /\ doc_version doc = 2)
    as (doc & Hdoc & Hcontent & Hversion).
  { vm_compute. eexists. repeat split. }
  exists doc. split; [exact Hdoc |]. split; [exact Hcontent |].
  split; [exact Hversion |].
  apply (content_is_replay_of_history e "w" "d" doc).
  - apply reachable_run, reachable_init.
  - exact Hdoc.
  - rewrite Hversion. lia.
Defined.

(** C8 as stated fails once the history is full: after one client has
    inserted ["a"] 1001 times, the state is reachable, the content has
    1001 characters, the history keeps 1000 operations, and folding
    them over the empty string gives 1000 characters. *)
Lemma content_outgrows_history :
  let e := run long_session engine_init in
  reachable e /\
  exists doc,
    document_at e "w" "d" = Some doc /\
    doc_version doc = 1001 /\
    length (doc_content doc) = 1001%nat /\
    length (doc_operations doc) = 1000%nat /\
    length <$> replay (mem e) (doc_operations doc) [] = Some 1000%nat /\
    replay (mem e) (doc_operations doc) [] <> Some (doc_content doc).
Proof.
  intros e. split; [apply reachable_run, reachable_init |].
  assert (exists doc,
    document_at e "w" "d" = Some doc /\
    doc_version doc = 1001 /\
    length (doc_content doc) = 1001%nat /\
    length (doc_operations doc) = 1000%nat /\
    length <$> replay (mem e) (doc_operations doc) [] = Some 1000%nat)
    as (doc & Hdoc & Hv & Hc & Ho & Hr).
  { vm_compute. eexists. repeat split. }
  exists doc. repeat (split; [done |]).
  intros Heq. rewrite Heq in Hr. cbn in Hr. injection Hr as Hr. lia.
Qed.

(** ** Rejected operation messages *)

(** C5, as the code has it: an operation message whose operation,
    type or position is missing, whose type is unknown, or whose
    document id is missing or empty is dropped with one log entry:
    workspaces and documents, connections, counters and the messages
    sent are unchanged, and every operation object stays as it was. *)
Theorem malformed_operation_rejected env e conn_id connection data :
  sockets e !! conn_id = Some connection ->
  msg_type data = Some "operation"%string ->
  malformed data ->
  let e' := step env (Receive conn_id (Some data)) e in
  workspaces e' = workspaces e /\ sent e' = sent e /\
  stats e' = stats e /\ sockets e' = sockets e /\
  connections e' = connections e /\
  (forall r o, objs (mem e) !! r = Some o -> objs (mem e') !! r = Some o) /\
  exists entry, log e' = log e ++ [entry].
Proof.
  intros Hsock Htype Hbad e'. subst e'.
  unfold step, handler, bind, get. rewrite Hsock.
  cbn [handle_websocket_message]. unfold _handle_collaboration_message.
  rewrite bool_decide_eq_true_2 by done.
  unfold try_except at 1.
  destruct (_handle_operation env conn_id connection data e)
    as [e1 r1] eqn:H1.
  assert (r1 = inr tt) as ->
    by (by apply handle_operation_effect in H1 as [-> _]).
  cbn [fst]. revert H1.
  unfold _handle_operation, try_except, bind, getitem, malformed,
    operation_of, raise, ret, logger, modify in *.
  destruct (msg_operation data) as [raw |]; cbv beta iota;
    [| intros [= <-]; cbn; repeat split; first [done | by eexists]].
  destruct (raw_type raw) as [ty |]; cbv beta iota;
    [| intros [= <-]; cbn; repeat split; first [done | by eexists]].
  destruct (OperationType_of_value ty) as [type |]; cbv beta iota;
    [| intros [= <-]; cbn; repeat split; first [done | by eexists]].
  destruct (raw_position raw) as [position |]; cbv beta iota;
    [| intros [= <-]; cbn; repeat split; first [done | by eexists]].
  unfold lift_mem. rewrite new_Operation_untyped_run. cbv beta iota.
  destruct Hbad as [Hbad | [Hbad | Hbad]]; [done | |]; rewrite Hbad;
    cbv beta iota; intros [= <-]; cbn;
    repeat split;
    first [done | by eexists | intros r o; apply lookup_old].
Qed.

Lemma malformed_operation_rejected_witness :
  let data := operation_data "move" 0 None None "d" in
  let e' := step calm (Receive 1%N (Some data)) two_clients in
  workspaces e' = workspaces two_clients /\ sent e' = sent two_clients /\
  stats e' = stats two_clients /\ sockets e' = sockets two_clients /\
  connections e' = connections two_clients /\
  (forall r o, objs (mem two_clients) !! r = Some o ->
               objs (mem e') !! r = Some o) /\
  exists entry, log e' = log two_clients ++ [entry].
Proof.
  intros data.
  apply (malformed_operation_rejected calm two_clients 1%N
           (mkWebSocketConnection (mkUser 0%N "testuser") "w" 0 0 true) data).
  - vm_compute. reflexivity.
  - reflexivity.
  - left. vm_compute. reflexivity.
Defined.

(** C5 as stated fails for an operation whose fields do not fit its
    type: an insert that carries no content but a length is not
    rejected.  Sent by the first of two clients, it creates document
    ["d"], brings its version to 1, enters the pending buffer and the
    history, and is broadcast to the other client. *)
Lemma inconsistent_operation_is_applied :
  let raw :=
    mkRawOperation (Some "insert"%string) (Some (VInt 0)) None
      (Some (VInt 5)) in
  let data := mkClientMessage (Some "operation"%string) (Some raw)
                (Some "d"%string) None None None in
  let e' := step calm (Receive 1%N (Some data)) two_clients in
  fields_inconsistent raw /\
  document_at two_clients "w" "d" = None /\
  (exists doc,
     document_at e' "w" "d" = Some doc /\ doc_version doc = 1 /\
     doc_pending_operations doc = [0%nat] /\ doc_operations doc = [0%nat]) /\
  sent e' = sent two_clients
            ++ [(3%N, operation_message "d" INSERT (VInt 0) VNone (VInt 5)
                        0%N 0)].
Proof.
  cbv zeta. split; [left; split; [done | by left] |].
  split; [by vm_compute |]. split.
  - vm_compute. eexists. repeat split.
  - by vm_compute.
Qed.

(** ** Presence isolation *)

Lemma same_identity_refl p : same_identity p p.
Proof. by repeat split. Qed.

Lemma same_identity_trans p1 p2 p3 :
  same_identity p1 p2 -> same_identity p2 p3 -> same_identity p1 p3.
Proof.
  intros (?&?&?&?&?) (?&?&?&?&?). repeat split; congruence.
Qed.

Lemma presence_only_refl w0 u0 e : presence_only w0 u0 e e.
Proof.
  repeat split; try done.
  destruct (presence_at e w0 u0); [apply same_identity_refl | done].
Qed.

Lemma presence_only_trans w0 u0 e1 e2 e3 :
  presence_only w0 u0 e1 e2 -> presence_only w0 u0 e2 e3 ->
  presence_only w0 u0 e1 e3.
Proof.
  intros (M1 & W1 & O1 & P1) (M2 & W2 & O2 & P2).
  split; [congruence |]. split; [intros w; by rewrite W2 |].
  split; [intros w u Hne; by rewrite O2, O1 |].
  destruct (presence_at e1 w0 u0), (presence_at e2 w0 u0),
    (presence_at e3 w0 u0); try done.
  by eapply same_identity_trans.
Qed.

Lemma io_only_presence_only w0 u0 e e' :
  io_only e e' -> presence_only w0 u0 e e'.
Proof.
  intros (Hm & Hw & _). split; [done |]. unfold presence_at.
  rewrite Hw. repeat split; try done.
  destruct (workspaces e !! w0) as [ws |]; [| done].
  destruct (ws_active_users ws !! u0); [apply same_identity_refl | done].
Qed.

Lemma presence_only_move w0 u0 f e :
  (forall p, same_identity p (f p)) ->
  presence_only w0 u0 e
    (with_workspaces (alter (set_active_users (alter f u0)) w0) e).
Proof.
  intros Hf. split; [done |]. split; [| split].
  - intros w. cbn. destruct (decide (w = w0)) as [-> | Hne].
    + rewrite lookup_alter_eq. by destruct (workspaces e !! w0).
    + by rewrite lookup_alter_ne.
  - intros w u Hne. unfold presence_at. cbn.
    destruct (decide (w = w0)) as [-> | Hw].
    + rewrite lookup_alter_eq. destruct (workspaces e !! w0); [| done].
      cbn. rewrite lookup_alter_ne; [done |]. intros ->. by apply Hne.
    + by rewrite lookup_alter_ne.
  - unfold presence_at. cbn. rewrite lookup_alter_eq.
    destruct (workspaces e !! w0) as [ws |]; [| done]. cbn.
    rewrite lookup_alter_eq.
    destruct (ws_active_users ws !! u0); [apply Hf | done].
Qed.

(** C9: handling a [cursor_move] or [presence_update] message changes
    no document (content, version and every other field) and no
    operation object; of the workspaces, only the presence entry of
    the sending user in the workspace of the connection may differ,
    and of that entry only the cursor position, the selection bounds,
    the status and the last-seen time. *)
Theorem presence_isolation env e conn_id connection data :
  sockets e !! conn_id = Some connection ->
  msg_type data = Some "cursor_move"%string
  \/ msg_type data = Some "presence_update"%string ->
  let e' := step env (Receive conn_id (Some data)) e in
  (forall w d, document_at e' w d = document_at e w d) /\
  presence_only (conn_workspace_id connection)
    (user_id (conn_user connection)) e e'.
Proof.
  intros Hsock Htype e'. subst e'.
  unfold step, handler, bind, get. rewrite Hsock.
  cbn [handle_websocket_message].
  set (w0 := conn_workspace_id connection).
  set (u0 := user_id (conn_user connection)).
  destruct (try_except
              (_handle_collaboration_message env conn_id connection data)
              (fun _ => logger ERROR "Error handling message") e)
    as [e' r] eqn:H.
  cbn [fst].
  assert (presence_only w0 u0 e e') as Hp.
  { eapply preserves_apply; [| exact H].
    apply (preserves_try_except _ (presence_only_trans w0 u0));
      [| intros x; eapply preserves_weaken;
         [apply io_only_presence_only | apply io_only_logger]].
    unfold _handle_collaboration_message.
    destruct Htype as [-> | ->]; cbn [bool_decide decide_rel].
    - rewrite bool_decide_eq_false_2 by done.
      rewrite bool_decide_eq_true_2 by done.
      unfold _handle_cursor_move, workspaces_getitem.
      repeat preserves_step (presence_only_refl w0 u0)
               (presence_only_trans w0 u0).
      + apply preserves_modify. intros e0.
        apply presence_only_move. intros p. by repeat split.
      + eapply preserves_weaken;
          [apply io_only_presence_only | apply io_only_broadcast].
    - rewrite !bool_decide_eq_false_2 by done.
      rewrite bool_decide_eq_true_2 by done.
      apply (preserves_raise _ (presence_only_refl w0 u0)). }
  split; [| done].
  destruct Hp as (_ & Hw & _). intros w d. unfold document_at.
  specialize (Hw w).
  destruct (workspaces e' !! w) as [ws' |], (workspaces e !! w) as [ws |];
    try done.
  cbn in Hw. by injection Hw as _ _ -> _ _ _.
Qed.

Lemma presence_isolation_witness :
  let data := mkClientMessage (Some "cursor_move"%string) None
                (Some "d"%string) (Some 7) (Some 2) (Some 9) in
  let e' := step calm (Receive 1%N (Some data)) two_clients in
  ((forall w d, document_at e' w d = document_at two_clients w d) /\
   presence_only "w" 0%N two_clients e')
  /\ up_cursor_position <$> presence_at e' "w" 0%N = Some 7.
Proof.
  intros data. split; [| by vm_compute].
  apply (presence_isolation calm two_clients 1%N
           (mkWebSocketConnection (mkUser 0%N "testuser") "w" 0 0 true) data).
  - vm_compute. reflexivity.
  - left. reflexivity.
Defined.

(** ** Leaving a workspace *)

Lemma defaultdict_get_alter `{Countable K} (k : K) f (d : gmap K (list uuid)) :
  defaultdict_get k (alter f k (defaultdict_touch k d))
  = f (defaultdict_get k d).
Proof.
  unfold defaultdict_get, defaultdict_touch.
  rewrite lookup_alter_eq.
  destruct (d !! k) as [l |] eqn:Hk; [by rewrite Hk |].
  by rewrite lookup_insert_eq.
Qed.

Lemma list_remove_first_not_in x (l : list uuid) :
  NoDup l -> x ∉ list_remove_first x l.
Proof.
  induction 1 as [| y l Hy Hl IH]; simpl; [apply not_elem_of_nil |].
  destruct (decide (x = y)) as [-> | Hne]; [done |].
  rewrite elem_of_cons. intros [? | ?]; [done | by apply IH].
Qed.

Lemma list_remove_first_subseteq x (l : list uuid) :
  list_remove_first x l ⊆ l.
Proof.
  induction l as [| y l IH]; simpl; [done |].
  intros z Hz. destruct (decide (x = y)).
  - apply elem_of_cons. by right.
  - apply elem_of_cons in Hz as [-> | Hz]; apply elem_of_cons; [by left |].
    right. by apply IH.
Qed.

Lemma list_remove_first_NoDup x (l : list uuid) :
  NoDup l -> NoDup (list_remove_first x l).
Proof.
  induction 1 as [| y l Hy Hl IH]; simpl; [constructor |].
  destruct (decide (x = y)); [done |]. constructor; [| done].
  intros Hin. apply Hy. by eapply list_remove_first_subseteq.
Qed.

(** One turn of the broadcast loop without an excluded user: the
    message goes to [c] when [c] is registered and active, and only the
    connection object of [c] can change. *)
Lemma deliver_turn env message c e e' r :
  deliver env message None c e = (e', r) ->
  r = inr tt /\
  sent e' = sent e ++ (if receives e c then [(c, message)] else []) /\
  connections e' = connections e /\
  (forall c', c' <> c -> sockets e' !! c' = sockets e !! c').
Proof.
  unfold deliver, bind, get, receives.
  destruct (connections_get e c) as [connection |];
    [| intros [= <- <-]; by rewrite app_nil_r].
  destruct (conn_is_active connection);
    [| intros [= <- <-]; by rewrite app_nil_r].
  unfold send_json, bind, modify, logger, ret.
  destruct (link_up env c); intros [= <- <-]; cbn; repeat split; try done.
  intros c' Hne. by rewrite lookup_alter_ne.
Qed.

Lemma receives_agree e e' c :
  connections e' = connections e -> sockets e' !! c = sockets e !! c ->
  receives e' c = receives e c.
Proof.
  intros Hc Hs. unfold receives, connections_get. by rewrite Hc, Hs.
Qed.

Lemma deliver_loop env message l :
  NoDup l ->
  forall e e' r,
    for_each l (deliver env message None) e = (e', r) ->
    sent e' = sent e
              ++ ((fun c => (c, message)) <$> List.filter (receives e) l).
Proof.
  induction 1 as [| c l Hc Hl IH]; intros e e' r; simpl.
  - intros [= <- _]. by rewrite app_nil_r.
  - intros H. apply bind_inv in H as [(x & H & _) | (e1 & [] & H & Hrest)];
      apply deliver_turn in H as (Hr & Hsent & Hconn & Hsock); [done |].
    apply IH in Hrest. rewrite Hrest, Hsent, <- app_assoc. f_equal.
    assert (List.filter (receives e1) l = List.filter (receives e) l) as ->.
    { apply List.filter_ext_in. intros c' Hin.
      apply receives_agree; [done |]. apply Hsock. intros ->.
      apply Hc. by apply list_elem_of_In. }
    by destruct (receives e c).
Qed.

(** The messages a broadcast without an excluded user sends. *)
Lemma broadcast_sent env w message l e e' r :
  workspace_connections e !! w = Some l -> NoDup l ->
  _broadcast_to_workspace env w message None e = (e', r) ->
  sent e' = sent e
            ++ ((fun c => (c, message)) <$> List.filter (receives e) l).
Proof.
  intros Hl Hnodup. unfold _broadcast_to_workspace, bind at 1, get.
  rewrite Hl. by apply deliver_loop.
Qed.

(** The run of [_cleanup_connection] for the last connection of a
    user who has a presence entry. *)
Lemma cleanup_last_connection env e conn_id connection ws :
  connections_get e conn_id = Some connection ->
  list_remove_first conn_id
    (defaultdict_get (user_id (conn_user connection)) (user_connections e))
    = [] ->
  workspaces e !! conn_workspace_id connection = Some ws ->
  is_Some (ws_active_users ws !! user_id (conn_user connection)) ->
  NoDup (defaultdict_get (conn_workspace_id connection)
           (workspace_connections e)) ->
  exists e',
    _cleanup_connection env conn_id e = (e', inr tt) /\
    workspaces e'
      = alter (set_active_users (delete (user_id (conn_user connection))))
          (conn_workspace_id connection) (workspaces e) /\
    mem e' = mem e /\
    sent e' = sent e
      ++ ((fun c => (c, user_left (user_id (conn_user connection))))
          <$> List.filter (receives e)
                (list_remove_first conn_id
                   (defaultdict_get (conn_workspace_id connection)
                      (workspace_connections e)))).
Proof.
  intros Hconn Hlast Hws [p Hp] Hnodup.
  set (u := user_id (conn_user connection)) in *.
  set (w := conn_workspace_id connection) in *.
  unfold _cleanup_connection, bind at 1, get. rewrite Hconn.
  fold u w. unfold bind at 1, modify at 1. cbv beta iota.
  unfold bind at 1, modify at 1. cbv beta iota.
  unfold bind at 1, modify at 1. cbv beta iota.
  unfold bind at 1. cbv beta iota.
  match goal with
  | |- context [bind _ _ ?s] => set (e3 := s)
  end.
  assert (defaultdict_get u (user_connections e3) = []) as Hu3.
  { subst e3. cbn. by rewrite defaultdict_get_alter. }
  assert (workspace_connections e3 !! w
          = Some (list_remove_first conn_id
                    (defaultdict_get w (workspace_connections e)))) as Hw3.
  { subst e3. cbn. rewrite lookup_alter_eq.
    unfold defaultdict_touch, defaultdict_get.
    destruct (workspace_connections e !! w) as [l |] eqn:Hl.
    - by rewrite Hl.
    - by rewrite lookup_insert_eq. }
  assert (workspaces e3 = workspaces e) as Hws3 by done.
  assert (sent e3 = sent e) as Hsent3 by done.
  assert (sockets e3 = sockets e) as Hsock3 by done.
  assert (connections e3 = connections e ∖ {[conn_id]}) as Hconn3 by done.
  assert (mem e3 = mem e) as Hmem3 by done.
  clearbody e3.
  unfold bind at 1. rewrite Hu3, Hws3, Hws, Hp.
  unfold bind at 1, modify at 1. cbv beta iota.
  match goal with
  | |- context [_broadcast_to_workspace _ _ _ _ ?s] => set (e4 := s)
  end.
  destruct (_broadcast_to_workspace env w (user_left u) None e4)
    as [e5 r5] eqn:Hb.
  pose proof (no_raise_unit _ _ _ _
                (no_raise_broadcast env w (user_left u) None) Hb) as ->.
  pose proof (io_only_broadcast _ _ _ _ _ _ _ Hb) as (Hm5 & Hw5 & _).
  eapply broadcast_sent in Hb;
    [| subst e4; exact Hw3 | by apply list_remove_first_NoDup].
  eexists. split; [reflexivity |]. cbn.
  rewrite Hw5, Hm5, Hb. subst e4. cbn. rewrite Hws3, Hmem3, Hsent3.
  repeat split. f_equal. f_equal.
  apply List.filter_ext_in. intros c Hin.
  assert (c <> conn_id) as Hne.
  { intros ->. eapply list_remove_first_not_in; [exact Hnodup |].
    by apply list_elem_of_In. }
  unfold receives, connections_get. cbn. rewrite Hconn3, Hsock3.
  destruct (decide (c ∈ connections e ∖ {[conn_id]})) as [Hc | Hc],
    (decide (c ∈ connections e)) as [Hc' | Hc']; try done.
  - exfalso. apply Hc'. apply elem_of_difference in Hc. tauto.
  - exfalso. apply Hc. apply elem_of_difference. split; [done |].
    by apply not_elem_of_singleton.
Qed.

(** *** A user who left stays out *)

Section KeepsOut.

Context (w : string) (u : uuid).

Lemma keeps_out_refl e : keeps_out w u e e.
Proof. by intros H. Qed.

Lemma keeps_out_trans e1 e2 e3 :
  keeps_out w u e1 e2 -> keeps_out w u e2 e3 -> keeps_out w u e1 e3.
Proof. intros H1 H2 H. by apply H2, H1. Qed.

Ltac out_step := preserves_step keeps_out_refl keeps_out_trans.

Lemma out_io {A} (c : M Engine A) :
  preserves io_only c -> preserves (keeps_out w u) c.
Proof.
  apply preserves_weaken. intros e e' (Hm & Hw & _) [Hfresh Hout].
  split; [by rewrite Hm |]. rewrite Hw. apply Hout.
Qed.

Lemma out_simple f :
  (forall e, mem (f e) = mem e) ->
  (forall e, workspaces (f e) = workspaces e) ->
  preserves (keeps_out w u) (modify f).
Proof.
  intros Hm Hw. apply preserves_modify. intros e [Hfresh Hout].
  split; [by rewrite Hm |]. rewrite Hw. apply Hout.
Qed.

Lemma out_lift {A} (c : M Heap A) :
  (forall m m' r, c m = (m', r) -> (uuid_next m <= uuid_next m')%N) ->
  preserves (keeps_out w u) (lift_mem c).
Proof.
  intros Hc e e' r. unfold lift_mem.
  destruct (c (mem e)) as [m' r'] eqn:E. intros [= <- _] [Hfresh Hout].
  split; [| done]. cbn. apply Hc in E. lia.
Qed.

Lemma deref_uuid r m m' res :
  deref r m = (m', res) -> (uuid_next m <= uuid_next m')%N.
Proof. unfold deref. destruct (objs m !! r); by intros [= <- _]. Qed.

Lemma uuid4_uuid m m' res :
  uuid4 m = (m', res) -> (uuid_next m <= uuid_next m')%N.
Proof. intros [= <- _]. cbn. lia. Qed.

Lemma new_Operation_uuid t p c l ts us m m' res :
  Untyped.new_Operation t p c l ts us m = (m', res) ->
  (uuid_next m <= uuid_next m')%N.
Proof. rewrite new_Operation_untyped_run. intros [= <- _]. cbn. lia. Qed.

Lemma transform_operation_uuid m r1 r2 m' res :
  Untyped.transform_operation r1 r2 m = (m', res) ->
  (uuid_next m <= uuid_next m')%N.
Proof. intros H. by apply transform_operation_untyped_grows in H as [_ ?]. Qed.

(** A change of one workspace under which every presence entry is
    either harmless or was already there under the same key and with
    the same user id. *)
Lemma out_alter w' g :
  (forall ws k p,
     ws_active_users (g ws) !! k = Some p ->
     (k <> u /\ up_user_id p <> u) \/
     exists p0, ws_active_users ws !! k = Some p0 /\
                up_user_id p0 = up_user_id p) ->
  preserves (keeps_out w u) (modify (with_workspaces (alter g w'))).
Proof.
  intros Hg. apply preserves_modify. intros e [Hfresh Hout].
  split; [done |]. intros ws' k p. cbn.
  destruct (decide (w = w')) as [<- | Hne].
  - rewrite lookup_alter_eq.
    destruct (workspaces e !! w) as [ws |] eqn:Hws; [| done].
    intros [= <-] Hk.
    destruct (Hg _ _ _ Hk) as [? | (p0 & Hp0 & Hid)]; [done |].
    rewrite <- Hid. by eapply Hout.
  - rewrite lookup_alter_ne by done. apply Hout.
Qed.

Lemma out_documents w' f :
  preserves (keeps_out w u)
    (modify (with_workspaces (alter (set_documents f) w'))).
Proof. apply out_alter. intros ws k p Hk. right. by exists p. Qed.

Lemma out_document_update w' d f :
  preserves (keeps_out w u) (document_update w' d f).
Proof. apply out_documents. Qed.

Lemma out_broadcast env w' message exclude_user :
  preserves (keeps_out w u)
    (_broadcast_to_workspace env w' message exclude_user).
Proof. apply out_io, io_only_broadcast. Qed.

Lemma out_logger level text : preserves (keeps_out w u) (logger level text).
Proof. apply out_io, io_only_logger. Qed.

Lemma out_send_json env c data :
  preserves (keeps_out w u) (send_json env c data).
Proof. apply out_io, io_only_send_json. Qed.

Lemma out_cleanup env conn_id :
  preserves (keeps_out w u) (_cleanup_connection env conn_id).
Proof.
  unfold _cleanup_connection.
  repeat out_step;
    first [ apply out_logger | apply out_broadcast | by apply out_simple
          | idtac ].
  apply out_alter. intros ws k p. cbn.
  match goal with
  | |- context [delete ?x _] => destruct (decide (k = x)) as [-> | Hne]
  end.
  - by rewrite lookup_delete_eq.
  - rewrite lookup_delete_ne by done. intros Hk. right. by exists p.
Qed.

Lemma out_handle_operation env conn_id connection data :
  preserves (keeps_out w u) (_handle_operation env conn_id connection data).
Proof.
  unfold _handle_operation, getitem, workspaces_getitem,
    _apply_operational_transformation, document_get, workspaces_getitem,
    rebase_against, _broadcast_operation, _save_document_state.
  repeat out_step;
    first [ apply out_logger | apply out_broadcast | by apply out_simple
          | apply out_document_update | apply out_documents
          | apply out_lift; intros m m' r; apply deref_uuid
          | apply out_lift; intros m m' r; apply new_Operation_uuid
          | apply out_lift; intros m m' r; apply transform_operation_uuid ].
Qed.

Lemma out_cursor_move env conn_id connection data :
  preserves (keeps_out w u) (_handle_cursor_move env conn_id connection data).
Proof.
  unfold _handle_cursor_move, workspaces_getitem.
  repeat out_step; [| apply out_broadcast].
  apply out_alter. intros ws k p. cbn.
  destruct (decide (k = user_id (conn_user connection))) as [-> | Hne].
  - rewrite lookup_alter_eq.
    destruct (ws_active_users ws !! user_id (conn_user connection))
      as [p0 |]; [| done].
    intros [= <-]. right. by exists p0.
  - rewrite lookup_alter_ne by done. intros Hk. right. by exists p.
Qed.

Lemma out_open env w' :
  preserves (keeps_out w u) (handle_websocket_open env w').
Proof.
  intros e e' r H Habs. revert H.
  unfold handle_websocket_open, _authenticate_websocket_user.
  unfold bind at 1 2, lift_mem at 1, uuid4 at 1, ret at 1.
  cbv beta iota.
  set (id := uuid_next (mem e)).
  assert (id <> u) as Hid by (destruct Habs as [Hfresh _]; subst id; lia).
  match goal with
  | |- bind _ _ ?s = _ -> _ => set (e1 := s)
  end.
  assert (absent w u e1) as Habs1.
  { destruct Habs as [Hfresh Hout]. split; [subst e1; cbn; lia | done]. }
  clearbody e1. intros H. revert Habs1.
  eapply (preserves_apply (keeps_out w u)); [| exact H].
  unfold _cleanup_connection, _initialize_workspace, _add_user_to_workspace,
    _send_initial_state, _broadcast_user_joined, workspaces_getitem.
  repeat out_step;
    first [ apply out_logger | apply out_broadcast | apply out_send_json
          | by apply out_simple
          | apply out_lift; intros m m' r0; apply uuid4_uuid
          | idtac ].
  - (* the new workspace has no user *)
    apply preserves_modify. intros e0 [Hfresh Hout]. split; [done |].
    intros ws k p. cbn. destruct (decide (w = w')) as [<- | Hne].
    + rewrite lookup_insert_eq. by intros [= <-].
    + rewrite lookup_insert_ne by done. apply Hout.
  - (* the joining user has a fresh id *)
    apply out_alter. intros ws k p. cbn.
    destruct (decide (k = id)) as [-> | Hne].
    + rewrite lookup_insert_eq. intros [= <-]. by left.
    + rewrite lookup_insert_ne by done. intros Hk. right. by exists p.
  - apply out_alter. intros ws k p. cbn.
    match goal with
    | |- context [delete ?x _] => destruct (decide (k = x)) as [-> | Hne]
    end.
    + by rewrite lookup_delete_eq.
    + rewrite lookup_delete_ne by done. intros Hk. right. by exists p.
Qed.

Lemma out_handler env ev : preserves (keeps_out w u) (handler env ev).
Proof.
  destruct ev as [w' | conn_id text | conn_id | | | | u' n | u' n | u' n];
    cbn [handler].
  - apply out_open.
  - unfold handle_websocket_message, _handle_collaboration_message.
    repeat out_step;
      first [ apply out_logger | apply out_handle_operation
            | apply out_cursor_move | apply out_send_json ].
  - unfold handle_websocket_close.
    repeat out_step; first [ apply out_cleanup | by apply out_simple ].
  - unfold _cleanup_inactive_connections.
    repeat out_step. apply out_cleanup.
  - unfold _heartbeat_monitor.
    repeat out_step. apply out_io, io_only_ping.
  - unfold _sync_workspace_states, _save_workspace_state. repeat out_step.
  - unfold broadcast_note_created, broadcast_to_collaborators.
    repeat out_step. apply out_broadcast.
  - unfold broadcast_note_updated, broadcast_to_collaborators.
    repeat out_step. apply out_broadcast.
  - unfold broadcast_update, broadcast_to_collaborators.
    repeat out_step. apply out_broadcast.
Qed.

Lemma absent_run evs e : absent w u e -> absent w u (run evs e).
Proof.
  revert e. induction evs as [| [env ev] evs IH]; intros e He; [done |].
  apply IH. unfold step.
  destruct (handler env ev e) as [e' r] eqn:H. by eapply out_handler.
Qed.

Lemma absent_not_listed e ws :
  absent w u e -> workspaces e !! w = Some ws ->
  u ∉ listed_users (initial_state_of ws).
Proof.
  intros [_ Hout] Hws. unfold initial_state_of, listed_users.
  rewrite <- !list_fmap_compose. intros Hin.
  apply list_elem_of_fmap in Hin as ([k p] & Hu & Hin).
  apply elem_of_map_to_list in Hin.
  destruct (Hout ws k p Hws Hin) as [_ Hp]. by apply Hp.
Qed.

End KeepsOut.

(** ** Reachable states are well formed *)

Section WellFormed.

Lemma keeps_wf_refl e : keeps_wf e e.
Proof. by intros H. Qed.

Lemma keeps_wf_trans e1 e2 e3 : keeps_wf e1 e2 -> keeps_wf e2 e3 -> keeps_wf e1 e3.
Proof. intros H1 H2 H. by apply H2, H1. Qed.

Ltac wf_step := preserves_step keeps_wf_refl keeps_wf_trans.

Lemma well_formed_io e e' : io_only e e' -> keeps_wf e e'.
Proof.
  intros (Hm & Hw & Hc & _ & Hwc & _ & Hs) (I1 & I2 & I3 & I4).
  assert (forall c conn', sockets e' !! c = Some conn' ->
            exists conn, sockets e !! c = Some conn /\
                         conn_static conn = conn_static conn') as Hback.
  { intros c conn' Hc'. specialize (Hs c). rewrite Hc' in Hs.
    destruct (sockets e !! c) as [conn |]; [| done].
    exists conn. split; [done |]. cbn in Hs. congruence. }
  assert (forall c conn, sockets e !! c = Some conn ->
            exists conn', sockets e' !! c = Some conn' /\
                          conn_static conn = conn_static conn') as Hforth.
  { intros c conn Hc0. specialize (Hs c). rewrite Hc0 in Hs.
    destruct (sockets e' !! c) as [conn' |]; [| done].
    exists conn'. split; [done |]. cbn in Hs. congruence. }
  split; [| split; [| split]].
  - intros c conn' Hc'. destruct (Hback c conn' Hc') as (conn & Hc0 & Hst).
    destruct (I1 c conn Hc0) as [Hsucc Hlt]. rewrite Hm.
    injection Hst as Hu Hws. by rewrite <- Hu.
  - intros c Hin. rewrite Hc in Hin.
    destruct (I2 c Hin) as (conn & Hc0 & Hp).
    destruct (Hforth c conn Hc0) as (conn' & Hc' & Hst).
    exists conn'. split; [done |]. injection Hst as Hu Hws.
    unfold presence_at in *. by rewrite Hw, <- Hu, <- Hws.
  - rewrite Hw. apply I3.
  - rewrite Hwc, Hm. apply I4.
Qed.

Lemma wf_io {A} (c : M Engine A) :
  preserves io_only c -> preserves keeps_wf c.
Proof. apply preserves_weaken, well_formed_io. Qed.

Lemma wf_lift {A} (c : M Heap A) :
  (forall m m' r, c m = (m', r) -> (uuid_next m <= uuid_next m')%N) ->
  preserves keeps_wf (lift_mem c).
Proof.
  intros Hc e e' r. unfold lift_mem.
  destruct (c (mem e)) as [m' r'] eqn:E. intros [= <- _] (I1 & I2 & I3 & I4).
  apply Hc in E. split; [| split; [| split]]; cbn.
  - intros c0 conn H0. destruct (I1 c0 conn H0). split; [done | lia].
  - apply I2.
  - apply I3.
  - intros w l Hl. destruct (I4 w l Hl) as [Hnd Hlt]. split; [done |].
    intros c0 Hin. specialize (Hlt c0 Hin). lia.
Qed.

Lemma wf_simple f :
  (forall e, mem (f e) = mem e) ->
  (forall e, workspaces (f e) = workspaces e) ->
  (forall e, sockets (f e) = sockets e) ->
  (forall e, connections (f e) = connections e) ->
  (forall e, workspace_connections (f e) = workspace_connections e) ->
  preserves keeps_wf (modify f).
Proof.
  intros Hm Hw Hs Hc Hwc. apply preserves_modify. intros e Hwf.
  unfold well_formed, presence_at in *. by rewrite Hm, Hw, Hs, Hc, Hwc.
Qed.

(** A change of one workspace that keeps every presence entry, up to
    fields other than the user id. *)
Lemma wf_alter w' g :
  (forall ws k,
     (is_Some (ws_active_users ws !! k) ->
      is_Some (ws_active_users (g ws) !! k)) /\
     forall p, ws_active_users (g ws) !! k = Some p ->
       exists p0, ws_active_users ws !! k = Some p0 /\
                  up_user_id p0 = up_user_id p) ->
  preserves keeps_wf (modify (with_workspaces (alter g w'))).
Proof.
  intros Hg. apply preserves_modify. intros e (I1 & I2 & I3 & I4).
  split; [done |]. split; [| split; [| done]].
  - intros c Hin. destruct (I2 c Hin) as (conn & Hc & Hp).
    exists conn. split; [done |]. unfold presence_at in *. cbn.
    destruct (decide (conn_workspace_id conn = w')) as [<- | Hne].
    + rewrite lookup_alter_eq.
      destruct (workspaces e !! conn_workspace_id conn) as [ws |];
        [| by destruct Hp]. cbn. by apply Hg.
    + by rewrite lookup_alter_ne.
  - intros w ws' k p. cbn. destruct (decide (w = w')) as [-> | Hne].
    + rewrite lookup_alter_eq.
      destruct (workspaces e !! w') as [ws |] eqn:Hws; [| done].
      intros [= <-] Hk.
      destruct (Hg ws k) as [_ Hback].
      destruct (Hback p Hk) as (p0 & Hp0 & Hid).
      rewrite <- Hid. by eapply I3.
    + rewrite lookup_alter_ne by done. apply I3.
Qed.

Lemma wf_documents w' f :
  preserves keeps_wf (modify (with_workspaces (alter (set_documents f) w'))).
Proof.
  apply wf_alter. intros ws k. split; [done |]. intros p Hp. by exists p.
Qed.

Lemma wf_broadcast env w' message exclude_user :
  preserves keeps_wf (_broadcast_to_workspace env w' message exclude_user).
Proof. apply wf_io, io_only_broadcast. Qed.

Lemma wf_logger level text : preserves keeps_wf (logger level text).
Proof. apply wf_io, io_only_logger. Qed.

Lemma wf_send_json env c data : preserves keeps_wf (send_json env c data).
Proof. apply wf_io, io_only_send_json. Qed.

Lemma wf_handle_operation env conn_id connection data :
  preserves keeps_wf (_handle_operation env conn_id connection data).
Proof.
  unfold _handle_operation, getitem, workspaces_getitem,
    _apply_operational_transformation, document_get, workspaces_getitem,
    rebase_against, _broadcast_operation, _save_document_state,
    document_update.
  repeat wf_step;
    first [ apply wf_logger | apply wf_broadcast | by apply wf_simple
          | apply wf_documents
          | apply wf_lift; intros m m' r; apply deref_uuid
          | apply wf_lift; intros m m' r; apply new_Operation_uuid
          | apply wf_lift; intros m m' r; apply transform_operation_uuid ].
Qed.

Lemma wf_cursor_move env conn_id connection data :
  preserves keeps_wf (_handle_cursor_move env conn_id connection data).
Proof.
  unfold _handle_cursor_move, workspaces_getitem.
  repeat wf_step; [| apply wf_broadcast].
  apply wf_alter. intros ws k. cbn.
  destruct (decide (k = user_id (conn_user connection))) as [-> | Hne].
  - rewrite lookup_alter_eq.
    destruct (ws_active_users ws !! user_id (conn_user connection))
      as [p0 |]; cbn; [| done].
    split; [by eexists |]. intros p [= <-]. by exists p0.
  - rewrite lookup_alter_ne by done. split; [done |].
    intros p Hp. by exists p.
Qed.

Lemma keeps_wf_without_refl c e : keeps_wf_without c e e.
Proof. by intros H. Qed.

Lemma keeps_wf_without_trans c e1 e2 e3 :
  keeps_wf_without c e1 e2 -> keeps_wf_without c e2 e3 ->
  keeps_wf_without c e1 e3.
Proof. intros H1 H2 H. by apply H2, H1. Qed.

Lemma without_io {A} c (k : M Engine A) :
  preserves io_only k -> preserves (keeps_wf_without c) k.
Proof.
  apply preserves_weaken. intros e e' Hio [Hwf Hc]. split.
  - by eapply well_formed_io.
  - destruct Hio as (_ & _ & -> & _). done.
Qed.

(** Dropping the presence entry of the user of an unregistered
    connection. *)
Lemma without_delete c u w' :
  c = N.succ u ->
  preserves (keeps_wf_without c)
    (modify (with_workspaces (alter (set_active_users (delete u)) w'))).
Proof.
  intros Hc. apply preserves_modify. intros e [(I1 & I2 & I3 & I4) Hout].
  split; [| done]. split; [done |]. split; [| split; [| done]].
  - intros c' Hin. destruct (I2 c' Hin) as (conn & Hs & Hp).
    exists conn. split; [done |]. unfold presence_at in *. cbn.
    destruct (decide (conn_workspace_id conn = w')) as [<- | Hne];
      [| by rewrite lookup_alter_ne].
    rewrite lookup_alter_eq.
    destruct (workspaces e !! conn_workspace_id conn) as [ws |];
      [| by destruct Hp]. cbn in *.
    rewrite lookup_delete_ne; [done |].
    intros ->. destruct (I1 c' conn Hs) as [Hc' _]. congruence.
  - intros w ws' k p. cbn. destruct (decide (w = w')) as [-> | Hne].
    + rewrite lookup_alter_eq.
      destruct (workspaces e !! w') as [ws |] eqn:Hws; [| done].
      intros [= <-]. cbn. intros Hk.
      apply lookup_delete_Some in Hk as [_ Hk]. by eapply I3.
    + rewrite lookup_alter_ne by done. apply I3.
Qed.

Lemma lookup_alter_touch (f : list uuid -> list uuid) (w w' : string)
    (d : gmap string (list uuid)) :
  alter f w (defaultdict_touch w d) !! w'
  = if decide (w' = w) then Some (f (defaultdict_get w d)) else d !! w'.
Proof.
  unfold defaultdict_touch, defaultdict_get.
  destruct (decide (w' = w)) as [-> | Hne].
  - rewrite lookup_alter_eq. destruct (d !! w) as [l |] eqn:Hl.
    + by rewrite Hl.
    + by rewrite lookup_insert_eq.
  - rewrite lookup_alter_ne by done. destruct (d !! w) as [l |] eqn:Hl.
    + done.
    + by rewrite lookup_insert_ne.
Qed.

Lemma defaultdict_get_wf e w' :
  well_formed e ->
  NoDup (defaultdict_get w' (workspace_connections e)) /\
  forall c, c ∈ defaultdict_get w' (workspace_connections e) ->
    (c < uuid_next (mem e))%N.
Proof.
  intros (_ & _ & _ & I4). unfold defaultdict_get.
  destruct (workspace_connections e !! w') as [l |] eqn:Hl.
  - by apply (I4 w').
  - split; [constructor |]. intros c Hin. by apply elem_of_nil in Hin.
Qed.

Lemma wf_cleanup env c e e' r :
  _cleanup_connection env c e = (e', r) ->
  well_formed e -> well_formed e' /\ c ∉ connections e'.
Proof.
  intros H Hwf. revert H. unfold _cleanup_connection.
  unfold bind at 1, get at 1.
  destruct (connections_get e c) as [conn |] eqn:Hconn.
  2: { intros [= <- _]. split; [done |]. intros Hin.
       destruct Hwf as (_ & I2 & _). destruct (I2 c Hin) as (conn & Hs & _).
       unfold connections_get in Hconn.
       destruct (decide _); [congruence | done]. }
  assert (sockets e !! c = Some conn) as Hsock.
  { unfold connections_get in Hconn. by destruct (decide _). }
  assert (c = N.succ (user_id (conn_user conn))) as Hsucc.
  { destruct Hwf as (I1 & _). by apply I1. }
  cbv zeta.
  unfold bind at 1, modify at 1. cbv beta iota.
  unfold bind at 1, modify at 1. cbv beta iota.
  unfold bind at 1, modify at 1. cbv beta iota.
  match goal with
  | |- bind _ _ ?s = _ -> _ => set (e3 := s)
  end.
  assert (well_formed e3 /\ c ∉ connections e3) as H3.
  { pose proof (defaultdict_get_wf e (conn_workspace_id conn) Hwf)
      as [Hnd Hlt].
    destruct Hwf as (I1 & I2 & I3 & I4). subst e3. split.
    - split; [done |]. split; [| split; [done |]].
      + intros c' Hin. cbn in Hin. apply elem_of_difference in Hin as [Hin _].
        apply I2, Hin.
      + intros w' l. cbn. rewrite lookup_alter_touch.
        destruct (decide _) as [-> | Hne]; [| apply I4].
        intros [= <-]. split; [by apply list_remove_first_NoDup |].
        intros c' Hin. apply Hlt. revert Hin. apply list_remove_first_subseteq.
    - cbn. intros Hin. apply elem_of_difference in Hin as [_ Hin].
      by apply Hin, elem_of_singleton. }
  clearbody e3. intros H. revert H3.
  eapply (preserves_apply (keeps_wf_without c)); [| exact H].
  repeat preserves_step (keeps_wf_without_refl c) (keeps_wf_without_trans c);
    first [ apply without_io, io_only_logger
          | apply without_io, io_only_broadcast
          | by apply without_delete ].
Qed.

Lemma joining_initialize env w u e :
  workspaces e !! w = None -> joining w u e ->
  exists e1,
    _initialize_workspace env w e = (e1, inr tt) /\ joining w u e1 /\
    is_Some (workspaces e1 !! w).
Proof.
  intros Hw (J1 & J2 & J3 & J4). eexists. split; [reflexivity |].
  split; [| cbn; rewrite lookup_insert_eq; by eexists].
  split; [done |]. split; [| split; [| done]].
  - intros c Hin. destruct (J2 c Hin) as (conn & Hs & Hp).
    exists conn. split; [done |]. destruct Hp as [Hp | Hp]; [left | by right].
    unfold presence_at in *. cbn.
    destruct (decide (conn_workspace_id conn = w)) as [Heq | Hne].
    + rewrite Heq, Hw in Hp. by destruct Hp.
    + by rewrite lookup_insert_ne.
  - intros w' ws k p. cbn. destruct (decide (w' = w)) as [-> | Hne].
    + rewrite lookup_insert_eq. by intros [= <-].
    + rewrite lookup_insert_ne by done. apply J3.
Qed.

Lemma joining_add_user env w user e :
  joining w (user_id user) e -> is_Some (workspaces e !! w) ->
  exists e1,
    _add_user_to_workspace env w user e = (e1, inr tt) /\ well_formed e1 /\
    is_Some (workspaces e1 !! w).
Proof.
  intros (J1 & J2 & J3 & J4) [ws Hws].
  unfold _add_user_to_workspace, workspaces_getitem, bind, get.
  cbv beta iota. rewrite Hws. unfold ret, modify. eexists. split; [reflexivity |].
  split; [| cbn; rewrite lookup_alter_eq, Hws; by eexists].
  split; [done |]. split; [| split; [| done]].
  - intros c Hin. destruct (J2 c Hin) as (conn & Hs & Hp).
    exists conn. split; [done |]. unfold presence_at in *. cbn.
    destruct (decide (conn_workspace_id conn = w)) as [Heq | Hne];
      [| rewrite lookup_alter_ne by done; by destruct Hp as [Hp | [Hp _]]].
    rewrite Heq in *. rewrite lookup_alter_eq. rewrite Hws. rewrite Hws in Hp. cbn in *.
    destruct (decide (user_id (conn_user conn) = user_id user))
      as [-> | Hne].
    + rewrite lookup_insert_eq. by eexists.
    + rewrite lookup_insert_ne by done. by destruct Hp as [Hp | [_ Hp]].
  - intros w' ws' k p. cbn. destruct (decide (w' = w)) as [-> | Hne].
    + rewrite lookup_alter_eq, Hws. intros [= <-]. cbn.
      destruct (decide (k = user_id user)) as [-> | Hne].
      * rewrite lookup_insert_eq. by intros [= <-].
      * rewrite lookup_insert_ne by done. by apply (J3 w ws).
    + rewrite lookup_alter_ne by done. apply J3.
Qed.

Lemma joining_send_initial_state env cid w e :
  well_formed e -> is_Some (workspaces e !! w) ->
  exists e1,
    _send_initial_state env cid w e = (e1, inr tt) /\ well_formed e1.
Proof.
  intros Hwf [ws Hws].
  unfold _send_initial_state, workspaces_getitem, bind, get.
  cbv beta iota. rewrite Hws. unfold ret.
  destruct (send_json env cid (initial_state_of ws) e) as [e1 r] eqn:Hsend.
  pose proof (no_raise_unit _ _ _ _ (no_raise_send_json env cid _) Hsend)
    as ->.
  exists e1. split; [done |].
  eapply well_formed_io; [| exact Hwf].
  eapply (preserves_apply io_only); [apply io_only_send_json | exact Hsend].
Qed.

Lemma wf_open env w : preserves keeps_wf (handle_websocket_open env w).
Proof.
  intros e e' r H Hwf. revert H.
  unfold handle_websocket_open, _authenticate_websocket_user.
  unfold bind at 1 2, lift_mem at 1, uuid4 at 1, ret at 1.
  cbv beta iota.
  unfold bind at 1, lift_mem at 1, uuid4 at 1. cbv beta iota.
  unfold bind at 1, modify at 1. cbv beta iota.
  unfold bind at 1, modify at 1. cbv beta iota.
  unfold bind at 1, modify at 1. cbv beta iota.
  unfold bind at 1, modify at 1. cbv beta iota.
  cbn [mem with_mem uuid_next user_id].
  set (id := uuid_next (mem e)).
  match goal with
  | |- try_except _ _ ?s = _ -> _ => set (e1 := s)
  end.
  assert (joining w id e1) as Hj.
  { pose proof (defaultdict_get_wf e w Hwf) as [Hnd Hlt].
    destruct Hwf as (I1 & I2 & I3 & I4). subst e1.
    split; [| split; [| split; [done |]]].
    - intros c conn. cbn. destruct (decide (c = N.succ id)) as [-> | Hne].
      + rewrite lookup_insert_eq. intros [= <-]. cbn. split; [done | lia].
      + rewrite lookup_insert_ne by done. intros Hs.
        destruct (I1 c conn Hs). split; [done |]. fold id. lia.
    - intros c. cbn. intros Hin.
      destruct (decide (c = N.succ id)) as [-> | Hne].
      + rewrite lookup_insert_eq. eexists. split; [done |]. by right.
      + rewrite lookup_insert_ne by done.
        apply elem_of_union in Hin as [Hin | Hin];
          [by apply elem_of_singleton in Hin |].
        destruct (I2 c Hin) as (conn & Hs & Hp).
        exists conn. split; [done |]. by left.
    - intros w' l. cbn. rewrite lookup_alter_touch.
      destruct (decide _) as [-> | Hne].
      + intros [= <-]. split.
        * apply NoDup_app. split; [done |]. split; [| apply NoDup_singleton].
          intros c Hin Hc. apply list_elem_of_singleton in Hc as ->.
          specialize (Hlt _ Hin). fold id in Hlt. lia.
        * intros c Hin. apply elem_of_app in Hin as [Hin | Hin].
          -- specialize (Hlt _ Hin). fold id in Hlt. lia.
          -- apply list_elem_of_singleton in Hin as ->. lia.
      + intros Hl. destruct (I4 w' l Hl) as [Hnd' Hlt']. split; [done |].
        intros c Hin. specialize (Hlt' c Hin). fold id in Hlt'. lia. }
  clearbody e1.
  unfold try_except. unfold bind at 1, get at 1. cbv beta iota.
  assert (exists e2,
            match workspaces e1 !! w with
            | Some _ => ret tt
            | None => _initialize_workspace env w
            end e1 = (e2, inr tt) /\
            joining w id e2 /\ is_Some (workspaces e2 !! w))
    as (e2 & H2 & Hj2 & Hws2).
  { destruct (workspaces e1 !! w) as [ws |] eqn:Hw1.
    - exists e1. split; [done |]. split; [done |]. rewrite Hw1. by eexists.
    - by apply joining_initialize. }
  unfold bind at 1. rewrite H2.
  destruct (joining_add_user env w (mkUser id "testuser") e2 Hj2 Hws2)
    as (e3 & H3 & Hwf3 & Hws3).
  unfold bind at 1. rewrite H3.
  destruct (joining_send_initial_state env (N.succ id) w e3 Hwf3 Hws3)
    as (e4 & H4 & Hwf4).
  unfold bind at 1. rewrite H4.
  match goal with
  | |- context [bind ?c ?k e4] => destruct (bind c k e4) as [e5 r5] eqn:H5
  end.
  assert (r5 = inr tt) as ->.
  { eapply no_raise_unit; [| exact H5]. unfold _broadcast_user_joined.
    repeat no_raise_step; [apply no_raise_broadcast | apply no_raise_logger]. }
  intros [= <- _]. revert Hwf4.
  eapply (preserves_apply keeps_wf); [| exact H5].
  unfold _broadcast_user_joined.
  repeat wf_step;
    first [ apply wf_broadcast | by apply wf_simple | apply wf_logger ].
Qed.

Lemma wf_handler env ev : preserves keeps_wf (handler env ev).
Proof.
  destruct ev as [w' | conn_id text | conn_id | | | | u' n | u' n | u' n];
    cbn [handler].
  - apply wf_open.
  - unfold handle_websocket_message, _handle_collaboration_message.
    repeat wf_step;
      first [ apply wf_logger | apply wf_handle_operation
            | apply wf_cursor_move | apply wf_send_json ].
  - intros e e' r H Hwf. revert H. unfold bind at 1, get at 1.
    cbv beta iota. destruct (sockets e !! conn_id) as [conn |];
      [| by intros [= <- _]].
    unfold handle_websocket_close, bind, modify.
    destruct (_cleanup_connection env conn_id e) as [e1 r1] eqn:Hc.
    apply wf_cleanup in Hc as [Hwf1 Hout]; [| done].
    destruct r1 as [x | []]; intros [= <- _]; [done |].
    destruct Hwf1 as (I1 & I2 & I3 & I4).
    split; [| split; [| done]].
    + intros c conn'. cbn. intros Hs.
      apply lookup_delete_Some in Hs as [_ Hs]. by apply I1.
    + intros c Hin. cbn in Hin. destruct (I2 c Hin) as (conn' & Hs & Hp).
      exists conn'. split; [| done]. cbn. rewrite lookup_delete_ne; [done |].
      by intros ->.
  - unfold _cleanup_inactive_connections.
    repeat wf_step. intros e e' r H Hwf. by apply wf_cleanup in H as [? _].
  - unfold _heartbeat_monitor.
    repeat wf_step. apply wf_io, io_only_ping.
  - unfold _sync_workspace_states, _save_workspace_state. repeat wf_step.
  - unfold broadcast_note_created, broadcast_to_collaborators.
    repeat wf_step. apply wf_broadcast.
  - unfold broadcast_note_updated, broadcast_to_collaborators.
    repeat wf_step. apply wf_broadcast.
  - unfold broadcast_update, broadcast_to_collaborators.
    repeat wf_step. apply wf_broadcast.
Qed.

Lemma well_formed_init : well_formed engine_init.
Proof.
  split; [| split; [| split]].
  - intros c conn Hs. cbn in Hs. by rewrite lookup_empty in Hs.
  - intros c Hin. cbn in Hin. by apply elem_of_empty in Hin.
  - intros w ws k p Hw. cbn in Hw. by rewrite lookup_empty in Hw.
  - intros w l Hl. cbn in Hl. by rewrite lookup_empty in Hl.
Qed.

Lemma reachable_well_formed e : reachable e -> well_formed e.
Proof.
  induction 1 as [| env ev e _ IH]; [apply well_formed_init |].
  unfold step. destruct (handler env ev e) as [e' r] eqn:H.
  by apply (wf_handler env ev e e' r).
Qed.

End WellFormed.
(** C6, as the code has it: in every state the engine can be in, when
    a registered connection closes and its user has no other
    connection left, the presence entry of the user is removed from
    the workspace of the connection, one [user_left] message for the
    user is sent to each connection of that workspace that is still
    registered and active (and to no other), and from then on,
    whatever happens, the snapshot built from that workspace for a
    joiner does not list the user. *)
Theorem presence_removed_on_last_close env e conn_id connection :
  reachable e ->
  connections_get e conn_id = Some connection ->
  list_remove_first conn_id
    (defaultdict_get (user_id (conn_user connection)) (user_connections e))
    = [] ->
  let u := user_id (conn_user connection) in
  let w := conn_workspace_id connection in
  let remaining :=
    List.filter (receives e)
      (list_remove_first conn_id
         (defaultdict_get w (workspace_connections e))) in
  let e' := step env (Close conn_id) e in
  presence_at e' w u = None /\
  sent e' = (sent e ++ ((fun c => (c, user_left u)) <$> remaining)) /\
  NoDup remaining /\ (conn_id ∉ remaining) /\
  forall evs ws',
    workspaces (run evs e') !! w = Some ws' ->
    u ∉ listed_users (initial_state_of ws').
Proof.
  intros Hreach Hconn Hlast u w remaining e'. subst u w remaining.
  pose proof (reachable_well_formed e Hreach) as Hwf.
  assert (sockets e !! conn_id = Some connection /\ conn_id ∈ connections e)
    as [Hsock Hreg].
  { unfold connections_get in Hconn. by destruct (decide _). }
  pose proof (defaultdict_get_wf e (conn_workspace_id connection) Hwf)
    as [Hnodup _].
  destruct Hwf as (I1 & I2 & I3 & _).
  assert (user_id (conn_user connection) < uuid_next (mem e))%N as Hfresh.
  { destruct (I1 conn_id connection Hsock). lia. }
  destruct (I2 conn_id Hreg) as (connection' & Hsock' & Hp).
  rewrite Hsock in Hsock'. injection Hsock' as <-.
  unfold presence_at in Hp.
  destruct (workspaces e !! conn_workspace_id connection) as [ws |] eqn:Hws;
    [| by destruct Hp].
  pose proof (fun k p => I3 _ ws k p Hws) as Hkeys.
  destruct (cleanup_last_connection env e conn_id connection ws
              Hconn Hlast Hws Hp Hnodup)
    as (e1 & Hrun & Hws1 & Hm1 & Hsent1).
  assert (e' = with_sockets (delete conn_id) e1) as He'.
  { subst e'. unfold step, handler, bind at 1, get. rewrite Hsock.
    unfold handle_websocket_close, bind. rewrite Hrun. done. }
  assert (absent (conn_workspace_id connection)
            (user_id (conn_user connection)) e') as Habs.
  { rewrite He'. split; [cbn; by rewrite Hm1 |].
    intros ws1 k p. cbn. rewrite Hws1. rewrite lookup_alter_eq, Hws.
    intros [= <-]. cbn.
    destruct (decide (k = user_id (conn_user connection))) as [-> | Hne];
      [by rewrite lookup_delete_eq |].
    rewrite lookup_delete_ne by done. intros Hk.
    split; [done |]. by rewrite (Hkeys k p Hk). }
  split.
  { rewrite He'. unfold presence_at. cbn. rewrite Hws1.
    rewrite lookup_alter_eq, Hws. cbn. apply lookup_delete_eq. }
  split; [by rewrite He' |].
  assert (NoDup (list_remove_first conn_id
                   (defaultdict_get (conn_workspace_id connection)
                      (workspace_connections e)))) as Hnd
    by (by apply list_remove_first_NoDup).
  split; [by apply NoDup_ListNoDup, List.NoDup_filter, NoDup_ListNoDup |].
  split.
  { intros Hin. apply list_elem_of_In, List.filter_In in Hin as [Hin _].
    apply list_elem_of_In in Hin.
    eapply list_remove_first_not_in; [exact Hnodup | exact Hin]. }
  intros evs ws' Hws'. eapply absent_not_listed; [| exact Hws'].
  by apply absent_run.
Qed.

Lemma presence_removed_on_last_close_witness :
  let e' := step calm (Close 1%N) two_clients in
  presence_at e' "w" 0%N = None /\
  sent e' = sent two_clients ++ [(3%N, user_left 0%N)] /\
  NoDup [3%N] /\ (1%N ∉ [3%N]) /\
  forall evs ws',
    workspaces (run evs e') !! "w"%string = Some ws' ->
    0%N ∉ listed_users (initial_state_of ws').
Proof.
  eapply (presence_removed_on_last_close calm two_clients 1%N
            (mkWebSocketConnection (mkUser 0%N "testuser") "w" 0 0 true)).
  - apply reachable_run, reachable_init.
  - vm_compute. reflexivity.
  - vm_compute. reflexivity.
Defined.

(** C6 as stated fails for a remaining connection that is marked
    inactive: with two clients in workspace ["w"], the second having
    failed its last ping, closing the first client's only connection
    removes its presence entry, the second connection is still
    registered in the workspace, and no [user_left] message is sent to
    it (nothing is sent at all). *)
Lemma inactive_connection_gets_no_user_left :
  let e := one_client_unreachable in
  let e' := step calm (Close 1%N) e in
  user_connections e !! 0%N = Some [1%N] /\
  presence_at e "w" 0%N <> None /\
  presence_at e' "w" 0%N = None /\
  workspace_connections e' !! "w"%string = Some [3%N] /\
  (3%N ∈ connections e') /\
  sent e' = sent e /\
  ((3%N, user_left 0%N) ∉ sent e').
Proof.
  cbv zeta.
  split; [by vm_compute |]. split; [by vm_compute |].
  split; [by vm_compute |]. split; [by vm_compute |].
  split; [compute_done |].
  assert (sent (step calm (Close 1%N) one_client_unreachable)
          = sent one_client_unreachable) as Hsent by (by vm_compute).
  split; [exact Hsent |].
  rewrite Hsent. vm_compute. intros Hin.
  repeat (apply elem_of_cons in Hin as [Hin | Hin]; [discriminate Hin |]).
  by apply elem_of_nil in Hin.
Qed.
End Handlers.
(** * Sessions: registry, counters and messages *)

Section Sessions.

Import OperationalTransform CollaborationEngine.

Implicit Types (e : Engine) (env : Env) (m : Heap).

(** ** Runs that keep the registry *)


Lemma conn_aged_refl c : conn_aged c c.
Proof. by repeat split. Qed.

Lemma conn_aged_trans c1 c2 c3 :
  conn_aged c1 c2 -> conn_aged c2 c3 -> conn_aged c1 c3.
Proof.
  intros (U1 & W1 & T1 & A1) (U2 & W2 & T2 & A2).
  repeat split; try congruence. intros H. by apply A1, A2.
Qed.

Lemma ws_kept_refl ws : ws_kept ws ws.
Proof. by repeat split. Qed.

Lemma ws_kept_trans w1 w2 w3 : ws_kept w1 w2 -> ws_kept w2 w3 -> ws_kept w1 w3.
Proof.
  intros (A1 & B1 & C1 & D1 & E1 & F1) (A2 & B2 & C2 & D2 & E2 & F2).
  repeat split; congruence.
Qed.

Lemma option_Forall2_same {A} (R : A -> A -> Prop) (o : option A) :
  (forall a, R a a) -> option_Forall2 R o o.
Proof. intros HR. destruct o; by constructor. Qed.

Lemma option_Forall2_chain {A} (R : A -> A -> Prop) (o1 o2 o3 : option A) :
  (forall a b c, R a b -> R b c -> R a c) ->
  option_Forall2 R o1 o2 -> option_Forall2 R o2 o3 -> option_Forall2 R o1 o3.
Proof.
  intros HR H1 H2. destruct H1; inversion H2; subst; constructor.
  by eapply HR.
Qed.

Lemma registry_kept_refl e : registry_kept e e.
Proof.
  repeat split; try done.
  - intros c. apply option_Forall2_same, conn_aged_refl.
  - intros w. apply option_Forall2_same, ws_kept_refl.
Qed.

Lemma registry_kept_trans e1 e2 e3 :
  registry_kept e1 e2 -> registry_kept e2 e3 -> registry_kept e1 e3.
Proof.
  intros (A1 & B1 & C1 & D1 & E1 & F1 & G1 & H1 & I1)
         (A2 & B2 & C2 & D2 & E2 & F2 & G2 & H2 & I2).
  repeat split; try congruence.
  - intros c. eapply option_Forall2_chain; [apply conn_aged_trans | |]; done.
  - intros w. eapply option_Forall2_chain; [apply ws_kept_trans | |]; done.
  - lia.
Qed.

Ltac rk_step := preserves_step registry_kept_refl registry_kept_trans.

(** A change of fields outside the registry. *)
Lemma rk_simple f :
  (forall e, connections (f e) = connections e) ->
  (forall e, user_connections (f e) = user_connections e) ->
  (forall e, workspace_connections (f e) = workspace_connections e) ->
  (forall e, sockets (f e) = sockets e) ->
  (forall e, workspaces (f e) = workspaces e) ->
  (forall e, total_connections (stats (f e)) = total_connections (stats e)) ->
  (forall e, active_workspaces (stats (f e)) = active_workspaces (stats e)) ->
  (forall e, conflicts_resolved (stats (f e)) = conflicts_resolved (stats e)) ->
  (forall e, mem (f e) = mem e) ->
  preserves registry_kept (modify f).
Proof.
  intros A B C D E F G H I. apply preserves_modify. intros e.
  repeat split; try done.
  - intros c. rewrite D. apply option_Forall2_same, conn_aged_refl.
  - intros w. rewrite E. apply option_Forall2_same, ws_kept_refl.
  - rewrite I. lia.
Qed.

Lemma rk_logger level text : preserves registry_kept (logger level text).
Proof. by apply rk_simple. Qed.

(** A change of one connection object. *)
Lemma rk_socket f conn_id :
  (forall c, conn_aged c (f c)) ->
  preserves registry_kept (modify (with_sockets (alter f conn_id))).
Proof.
  intros Hf. apply preserves_modify. intros e. repeat split; try done.
  - intros c. cbn. destruct (decide (c = conn_id)) as [-> | Hne].
    + rewrite lookup_alter_eq. destruct (sockets e !! conn_id); by constructor.
    + rewrite lookup_alter_ne by done.
      apply option_Forall2_same, conn_aged_refl.
  - intros w. apply option_Forall2_same, ws_kept_refl.
Qed.

Lemma rk_send_json env conn_id data :
  preserves registry_kept (send_json env conn_id data).
Proof.
  unfold send_json.
  repeat rk_step;
    first [ apply rk_logger | by apply rk_simple
          | apply rk_socket; intros c; by repeat split ].
Qed.

Lemma rk_ping env conn_id : preserves registry_kept (ping env conn_id).
Proof.
  unfold ping.
  repeat rk_step;
    first [ apply rk_logger | apply rk_socket; intros c; by repeat split ].
Qed.

Lemma rk_broadcast env w message exclude_user :
  preserves registry_kept (_broadcast_to_workspace env w message exclude_user).
Proof.
  unfold _broadcast_to_workspace, deliver.
  repeat rk_step; first [ apply rk_send_json | by apply rk_simple ].
Qed.

Lemma rk_lift {A} (c : M Heap A) :
  (forall m m' r, c m = (m', r) -> (uuid_next m <= uuid_next m')%N) ->
  preserves registry_kept (lift_mem c).
Proof.
  intros Hc e e' r. unfold lift_mem.
  destruct (c (mem e)) as [m' r'] eqn:E. intros [= <- _].
  apply Hc in E. repeat split; try done.
  - intros c0. apply option_Forall2_same, conn_aged_refl.
  - intros w. apply option_Forall2_same, ws_kept_refl.
Qed.

(** A change inside one workspace. *)
Lemma rk_alter w g :
  (forall ws, ws_kept ws (g ws)) ->
  preserves registry_kept (modify (with_workspaces (alter g w))).
Proof.
  intros Hg. apply preserves_modify. intros e. repeat split; try done.
  - intros c. apply option_Forall2_same, conn_aged_refl.
  - intros w'. cbn. destruct (decide (w' = w)) as [-> | Hne].
    + rewrite lookup_alter_eq. destruct (workspaces e !! w); by constructor.
    + rewrite lookup_alter_ne by done.
      apply option_Forall2_same, ws_kept_refl.
Qed.

Lemma rk_documents w f :
  preserves registry_kept
    (modify (with_workspaces (alter (set_documents f) w))).
Proof. apply rk_alter. intros ws. by repeat split. Qed.

Lemma rk_handle_operation env conn_id connection data :
  preserves registry_kept (_handle_operation env conn_id connection data).
Proof.
  unfold _handle_operation, getitem, workspaces_getitem,
    _apply_operational_transformation, document_get, workspaces_getitem,
    rebase_against, _broadcast_operation, _save_document_state,
    document_update.
  repeat rk_step;
    first [ apply rk_logger | apply rk_broadcast | by apply rk_simple
          | apply rk_documents
          | apply rk_lift; intros m m' r; apply deref_uuid
          | apply rk_lift; intros m m' r; apply new_Operation_uuid
          | apply rk_lift; intros m m' r; apply transform_operation_uuid ].
Qed.

Lemma rk_cursor_move env conn_id connection data :
  preserves registry_kept (_handle_cursor_move env conn_id connection data).
Proof.
  unfold _handle_cursor_move, workspaces_getitem.
  repeat rk_step; [| apply rk_broadcast].
  apply rk_alter. intros ws. repeat split. cbn. by rewrite dom_alter_L.
Qed.

Lemma rk_message env conn_id connection text :
  preserves registry_kept
    (handle_websocket_message env conn_id connection text).
Proof.
  unfold handle_websocket_message, _handle_collaboration_message.
  repeat rk_step;
    first [ apply rk_logger | apply rk_handle_operation
          | apply rk_cursor_move | apply rk_send_json ].
Qed.

Lemma rk_heartbeat env : preserves registry_kept (_heartbeat_monitor env).
Proof. unfold _heartbeat_monitor. repeat rk_step. apply rk_ping. Qed.

Lemma rk_sync : preserves registry_kept _sync_workspace_states.
Proof. unfold _sync_workspace_states, _save_workspace_state. repeat rk_step. Qed.

Lemma rk_collaborators env user message :
  preserves registry_kept (broadcast_to_collaborators env user message).
Proof.
  unfold broadcast_to_collaborators. repeat rk_step. apply rk_broadcast.
Qed.

Lemma rk_sockets_forth e e' c conn :
  registry_kept e e' -> sockets e !! c = Some conn ->
  exists conn', sockets e' !! c = Some conn' /\ conn_aged conn conn'.
Proof.
  intros (_ & _ & _ & Hs & _) Hc. specialize (Hs c). rewrite Hc in Hs.
  inversion Hs; subst. by eexists.
Qed.

Lemma rk_sockets_back e e' c conn' :
  registry_kept e e' -> sockets e' !! c = Some conn' ->
  exists conn, sockets e !! c = Some conn /\ conn_aged conn conn'.
Proof.
  intros (_ & _ & _ & Hs & _) Hc. specialize (Hs c). rewrite Hc in Hs.
  inversion Hs; subst. by eexists.
Qed.

Lemma rk_connections_get_forth e e' c conn :
  registry_kept e e' -> connections_get e c = Some conn ->
  exists conn', connections_get e' c = Some conn' /\ conn_aged conn conn'.
Proof.
  intros Hrk. pose proof Hrk as (Hc & _). unfold connections_get.
  rewrite Hc. destruct (decide _); [| done]. by apply rk_sockets_forth.
Qed.

Lemma rk_connections_get_back e e' c conn' :
  registry_kept e e' -> connections_get e' c = Some conn' ->
  exists conn, connections_get e c = Some conn /\ conn_aged conn conn'.
Proof.
  intros Hrk. pose proof Hrk as (Hc & _). unfold connections_get.
  rewrite Hc. destruct (decide _); [| done]. by apply rk_sockets_back.
Qed.

Lemma rk_workspaces e e' w :
  registry_kept e e' ->
  is_Some (workspaces e' !! w) <-> is_Some (workspaces e !! w).
Proof.
  intros (_ & _ & _ & _ & Hw & _). specialize (Hw w).
  inversion Hw; split; intros [? ?]; by (eexists || congruence).
Qed.

Lemma rk_presence e e' w u :
  registry_kept e e' ->
  is_Some (presence_at e' w u) <-> is_Some (presence_at e w u).
Proof.
  intros (_ & _ & _ & _ & Hw & _). specialize (Hw w). unfold presence_at.
  inversion Hw as [ws ws' Hk |]; [| done].
  destruct Hk as (_ & _ & _ & _ & _ & Hd).
  rewrite <- !elem_of_dom. by rewrite Hd.
Qed.

Lemma rk_size e e' :
  registry_kept e e' -> size (workspaces e') = size (workspaces e).
Proof.
  intros Hrk. rewrite <- !size_dom. f_equal. apply set_eq. intros w.
  rewrite !elem_of_dom. by apply rk_workspaces.
Qed.

Lemma indexed_kept e e' : registry_kept e e' -> indexed e -> indexed e'.
Proof.
  intros Hrk (X1 & X2 & X3 & X4).
  pose proof Hrk as (_ & Hu & Hw & _). rewrite <- Hu in *. rewrite <- Hw in *.
  repeat split; try done.
  - intros Hin. apply X1 in Hin as (conn & Hc & Hws).
    destruct (rk_connections_get_forth _ _ _ _ Hrk Hc)
      as (conn' & Hc' & (_ & Hw' & _)).
    exists conn'. split; [done | congruence].
  - intros (conn' & Hc' & Hws). apply X1.
    destruct (rk_connections_get_back _ _ _ _ Hrk Hc')
      as (conn & Hc & (_ & Hw' & _)).
    exists conn. split; [done | congruence].
  - intros Hin. apply X2 in Hin as (conn & Hc & Hus).
    destruct (rk_connections_get_forth _ _ _ _ Hrk Hc)
      as (conn' & Hc' & (Hu' & _)).
    exists conn'. split; [done | congruence].
  - intros (conn' & Hc' & Hus). apply X2.
    destruct (rk_connections_get_back _ _ _ _ Hrk Hc')
      as (conn & Hc & (Hu' & _)).
    exists conn. split; [done | congruence].
Qed.

Lemma consistent_kept e e' : registry_kept e e' -> consistent e -> consistent e'.
Proof.
  intros Hrk (X & F3 & F4 & F5 & F6 & F7 & F10).
  pose proof Hrk as (Hc & Hu & Hw & Hs & Hws & Ht & Ha & Hcr & Hn).
  split; [by eapply indexed_kept |].
  split; [intros u Hsome; rewrite Hu in Hsome; specialize (F3 u Hsome); lia |].
  split; [by rewrite Hu, Ht |].
  split; [by rewrite (rk_size e e'), Ha |].
  split; [by rewrite Hcr |].
  split.
  - intros c conn' Hc'.
    destruct (rk_sockets_back _ _ _ _ Hrk Hc') as (conn & Hc0 & (_ & Hw' & _)).
    rewrite Hw'. apply (rk_workspaces e e'); [done |]. by eapply F7.
  - intros w u Hp. apply (rk_presence e e') in Hp; [| done].
    destruct (F10 w u Hp) as (c & conn & Hc0 & Hus & Hwk).
    destruct (rk_connections_get_forth _ _ _ _ Hrk Hc0)
      as (conn' & Hc' & (Hu' & Hw' & _)).
    exists c, conn'. split; [done |]. split; congruence.
Qed.


Lemma bind_ok {S A B} (c : M S A) (k : A -> M S B) s s' a :
  c s = (s', inr a) -> bind c k s = k a s'.
Proof. intros H. unfold bind. by rewrite H. Qed.

Lemma send_initial_state_run env c w e ws :
  workspaces e !! w = Some ws ->
  _send_initial_state env c w e = send_json env c (initial_state_of ws) e.
Proof.
  intros Hws. unfold _send_initial_state, workspaces_getitem.
  unfold bind at 1 2, get. cbv beta iota. by rewrite Hws.
Qed.

(** [handle_websocket] up to its message loop never fails: the
    workspace is there when the user is added and the snapshot built. *)
Lemma open_run env w e :
  let u := uuid_next (mem e) in
  let c := N.succ u in
  exists ws e3 e4,
    workspaces (joined env w e) !! w = Some ws /\
    send_json env c (initial_state_of ws) (joined env w e) = (e3, inr tt) /\
    _broadcast_user_joined env w (mkUser u "testuser") e3 = (e4, inr tt) /\
    handle_websocket_open env w e
    = (with_log
         (fun l => l ++ [(INFO, "User connected to workspace"%string)])
         (with_stats (fun s =>
            mkStats (total_connections s + 1) (active_workspaces s)
              (operations_processed s) (conflicts_resolved s)
              (messages_sent s)) e4),
       inr tt).
Proof.
  intros u c.
  assert (exists ws, workspaces (joined env w e) !! w = Some ws) as [ws Hws].
  { unfold joined. cbv zeta. destruct (workspaces e !! w) as [ws0 |] eqn:Hw.
    - cbn. rewrite lookup_alter_eq, Hw. by eexists.
    - cbn. rewrite lookup_alter_eq, lookup_insert_eq. by eexists. }
  destruct (send_json env c (initial_state_of ws) (joined env w e))
    as [e3 r3] eqn:H3.
  pose proof (no_raise_unit _ _ _ _ (no_raise_send_json env c _) H3) as ->.
  destruct (_broadcast_user_joined env w (mkUser u "testuser") e3)
    as [e4 r4] eqn:H4.
  assert (r4 = inr tt) as ->.
  { eapply no_raise_unit; [| exact H4]. apply no_raise_broadcast. }
  exists ws, e3, e4. split; [done |]. split; [done |]. split; [done |].
  unfold handle_websocket_open, _authenticate_websocket_user.
  unfold bind at 1 2, lift_mem at 1, uuid4 at 1, ret at 1. cbv beta iota.
  unfold bind at 1, lift_mem at 1, uuid4 at 1. cbv beta iota.
  unfold bind at 1, modify at 1. cbv beta iota.
  unfold bind at 1, modify at 1. cbv beta iota.
  unfold bind at 1, modify at 1. cbv beta iota.
  unfold bind at 1, modify at 1. cbv beta iota.
  cbn [mem with_mem uuid_next user_id].
  unfold try_except.
  match goal with
  | |- (let (_, _) := ?body ?s in _) = (?final, _) =>
      assert (body s = (final, inr tt)) as ->; [| done]
  end.
  unfold bind at 1, get at 1. cbv beta iota. cbn [workspaces with_workspace_connections with_user_connections with_connections with_sockets with_mem].
  destruct (workspaces e !! w) as [ws0 |] eqn:Hw.
  - unfold bind at 1, ret at 1. cbv beta iota.
    erewrite bind_ok.
    2:{ unfold _add_user_to_workspace, workspaces_getitem.
        unfold bind at 1 2, get at 1. cbv beta iota.
        cbn [workspaces with_workspace_connections with_user_connections
               with_connections with_sockets with_mem].
        rewrite Hw. reflexivity. }
    match goal with
    | |- bind _ _ ?T = _ =>
        replace T with (joined env w e)
          by (unfold joined; cbv zeta; rewrite Hw; reflexivity)
    end.
    rewrite (bind_ok _ _ _ e3 tt)
      by (by rewrite (send_initial_state_run _ _ _ _ ws)).
    rewrite (bind_ok _ _ _ e4 tt) by done.
    reflexivity.
  - erewrite bind_ok; [| reflexivity].
    erewrite bind_ok.
    2:{ unfold _add_user_to_workspace, workspaces_getitem.
        unfold bind at 1 2, get at 1. cbv beta iota.
        cbn [workspaces with_workspace_connections with_user_connections
               with_connections with_sockets with_mem with_stats with_log
               with_workspaces].
        rewrite lookup_insert_eq. reflexivity. }
    match goal with
    | |- bind _ _ ?T = _ =>
        replace T with (joined env w e)
          by (unfold joined; cbv zeta; rewrite Hw; reflexivity)
    end.
    rewrite (bind_ok _ _ _ e3 tt)
      by (by rewrite (send_initial_state_run _ _ _ _ ws)).
    rewrite (bind_ok _ _ _ e4 tt) by done.
    reflexivity.
Qed.
Lemma connections_get_Some e c conn :
  connections_get e c = Some conn <->
  c ∈ connections e /\ sockets e !! c = Some conn.
Proof.
  unfold connections_get.
  destruct (decide (c ∈ connections e)) as [Hin | Hin].
  - split; [by intros ? | by intros [_ ?]].
  - split; [done | by intros [? _]].
Qed.

(** With the mock authentication every connection has a user of its
    own: the index of a connected user lists that connection only. *)
Lemma user_has_one_connection e c conn :
  well_formed e -> indexed e -> connections_get e c = Some conn ->
  defaultdict_get (user_id (conn_user conn)) (user_connections e) = [c].
Proof.
  intros (I1 & _) (_ & X2 & _ & X4) Hc.
  set (u := user_id (conn_user conn)).
  assert (forall c', c' ∈ defaultdict_get u (user_connections e) -> c' = c)
    as Hall.
  { intros c' Hin. apply X2 in Hin as (conn' & Hc' & Hu).
    apply connections_get_Some in Hc as [_ Hs].
    apply connections_get_Some in Hc' as [_ Hs'].
    destruct (I1 _ _ Hs) as [-> _]. destruct (I1 _ _ Hs') as [-> _].
    by rewrite Hu. }
  assert (c ∈ defaultdict_get u (user_connections e)) as Hin
    by (apply X2; by exists conn).
  specialize (X4 u).
  destruct (defaultdict_get u (user_connections e)) as [| x l];
    [by apply elem_of_nil in Hin |].
  assert (x = c) as -> by (apply Hall; by left).
  destruct l as [| y l]; [done |].
  assert (y = c) as -> by (apply Hall; right; by left).
  apply NoDup_cons in X4 as [Hnot _]. exfalso. apply Hnot. by left.
Qed.

Lemma cleanup_unregistered env c e :
  connections_get e c = None -> _cleanup_connection env c e = (e, inr tt).
Proof.
  intros Hc. unfold _cleanup_connection. unfold bind at 1, get at 1.
  cbv beta iota. by rewrite Hc.
Qed.

(** The run of [_cleanup_connection] on a registered connection. *)
Lemma cleanup_run env c conn e :
  well_formed e -> consistent e -> connections_get e c = Some conn ->
  let u := user_id (conn_user conn) in
  let w := conn_workspace_id conn in
  exists e5,
    _broadcast_to_workspace env w (user_left u) None (departed c u w e)
      = (e5, inr tt) /\
    _cleanup_connection env c e
      = (with_log (fun l => l ++ [(INFO, "Connection cleaned up"%string)]) e5,
         inr tt).
Proof.
  intros Hwf Hcons Hc u w.
  pose proof (user_has_one_connection e c conn Hwf (proj1 Hcons) Hc) as Hone.
  fold u in Hone.
  destruct Hwf as (I1 & I2 & _).
  destruct Hcons as (_ & _ & _ & _ & _ & F7 & _).
  pose proof Hc as Hc'. apply connections_get_Some in Hc' as [Hin Hs].
  destruct (I2 c Hin) as (conn' & Hs' & Hp).
  rewrite Hs in Hs'. injection Hs' as <-. fold u w in Hp.
  unfold presence_at in Hp.
  destruct (workspaces e !! w) as [ws |] eqn:Hws; [| by destruct Hp].
  destruct Hp as [p Hp].
  destruct (_broadcast_to_workspace env w (user_left u) None
              (departed c u w e)) as [e5 r5] eqn:Hb.
  pose proof (no_raise_unit _ _ _ _
                (no_raise_broadcast env w (user_left u) None) Hb) as ->.
  exists e5. split; [done |].
  unfold _cleanup_connection. unfold bind at 1, get at 1. cbv beta iota.
  rewrite Hc. fold u w. cbv zeta.
  unfold bind at 1, modify at 1. cbv beta iota.
  unfold bind at 1, modify at 1. cbv beta iota.
  unfold bind at 1, modify at 1. cbv beta iota.
  unfold bind at 1, get at 1. cbv beta iota.
  cbn [user_connections workspaces with_workspace_connections
         with_user_connections with_connections].
  rewrite defaultdict_get_alter, Hone. cbn [list_remove_first].
  destruct (decide (c = c)); [| done].
  rewrite Hws, Hp.
  erewrite bind_ok.
  2:{ erewrite bind_ok; [| reflexivity]. exact Hb. }
  reflexivity.
Qed.

Lemma unregistered_connections_get c u w e c' :
  connections_get (unregistered c u w e) c'
  = if decide (c' = c) then None else connections_get e c'.
Proof.
  unfold connections_get, unregistered. cbn.
  destruct (decide (c' = c)) as [-> | Hne].
  - destruct (decide _) as [Hin | _]; [| done].
    apply elem_of_difference in Hin as [_ Hin].
    exfalso. by apply Hin, elem_of_singleton.
  - destruct (decide (c' ∈ connections e ∖ {[c]})) as [Hin | Hin],
      (decide (c' ∈ connections e)) as [Hin' | Hin']; try done.
    + exfalso. apply Hin'. by apply elem_of_difference in Hin as [? _].
    + exfalso. apply Hin. apply elem_of_difference. split; [done |].
      by apply not_elem_of_singleton.
Qed.

Lemma defaultdict_get_alter_ne `{Countable K} (k k' : K) f
    (d : gmap K (list uuid)) :
  k' <> k ->
  defaultdict_get k' (alter f k (defaultdict_touch k d)) = defaultdict_get k' d.
Proof.
  intros Hne. unfold defaultdict_get, defaultdict_touch.
  rewrite lookup_alter_ne by done.
  destruct (d !! k) as [l |] eqn:Hk; [done |].
  by rewrite lookup_insert_ne.
Qed.

Lemma elem_of_list_remove_first c c' (l : list uuid) :
  NoDup l -> c' ∈ list_remove_first c l <-> c' ∈ l /\ c' <> c.
Proof.
  intros Hnd. split.
  - intros Hin. split; [by apply (list_remove_first_subseteq c) |].
    intros ->. by eapply list_remove_first_not_in.
  - intros [Hin Hne]. induction l as [| y l IH]; simpl; [done |].
    apply NoDup_cons in Hnd as [_ Hnd].
    destruct (decide (c = y)) as [-> | Hcy].
    + apply elem_of_cons in Hin as [-> | Hin]; done.
    + apply elem_of_cons in Hin as [-> | Hin]; [by left |].
      right. by apply IH.
Qed.

Lemma indexed_unregistered e c conn :
  indexed e -> connections_get e c = Some conn ->
  indexed (unregistered c (user_id (conn_user conn))
             (conn_workspace_id conn) e).
Proof.
  intros (X1 & X2 & X3 & X4) Hc.
  set (u := user_id (conn_user conn)). set (w := conn_workspace_id conn).
  assert (forall w',
            defaultdict_get w' (workspace_connections (unregistered c u w e))
            = if decide (w' = w)
              then list_remove_first c
                     (defaultdict_get w (workspace_connections e))
              else defaultdict_get w' (workspace_connections e)) as Hwl.
  { intros w'. unfold unregistered. cbn. destruct (decide (w' = w)) as [-> |].
    - apply defaultdict_get_alter.
    - by apply defaultdict_get_alter_ne. }
  assert (forall u',
            defaultdict_get u' (user_connections (unregistered c u w e))
            = if decide (u' = u)
              then list_remove_first c
                     (defaultdict_get u (user_connections e))
              else defaultdict_get u' (user_connections e)) as Hul.
  { intros u'. unfold unregistered. cbn. destruct (decide (u' = u)) as [-> |].
    - apply defaultdict_get_alter.
    - by apply defaultdict_get_alter_ne. }
  split; [| split; [| split]].
  - intros w' c'. rewrite Hwl, unregistered_connections_get.
    destruct (decide (c' = c)) as [-> | Hne].
    + split; [| by intros (? & ? & _)].
      destruct (decide (w' = w)) as [-> | Hw'].
      * intros Hin. exfalso.
        eapply list_remove_first_not_in; [apply (X3 w) | exact Hin].
      * intros Hin. apply X1 in Hin as (conn' & Hc' & Hws).
        rewrite Hc in Hc'. injection Hc' as <-. done.
    + destruct (decide (w' = w)) as [-> | Hw']; [| apply X1].
      rewrite elem_of_list_remove_first by done. rewrite X1. tauto.
  - intros u' c'. rewrite Hul, unregistered_connections_get.
    destruct (decide (c' = c)) as [-> | Hne].
    + split; [| by intros (? & ? & _)].
      destruct (decide (u' = u)) as [-> | Hu'].
      * intros Hin. exfalso.
        eapply list_remove_first_not_in; [apply (X4 u) | exact Hin].
      * intros Hin. apply X2 in Hin as (conn' & Hc' & Hus).
        rewrite Hc in Hc'. injection Hc' as <-. done.
    + destruct (decide (u' = u)) as [-> | Hu']; [| apply X2].
      rewrite elem_of_list_remove_first by done. rewrite X2. tauto.
  - intros w'. rewrite Hwl. destruct (decide _); [| done].
    by apply list_remove_first_NoDup.
  - intros u'. rewrite Hul. destruct (decide _); [| done].
    by apply list_remove_first_NoDup.
Qed.


Lemma indexed_with_workspaces f e : indexed e -> indexed (with_workspaces f e).
Proof. done. Qed.

Lemma size_alter `{Countable K} {A} (f : A -> A) (k : K) (d : gmap K A) :
  size (alter f k d) = size d.
Proof. by rewrite <- !size_dom, dom_alter_L. Qed.

Lemma defaultdict_touch_present `{Countable K} (k : K)
    (d : gmap K (list uuid)) :
  is_Some (d !! k) -> defaultdict_touch k d = d.
Proof. intros [l Hl]. unfold defaultdict_touch. by rewrite Hl. Qed.

Lemma defaultdict_get_present `{Countable K} (k : K) (d : gmap K (list uuid))
    x :
  x ∈ defaultdict_get k d -> is_Some (d !! k).
Proof.
  unfold defaultdict_get. destruct (d !! k); [by eexists |].
  intros Hin. by apply elem_of_nil in Hin.
Qed.

Lemma consistent_departed e c conn :
  well_formed e -> consistent e -> connections_get e c = Some conn ->
  consistent (departed c (user_id (conn_user conn))
                (conn_workspace_id conn) e).
Proof.
  intros Hwf Hcons Hc.
  pose proof (user_has_one_connection e c conn Hwf (proj1 Hcons) Hc) as Hone.
  destruct Hwf as (I1 & I2 & I3 & I4).
  destruct Hcons as (X & F3 & F4 & F5 & F6 & F7 & F10).
  set (u := user_id (conn_user conn)) in *.
  set (w := conn_workspace_id conn) in *.
  pose proof Hc as Hc'. apply connections_get_Some in Hc' as [Hin Hs].
  destruct (I1 _ _ Hs) as [Hsucc Hlt]. fold u in Hsucc.
  assert (is_Some (user_connections e !! u)) as Hkey.
  { apply (defaultdict_get_present _ _ c). rewrite Hone. by left. }
  split; [by apply indexed_with_workspaces, indexed_unregistered |].
  split.
  { intros u'. cbn. rewrite defaultdict_touch_present by done.
    destruct (decide (u' = u)) as [-> | Hne]; [intros _; lia |].
    rewrite lookup_alter_ne by done. apply F3. }
  split.
  { cbn. rewrite defaultdict_touch_present by done.
    by rewrite size_alter. }
  split; [cbn; by rewrite size_alter |].
  split; [done |].
  split.
  { intros c' conn' Hs'. cbn in *.
    destruct (decide (conn_workspace_id conn' = w)) as [-> | Hne].
    - rewrite lookup_alter_eq. destruct (F7 _ _ Hs) as [ws Hws].
      fold w in Hws. rewrite Hws. by eexists.
    - rewrite lookup_alter_ne by done. by eapply F7. }
  intros w' u' Hp.
  assert (is_Some (presence_at e w' u') /\ (w', u') <> (w, u)) as [Hp' Hne].
  { unfold presence_at in *. cbn in Hp.
    destruct (decide (w' = w)) as [-> | Hw'].
    - rewrite lookup_alter_eq in Hp.
      destruct (workspaces e !! w) as [ws |]; [| by destruct Hp].
      cbn in Hp. destruct (decide (u' = u)) as [-> | Hu'].
      + rewrite lookup_delete_eq in Hp. by destruct Hp.
      + rewrite lookup_delete_ne in Hp by done. split; [done | congruence].
    - rewrite lookup_alter_ne in Hp by done. split; [done | congruence]. }
  destruct (F10 w' u' Hp') as (c' & conn' & Hc' & Hu' & Hw').
  exists c', conn'. split; [| done].
  change (connections_get (unregistered c u w e) c' = Some conn').
  rewrite unregistered_connections_get.
  destruct (decide (c' = c)) as [-> | Hcc]; [| done].
  rewrite Hc in Hc'. injection Hc' as <-.
  exfalso. apply Hne. by rewrite <- Hu', <- Hw'.
Qed.

Lemma cleanup_consistent env c e e' r :
  well_formed e -> consistent e ->
  _cleanup_connection env c e = (e', r) -> consistent e'.
Proof.
  intros Hwf Hcons.
  destruct (connections_get e c) as [conn |] eqn:Hc.
  - destruct (cleanup_run env c conn e Hwf Hcons Hc) as (e5 & Hb & ->).
    intros [= <- _].
    apply (consistent_kept
             (departed c (user_id (conn_user conn))
                (conn_workspace_id conn) e));
      [| by apply consistent_departed].
    eapply registry_kept_trans.
    + eapply (preserves_apply registry_kept); [apply rk_broadcast | exact Hb].
    + eapply (preserves_apply registry_kept); [apply rk_logger |].
      reflexivity.
  - rewrite cleanup_unregistered by done. by intros [= <- _].
Qed.


(** *** The projections of [joined] *)

Lemma joined_mem env w e :
  mem (joined env w e)
  = mkMem (objs (mem e)) (N.succ (N.succ (uuid_next (mem e)))).
Proof. unfold joined. cbv zeta. by destruct (workspaces e !! w). Qed.

Lemma joined_sockets env w e :
  sockets (joined env w e)
  = <[N.succ (uuid_next (mem e)) :=
        mkWebSocketConnection (mkUser (uuid_next (mem e)) "testuser") w
          (now env) (now env) true]> (sockets e).
Proof. unfold joined. cbv zeta. by destruct (workspaces e !! w). Qed.

Lemma joined_connections env w e :
  connections (joined env w e)
  = {[N.succ (uuid_next (mem e))]} ∪ connections e.
Proof. unfold joined. cbv zeta. by destruct (workspaces e !! w). Qed.

Lemma joined_user_connections env w e :
  user_connections (joined env w e)
  = alter (fun l => l ++ [N.succ (uuid_next (mem e))]) (uuid_next (mem e))
      (defaultdict_touch (uuid_next (mem e)) (user_connections e)).
Proof. unfold joined. cbv zeta. by destruct (workspaces e !! w). Qed.

Lemma joined_workspace_connections env w e :
  workspace_connections (joined env w e)
  = alter (fun l => l ++ [N.succ (uuid_next (mem e))]) w
      (defaultdict_touch w (workspace_connections e)).
Proof. unfold joined. cbv zeta. by destruct (workspaces e !! w). Qed.

Lemma joined_sent env w e : sent (joined env w e) = sent e.
Proof. unfold joined. cbv zeta. by destruct (workspaces e !! w). Qed.

Lemma joined_stats env w e :
  stats (joined env w e)
  = mkStats (total_connections (stats e))
      (active_workspaces (stats e)
       + match workspaces e !! w with Some _ => 0 | None => 1 end)
      (operations_processed (stats e)) (conflicts_resolved (stats e))
      (messages_sent (stats e)).
Proof.
  unfold joined. cbv zeta. destruct (workspaces e !! w); cbn.
  - destruct (stats e). cbn. f_equal. lia.
  - done.
Qed.

Lemma joined_workspaces_is_Some env w e w' :
  is_Some (workspaces (joined env w e) !! w')
  <-> w' = w \/ is_Some (workspaces e !! w').
Proof.
  unfold joined. cbv zeta.
  destruct (workspaces e !! w) as [ws |] eqn:Hw; cbn.
  - destruct (decide (w' = w)) as [-> | Hne].
    + rewrite lookup_alter_eq, Hw. split; [by left | by eexists].
    + rewrite lookup_alter_ne by done. split; [by right | by intros [? | ?]].
  - destruct (decide (w' = w)) as [-> | Hne].
    + rewrite lookup_alter_eq, lookup_insert_eq. split; [by left | by eexists].
    + rewrite lookup_alter_ne, lookup_insert_ne by done.
      split; [by right | by intros [? | ?]].
Qed.

Lemma joined_size env w e :
  Z.of_nat (size (workspaces (joined env w e)))
  = Z.of_nat (size (workspaces e)) + match workspaces e !! w with Some _ => 0 | None => 1 end.
Proof.
  unfold joined. cbv zeta.
  destruct (workspaces e !! w) as [ws |] eqn:Hw; cbn.
  - rewrite size_alter. lia.
  - rewrite size_alter, map_size_insert_None by done. lia.
Qed.

Lemma joined_presence env w e w' u' :
  presence_at (joined env w e) w' u'
  = if decide (w' = w) then
      if decide (u' = uuid_next (mem e))
      then Some (new_presence env (uuid_next (mem e)))
      else presence_at e w u'
    else presence_at e w' u'.
Proof.
  unfold joined, presence_at. cbv zeta.
  destruct (workspaces e !! w) as [ws |] eqn:Hw; cbn.
  - destruct (decide (w' = w)) as [-> | Hne].
    + rewrite lookup_alter_eq, Hw. cbn.
      destruct (decide (u' = uuid_next (mem e))) as [-> | Hu].
      * by rewrite lookup_insert_eq.
      * by rewrite lookup_insert_ne.
    + by rewrite lookup_alter_ne.
  - destruct (decide (w' = w)) as [-> | Hne].
    + rewrite lookup_alter_eq, lookup_insert_eq. cbn.
      destruct (decide (u' = uuid_next (mem e))) as [-> | Hu].
      * by rewrite lookup_insert_eq.
      * by rewrite lookup_insert_ne.
    + by rewrite lookup_alter_ne, lookup_insert_ne.
Qed.

Lemma joined_connections_get env w e c' :
  connections_get (joined env w e) c'
  = if decide (c' = N.succ (uuid_next (mem e)))
    then Some (mkWebSocketConnection (mkUser (uuid_next (mem e)) "testuser")
                 w (now env) (now env) true)
    else connections_get e c'.
Proof.
  unfold connections_get. rewrite joined_connections, joined_sockets.
  destruct (decide (c' = N.succ (uuid_next (mem e)))) as [-> | Hne].
  - rewrite lookup_insert_eq. destruct (decide _) as [_ | Hin]; [done |].
    exfalso. apply Hin, elem_of_union. left. by apply elem_of_singleton.
  - rewrite lookup_insert_ne by done.
    destruct (decide (c' ∈ {[N.succ (uuid_next (mem e))]} ∪ connections e))
      as [Hin | Hin], (decide (c' ∈ connections e)) as [Hin' | Hin'];
      try done.
    + apply elem_of_union in Hin as [Hin | Hin]; [| done].
      by apply elem_of_singleton in Hin.
    + exfalso. apply Hin, elem_of_union. by right.
Qed.

(** In a well-formed state no registered connection, and no
    connection object, has the next identifier or the one after. *)
Lemma fresh_connection e c conn :
  well_formed e -> sockets e !! c = Some conn ->
  (c < uuid_next (mem e))%N /\ (user_id (conn_user conn) < uuid_next (mem e))%N.
Proof. intros (I1 & _) Hs. destruct (I1 _ _ Hs). lia. Qed.

Lemma defaultdict_get_append `{Countable K} (k k' : K) x
    (d : gmap K (list uuid)) :
  defaultdict_get k' (alter (fun l => l ++ [x]) k (defaultdict_touch k d))
  = if decide (k' = k) then defaultdict_get k d ++ [x]
    else defaultdict_get k' d.
Proof.
  destruct (decide (k' = k)) as [-> | Hne].
  - apply (defaultdict_get_alter k (fun l => l ++ [x])).
  - by apply defaultdict_get_alter_ne.
Qed.

Lemma indexed_joined env w e :
  well_formed e -> indexed e -> indexed (joined env w e).
Proof.
  intros Hwf (X1 & X2 & X3 & X4).
  set (u := uuid_next (mem e)). set (c := N.succ u).
  assert (forall conn, connections_get e c = Some conn -> False) as Hfresh.
  { intros conn Hc. apply connections_get_Some in Hc as [_ Hs].
    destruct (fresh_connection e c conn Hwf Hs). subst c u. lia. }
  split; [| split; [| split]].
  - intros w' c'.
    rewrite joined_workspace_connections, defaultdict_get_append,
      joined_connections_get. fold u c.
    destruct (decide (c' = c)) as [-> | Hne].
    + destruct (decide (w' = w)) as [-> | Hw'].
      * split; [by eexists |]. intros _. apply elem_of_app. right. by left.
      * rewrite X1. split; [by intros (conn & Hc & _); destruct (Hfresh conn) |].
        by intros (conn & [= <-] & Hw).
    + destruct (decide (w' = w)) as [-> | Hw']; [| apply X1].
      rewrite elem_of_app, list_elem_of_singleton, X1. tauto.
  - intros u' c'.
    rewrite joined_user_connections, defaultdict_get_append,
      joined_connections_get. fold u c.
    destruct (decide (c' = c)) as [-> | Hne].
    + destruct (decide (u' = u)) as [-> | Hu'].
      * split; [by eexists |]. intros _. apply elem_of_app. right. by left.
      * rewrite X2. split; [by intros (conn & Hc & _); destruct (Hfresh conn) |].
        by intros (conn & [= <-] & Hw).
    + destruct (decide (u' = u)) as [-> | Hu']; [| apply X2].
      rewrite elem_of_app, list_elem_of_singleton, X2. tauto.
  - intros w'. rewrite joined_workspace_connections, defaultdict_get_append.
    fold u c. destruct (decide (w' = w)) as [-> | Hw']; [| apply X3].
    apply NoDup_app. split; [apply X3 |]. split; [| apply NoDup_singleton].
    intros c' Hin Hc'. apply list_elem_of_singleton in Hc' as ->.
    apply X1 in Hin as (conn & Hc & _). by destruct (Hfresh conn).
  - intros u'. rewrite joined_user_connections, defaultdict_get_append.
    fold u c. destruct (decide (u' = u)) as [-> | Hu']; [| apply X4].
    apply NoDup_app. split; [apply X4 |]. split; [| apply NoDup_singleton].
    intros c' Hin Hc'. apply list_elem_of_singleton in Hc' as ->.
    apply X2 in Hin as (conn & Hc & _). by destruct (Hfresh conn).
Qed.


Ltac simpl_stats :=
  cbn [with_mem with_sockets with_connections with_user_connections
         with_workspace_connections with_workspaces with_stats with_sent
         with_log mem sockets connections user_connections
         workspace_connections workspaces stats sent log
         total_connections active_workspaces operations_processed
         conflicts_resolved messages_sent].

(** The statistics update at the end of a successful connect. *)
Lemma consistent_joined env w e :
  well_formed e -> consistent e ->
  consistent
    (with_stats (fun s =>
       mkStats (total_connections s + 1) (active_workspaces s)
         (operations_processed s) (conflicts_resolved s)
         (messages_sent s)) (joined env w e)).
Proof.
  intros Hwf (X & F3 & F4 & F5 & F6 & F7 & F10).
  set (u := uuid_next (mem e)). set (c := N.succ u).
  assert (user_connections e !! u = None) as Hnew.
  { destruct (user_connections e !! u) eqn:Hu; [| done].
    assert (u < uuid_next (mem e))%N by (apply F3; by eexists).
    subst u. lia. }
  split; [by apply (indexed_joined env w e) |].
  split.
  { intros u'. simpl_stats.
    rewrite joined_user_connections, joined_mem. fold u.
    cbn. destruct (decide (u' = u)) as [-> | Hne]; [intros _; lia |].
    rewrite lookup_alter_ne by done. unfold defaultdict_touch. rewrite Hnew.
    rewrite lookup_insert_ne by done. intros Hs. specialize (F3 u' Hs).
    subst u. lia. }
  split.
  { simpl_stats. rewrite joined_user_connections, joined_stats. fold u. cbn.
    rewrite size_alter. unfold defaultdict_touch. rewrite Hnew.
    rewrite map_size_insert_None by done. lia. }
  split.
  { simpl_stats. rewrite joined_size, joined_stats. cbn. lia. }
  split; [simpl_stats; by rewrite joined_stats |].
  split.
  { intros c' conn'. simpl_stats. rewrite joined_sockets. fold u c.
    intros Hs. apply joined_workspaces_is_Some.
    destruct (decide (c' = c)) as [-> | Hne].
    - rewrite lookup_insert_eq in Hs. injection Hs as <-. by left.
    - rewrite lookup_insert_ne in Hs by done. right. by eapply F7. }
  intros w' u' Hp.
  change (is_Some (presence_at (joined env w e) w' u')) in Hp.
  cut (exists c0 conn,
         connections_get (joined env w e) c0 = Some conn /\
         user_id (conn_user conn) = u' /\ conn_workspace_id conn = w');
    [done |].
  rewrite joined_presence in Hp. fold u in Hp.
  assert (is_Some (presence_at e w' u') ->
          exists c0 conn,
            connections_get (joined env w e) c0 = Some conn /\
            user_id (conn_user conn) = u' /\ conn_workspace_id conn = w')
    as Hold.
  { intros Hp'. destruct (F10 w' u' Hp') as (c0 & conn & Hc0 & Hu0 & Hw0).
    exists c0, conn. split; [| done]. rewrite joined_connections_get.
    destruct (decide (c0 = N.succ (uuid_next (mem e)))) as [-> | _];
      [| done].
    apply connections_get_Some in Hc0 as [_ Hs].
    destruct (fresh_connection e _ conn Hwf Hs). lia. }
  destruct (decide (w' = w)) as [-> | Hw']; [| by apply Hold].
  destruct (decide (u' = u)) as [-> | Hu']; [| by apply Hold].
  exists c. eexists. rewrite joined_connections_get. fold u c.
  destruct (decide (c = c)); [| done]. by repeat split.
Qed.

Lemma rk_total_connections e e' :
  registry_kept e e' ->
  registry_kept
    (with_stats (fun s =>
       mkStats (total_connections s + 1) (active_workspaces s)
         (operations_processed s) (conflicts_resolved s)
         (messages_sent s)) e)
    (with_stats (fun s =>
       mkStats (total_connections s + 1) (active_workspaces s)
         (operations_processed s) (conflicts_resolved s)
         (messages_sent s)) e').
Proof.
  intros (A & B & C & D & E & F & G & H & I).
  repeat split; try done. simpl_stats. by rewrite F.
Qed.

Lemma open_consistent env w e e' r :
  well_formed e -> consistent e ->
  handle_websocket_open env w e = (e', r) -> consistent e'.
Proof.
  intros Hwf Hcons.
  destruct (open_run env w e) as (ws & e3 & e4 & Hws & H3 & H4 & ->).
  intros [= <- _].
  eapply consistent_kept; [| by apply (consistent_joined env w e)].
  eapply registry_kept_trans;
    [| eapply (preserves_apply registry_kept);
       [apply rk_logger | reflexivity]].
  apply rk_total_connections.
  eapply registry_kept_trans.
  - eapply (preserves_apply registry_kept); [apply rk_send_json | exact H3].
  - eapply (preserves_apply registry_kept); [apply rk_broadcast | exact H4].
Qed.

Lemma handler_consistent env ev e e' r :
  well_formed e -> consistent e ->
  handler env ev e = (e', r) -> consistent e'.
Proof.
  intros Hwf Hcons.
  destruct ev as [w | conn_id text | conn_id | | | | u n | u n | u n];
    cbn [handler].
  - by apply open_consistent.
  - intros H. eapply consistent_kept; [| exact Hcons].
    eapply (preserves_apply registry_kept); [| exact H].
    repeat rk_step. apply rk_message.
  - unfold bind at 1, get at 1. cbv beta iota.
    destruct (sockets e !! conn_id) as [conn |]; [| by intros [= <- _]].
    unfold handle_websocket_close, bind, modify.
    destruct (_cleanup_connection env conn_id e) as [e1 r1] eqn:Hc.
    pose proof (wf_cleanup _ _ _ _ _ Hc Hwf) as [_ Hout].
    apply cleanup_consistent in Hc; [| done | done].
    destruct r1 as [x | []]; intros [= <- _]; [done |].
    destruct Hc as (X & F3 & F4 & F5 & F6 & F7 & F10).
    assert (forall c, connections_get (with_sockets (delete conn_id) e1) c
                      = connections_get e1 c) as Hget.
    { intros c. unfold connections_get. cbn.
      destruct (decide _) as [Hin |]; [| done].
      rewrite lookup_delete_ne; [done |]. by intros ->. }
    split; [| split; [done |]; split; [done |]; split; [done |];
              split; [done |]; split].
    + destruct X as (X1 & X2 & X3 & X4).
      split; [| split; [| by split]].
      * intros w c. rewrite Hget. apply X1.
      * intros u c. rewrite Hget. apply X2.
    + intros c conn'. cbn. intros Hs.
      apply lookup_delete_Some in Hs as [_ Hs]. by eapply F7.
    + intros w u Hp. destruct (F10 w u Hp) as (c & conn' & Hc & Hu & Hw).
      exists c, conn'. by rewrite Hget.
  - unfold _cleanup_inactive_connections, bind, get.
    generalize (List.filter
                  (fun conn_id =>
                     match sockets e !! conn_id with
                     | Some connection =>
                         timedelta_minutes 5
                         <? now env - conn_last_ping connection
                     | None => false
                     end) (elements (connections e))).
    intros l. revert e Hwf Hcons. induction l as [| c l IH]; intros e Hwf Hcons.
    + by intros [= <- _].
    + simpl. unfold bind.
      destruct (_cleanup_connection env c e) as [e1 r1] eqn:Hc.
      pose proof (wf_cleanup _ _ _ _ _ Hc Hwf) as [Hwf1 _].
      apply cleanup_consistent in Hc; [| done | done].
      destruct r1 as [x | []]; [by intros [= <- _] |].
      by apply IH.
  - intros H. eapply consistent_kept; [| exact Hcons].
    eapply (preserves_apply registry_kept); [apply rk_heartbeat | exact H].
  - intros H. eapply consistent_kept; [| exact Hcons].
    eapply (preserves_apply registry_kept); [apply rk_sync | exact H].
  - intros H. eapply consistent_kept; [| exact Hcons].
    eapply (preserves_apply registry_kept); [apply rk_collaborators | exact H].
  - intros H. eapply consistent_kept; [| exact Hcons].
    eapply (preserves_apply registry_kept); [apply rk_collaborators | exact H].
  - intros H. eapply consistent_kept; [| exact Hcons].
    eapply (preserves_apply registry_kept); [apply rk_collaborators | exact H].
Qed.

Lemma consistent_init : consistent engine_init.
Proof.
  split; [| split; [| split; [| split; [| split; [| split]]]]]; try done.
  - split; [| split; [| split]].
    + intros w c. split; [intros Hin | by intros (? & ? & _)].
      by apply elem_of_nil in Hin.
    + intros u c. split; [intros Hin | by intros (? & ? & _)].
      by apply elem_of_nil in Hin.
    + intros w. constructor.
    + intros u. constructor.
  - intros u [l Hl].
    change (user_connections engine_init)
      with (∅ : gmap uuid (list uuid)) in Hl.
    by rewrite lookup_empty in Hl.
  - intros w u [p Hp]. unfold presence_at in Hp.
    change (workspaces engine_init) with (∅ : gmap string WorkspaceState) in Hp.
    by rewrite lookup_empty in Hp.
Qed.

Lemma reachable_consistent e : reachable e -> consistent e.
Proof.
  induction 1 as [| env ev e Hreach IH]; [apply consistent_init |].
  unfold step. destruct (handler env ev e) as [e' r] eqn:H.
  eapply handler_consistent; [| exact IH | exact H].
  by apply reachable_well_formed.
Qed.



(** ** Invariants of the registry *)

(** X9: in every state the engine can be in, the two indices list
    exactly the registered connections: a connection id is in the list
    of a workspace exactly when it is registered with that workspace,
    in the list of a user exactly when it is registered for that user,
    and no list holds an id twice. *)
Theorem indices_list_the_registered_connections e :
  reachable e ->
  (forall w c,
     c ∈ defaultdict_get w (workspace_connections e) <->
     exists conn, connections_get e c = Some conn /\
                  conn_workspace_id conn = w) /\
  (forall u c,
     c ∈ defaultdict_get u (user_connections e) <->
     exists conn, connections_get e c = Some conn /\
                  user_id (conn_user conn) = u) /\
  (forall w, NoDup (defaultdict_get w (workspace_connections e))) /\
  (forall u, NoDup (defaultdict_get u (user_connections e))).
Proof. intros Hreach. exact (proj1 (reachable_consistent e Hreach)). Qed.

Lemma indices_list_the_registered_connections_witness :
  let e := two_clients in
  (forall w c,
     c ∈ defaultdict_get w (workspace_connections e) <->
     exists conn, connections_get e c = Some conn /\
                  conn_workspace_id conn = w) /\
  (forall u c,
     c ∈ defaultdict_get u (user_connections e) <->
     exists conn, connections_get e c = Some conn /\
                  user_id (conn_user conn) = u) /\
  (forall w, NoDup (defaultdict_get w (workspace_connections e))) /\
  (forall u, NoDup (defaultdict_get u (user_connections e))).
Proof.
  intros e.
  apply indices_list_the_registered_connections.
  apply reachable_run, reachable_init.
Defined.

(** X10: in every state the engine can be in, the users with a presence
    entry in a workspace are exactly the users of the connections
    registered with it, and each entry is stored under the id of its
    own user. *)
Theorem presence_entries_are_the_connected_users e w u :
  reachable e ->
  (is_Some (presence_at e w u) <->
   exists c conn,
     connections_get e c = Some conn /\
     user_id (conn_user conn) = u /\ conn_workspace_id conn = w) /\
  (forall p, presence_at e w u = Some p -> up_user_id p = u).
Proof.
  intros Hreach.
  pose proof (reachable_consistent e Hreach)
    as (_ & _ & _ & _ & _ & _ & F10).
  pose proof (reachable_well_formed e Hreach) as (_ & I2 & I3 & _).
  split; [split; [apply F10 |] |].
  - intros (c & conn & Hc & <- & <-).
    apply connections_get_Some in Hc as [Hin Hs].
    destruct (I2 c Hin) as (conn' & Hs' & Hp). congruence.
  - intros p. unfold presence_at.
    destruct (workspaces e !! w) as [ws |] eqn:Hws; [| done].
    by apply (I3 w ws).
Qed.

Lemma presence_entries_are_the_connected_users_witness :
  (is_Some (presence_at two_clients "w" 2%N) <->
   exists c conn,
     connections_get two_clients c = Some conn /\
     user_id (conn_user conn) = 2%N /\ conn_workspace_id conn = "w"%string) /\
  (forall p, presence_at two_clients "w" 2%N = Some p -> up_user_id p = 2%N).
Proof.
  apply presence_entries_are_the_connected_users.
  apply reachable_run, reachable_init.
Defined.

(** X11: the counters, in every state the engine can be in.  The
    workspaces are counted by [active_workspaces] and the users of
    [user_connections] by [total_connections]: both count what was
    ever made, since a workspace and a user key are never removed.  No
    conflict is ever counted.  The active connections are among the
    registered ones, which are no more than the users ever seen. *)
Theorem statistics_count_what_was_ever_made e :
  reachable e ->
  let s := get_workspace_stats e in
  st_total_workspaces s = active_workspaces (stats e) /\
  st_total_users s = total_connections (stats e) /\
  st_conflicts_resolved s = 0 /\
  0 <= get_connection_count e <= st_active_connections s /\
  st_active_connections s <= st_total_users s.
Proof.
  intros Hreach s. subst s.
  pose proof (reachable_consistent e Hreach)
    as ((_ & X2 & _) & _ & F4 & F5 & F6 & _).
  pose proof (reachable_well_formed e Hreach) as (I1 & I2 & _).
  unfold get_workspace_stats, get_connection_count.
  cbn [st_total_workspaces st_total_users st_conflicts_resolved
         st_active_connections].
  split; [done |]. split; [done |]. split; [done |]. split.
  - split; [lia |]. apply inj_le.
    etransitivity; [apply List.filter_length_le |]. done.
  - apply inj_le. rewrite <- (size_dom (user_connections e)).
    unfold size at 1 2, set_size. cbn.
    rewrite <- (length_fmap N.pred).
    apply submseteq_length, NoDup_submseteq.
    + apply NoDup_fmap_2_strong; [| apply NoDup_elements].
      intros c1 c2 H1 H2 Heq.
      apply elem_of_elements, I2 in H1 as (conn1 & Hs1 & _).
      apply elem_of_elements, I2 in H2 as (conn2 & Hs2 & _).
      destruct (I1 _ _ Hs1) as [-> _]. destruct (I1 _ _ Hs2) as [-> _].
      rewrite !N.pred_succ in Heq. by rewrite Heq.
    + intros u Hin. apply list_elem_of_fmap in Hin as (c & -> & Hin).
      apply elem_of_elements in Hin.
      destruct (I2 c Hin) as (conn & Hs & _).
      destruct (I1 _ _ Hs) as [-> _]. rewrite N.pred_succ.
      apply elem_of_elements, elem_of_dom.
      apply (defaultdict_get_present _ _ (N.succ (user_id (conn_user conn)))).
      apply X2. exists conn. split; [| done].
      by apply connections_get_Some.
Qed.

Lemma statistics_count_what_was_ever_made_witness :
  let s := get_workspace_stats two_clients in
  st_total_workspaces s = active_workspaces (stats two_clients) /\
  st_total_users s = total_connections (stats two_clients) /\
  st_conflicts_resolved s = 0 /\
  0 <= get_connection_count two_clients <= st_active_connections s /\
  st_active_connections s <= st_total_users s.
Proof.
  apply statistics_count_what_was_ever_made.
  apply reachable_run, reachable_init.
Defined.

(** ** What a session keeps *)

Lemma ws_static_refl ws : ws_static ws ws.
Proof. by repeat split. Qed.

Lemma ws_static_trans w1 w2 w3 :
  ws_static w1 w2 -> ws_static w2 w3 -> ws_static w1 w3.
Proof.
  intros (A1 & B1 & C1 & D1 & E1) (A2 & B2 & C2 & D2 & E2).
  repeat split; congruence.
Qed.

Lemma session_kept_refl e : session_kept e e.
Proof.
  split; intros x; apply option_Forall2_same;
    [apply conn_aged_refl | apply ws_static_refl].
Qed.

Lemma session_kept_trans e1 e2 e3 :
  session_kept e1 e2 -> session_kept e2 e3 -> session_kept e1 e3.
Proof.
  intros [S1 W1] [S2 W2]. split; intros x.
  - eapply option_Forall2_chain; [apply conn_aged_trans | |]; done.
  - eapply option_Forall2_chain; [apply ws_static_trans | |]; done.
Qed.

Lemma rk_session_kept e e' : registry_kept e e' -> session_kept e e'.
Proof.
  intros (_ & _ & _ & Hs & Hw & _). split; [done |].
  intros w. specialize (Hw w). inversion Hw as [ws ws' Hk |]; constructor.
  destruct Hk as (A & B & C & D & E & _). by repeat split.
Qed.

Lemma departed_session_kept c u w e : session_kept e (departed c u w e).
Proof.
  split; intros x.
  - apply option_Forall2_same, conn_aged_refl.
  - cbn. destruct (decide (x = w)) as [-> | Hne].
    + rewrite lookup_alter_eq. destruct (workspaces e !! w); by constructor.
    + rewrite lookup_alter_ne by done.
      apply option_Forall2_same, ws_static_refl.
Qed.

Lemma cleanup_session_kept env c e e' r :
  well_formed e -> consistent e ->
  _cleanup_connection env c e = (e', r) -> session_kept e e'.
Proof.
  intros Hwf Hcons.
  destruct (connections_get e c) as [conn |] eqn:Hc.
  - destruct (cleanup_run env c conn e Hwf Hcons Hc) as (e5 & Hb & ->).
    intros [= <- _].
    eapply session_kept_trans; [apply departed_session_kept |].
    apply rk_session_kept.
    eapply registry_kept_trans.
    + eapply (preserves_apply registry_kept); [apply rk_broadcast | exact Hb].
    + eapply (preserves_apply registry_kept); [apply rk_logger |].
      reflexivity.
  - rewrite cleanup_unregistered by done. intros [= <- _].
    apply session_kept_refl.
Qed.

Lemma cleanup_loop_session_kept env l :
  forall e e' r,
    well_formed e -> consistent e ->
    for_each l (_cleanup_connection env) e = (e', r) -> session_kept e e'.
Proof.
  induction l as [| c l IH]; intros e e' r Hwf Hcons.
  - intros [= <- _]. apply session_kept_refl.
  - simpl. unfold bind.
    destruct (_cleanup_connection env c e) as [e1 r1] eqn:Hc.
    pose proof (wf_cleanup _ _ _ _ _ Hc Hwf) as [Hwf1 _].
    pose proof (cleanup_consistent _ _ _ _ _ Hwf Hcons Hc) as Hcons1.
    pose proof (cleanup_session_kept _ _ _ _ _ Hwf Hcons Hc) as Hk.
    destruct r1 as [x | []]; [by intros [= <- _] |].
    intros H. eapply session_kept_trans; [exact Hk |]. by eapply IH.
Qed.

Lemma open_registry_kept env w e e' r :
  handle_websocket_open env w e = (e', r) ->
  registry_kept
    (with_stats (fun s =>
       mkStats (total_connections s + 1) (active_workspaces s)
         (operations_processed s) (conflicts_resolved s)
         (messages_sent s)) (joined env w e)) e'.
Proof.
  destruct (open_run env w e) as (ws & e3 & e4 & Hws & H3 & H4 & ->).
  intros [= <- _].
  eapply registry_kept_trans;
    [| eapply (preserves_apply registry_kept);
       [apply rk_logger | reflexivity]].
  apply rk_total_connections.
  eapply registry_kept_trans.
  - eapply (preserves_apply registry_kept); [apply rk_send_json | exact H3].
  - eapply (preserves_apply registry_kept); [apply rk_broadcast | exact H4].
Qed.

(** The events that make and drop nothing. *)
Lemma quiet_event_registry_kept env ev e e' r :
  match ev with
  | Connect _ | Close _ | CleanupTick => False
  | _ => True
  end ->
  handler env ev e = (e', r) -> registry_kept e e'.
Proof.
  destruct ev as [w | conn_id text | conn_id | | | | u n | u n | u n];
    cbn [handler]; intros Hev H; try done;
    (eapply (preserves_apply registry_kept); [| exact H]).
  - repeat rk_step. apply rk_message.
  - apply rk_heartbeat.
  - apply rk_sync.
  - apply rk_collaborators.
  - apply rk_collaborators.
  - apply rk_collaborators.
Qed.

(** X12: a connection object keeps its user, its workspace and its
    connection time for as long as it exists, and a connection that
    has been marked inactive is never marked active again. *)
Theorem connection_is_never_reactivated env ev e c conn conn' :
  reachable e ->
  sockets e !! c = Some conn ->
  sockets (step env ev e) !! c = Some conn' ->
  conn_user conn' = conn_user conn /\
  conn_workspace_id conn' = conn_workspace_id conn /\
  conn_connected_at conn' = conn_connected_at conn /\
  (conn_is_active conn = false -> conn_is_active conn' = false).
Proof.
  intros Hreach Hs Hs'.
  pose proof (reachable_well_formed e Hreach) as Hwf.
  pose proof (reachable_consistent e Hreach) as Hcons.
  cut (conn_aged conn conn').
  { intros (A & B & C & D). repeat split; try done.
    intros Hoff. destruct (conn_is_active conn') eqn:Hon; [| done].
    rewrite D in Hoff; done. }
  unfold step in Hs'. destruct (handler env ev e) as [e' r] eqn:H.
  cbn [fst] in Hs'.
  assert (forall e0, session_kept e0 e' -> sockets e0 !! c = Some conn ->
                     conn_aged conn conn') as Hfrom.
  { intros e0 [Hk _] Hs0. specialize (Hk c). rewrite Hs0, Hs' in Hk.
    by inversion Hk. }
  destruct ev as [w | conn_id text | conn_id | | | | u n | u n | u n].
  - apply (Hfrom _ (rk_session_kept _ _ (open_registry_kept _ _ _ _ _ H))).
    cbn [with_stats sockets]. rewrite joined_sockets.
    rewrite lookup_insert_ne; [done |].
    intros <-. destruct (fresh_connection e _ conn Hwf Hs). lia.
  - apply (Hfrom e); [| done].
    apply rk_session_kept. by eapply quiet_event_registry_kept; [| exact H].
  - cbn [handler] in H. unfold bind at 1, get at 1 in H. cbv beta iota in H.
    destruct (sockets e !! conn_id) as [conn0 |];
      [| injection H as <- _; rewrite Hs in Hs'; injection Hs' as <-;
         apply conn_aged_refl].
    unfold handle_websocket_close, bind, modify in H.
    destruct (_cleanup_connection env conn_id e) as [e1 r1] eqn:Hc.
    pose proof (cleanup_session_kept _ _ _ _ _ Hwf Hcons Hc) as [Hk _].
    specialize (Hk c). rewrite Hs in Hk.
    destruct r1 as [x | []]; injection H as <- _.
    + rewrite Hs' in Hk. by inversion Hk.
    + cbn in Hs'. apply lookup_delete_Some in Hs' as [_ Hs'].
      rewrite Hs' in Hk. by inversion Hk.
  - apply (Hfrom e); [| done]. cbn [handler] in H.
    unfold _cleanup_inactive_connections, bind, get in H.
    by eapply cleanup_loop_session_kept.
  - apply (Hfrom e); [| done].
    apply rk_session_kept. by eapply quiet_event_registry_kept; [| exact H].
  - apply (Hfrom e); [| done].
    apply rk_session_kept. by eapply quiet_event_registry_kept; [| exact H].
  - apply (Hfrom e); [| done].
    apply rk_session_kept. by eapply quiet_event_registry_kept; [| exact H].
  - apply (Hfrom e); [| done].
    apply rk_session_kept. by eapply quiet_event_registry_kept; [| exact H].
  - apply (Hfrom e); [| done].
    apply rk_session_kept. by eapply quiet_event_registry_kept; [| exact H].
Qed.

Lemma connection_is_never_reactivated_witness :
  let conn :=
    mkWebSocketConnection (mkUser 2%N "testuser") "w" 0 0 false in
  conn_user conn = conn_user conn /\
  conn_workspace_id conn = conn_workspace_id conn /\
  conn_connected_at conn = conn_connected_at conn /\
  (conn_is_active conn = false -> conn_is_active conn = false).
Proof.
  intros conn.
  apply (connection_is_never_reactivated calm HeartbeatTick
           one_client_unreachable 3%N conn conn).
  - apply reachable_run, reachable_init.
  - vm_compute. reflexivity.
  - vm_compute. reflexivity.
Defined.

Lemma joined_workspaces_old env w e w' ws :
  workspaces e !! w' = Some ws ->
  workspaces (joined env w e) !! w'
  = Some (if decide (w' = w)
          then set_last_activity (now env)
                 (set_active_users
                    <[uuid_next (mem e) := new_presence env (uuid_next (mem e))]>
                    ws)
          else ws).
Proof.
  intros Hws. unfold joined. cbv zeta.
  destruct (decide (w' = w)) as [-> | Hne].
  - rewrite Hws. cbn. by rewrite lookup_alter_eq, Hws.
  - destruct (workspaces e !! w); cbn.
    + by rewrite lookup_alter_ne.
    + by rewrite lookup_alter_ne, lookup_insert_ne.
Qed.

(** X13: a workspace, once made, is never removed, whoever leaves it,
    and keeps its id, name, permissions and creation time; its
    [last_activity] changes only when a user joins it, and then to the
    time of the join; and none of its documents is ever removed. *)
Theorem workspace_is_never_removed env ev e w ws :
  reachable e -> workspaces e !! w = Some ws ->
  exists ws',
    workspaces (step env ev e) !! w = Some ws' /\
    ws_workspace_id ws' = ws_workspace_id ws /\
    ws_name ws' = ws_name ws /\
    ws_permissions ws' = ws_permissions ws /\
    ws_created_at ws' = ws_created_at ws /\
    (ws_last_activity ws' = ws_last_activity ws \/
     ev = Connect w /\ ws_last_activity ws' = now env) /\
    (forall d, is_Some (ws_documents ws !! d) ->
               is_Some (ws_documents ws' !! d)).
Proof.
  intros Hreach Hws.
  pose proof (reachable_well_formed e Hreach) as Hwf.
  pose proof (reachable_consistent e Hreach) as Hcons.
  unfold step. destruct (handler env ev e) as [e' r] eqn:H. cbn [fst].
  assert (forall e0 ws0,
            (forall w, option_Forall2 ws_static (workspaces e0 !! w)
                         (workspaces e' !! w)) ->
            workspaces e0 !! w = Some ws0 ->
            exists ws', workspaces e' !! w = Some ws' /\ ws_static ws0 ws')
    as Hfrom.
  { intros e0 ws0 Hk Hw0. specialize (Hk w). rewrite Hw0 in Hk.
    inversion Hk as [? ws' Hst |]; subst. by exists ws'. }
  assert (exists ws',
            workspaces e' !! w = Some ws' /\
            ws_workspace_id ws' = ws_workspace_id ws /\
            ws_name ws' = ws_name ws /\
            ws_permissions ws' = ws_permissions ws /\
            ws_created_at ws' = ws_created_at ws /\
            (ws_last_activity ws' = ws_last_activity ws \/
             ev = Connect w /\ ws_last_activity ws' = now env))
    as (ws' & Hws' & A & B & C & D & E).
  { assert ((forall w, option_Forall2 ws_static (workspaces e !! w)
                         (workspaces e' !! w)) ->
            exists ws',
              workspaces e' !! w = Some ws' /\
              ws_workspace_id ws' = ws_workspace_id ws /\
              ws_name ws' = ws_name ws /\
              ws_permissions ws' = ws_permissions ws /\
              ws_created_at ws' = ws_created_at ws /\
              (ws_last_activity ws' = ws_last_activity ws \/
               ev = Connect w /\ ws_last_activity ws' = now env)) as Hquiet.
    { intros Hk. destruct (Hfrom e ws Hk Hws)
        as (ws' & Hws' & (A & B & C & D & E)).
      exists ws'. repeat split; try done. by left. }
    destruct ev as [w0 | conn_id text | conn_id | | | | u n | u n | u n];
      try (apply Hquiet, rk_session_kept;
           by eapply quiet_event_registry_kept; [| exact H]).
    - pose proof (rk_session_kept _ _ (open_registry_kept _ _ _ _ _ H))
        as [_ Hk].
      destruct (Hfrom _ _ Hk (joined_workspaces_old env w0 e w ws Hws))
        as (ws' & Hws' & (A & B & C & D & E)).
      exists ws'. split; [done |].
      destruct (decide (w = w0)) as [-> | Hne]; cbn in *.
      + repeat split; try done. by right.
      + repeat split; try done. by left.
    - apply Hquiet. cbn [handler] in H.
      unfold bind at 1, get at 1 in H. cbv beta iota in H.
      destruct (sockets e !! conn_id) as [conn0 |];
        [| injection H as <- _; apply session_kept_refl].
      unfold handle_websocket_close, bind, modify in H.
      destruct (_cleanup_connection env conn_id e) as [e1 r1] eqn:Hc.
      pose proof (cleanup_session_kept _ _ _ _ _ Hwf Hcons Hc) as [_ Hk].
      by destruct r1 as [x | []]; injection H as <- _.
    - apply Hquiet. cbn [handler] in H.
      unfold _cleanup_inactive_connections, bind, get in H.
      by eapply cleanup_loop_session_kept. }
  exists ws'. repeat split; try done.
  intros d Hd.
  assert (document_at e w d = ws_documents ws !! d) as Hde
    by (unfold document_at; by rewrite Hws).
  assert (document_at e' w d = ws_documents ws' !! d) as Hde'
    by (unfold document_at; by rewrite Hws').
  rewrite <- Hde in Hd. rewrite <- Hde'.
  destruct (handler_documents _ _ _ _ _ H)
    as [(_ & _ & Hsame)
       | (c & conn & data & d0 & _ & _ & _ & _ & [Happ | Hleft])].
  - by rewrite Hsame.
  - destruct Happ as (t & top & content & _ & _ & _ & _ & Hdoc & Hothers).
    destruct (decide ((w, d) = (conn_workspace_id conn, d0)))
      as [[= -> ->] | Hne].
    + rewrite Hdoc. by eexists.
    + by rewrite Hothers.
  - destruct Hleft as (t & top & x & _ & _ & _ & _ & Hdoc & Hothers).
    destruct (decide ((w, d) = (conn_workspace_id conn, d0)))
      as [[= -> ->] | Hne].
    + rewrite Hdoc. by eexists.
    + by rewrite Hothers.
Qed.

Lemma workspace_is_never_removed_witness :
  let ws :=
    mkWorkspaceState "w" "Workspace w"
      (<[2%N := new_presence calm 2%N]> (<[0%N := new_presence calm 0%N]> ∅))
      ∅ ∅ 0 0 in
  exists ws',
    workspaces (step calm (Close 1%N) two_clients) !! "w"%string = Some ws' /\
    ws_workspace_id ws' = ws_workspace_id ws /\
    ws_name ws' = ws_name ws /\
    ws_permissions ws' = ws_permissions ws /\
    ws_created_at ws' = ws_created_at ws /\
    (ws_last_activity ws' = ws_last_activity ws \/
     Close 1%N = Connect "w" /\ ws_last_activity ws' = now calm) /\
    (forall d, is_Some (ws_documents ws !! d) ->
               is_Some (ws_documents ws' !! d)).
Proof.
  intros ws.
  apply (workspace_is_never_removed calm (Close 1%N) two_clients "w" ws).
  - apply reachable_run, reachable_init.
  - vm_compute. reflexivity.
Defined.

(** ** The buffers of a document *)

Lemma buffers_bounded_extends m m' doc :
  extends m m' -> buffers_bounded m doc -> buffers_bounded m' doc.
Proof.
  intros Hext (Hv & Ho & Hp & Vo & Vp).
  split; [done |]. split; [done |]. split; [done |]. split.
  - intros r Hr. destruct (Vo r Hr) as [o Hro].
    exists o. by eapply extends_lookup.
  - intros r Hr. destruct (Vp r Hr) as [o Hro].
    exists o. by eapply extends_lookup.
Qed.

Lemma buffers_bounded_fresh m d time :
  buffers_bounded m (fresh_document d time).
Proof.
  repeat split; try done; intros r Hr; by apply elem_of_nil in Hr.
Qed.

Lemma buffers_bounded_pending m doc t :
  is_Some (objs m !! t) ->
  buffers_bounded m doc -> buffers_bounded m (document_pending doc t).
Proof.
  intros Ht (Hv & Ho & Hp & Vo & Vp).
  destruct (trim_pending_suffix (doc_pending_operations doc ++ [t]))
    as (evicted & Hsplit & Hlen).
  unfold buffers_bounded.
  cbn [document_pending set_pending_operations doc_version doc_operations
         doc_pending_operations].
  split; [done |]. split; [done |]. split; [| split; [done |]].
  - rewrite Hlen, length_app. cbn [length]. lia.
  - intros r Hr.
    assert (r ∈ doc_pending_operations doc ++ [t]) as Hin
      by (rewrite Hsplit; apply elem_of_app; by right).
    apply elem_of_app in Hin as [Hin | Hin]; [by apply Vp |].
    by apply list_elem_of_singleton in Hin as ->.
Qed.

Lemma buffers_bounded_after m m' doc t top content time :
  extends m m' -> objs m' !! t = Some top ->
  buffers_bounded m doc ->
  buffers_bounded m' (document_after doc t content time).
Proof.
  intros Hext Ht Hb.
  apply (buffers_bounded_extends m m') in Hb; [| done].
  destruct Hb as (Hv & Ho & Hp & Vo & Vp).
  destruct (trim_pending_suffix (doc_pending_operations doc ++ [t]))
    as (evicted & Hsplit & Hlen).
  unfold buffers_bounded.
  cbn [document_after doc_version doc_operations doc_pending_operations].
  split; [lia |]. split; [| split; [| split]].
  - unfold deque_append.
    destruct (Nat.leb_spec 1000 (length (doc_operations doc))).
    + rewrite length_app, length_drop. cbn [length]. lia.
    + rewrite length_app. cbn [length]. lia.
  - rewrite Hlen, length_app. cbn [length]. lia.
  - intros r Hr. unfold deque_append in Hr.
    assert (r ∈ doc_operations doc \/ r = t) as [Hin | ->].
    { destruct (1000 <=? length (doc_operations doc))%nat;
        apply elem_of_app in Hr as [Hr | Hr].
      - left. by apply (subseteq_drop 1).
      - right. by apply list_elem_of_singleton in Hr.
      - by left.
      - right. by apply list_elem_of_singleton in Hr. }
    + by apply Vo.
    + by eexists.
  - intros r Hr.
    assert (r ∈ doc_pending_operations doc ++ [t]) as Hin
      by (rewrite Hsplit; apply elem_of_app; by right).
    apply elem_of_app in Hin as [Hin | Hin]; [by apply Vp |].
    apply list_elem_of_singleton in Hin as ->. by eexists.
Qed.

Lemma reachable_buffers_bounded e :
  reachable e ->
  forall w d doc, document_at e w d = Some doc -> buffers_bounded (mem e) doc.
Proof.
  induction 1 as [| env ev e Hreach IH]; intros w d doc Hdoc.
  - done.
  - unfold step in *. destruct (handler env ev e) as [e' r] eqn:H.
    cbn [fst] in *.
    apply handler_documents in H
      as [(Hext & _ & Hd)
         | (conn_id & connection & data & d0 & -> & Hs & Ht & Hd0
            & [Happ | Hleft])].
    + rewrite Hd in Hdoc. eapply buffers_bounded_extends; [done |].
      by eapply IH.
    + destruct Happ as (t & top & content & Hext & Htop & _ & _ & Hdoc'
                        & Hothers).
      destruct (decide ((w, d) = (conn_workspace_id connection, d0)))
        as [[= -> ->] | Hne].
      * rewrite Hdoc' in Hdoc. injection Hdoc as <-.
        apply (buffers_bounded_after (mem e) _ _ _ top); [done | done |].
        destruct (document_at e (conn_workspace_id connection) d0)
          as [doc0 |] eqn:Hdoc0; cbn [default].
        -- by eapply IH.
        -- apply buffers_bounded_fresh.
      * rewrite Hothers in Hdoc by done.
        eapply buffers_bounded_extends; [done |]. by eapply IH.
    + destruct Hleft as (t & top & x & Hext & Htop & _ & _ & Hdoc' & Hothers).
      destruct (decide ((w, d) = (conn_workspace_id connection, d0)))
        as [[= -> ->] | Hne].
      * rewrite Hdoc' in Hdoc. injection Hdoc as <-.
        apply buffers_bounded_pending; [by eexists |].
        eapply buffers_bounded_extends; [done |].
        destruct (document_at e (conn_workspace_id connection) d0)
          as [doc0 |] eqn:Hdoc0; cbn [default].
        -- by eapply IH.
        -- apply buffers_bounded_fresh.
      * rewrite Hothers in Hdoc by done.
        eapply buffers_bounded_extends; [done |]. by eapply IH.
Qed.

(** X14: in every state the engine can be in, the history of a document
    holds [min(version, 1000)] operations.  Its pending buffer holds at
    most ten, and at least [min(version, 10)]: it also takes the
    operations that were rebased and then could not be applied.  So
    neither grows without bound however many operations arrive; and
    both hold references to operation objects of the store only. *)
Theorem document_buffers_are_bounded e w d doc :
  reachable e -> document_at e w d = Some doc ->
  0 <= doc_version doc /\
  Z.of_nat (length (doc_operations doc)) = Z.min (doc_version doc) 1000 /\
  Z.min (doc_version doc) 10
    <= Z.of_nat (length (doc_pending_operations doc)) <= 10 /\
  (forall r, r ∈ doc_operations doc -> is_Some (objs (mem e) !! r)) /\
  (forall r, r ∈ doc_pending_operations doc -> is_Some (objs (mem e) !! r)).
Proof. intros Hreach Hdoc. by eapply reachable_buffers_bounded. Qed.

(** One client has sent an insert whose position is [null] and then
    an insert at 0: document ["d"] has version 1, one operation in its
    history and two in its pending buffer. *)
Lemma document_buffers_are_bounded_witness :
  let e := step calm
             (Receive 1%N
                (Some (operation_data "insert" 0 (Some (txt "a")) None "d")))
             stalled_edit in
  exists doc,
    document_at e "w" "d" = Some doc /\
    doc_version doc = 1 /\
    length (doc_pending_operations doc) = 2%nat /\
    0 <= doc_version doc /\
    Z.of_nat (length (doc_operations doc)) = Z.min (doc_version doc) 1000 /\
    Z.min (doc_version doc) 10
      <= Z.of_nat (length (doc_pending_operations doc)) <= 10 /\
    (forall r, r ∈ doc_operations doc -> is_Some (objs (mem e) !! r)) /\
    (forall r, r ∈ doc_pending_operations doc -> is_Some (objs (mem e) !! r)).
Proof.
  intros e.
  assert (exists doc, document_at e "w" "d" = Some doc /\
            doc_version doc = 1 /\
            length (doc_pending_operations doc) = 2%nat)
    as (doc & Hdoc & Hv & Hp).
  { vm_compute. eexists. repeat split. }
  exists doc. split; [exact Hdoc |]. split; [exact Hv |]. split; [exact Hp |].
  apply (document_buffers_are_bounded e "w" "d" doc); [| exact Hdoc].
  apply reachable_step, reachable_run, reachable_init.
Defined.

(** ** What a broadcast sends *)

(** One turn of the broadcast loop. *)
Lemma deliver_run env message ex c e e' r :
  deliver env message ex c e = (e', r) ->
  r = inr tt /\
  sent e' = sent e ++ (if reached e ex c then [(c, message)] else []) /\
  messages_sent (stats e')
    = messages_sent (stats e) + (if reached e ex c then 1 else 0) /\
  connections e' = connections e /\
  (forall c', c' <> c -> sockets e' !! c' = sockets e !! c') /\
  sockets e' !! c
    = (if reached e ex c && negb (link_up env c)
       then set_is_active false else id) <$> sockets e !! c.
Proof.
  assert (forall o : option WebSocketConnection, o = id <$> o) as Hid
    by (by intros []).
  unfold deliver, bind, get, reached.
  destruct (connections_get e c) as [connection |];
    [| intros [= <- <-]; rewrite app_nil_r, Z.add_0_r; by repeat split].
  destruct (conn_is_active connection);
    [| intros [= <- <-]; rewrite app_nil_r, Z.add_0_r; by repeat split].
  cbn [andb].
  destruct (match ex with
            | Some u => bool_decide (user_id (conn_user connection) = u)
            | None => false
            end);
    [intros [= <- <-]; rewrite app_nil_r, Z.add_0_r; by repeat split |].
  cbn [negb andb].
  unfold send_json, bind, modify, logger, ret.
  destruct (link_up env c); intros [= <- <-]; cbn; repeat split; try done.
  - intros c' Hne. by rewrite lookup_alter_ne.
  - by rewrite lookup_alter_eq.
Qed.

Lemma reached_agree e e' ex c :
  connections e' = connections e -> sockets e' !! c = sockets e !! c ->
  reached e' ex c = reached e ex c.
Proof.
  intros Hc Hs. unfold reached, connections_get. by rewrite Hc, Hs.
Qed.

Lemma deliver_loop_run env message ex l :
  NoDup l ->
  forall e e' r,
    for_each l (deliver env message ex) e = (e', r) ->
    r = inr tt /\
    sent e' = sent e
              ++ ((fun c => (c, message)) <$> List.filter (reached e ex) l) /\
    messages_sent (stats e')
      = messages_sent (stats e)
        + Z.of_nat (length (List.filter (reached e ex) l)) /\
    connections e' = connections e /\
    (forall c, c ∉ l -> sockets e' !! c = sockets e !! c) /\
    (forall c, c ∈ l ->
       sockets e' !! c
       = (if reached e ex c && negb (link_up env c)
          then set_is_active false else id) <$> sockets e !! c).
Proof.
  induction 1 as [| c l Hc Hl IH]; intros e e' r; simpl.
  - intros [= <- <-]. rewrite app_nil_r, Z.add_0_r. repeat split; try done.
    intros c Hin. by apply elem_of_nil in Hin.
  - intros H. apply bind_inv in H as [(x & H & _) | (e1 & [] & H & Hrest)];
      apply deliver_run in H as (Hr & Hsent & Hcount & Hconn & Hothers & Hown);
      [done |].
    apply IH in Hrest as (-> & Hsent' & Hcount' & Hconn' & Hout & Hin).
    assert (List.filter (reached e1 ex) l = List.filter (reached e ex) l)
      as Hsame.
    { apply List.filter_ext_in. intros c' Hc'.
      apply reached_agree; [done |]. apply Hothers. intros ->.
      apply Hc. by apply list_elem_of_In. }
    rewrite Hsame in *.
    split; [done |]. split; [| split; [| split; [congruence |]]].
    + rewrite Hsent', Hsent, <- app_assoc. f_equal.
      by destruct (reached e ex c).
    + rewrite Hcount', Hcount. destruct (reached e ex c); cbn [length]; lia.
    + split.
      * intros c' Hc'. rewrite Hout.
        -- apply Hothers. intros ->. apply Hc', elem_of_cons. by left.
        -- intros Hin'. apply Hc', elem_of_cons. by right.
      * intros c' Hc'. apply elem_of_cons in Hc' as [-> | Hc'].
        -- by rewrite Hout.
        -- rewrite Hin by done. rewrite Hothers by (by intros ->).
           rewrite (reached_agree e e1 ex c'); [done | done |].
           apply Hothers. by intros ->.
Qed.

(** What a broadcast does, for the proofs below. *)
Lemma broadcast_run env w message ex e :
  NoDup (defaultdict_get w (workspace_connections e)) ->
  let e' := fst (_broadcast_to_workspace env w message ex e) in
  snd (_broadcast_to_workspace env w message ex e) = inr tt /\
  sent e' = sent e ++ ((fun c => (c, message)) <$> audience e w ex) /\
  messages_sent (stats e')
    = messages_sent (stats e) + Z.of_nat (length (audience e w ex)) /\
  (forall c,
     sockets e' !! c
     = (if bool_decide (c ∈ audience e w ex) && negb (link_up env c)
        then set_is_active false else id) <$> sockets e !! c) /\
  registry_kept e e' /\ workspaces e' = workspaces e /\ mem e' = mem e.
Proof.
  intros Hnd e'. subst e'.
  destruct (_broadcast_to_workspace env w message ex e) as [e' r] eqn:H.
  cbn [fst snd].
  pose proof (preserves_apply registry_kept _ _ _ _
                (rk_broadcast env w message ex) H) as Hrk.
  pose proof (io_only_broadcast env w message ex _ _ _ H)
    as (Hm & Hw & _).
  unfold _broadcast_to_workspace in H. unfold bind at 1, get at 1 in H.
  cbv beta iota zeta in H.
  fold (defaultdict_get w (workspace_connections e)) in H.
  apply deliver_loop_run in H as (-> & Hsent & Hcount & _ & Hout & Hin);
    [| done].
  split; [done |]. split; [done |]. split; [done |].
  split; [| split; [done | by split]].
  intros c. unfold audience.
  destruct (decide (c ∈ defaultdict_get w (workspace_connections e)))
    as [Hc | Hc].
  - rewrite Hin by done. destruct (reached e ex c) eqn:Hr.
    + rewrite bool_decide_eq_true_2; [done |].
      apply list_elem_of_In, List.filter_In. split; [| done].
      by apply list_elem_of_In.
    + rewrite bool_decide_eq_false_2; [done |].
      intros Hf. apply list_elem_of_In, List.filter_In in Hf as [_ Hf].
      congruence.
  - rewrite Hout by done. rewrite bool_decide_eq_false_2.
    + by destruct (sockets e !! c).
    + intros Hf. apply list_elem_of_In, List.filter_In in Hf as [Hf _].
      by apply list_elem_of_In in Hf.
Qed.

(** X15: [_broadcast_to_workspace] hands the message exactly once, in
    the order of the workspace's connection list, to each connection
    of the workspace that is registered and active and does not belong
    to the excluded user, and to no other; it counts each in
    [messages_sent]; a receiver whose transport fails is marked
    inactive, and no other connection object changes. *)
Theorem broadcast_reaches_the_audience env w message ex e :
  NoDup (defaultdict_get w (workspace_connections e)) ->
  let e' := fst (_broadcast_to_workspace env w message ex e) in
  snd (_broadcast_to_workspace env w message ex e) = inr tt /\
  sent e' = sent e ++ ((fun c => (c, message)) <$> audience e w ex) /\
  messages_sent (stats e')
    = messages_sent (stats e) + Z.of_nat (length (audience e w ex)) /\
  (forall c,
     sockets e' !! c
     = (if bool_decide (c ∈ audience e w ex) && negb (link_up env c)
        then set_is_active false else id) <$> sockets e !! c) /\
  registry_kept e e' /\ workspaces e' = workspaces e /\ mem e' = mem e.
Proof. apply broadcast_run. Qed.

Lemma broadcast_reaches_the_audience_witness :
  let env := mkEnv 0 (fun c => negb (N.eqb c 3)) in
  let message := note_created "n" 0%N in
  let e := two_clients in
  let e' := fst (_broadcast_to_workspace env "w" message (Some 0%N) e) in
  snd (_broadcast_to_workspace env "w" message (Some 0%N) e) = inr tt /\
  sent e' = sent e ++ ((fun c => (c, message)) <$> audience e "w" (Some 0%N)) /\
  messages_sent (stats e')
    = messages_sent (stats e)
      + Z.of_nat (length (audience e "w" (Some 0%N))) /\
  (forall c,
     sockets e' !! c
     = (if bool_decide (c ∈ audience e "w" (Some 0%N))
           && negb (link_up env c)
        then set_is_active false else id) <$> sockets e !! c) /\
  registry_kept e e' /\ workspaces e' = workspaces e /\ mem e' = mem e.
Proof.
  intros env message e.
  apply (broadcast_reaches_the_audience env "w" message (Some 0%N) e).
  vm_compute. apply NoDup_cons. split; [| apply NoDup_singleton].
  intros Hin. apply list_elem_of_singleton in Hin. discriminate Hin.
Defined.

(** ** Joining *)

Lemma send_json_run env c data e :
  send_json env c data e
  = (if link_up env c then with_sent (fun l => l ++ [(c, data)]) e
     else
       with_sockets (alter (set_is_active false) c)
         (with_log
            (fun l => l ++ [(WARNING, "Failed to send WebSocket message"%string)])
            (with_sent (fun l => l ++ [(c, data)]) e)),
     inr tt).
Proof. unfold send_json, bind, modify, logger, ret. by destruct (link_up env c). Qed.

Lemma presence_listed (ws : WorkspaceState) u p :
  ws_active_users ws !! u = Some p -> up_user_id p = u ->
  u ∈ listed_users (initial_state_of ws).
Proof.
  intros Hp Hu. unfold initial_state_of, listed_users.
  rewrite <- !list_fmap_compose.
  apply list_elem_of_fmap. exists (u, p). split; [by rewrite <- Hu |].
  by apply elem_of_map_to_list.
Qed.

(** X16: a connect, in any state the engine can be in.  The user and
    the connection get the next two identifiers; the connection is
    registered, active unless its first send failed; the user has a
    fresh presence entry; the joiner is sent one [initial_state]
    snapshot, which lists the joiner, and then each connection that
    was registered with the workspace and active is sent one
    [user_joined]; the joiner is sent none.  One connection is
    counted, and one message for each [user_joined]. *)
Theorem connect_registers_and_announces env w e :
  reachable e ->
  let u := uuid_next (mem e) in
  let c := N.succ u in
  let e' := step env (Connect w) e in
  exists ws',
    workspaces e' !! w = Some ws' /\
    connections_get e' c
      = Some (mkWebSocketConnection (mkUser u "testuser") w
                (now env) (now env) (link_up env c)) /\
    connections e' = {[c]} ∪ connections e /\
    presence_at e' w u = Some (new_presence env u) /\
    sent e'
      = sent e
        ++ (c, initial_state_of ws')
           :: ((fun c' =>
                  (c', user_joined u "testuser" (_generate_avatar_color u)))
               <$> audience e w None) /\
    (u ∈ listed_users (initial_state_of ws')) /\
    total_connections (stats e') = total_connections (stats e) + 1 /\
    messages_sent (stats e')
      = messages_sent (stats e) + Z.of_nat (length (audience e w None)).
Proof.
  intros Hreach u c e'.
  pose proof (reachable_well_formed e Hreach) as Hwf.
  pose proof (reachable_consistent e Hreach) as Hcons.
  destruct (open_run env w e) as (ws & e3 & e4 & Hws & H3 & H4 & Hrun).
  fold u c in H3, H4.
  subst e'. unfold step. cbn [handler]. rewrite Hrun. cbn [fst].
  clear Hrun.
  rewrite send_json_run in H3. injection H3 as H3.
  (* the state after the snapshot is sent *)
  assert (workspaces e3 = workspaces (joined env w e)) as W3
    by (rewrite <- H3; by destruct (link_up env c)).
  assert (connections e3 = connections (joined env w e)) as C3
    by (rewrite <- H3; by destruct (link_up env c)).
  assert (workspace_connections e3 = workspace_connections (joined env w e))
    as L3 by (rewrite <- H3; by destruct (link_up env c)).
  assert (stats e3 = stats (joined env w e)) as S3
    by (rewrite <- H3; by destruct (link_up env c)).
  assert (sent e3 = sent e ++ [(c, initial_state_of ws)]) as M3.
  { rewrite <- H3. destruct (link_up env c); simpl_stats;
      by rewrite joined_sent. }
  assert (forall c', c' <> c -> sockets e3 !! c' = sockets e !! c') as K3.
  { intros c' Hne. rewrite <- H3.
    destruct (link_up env c); simpl_stats; rewrite joined_sockets; fold u c.
    - by rewrite lookup_insert_ne.
    - by rewrite lookup_alter_ne, lookup_insert_ne. }
  assert (sockets e3 !! c
          = Some (mkWebSocketConnection (mkUser u "testuser") w
                    (now env) (now env) (link_up env c))) as K3c.
  { rewrite <- H3.
    destruct (link_up env c); simpl_stats; rewrite joined_sockets; fold u c.
    - by rewrite lookup_insert_eq.
    - by rewrite lookup_alter_eq, lookup_insert_eq. }
  pose proof (indexed_joined env w e Hwf (proj1 Hcons))
    as (J1 & _ & J3 & _).
  assert (defaultdict_get w (workspace_connections e3)
          = defaultdict_get w (workspace_connections e) ++ [c]) as Hlist.
  { rewrite L3, joined_workspace_connections, defaultdict_get_append.
    by rewrite decide_True. }
  assert (audience e3 w (Some u) = audience e w None) as Haud.
  { unfold audience. rewrite Hlist, List.filter_app. cbn [List.filter].
    assert (reached e3 (Some u) c = false) as ->.
    { unfold reached, connections_get. rewrite C3, joined_connections.
      fold u c. rewrite decide_True by (apply elem_of_union; left;
                                        by apply elem_of_singleton).
      rewrite K3c. cbn. rewrite bool_decide_eq_true_2 by done.
      by destruct (link_up env c). }
    rewrite app_nil_r. apply List.filter_ext_in. intros c' Hin.
    apply list_elem_of_In in Hin.
    destruct (proj1 Hcons) as (X1 & _).
    apply X1 in Hin as (conn & Hc' & _).
    pose proof Hc' as Hc''. apply connections_get_Some in Hc'' as [Hreg Hs].
    destruct (fresh_connection e c' conn Hwf Hs) as [Hlt Hult].
    assert (c' <> c) as Hne by (subst c u; lia).
    unfold reached at 1. unfold connections_get.
    rewrite C3, joined_connections. fold u c.
    rewrite decide_True by (apply elem_of_union; by right).
    rewrite K3 by done. unfold reached. rewrite Hc', Hs.
    rewrite bool_decide_eq_false_2; [by destruct (conn_is_active conn) |].
    subst u. lia. }
  unfold _broadcast_user_joined in H4. cbn [user_id user_username] in H4.
  pose proof (broadcast_run env w
                (user_joined u "testuser" (_generate_avatar_color u))
                (Some u) e3) as Hb.
  rewrite H4 in Hb. cbn [fst snd] in Hb.
  destruct Hb as (_ & Hsent & Hcount & Hsock & Hrk & Hw4 & _).
  { rewrite L3. apply J3. }
  rewrite Haud in *.
  exists ws. simpl_stats.
  split; [by rewrite Hw4, W3 |].
  split.
  { unfold connections_get. simpl_stats.
    destruct Hrk as (-> & _). rewrite C3, joined_connections. fold u c.
    rewrite decide_True by (apply elem_of_union; left;
                            by apply elem_of_singleton).
    rewrite Hsock, K3c. rewrite bool_decide_eq_false_2; [done |].
    intros Hin. apply list_elem_of_In, List.filter_In in Hin as [Hin _].
    apply list_elem_of_In in Hin.
    destruct (proj1 Hcons) as (X1 & _).
    apply X1 in Hin as (conn & Hc' & _).
    apply connections_get_Some in Hc' as [_ Hs].
    destruct (fresh_connection e c conn Hwf Hs). subst c u. lia. }
  split; [destruct Hrk as (-> & _); by rewrite C3, joined_connections |].
  split.
  { unfold presence_at. simpl_stats. rewrite Hw4, W3.
    pose proof (joined_presence env w e w u) as Hp.
    unfold presence_at in Hp. rewrite Hp.
    by rewrite !decide_True. }
  split; [by rewrite Hsent, M3, <- app_assoc |].
  split.
  { pose proof (joined_presence env w e w u) as Hp.
    unfold presence_at in Hp. rewrite Hws, !decide_True in Hp by done.
    by apply (presence_listed ws u (new_presence env u)). }
  split.
  { destruct Hrk as (_ & _ & _ & _ & _ & -> & _).
    rewrite S3, joined_stats. done. }
  rewrite Hcount, S3, joined_stats. done.
Qed.

Lemma connect_registers_and_announces_witness :
  let e := two_clients in
  let u := uuid_next (mem e) in
  let c := N.succ u in
  let e' := step calm (Connect "w") e in
  exists ws',
    workspaces e' !! "w"%string = Some ws' /\
    connections_get e' c
      = Some (mkWebSocketConnection (mkUser u "testuser") "w"
                (now calm) (now calm) (link_up calm c)) /\
    connections e' = {[c]} ∪ connections e /\
    presence_at e' "w" u = Some (new_presence calm u) /\
    sent e'
      = sent e
        ++ (c, initial_state_of ws')
           :: ((fun c' =>
                  (c', user_joined u "testuser" (_generate_avatar_color u)))
               <$> audience e "w" None) /\
    (u ∈ listed_users (initial_state_of ws')) /\
    total_connections (stats e') = total_connections (stats e) + 1 /\
    messages_sent (stats e')
      = messages_sent (stats e) + Z.of_nat (length (audience e "w" None)).
Proof.
  intros e.
  apply (connect_registers_and_announces calm "w" e).
  apply reachable_run, reachable_init.
Defined.

(** ** Messages other than operations *)

Lemma receive_run env c conn text e :
  sockets e !! c = Some conn ->
  handler env (Receive c text) e = handle_websocket_message env c conn text e.
Proof.
  intros Hs. cbn [handler]. unfold bind at 1, get at 1. cbv beta iota.
  by rewrite Hs.
Qed.

Lemma try_except_ok {S A} (c : M S A) h (s s' : S) a :
  c s = (s', inr a) -> try_except c h s = (s', inr a).
Proof. intros H. unfold try_except. by rewrite H. Qed.

Lemma workspaces_getitem_run w e ws :
  workspaces e !! w = Some ws -> workspaces_getitem w e = (e, inr ws).
Proof.
  intros Hws. unfold workspaces_getitem, bind, get. cbv beta iota.
  by rewrite Hws.
Qed.

(** X17: a [cursor_move] message from a connection whose user has a
    presence entry sets the cursor position and the selection of that
    entry to the values of the message, 0 for a key that is missing,
    and its [last_seen] to the time of the message; the other fields
    of the entry stay.  Each other active connection registered with
    the workspace is sent one [cursor_update] with these values; the
    connections of the mover are sent none.  When the user has no
    presence entry (the connection was cleaned up while its socket
    stayed open) nothing changes at all. *)
Theorem cursor_move_updates_and_announces env e c conn data :
  reachable e ->
  sockets e !! c = Some conn ->
  msg_type data = Some "cursor_move"%string ->
  let u := user_id (conn_user conn) in
  let w := conn_workspace_id conn in
  let position := default 0 (msg_position data) in
  let selection_start := default 0 (msg_selection_start data) in
  let selection_end := default 0 (msg_selection_end data) in
  let e' := step env (Receive c (Some data)) e in
  match presence_at e w u with
  | Some p =>
      presence_at e' w u
        = Some (mkUserPresence (up_user_id p) (up_username p) (up_status p)
                  position selection_start selection_end (now env)
                  (up_avatar_color p) (up_current_document p) (up_active p))
      /\
      sent e'
        = sent e
          ++ ((fun c' =>
                 (c', cursor_update u (msg_document_id data)
                        position selection_start selection_end))
              <$> audience e w (Some u))
  | None => e' = e
  end.
Proof.
  intros Hreach Hs Htype u w position selection_start selection_end e'.
  pose proof (reachable_consistent e Hreach)
    as ((_ & _ & X3 & _) & _ & _ & _ & _ & F7 & _).
  destruct (F7 c conn Hs) as [ws Hws]. fold w in Hws.
  subst e'. unfold step. rewrite (receive_run env c conn) by done.
  cbn [handle_websocket_message].
  unfold _handle_collaboration_message. cbv zeta. rewrite Htype.
  rewrite bool_decide_eq_false_2 by done.
  rewrite bool_decide_eq_true_2 by done.
  unfold _handle_cursor_move.
  unfold presence_at at 1. rewrite Hws.
  destruct (ws_active_users ws !! u) as [p |] eqn:Hp.
  - set (p' := mkUserPresence (up_user_id p) (up_username p) (up_status p)
                 position selection_start selection_end (now env)
                 (up_avatar_color p) (up_current_document p) (up_active p)).
    set (e1 := with_workspaces
                 (alter (set_active_users (alter (fun p =>
                    mkUserPresence (up_user_id p) (up_username p)
                      (up_status p) position selection_start selection_end
                      (now env) (up_avatar_color p) (up_current_document p)
                      (up_active p)) u)) w) e).
    pose proof (broadcast_run env w
                  (cursor_update u (msg_document_id data) position
                     selection_start selection_end) (Some u) e1 (X3 w))
      as Hb.
    destruct (_broadcast_to_workspace env w
                (cursor_update u (msg_document_id data) position
                   selection_start selection_end) (Some u) e1)
      as [e2 r2] eqn:H2.
    cbn [fst snd] in Hb. destruct Hb as (-> & Hsent & _ & _ & _ & Hw2 & _).
    erewrite try_except_ok.
    2:{ rewrite (bind_ok _ _ _ e ws) by (by apply workspaces_getitem_run).
        fold u w. rewrite Hp. cbv zeta.
        erewrite bind_ok; [| reflexivity]. exact H2. }
    cbn [fst]. split.
    + unfold presence_at. rewrite Hw2. subst e1. cbn.
      by rewrite lookup_alter_eq, Hws; cbn; rewrite lookup_alter_eq, Hp.
    + exact Hsent.
  - erewrite try_except_ok; [reflexivity |].
    rewrite (bind_ok _ _ _ e ws) by (by apply workspaces_getitem_run).
    fold u w. by rewrite Hp.
Qed.

Lemma cursor_move_updates_and_announces_witness :
  let e := two_clients in
  let conn :=
    mkWebSocketConnection (mkUser 0%N "testuser") "w" 0 0 true in
  let data :=
    mkClientMessage (Some "cursor_move"%string) None (Some "d"%string)
      (Some 5) None None in
  let u := user_id (conn_user conn) in
  let w := conn_workspace_id conn in
  let position := default 0 (msg_position data) in
  let selection_start := default 0 (msg_selection_start data) in
  let selection_end := default 0 (msg_selection_end data) in
  let e' := step calm (Receive 1%N (Some data)) e in
  match presence_at e w u with
  | Some p =>
      presence_at e' w u
        = Some (mkUserPresence (up_user_id p) (up_username p) (up_status p)
                  position selection_start selection_end (now calm)
                  (up_avatar_color p) (up_current_document p) (up_active p))
      /\
      sent e'
        = sent e
          ++ ((fun c' =>
                 (c', cursor_update u (msg_document_id data)
                        position selection_start selection_end))
              <$> audience e w (Some u))
  | None => e' = e
  end.
Proof.
  intros e conn data.
  apply (cursor_move_updates_and_announces calm e 1%N conn data).
  - apply reachable_run, reachable_init.
  - vm_compute. reflexivity.
  - reflexivity.
Defined.

(** X18: a [ping] message is answered with one [pong], carrying the
    time of the server, to the connection that sent it.  Nothing else
    changes: the [last_ping] of the connection is not refreshed and the
    reply is not counted in [messages_sent].  When the reply cannot
    be sent the failure is logged and the connection marked inactive. *)
Theorem ping_is_answered_with_pong env e c conn data :
  sockets e !! c = Some conn ->
  msg_type data = Some "ping"%string ->
  step env (Receive c (Some data)) e
  = if link_up env c then with_sent (fun l => l ++ [(c, pong (now env))]) e
    else
      with_sockets (alter (set_is_active false) c)
        (with_log
           (fun l =>
              l ++ [(WARNING, "Failed to send WebSocket message"%string)])
           (with_sent (fun l => l ++ [(c, pong (now env))]) e)).
Proof.
  intros Hs Htype. unfold step. rewrite (receive_run env c conn) by done.
  cbn [handle_websocket_message].
  unfold _handle_collaboration_message. cbv zeta. rewrite Htype.
  do 5 rewrite bool_decide_eq_false_2 by done.
  rewrite bool_decide_eq_true_2 by done.
  erewrite try_except_ok; [| apply send_json_run]. done.
Qed.

Lemma ping_is_answered_with_pong_witness :
  step calm
    (Receive 1%N
       (Some (mkClientMessage (Some "ping"%string) None None None None None)))
    two_clients
  = with_sent (fun l => l ++ [(1%N, pong 0)]) two_clients.
Proof.
  apply (ping_is_answered_with_pong calm two_clients 1%N
           (mkWebSocketConnection (mkUser 0%N "testuser") "w" 0 0 true)
           (mkClientMessage (Some "ping"%string) None None None None None));
    by vm_compute.
Defined.

(** X19: what is not an operation, a cursor move or a ping changes
    nothing but the log, which gains one entry.  A frame that is not
    valid JSON and a message of an unknown type are logged as
    warnings.  The types [document_open], [document_close] and
    [presence_update] are dispatched to handlers the class does not
    define: the lookup fails and the message loop logs an error. *)
Theorem unhandled_message_is_only_logged env e c conn text :
  sockets e !! c = Some conn ->
  match text with
  | None => True
  | Some data =>
      msg_type data <> Some "operation"%string /\
      msg_type data <> Some "cursor_move"%string /\
      msg_type data <> Some "ping"%string
  end ->
  let entry :=
    match text with
    | None => (WARNING, "Invalid JSON received"%string)
    | Some data =>
        if bool_decide
             (msg_type data = Some "document_open"%string \/
              msg_type data = Some "document_close"%string \/
              msg_type data = Some "presence_update"%string)
        then (ERROR, "Error handling message"%string)
        else (WARNING, "Unknown message type"%string)
    end in
  step env (Receive c text) e = with_log (fun l => l ++ [entry]) e.
Proof.
  intros Hs Htext entry. subst entry.
  unfold step. rewrite (receive_run env c conn) by done.
  destruct text as [data |]; cbn [handle_websocket_message]; [| done].
  destruct Htext as (H1 & H2 & H3).
  unfold _handle_collaboration_message, try_except. cbv zeta.
  rewrite !(bool_decide_eq_false_2 _ H1), !(bool_decide_eq_false_2 _ H2).
  destruct (decide (msg_type data = Some "document_open"%string)) as [E1 | N1].
  { rewrite (bool_decide_eq_true_2 _ E1).
    rewrite bool_decide_eq_true_2 by (by left). done. }
  rewrite (bool_decide_eq_false_2 _ N1).
  destruct (decide (msg_type data = Some "document_close"%string))
    as [E2 | N2].
  { rewrite (bool_decide_eq_true_2 _ E2).
    rewrite bool_decide_eq_true_2 by (right; by left). done. }
  rewrite (bool_decide_eq_false_2 _ N2).
  destruct (decide (msg_type data = Some "presence_update"%string))
    as [E3 | N3].
  { rewrite (bool_decide_eq_true_2 _ E3).
    rewrite bool_decide_eq_true_2 by (right; by right). done. }
  rewrite (bool_decide_eq_false_2 _ N3), (bool_decide_eq_false_2 _ H3).
  rewrite bool_decide_eq_false_2 by (by intros [? | [? | ?]]). done.
Qed.

Lemma unhandled_message_is_only_logged_witness :
  step calm
    (Receive 1%N
       (Some (mkClientMessage (Some "document_open"%string) None
                (Some "d"%string) None None None)))
    two_clients
  = with_log (fun l => l ++ [(ERROR, "Error handling message"%string)])
      two_clients.
Proof.
  apply (unhandled_message_is_only_logged calm two_clients 1%N
           (mkWebSocketConnection (mkUser 0%N "testuser") "w" 0 0 true)
           (Some (mkClientMessage (Some "document_open"%string) None
                    (Some "d"%string) None None None)));
    [by vm_compute | by repeat split].
Defined.

(** ** Leaving *)

Lemma cleanup_connections env c e e' r :
  well_formed e -> consistent e ->
  _cleanup_connection env c e = (e', r) ->
  r = inr tt /\ connections e' = connections e ∖ {[c]}.
Proof.
  intros Hwf Hcons.
  destruct (connections_get e c) as [conn |] eqn:Hc.
  - destruct (cleanup_run env c conn e Hwf Hcons Hc) as (e5 & Hb & ->).
    intros [= <- <-]. split; [done |].
    pose proof (preserves_apply registry_kept _ _ _ _
                  (rk_broadcast _ _ _ _) Hb) as (Hc5 & _).
    simpl_stats. by rewrite Hc5.
  - rewrite cleanup_unregistered by done. intros [= <- <-].
    split; [done |]. apply set_eq. intros c'.
    rewrite elem_of_difference, not_elem_of_singleton.
    split; [| by intros [? _]]. intros Hin. split; [done |]. intros ->.
    destruct Hwf as (_ & I2 & _). destruct (I2 c Hin) as (conn & Hs & _).
    unfold connections_get in Hc. rewrite decide_True in Hc by done.
    congruence.
Qed.

Lemma cleanup_loop_connections env l :
  forall e e' r,
    well_formed e -> consistent e ->
    for_each l (_cleanup_connection env) e = (e', r) ->
    r = inr tt /\
    forall c, c ∈ connections e' <-> c ∈ connections e /\ c ∉ l.
Proof.
  induction l as [| c0 l IH]; intros e e' r Hwf Hcons.
  - intros [= <- <-]. split; [done |]. intros c.
    split; [intros Hin; split; [done | apply not_elem_of_nil] | by intros [? _]].
  - simpl. intros H.
    apply bind_inv in H as [(x & H & _) | (e1 & [] & H & Hrest)].
    { by apply cleanup_connections in H as [[=] _]. }
    pose proof (wf_cleanup _ _ _ _ _ H Hwf) as [Hwf1 _].
    pose proof (cleanup_consistent _ _ _ _ _ Hwf Hcons H) as Hcons1.
    apply cleanup_connections in H as [_ Hc1]; [| done | done].
    apply IH in Hrest as [-> Hrest]; [| done | done].
    split; [done |]. intros c. rewrite Hrest, Hc1.
    rewrite elem_of_difference, not_elem_of_singleton, not_elem_of_cons.
    tauto.
Qed.

(** X20: a turn of the inactivity sweep unregisters exactly the
    registered connections whose last successful ping is more than
    five minutes old.  A connection pinged exactly five minutes ago
    stays.  The connection objects themselves stay, so the sockets are
    not closed: the coroutine behind a swept connection goes on
    reading. *)
Theorem cleanup_sweep_unregisters_the_stale env e :
  reachable e ->
  let e' := step env CleanupTick e in
  (forall c,
     c ∈ connections e' <->
     exists conn,
       connections_get e c = Some conn /\
       now env - conn_last_ping conn <= timedelta_minutes 5) /\
  (forall c conn,
     sockets e !! c = Some conn -> is_Some (sockets e' !! c)).
Proof.
  intros Hreach e'.
  pose proof (reachable_well_formed e Hreach) as Hwf.
  pose proof (reachable_consistent e Hreach) as Hcons.
  subst e'. unfold step. cbn [handler].
  destruct (_cleanup_inactive_connections env e) as [e' r] eqn:H.
  cbn [fst]. unfold _cleanup_inactive_connections in H.
  unfold bind at 1, get at 1 in H. cbv beta iota zeta in H.
  split.
  - apply cleanup_loop_connections in H as [_ Hc]; [| done | done].
    intros c. rewrite Hc. split.
    + intros [Hin Hnot]. destruct Hwf as (_ & I2 & _).
      destruct (I2 c Hin) as (conn & Hs & _).
      exists conn. split; [by apply connections_get_Some |].
      destruct (Z.ltb_spec (timedelta_minutes 5)
                  (now env - conn_last_ping conn)) as [Hlt | Hle]; [| done].
      exfalso. apply Hnot, list_elem_of_In, List.filter_In.
      split; [by apply list_elem_of_In, elem_of_elements |].
      rewrite Hs. by apply Z.ltb_lt.
    + intros (conn & Hget & Hle).
      apply connections_get_Some in Hget as [Hin Hs]. split; [done |].
      intros Hf. apply list_elem_of_In, List.filter_In in Hf as [_ Hf].
      rewrite Hs in Hf. apply Z.ltb_lt in Hf. lia.
  - intros c conn Hs.
    apply cleanup_loop_session_kept in H as [Hk _]; [| done | done].
    specialize (Hk c). rewrite Hs in Hk. inversion Hk. by eexists.
Qed.

(** X21: closing a registered connection takes it out of the connection
    table and of both indices, and drops its connection object; every
    other connection stays registered. *)
Theorem close_unregisters_the_connection env e c conn :
  reachable e ->
  connections_get e c = Some conn ->
  let e' := step env (Close c) e in
  (connections e' = connections e ∖ {[c]}) /\
  (sockets e' !! c = None) /\
  (forall w, c ∉ defaultdict_get w (workspace_connections e')) /\
  (forall u, c ∉ defaultdict_get u (user_connections e')) /\
  (forall c' conn',
     c' <> c -> connections_get e c' = Some conn' ->
     exists conn'', connections_get e' c' = Some conn'').
Proof.
  intros Hreach Hc e'.
  pose proof (reachable_well_formed e Hreach) as Hwf.
  pose proof (reachable_consistent e Hreach) as Hcons.
  assert (reachable e') as Hreach' by (by constructor).
  pose proof (reachable_consistent e' Hreach') as ((X1 & X2 & _) & _).
  pose proof (reachable_well_formed e' Hreach') as (_ & I2' & _).
  assert ((connections e' = connections e ∖ {[c]}) /\
          (sockets e' !! c = None)) as [Hconn Hsock].
  { assert (exists e1,
              _cleanup_connection env c e = (e1, inr tt) /\
              e' = with_sockets (delete c) e1) as (e1 & H1 & He').
    { destruct (_cleanup_connection env c e) as [e1 r1] eqn:H1.
      pose proof H1 as H1'.
      apply cleanup_connections in H1' as [-> _]; [| done | done].
      exists e1. split; [done |].
      subst e'. unfold step. cbn [handler]. unfold bind at 1, get at 1.
      cbv beta iota. apply connections_get_Some in Hc as [_ Hs]. rewrite Hs.
      unfold handle_websocket_close, bind, modify. by rewrite H1. }
    apply cleanup_connections in H1 as [_ H1]; [| done | done].
    rewrite He'. cbn. split; [done | apply lookup_delete_eq]. }
  assert (c ∉ connections e') as Hout.
  { rewrite Hconn. intros Hin. apply elem_of_difference in Hin as [_ Hin].
    by apply Hin, elem_of_singleton. }
  split; [done |]. split; [done |].
  split; [| split].
  - intros w Hin. apply X1 in Hin as (conn' & Hc' & _).
    by apply connections_get_Some in Hc' as [? _].
  - intros u Hin. apply X2 in Hin as (conn' & Hc' & _).
    by apply connections_get_Some in Hc' as [? _].
  - intros c' conn' Hne Hc'. apply connections_get_Some in Hc' as [Hin' _].
    assert (c' ∈ connections e') as Hin''.
    { rewrite Hconn. apply elem_of_difference. split; [done |].
      by apply not_elem_of_singleton. }
    destruct (I2' c' Hin'') as (conn'' & Hs'' & _).
    exists conn''. by apply connections_get_Some.
Qed.

Lemma cleanup_sweep_unregisters_the_stale_witness :
  let env := mkEnv 301 (fun _ => true) in
  let e := two_clients in
  let e' := step env CleanupTick e in
  (forall c,
     c ∈ connections e' <->
     exists conn,
       connections_get e c = Some conn /\
       now env - conn_last_ping conn <= timedelta_minutes 5) /\
  (forall c conn,
     sockets e !! c = Some conn -> is_Some (sockets e' !! c)).
Proof.
  intros env e.
  apply (cleanup_sweep_unregisters_the_stale env e).
  apply reachable_run, reachable_init.
Defined.

Lemma close_unregisters_the_connection_witness :
  let e := two_clients in
  let e' := step calm (Close 1%N) e in
  (connections e' = connections e ∖ {[1%N]}) /\
  (sockets e' !! 1%N = None) /\
  (forall w, 1%N ∉ defaultdict_get w (workspace_connections e')) /\
  (forall u, 1%N ∉ defaultdict_get u (user_connections e')) /\
  (forall c' conn',
     c' <> 1%N -> connections_get e c' = Some conn' ->
     exists conn'', connections_get e' c' = Some conn'').
Proof.
  intros e.
  apply (close_unregisters_the_connection calm e 1%N
           (mkWebSocketConnection (mkUser 0%N "testuser") "w" 0 0 true)).
  - apply reachable_run, reachable_init.
  - vm_compute. reflexivity.
Defined.

(** ** The heartbeat *)

Lemma heartbeat_turn env c e :
  exists e1,
    (let! e0 := get in
     match sockets e0 !! c with
     | Some connection =>
         if conn_is_active connection then ping env c else ret tt
     | None => ret tt
     end) e = (e1, inr tt) /\
    (forall c', c' <> c -> sockets e1 !! c' = sockets e !! c') /\
    sockets e1 !! c
      = (fun conn =>
           if conn_is_active conn then
             if link_up env c then set_last_ping (now env) conn
             else set_is_active false conn
           else conn) <$> sockets e !! c /\
    sent e1 = sent e /\ workspaces e1 = workspaces e /\
    connections e1 = connections e /\ stats e1 = stats e /\ mem e1 = mem e.
Proof.
  unfold bind at 1, get at 1. cbv beta iota.
  destruct (sockets e !! c) as [conn |] eqn:Hs;
    [| exists e; by rewrite Hs].
  destruct (conn_is_active conn) eqn:Ha;
    [| exists e; rewrite Hs; cbn; by rewrite Ha].
  unfold ping, bind, modify, logger.
  destruct (link_up env c); eexists; (split; [reflexivity |]); cbn;
    (split; [intros c' Hne; by rewrite lookup_alter_ne |]);
    (split; [by rewrite lookup_alter_eq, Hs; cbn; rewrite Ha |]); done.
Qed.

Lemma heartbeat_loop env l :
  NoDup l ->
  forall e,
  exists e',
    for_each l (fun conn_id =>
      let! e0 := get in
      match sockets e0 !! conn_id with
      | Some connection =>
          if conn_is_active connection then ping env conn_id else ret tt
      | None => ret tt
      end) e = (e', inr tt) /\
    (forall c, c ∉ l -> sockets e' !! c = sockets e !! c) /\
    (forall c, c ∈ l ->
       sockets e' !! c
       = (fun conn =>
            if conn_is_active conn then
              if link_up env c then set_last_ping (now env) conn
              else set_is_active false conn
            else conn) <$> sockets e !! c) /\
    sent e' = sent e /\ workspaces e' = workspaces e /\
    connections e' = connections e /\ stats e' = stats e /\ mem e' = mem e.
Proof.
  induction 1 as [| c l Hc Hl IH]; intros e.
  - exists e. split; [done |]. split; [done |].
    split; [| done]. intros c Hin. by apply elem_of_nil in Hin.
  - destruct (heartbeat_turn env c e)
      as (e1 & H1 & Hothers & Hown & A1 & B1 & C1 & D1 & E1).
    destruct (IH e1) as (e' & H' & Hout & Hin & A & B & C & D & E).
    exists e'. split; [simpl; by rewrite (bind_ok _ _ _ e1 tt) |].
    split; [| split; [| repeat split; congruence]].
    + intros c' Hc'. rewrite Hout.
      * apply Hothers. intros ->. apply Hc', elem_of_cons. by left.
      * intros Hin'. apply Hc', elem_of_cons. by right.
    + intros c' Hc'. apply elem_of_cons in Hc' as [-> | Hc'].
      * by rewrite Hout.
      * rewrite Hin by done. rewrite Hothers; [done |]. by intros ->.
Qed.

(** X22: a turn of the heartbeat pings exactly the registered
    connections that are marked active: a ping that succeeds sets
    [last_ping] to the time of the turn, one that fails marks the
    connection inactive (and is logged).  A connection marked
    inactive is not pinged again.  No JSON message is sent, and no
    workspace, index, counter or operation object is touched. *)
Theorem heartbeat_pings_the_active_connections env e :
  let e' := step env HeartbeatTick e in
  (forall c,
     sockets e' !! c
     = (if receives e c then
          if link_up env c then set_last_ping (now env)
          else set_is_active false
        else id) <$> sockets e !! c) /\
  sent e' = sent e /\ workspaces e' = workspaces e /\
  connections e' = connections e /\
  user_connections e' = user_connections e /\
  workspace_connections e' = workspace_connections e /\
  stats e' = stats e /\ mem e' = mem e.
Proof.
  intros e'.
  destruct (heartbeat_loop env (elements (connections e))
              (NoDup_elements _) e)
    as (e1 & H & Hout & Hin & A & B & C & D & E).
  assert (_heartbeat_monitor env e = (e1, inr tt)) as Hrun.
  { unfold _heartbeat_monitor. unfold bind at 1, get at 1. cbv beta iota.
    by rewrite H. }
  assert (e' = e1) as ->.
  { subst e'. unfold step. cbn [handler]. by rewrite Hrun. }
  destruct (rk_heartbeat env e e1 _ Hrun) as (_ & R2 & R3 & _).
  split; [| done].
  intros c. unfold receives, connections_get.
  destruct (decide (c ∈ connections e)) as [Hc | Hc].
  - rewrite Hin by (by apply elem_of_elements).
    destruct (sockets e !! c) as [conn |]; [| done]. cbn.
    by destruct (conn_is_active conn), (link_up env c).
  - rewrite Hout by (by rewrite elem_of_elements).
    by destruct (sockets e !! c).
Qed.

(** ** Rebasing *)

Lemma rebase_own operation op pending :
  forall e,
    objs (mem e) !! operation = Some op ->
    (forall r, r ∈ pending ->
       exists p, objs (mem e) !! r = Some p /\
                 Untyped.op_user_id p = Untyped.op_user_id op) ->
    fold_m (rebase_against operation) pending operation e
    = (e, inr operation).
Proof.
  induction pending as [| r pending IH]; intros e Hop Hown; [done |].
  simpl. destruct (Hown r) as (p & Hp & Hu); [by left |].
  rewrite (bind_ok _ _ _ e operation).
  - apply IH; [done |]. intros r' Hr'. apply Hown. by right.
  - unfold rebase_against.
    rewrite (bind_ok _ _ _ e p)
      by (unfold lift_mem, deref; rewrite Hp; by destruct e).
    rewrite (bind_ok _ _ _ e op)
      by (unfold lift_mem, deref; rewrite Hop; by destruct e).
    by rewrite bool_decide_eq_false_2 by (by intros ?).
Qed.

Lemma apply_ot_own w d operation e doc op :
  document_at e w d = Some doc ->
  objs (mem e) !! operation = Some op ->
  (forall r, r ∈ doc_pending_operations doc ->
     exists p, objs (mem e) !! r = Some p /\
               Untyped.op_user_id p = Untyped.op_user_id op) ->
  exists e',
    _apply_operational_transformation w d operation e
      = (e', inr operation) /\
    mem e' = mem e /\
    document_at e' w d
      = Some (set_pending_operations
                (fun l => trim_pending (l ++ [operation])) doc) /\
    forall w' d', (w', d') <> (w, d) ->
      document_at e' w' d' = document_at e w' d'.
Proof.
  intros Hdoc Hop Hown. unfold _apply_operational_transformation.
  rewrite (bind_ok _ _ _ e doc) by (by apply document_get_run).
  rewrite (bind_ok _ _ _ e operation) by (by eapply rebase_own).
  unfold document_update, bind, modify, ret. cbv beta iota.
  eexists. split; [reflexivity |]. split; [reflexivity |]. split.
  - rewrite !document_at_update, !decide_True by done. rewrite Hdoc. cbn.
    f_equal. unfold trim_pending, set_pending_operations. cbn.
    match goal with
    | |- context [if ?b then _ else _] => by destruct b
    end.
  - intros w' d' Hne. rewrite !document_at_update.
    rewrite !decide_False; [done | |]; intros [-> ->]; by apply Hne.
Qed.

(** X23: an operation is rebased against the pending operations of other
    users only.  When every pending operation of the document is by
    the author of the incoming one, the incoming operation comes back
    as it is, the very same object; nothing is allocated; and the
    pending buffer gains that object, cut to its last ten entries. *)
Theorem own_operations_are_not_transformed w d operation e doc op :
  document_at e w d = Some doc ->
  objs (mem e) !! operation = Some op ->
  (forall r, r ∈ doc_pending_operations doc ->
     exists p, objs (mem e) !! r = Some p /\
               Untyped.op_user_id p = Untyped.op_user_id op) ->
  exists e',
    _apply_operational_transformation w d operation e
      = (e', inr operation) /\
    mem e' = mem e /\
    document_at e' w d
      = Some (set_pending_operations
                (fun l => trim_pending (l ++ [operation])) doc) /\
    forall w' d', (w', d') <> (w, d) ->
      document_at e' w' d' = document_at e w' d'.
Proof. apply apply_ot_own. Qed.

Lemma own_operations_are_not_transformed_witness :
  let op :=
    untyped (mkOperation INSERT 0 (Some (txt "a")) None None 0 0%N 2%N) in
  let doc := document_after (fresh_document "d" 0) 0%nat (txt "a") 0 in
  exists e',
    _apply_operational_transformation "w" "d" 0%nat one_edit
      = (e', inr 0%nat) /\
    mem e' = mem one_edit /\
    document_at e' "w" "d"
      = Some (set_pending_operations
                (fun l => trim_pending (l ++ [0%nat])) doc) /\
    forall w' d', (w', d') <> ("w"%string, "d"%string) ->
      document_at e' w' d' = document_at one_edit w' d'.
Proof.
  intros op doc.
  apply (own_operations_are_not_transformed "w" "d" 0%nat one_edit doc op).
  - vm_compute. reflexivity.
  - vm_compute. reflexivity.
  - intros r Hr. apply list_elem_of_singleton in Hr. subst r.
    exists op. split; [vm_compute; reflexivity | reflexivity].
Defined.

(** ** Operations *)

Lemma documents_only_refl e : documents_only e e.
Proof. by repeat split. Qed.

Lemma documents_only_trans e1 e2 e3 :
  documents_only e1 e2 -> documents_only e2 e3 -> documents_only e1 e3.
Proof.
  intros (A1 & B1 & C1 & D1 & E1 & F1 & G1) (A2 & B2 & C2 & D2 & E2 & F2 & G2).
  repeat split; congruence.
Qed.

Lemma documents_only_lift {A} (c : M Heap A) :
  preserves documents_only (lift_mem c).
Proof.
  intros e e' r. unfold lift_mem. destruct (c (mem e)) as [m' r'].
  intros [= <- _]. by repeat split.
Qed.

Lemma apply_ot_documents_only w d operation :
  preserves documents_only (_apply_operational_transformation w d operation).
Proof.
  unfold _apply_operational_transformation, document_get, workspaces_getitem,
    rebase_against, document_update.
  repeat preserves_step documents_only_refl documents_only_trans;
    first [ apply documents_only_lift
          | apply preserves_modify; intros e; by repeat split ].
Qed.

Lemma rebase_against_ok operation acc p e o a b :
  objs (mem e) !! operation = Some o ->
  objs (mem e) !! acc = Some a -> has_declared_types a = true ->
  objs (mem e) !! p = Some b ->
  (Untyped.op_user_id b <> Untyped.op_user_id o ->
   has_declared_types b = true) ->
  exists e' t a',
    rebase_against operation acc p e = (e', inr t) /\
    objs (mem e') !! t = Some a' /\ has_declared_types a' = true.
Proof.
  intros Ho Ha Da Hb Db. unfold rebase_against.
  rewrite (bind_ok _ _ _ e b)
    by (unfold lift_mem, deref; rewrite Hb; by destruct e).
  rewrite (bind_ok _ _ _ e o)
    by (unfold lift_mem, deref; rewrite Ho; by destruct e).
  destruct (decide (Untyped.op_user_id b <> Untyped.op_user_id o))
    as [Hne | Heq].
  - rewrite bool_decide_eq_true_2 by done.
    destruct (transform_operation_declared (mem e) acc p a b Ha Hb Da
                (Db Hne)) as (h' & x & y & a' & Ht & Hx & Dx).
    unfold bind, lift_mem. rewrite Ht. cbn. by eexists _, x, a'.
  - rewrite bool_decide_eq_false_2 by done. by exists e, acc, a.
Qed.

Lemma rebase_fold_ok operation o pending :
  forall acc a e,
    objs (mem e) !! operation = Some o ->
    objs (mem e) !! acc = Some a -> has_declared_types a = true ->
    (forall r, r ∈ pending ->
       exists b, objs (mem e) !! r = Some b /\
                 (Untyped.op_user_id b <> Untyped.op_user_id o ->
                  has_declared_types b = true)) ->
    exists e' t a',
      fold_m (rebase_against operation) pending acc e = (e', inr t) /\
      objs (mem e') !! t = Some a' /\ has_declared_types a' = true.
Proof.
  induction pending as [| p pending IH]; intros acc a e Hop Hacc Da Hvalid.
  - by exists e, acc, a.
  - simpl.
    destruct (Hvalid p) as (b & Hb & Db); [by left |].
    destruct (rebase_against_ok operation acc p e o a b Hop Hacc Da Hb Db)
      as (e1 & t & a1 & H1 & Ht & Dt).
    rewrite (bind_ok _ _ _ e1 t) by done.
    pose proof (rebase_against_mem_only operation acc p _ _ _ H1)
      as [_ Hext].
    apply (IH t a1); [by eapply extends_lookup | done | done |].
    intros r Hr. destruct (Hvalid r) as (b' & Hb' & Db'); [by right |].
    exists b'. split; [by eapply extends_lookup | done].
Qed.

Lemma apply_ot_ok w d operation o e doc :
  document_at e w d = Some doc ->
  objs (mem e) !! operation = Some o -> has_declared_types o = true ->
  (forall r, r ∈ doc_pending_operations doc ->
     exists b, objs (mem e) !! r = Some b /\
               (Untyped.op_user_id b <> Untyped.op_user_id o ->
                has_declared_types b = true)) ->
  exists e' t top,
    _apply_operational_transformation w d operation e = (e', inr t) /\
    objs (mem e') !! t = Some top /\ has_declared_types top = true.
Proof.
  intros Hdoc Hop Do Hvalid. unfold _apply_operational_transformation.
  rewrite (bind_ok _ _ _ e doc) by (by apply document_get_run).
  destruct (rebase_fold_ok operation o (doc_pending_operations doc)
              operation o e Hop Hop Do Hvalid) as (e1 & t & top & H1 & Ht & Dt).
  rewrite (bind_ok _ _ _ e1 t) by done.
  unfold document_update, bind, modify, ret. by eexists _, t, top.
Qed.

(** An operation whose fields have the declared types is applied to
    any content. *)
Lemma apply_operation_declared content top :
  has_declared_types top = true ->
  exists content', Untyped.apply_operation content top = inr content'.
Proof.
  intros D. apply declared_untyped in D as [op ->].
  rewrite apply_operation_untyped. by eexists.
Qed.

Lemma last_deque_append {A} n (q : list A) x :
  last (deque_append n q x) = Some x.
Proof. unfold deque_append. destruct (n <=? length q)%nat; apply last_snoc. Qed.

Lemma operation_of_Some data type position :
  operation_of data = Some (type, position) ->
  exists raw tv,
    msg_operation data = Some raw /\ raw_type raw = Some tv /\
    OperationType_of_value tv = Some type /\ raw_position raw = Some position.
Proof.
  unfold operation_of.
  destruct (msg_operation data) as [raw |] eqn:E1; [| done].
  destruct (raw_type raw) as [tv |] eqn:E2; [| done].
  destruct (OperationType_of_value tv) as [ty |] eqn:E3; [| done].
  destruct (raw_position raw) as [pos |] eqn:E4; [| done].
  intros [= <- <-]. by exists raw, tv.
Qed.

Lemma declared_fields_Some raw :
  declared_fields raw = true ->
  exists position,
    raw_position raw = Some (VInt position) /\
    forall t ts u id,
      has_declared_types
        (Untyped.mkOperation t (VInt position) (dict_get (raw_content raw))
           (dict_get (raw_length raw)) None ts u id) = true.
Proof.
  unfold declared_fields, has_declared_types.
  destruct (raw_position raw) as [[| | position |] |]; try done.
  cbn [Untyped.op_position Untyped.op_content Untyped.op_length].
  intros H. by exists position.
Qed.

(** The run of [_handle_operation] on a message whose operation can be
    read, with fields of the declared types, and whose document id is
    there. *)
Lemma handle_operation_run env c conn data raw type position d e :
  reachable e ->
  sockets e !! c = Some conn ->
  msg_operation data = Some raw -> declared_fields raw = true ->
  operation_of data = Some (type, position) ->
  msg_document_id data = Some d -> d <> EmptyString ->
  (forall doc, document_at e (conn_workspace_id conn) d = Some doc ->
     pending_declared (mem e) (user_id (conn_user conn)) doc) ->
  exists e' t top doc',
    _handle_operation env c conn data e = (e', inr tt) /\
    objs (mem e') !! t = Some top /\
    Untyped.op_type top = type /\
    Untyped.op_user_id top = user_id (conn_user conn) /\
    Untyped.op_timestamp top = now env /\
    operations_processed (stats e') = operations_processed (stats e) + 1 /\
    document_at e' (conn_workspace_id conn) d = Some doc' /\
    last (doc_operations doc') = Some t /\
    sent e'
      = sent e
        ++ ((fun c' =>
               (c', operation_message d (Untyped.op_type top)
                      (Untyped.op_position top) (Untyped.op_content top)
                      (Untyped.op_length top) (Untyped.op_user_id top)
                      (Untyped.op_timestamp top)))
            <$> audience e (conn_workspace_id conn)
                  (Some (user_id (conn_user conn)))).
Proof.
  intros Hreach Hs Hraw Hfields Hop Hd Hne Hpending.
  pose proof (reachable_consistent e Hreach)
    as ((_ & _ & X3 & _) & _ & _ & _ & _ & F7 & _).
  destruct (F7 c conn Hs) as [ws Hws].
  set (u := user_id (conn_user conn)) in *.
  set (w := conn_workspace_id conn) in *.
  destruct (operation_of_Some _ _ _ Hop)
    as (raw' & tv & Hraw' & Htv & Hty & Hpos).
  assert (raw' = raw) as -> by congruence.
  destruct (declared_fields_Some raw Hfields) as (z & Hz & Dop).
  assert (position = VInt z) as -> by congruence.
  set (op := Untyped.mkOperation type (VInt z) (dict_get (raw_content raw))
               (dict_get (raw_length raw)) None (now env) u
               (uuid_next (mem e))).
  set (m1 := mkMem (objs (mem e) ++ [op]) (N.succ (uuid_next (mem e)))).
  set (e2 := with_mem (fun _ => m1) e).
  set (r := length (objs (mem e))).
  assert (objs (mem e2) !! r = Some op) as Hr by apply lookup_new.
  (* the document is there, or is made *)
  set (e3 := match ws_documents ws !! d with
             | Some _ => e2
             | None =>
                 with_workspaces
                   (alter (set_documents
                      <[d := mkDocumentState d [] 0 [] ∅ [] (now env) false]>)
                      w) e2
             end).
  set (doc0 := default (fresh_document d (now env)) (document_at e w d)).
  assert (document_at e3 w d = Some doc0) as Hdoc3.
  { subst e3 doc0. unfold document_at at 2. rewrite Hws.
    destruct (ws_documents ws !! d) as [doc |] eqn:Hdoc; cbn [default].
    - unfold document_at. change (workspaces e2) with (workspaces e).
      by rewrite Hws.
    - rewrite document_at_create, decide_True by done.
      change (workspaces e2) with (workspaces e). by rewrite Hws. }
  assert (mem e3 = m1 /\ documents_only e e3) as [Hm3 Ho3].
  { subst e3. destruct (ws_documents ws !! d); by repeat split. }
  assert (forall r0, r0 ∈ doc_pending_operations doc0 ->
            exists b, objs (mem e3) !! r0 = Some b /\
                      (Untyped.op_user_id b <> Untyped.op_user_id op ->
                       has_declared_types b = true)) as Hvalid.
  { intros r0 Hr0. rewrite Hm3. subst doc0.
    destruct (document_at e w d) as [doc |] eqn:Hdoc; cbn [default] in Hr0;
      [| by apply elem_of_nil in Hr0].
    destruct (reachable_buffers_bounded e Hreach w d doc Hdoc)
      as (_ & _ & _ & _ & Vp).
    destruct (Vp r0 Hr0) as [b Hb]. exists b.
    split; [by apply lookup_old |].
    intros Hu. by apply (Hpending doc eq_refl r0 b). }
  destruct (apply_ot_ok w d r op e3 doc0 Hdoc3)
    as (e4 & t & top & H4 & Htop & Dtop);
    [by rewrite Hm3 | apply Dop | done |].
  pose proof (apply_ot_documents_only w d r _ _ _ H4) as Do4.
  destruct (apply_ot_first w d r e3 e4 t op)
    as (top' & Htop' & Hu & Hts & Hty');
    [by rewrite Hm3 | done |].
  assert (top' = top) as -> by congruence.
  destruct (apply_ot_run _ _ _ _ _ _ _ Hdoc3 H4) as (_ & S4 & _ & _ & Hdoc4).
  set (doc4 := document_pending doc0 t) in *.
  destruct (apply_operation_declared (doc_content doc4) top Dtop)
    as [content Hcontent].
  set (f := applied content t (now env)).
  set (e4' := with_mem (fun _ => mem e4) e4).
  set (e5 := with_workspaces (alter (set_documents (alter f d)) w) e4').
  set (e5' := with_mem (fun _ => mem e5) e5).
  set (message := operation_message d (Untyped.op_type top)
                    (Untyped.op_position top) (Untyped.op_content top)
                    (Untyped.op_length top) (Untyped.op_user_id top)
                    (Untyped.op_timestamp top)).
  assert (documents_only e e5') as Do5.
  { eapply documents_only_trans; [exact Ho3 |].
    eapply documents_only_trans; [exact Do4 |]. by repeat split. }
  destruct Do5 as (A5 & B5 & C5 & D5 & E5 & F5 & G5).
  assert (audience e5' w (Some u) = audience e w (Some u)) as Haud.
  { unfold audience, reached, connections_get. by rewrite A5, B5, D5. }
  pose proof (broadcast_run env w message (Some u) e5') as Hb.
  destruct (_broadcast_to_workspace env w message (Some u) e5')
    as [e6 r6] eqn:H6.
  cbn [fst snd] in Hb.
  destruct Hb as (-> & Hsent & _ & _ & Hrk & Hw6 & Hm6);
    [rewrite D5; apply X3 |].
  pose proof (io_only_broadcast env w message (Some u) _ _ _ H6)
    as (_ & _ & _ & _ & _ & Hops6 & _).
  exists (with_stats (fun s =>
            mkStats (total_connections s) (active_workspaces s)
              (operations_processed s + 1) (conflicts_resolved s)
              (messages_sent s)) e6), t, top, (f doc4).
  split.
  { unfold _handle_operation. apply try_except_ok.
    rewrite (bind_ok _ _ _ e raw) by (by rewrite Hraw).
    rewrite (bind_ok _ _ _ e tv) by (by rewrite Htv).
    rewrite (bind_ok _ _ _ e type) by (by rewrite Hty).
    rewrite (bind_ok _ _ _ e (VInt z)) by (by rewrite Hz).
    rewrite (bind_ok _ _ _ e2 r) by done.
    rewrite Hd. destruct d as [| c0 d0]; [done |].
    fold w u.
    rewrite (bind_ok _ _ _ e2 ws) by (by apply workspaces_getitem_run).
    rewrite (bind_ok _ _ _ e3 tt)
      by (subst e3; by destruct (ws_documents ws !! String c0 d0)).
    rewrite (bind_ok _ _ _ e4 t) by done.
    rewrite (bind_ok _ _ _ e4' top)
      by (unfold lift_mem, deref; by rewrite Htop).
    rewrite (bind_ok _ _ _ e4' doc4)
      by (apply document_get_run; subst e4';
          by rewrite document_at_with_mem).
    rewrite (bind_ok _ _ _ e4' content)
      by (unfold lift_exn; by rewrite Hcontent).
    rewrite (bind_ok _ _ _ e5 tt) by done.
    rewrite (bind_ok _ _ _ e6 tt).
    2:{ unfold _broadcast_operation.
        rewrite (bind_ok _ _ _ e5' top)
          by (unfold lift_mem, deref; subst e5' e5 e4'; cbn; by rewrite Htop).
        exact H6. }
    by rewrite (bind_ok _ _ _ e6 tt). }
  simpl_stats.
  split; [by rewrite Hm6 |].
  split; [by rewrite Hty' |]. split; [by rewrite Hu |].
  split; [by rewrite Hts |].
  split; [by rewrite Hops6, E5 |].
  split.
  { unfold document_at. simpl_stats. rewrite Hw6.
    change (document_at e5 w d = Some (f doc4)). subst e5.
    rewrite document_at_update, decide_True by done.
    subst e4'. by rewrite document_at_with_mem, Hdoc4. }
  split; [apply last_deque_append |].
  by rewrite Hsent, F5, Haud.
Qed.

(** The step of the engine on an operation message that can be read,
    with fields and pending operations of the declared types. *)
Lemma operation_step
    env e c conn data raw type position d :
  reachable e ->
  sockets e !! c = Some conn ->
  msg_type data = Some "operation"%string ->
  msg_operation data = Some raw -> declared_fields raw = true ->
  operation_of data = Some (type, position) ->
  msg_document_id data = Some d -> d <> EmptyString ->
  (forall doc, document_at e (conn_workspace_id conn) d = Some doc ->
     pending_declared (mem e) (user_id (conn_user conn)) doc) ->
  let u := user_id (conn_user conn) in
  let w := conn_workspace_id conn in
  let doc := default (fresh_document d (now env)) (document_at e w d) in
  let e' := step env (Receive c (Some data)) e in
  exists t top content,
    extends (mem e) (mem e') /\
    objs (mem e') !! t = Some top /\
    Untyped.op_type top = type /\ Untyped.op_user_id top = u /\
    Untyped.op_timestamp top = now env /\
    Untyped.apply_operation (doc_content doc) top = inr content /\
    operations_processed (stats e') = operations_processed (stats e) + 1 /\
    document_at e' w d = Some (document_after doc t content (now env)) /\
    (forall w' d', (w', d') <> (w, d) ->
       document_at e' w' d' = document_at e w' d') /\
    sent e'
      = sent e
        ++ ((fun c' =>
               (c', operation_message d (Untyped.op_type top)
                      (Untyped.op_position top) (Untyped.op_content top)
                      (Untyped.op_length top) (Untyped.op_user_id top)
                      (Untyped.op_timestamp top)))
            <$> audience e w (Some u)).
Proof.
  intros Hreach Hs Htype Hraw Hfields Hop Hd Hne Hpending u w doc e'.
  destruct (handle_operation_run env c conn data raw type position d e
              Hreach Hs Hraw Hfields Hop Hd Hne Hpending)
    as (e1 & t & top & doc' & Hrun & Htop & Hty & Hu & Hts & Hcount & Hdoc'
        & Hlast & Hsent).
  assert (e' = e1) as ->.
  { subst e'. unfold step. rewrite (receive_run env c conn) by done.
    cbn [handle_websocket_message].
    unfold _handle_collaboration_message. cbv zeta. rewrite Htype.
    rewrite bool_decide_eq_true_2 by done.
    by rewrite (try_except_ok _ _ _ e1 tt). }
  destruct (handle_operation_effect _ _ _ _ _ _ _ Hrun)
    as (_ & Hext & [(_ & Hsame & _) | (d1 & Hd1 & [Happ | Hleft])]); [lia | |].
  - rewrite Hd in Hd1. injection Hd1 as <-.
    destruct Happ as (t' & top' & content & _ & Htop' & Happly & _ & Hdoc
                      & Hothers).
    fold w in Hdoc, Hdoc', Hothers, Happly. fold doc in Hdoc, Happly.
    assert (t' = t) as ->.
    { rewrite Hdoc in Hdoc'. injection Hdoc' as <-.
      cbn [document_after doc_operations] in Hlast.
      rewrite last_deque_append in Hlast. by injection Hlast. }
    assert (top' = top) as -> by congruence.
    exists t, top, content. by repeat split.
  - destruct Hleft as (_ & _ & _ & _ & _ & _ & Hsame & _). lia.
Qed.

(** X24: in every state the engine can be in, an operation message from
    an open connection is applied when its operation can be read
    (known type, a position), its fields have the JSON types that
    [Operation] declares, its document id is not empty, and the
    pending operations of the document that other users sent have
    fields of the declared types as well (the code checks none of
    these types, and an operation with, say, a [null] position stays
    in the pending buffer).  The operation is then rebased, applied
    to the document, which is made on the spot when it is not there,
    and counted.  The rebased operation keeps the type of the
    incoming one, the sender as its author and the time of the
    message; it is the last entry of the history; and it is what each
    other active connection registered with the workspace is sent,
    once.  The sender is sent nothing. *)
Theorem operation_is_applied_and_broadcast
    env e c conn data raw type position d :
  reachable e ->
  sockets e !! c = Some conn ->
  msg_type data = Some "operation"%string ->
  msg_operation data = Some raw -> declared_fields raw = true ->
  operation_of data = Some (type, position) ->
  msg_document_id data = Some d -> d <> EmptyString ->
  (forall doc, document_at e (conn_workspace_id conn) d = Some doc ->
     pending_declared (mem e) (user_id (conn_user conn)) doc) ->
  let u := user_id (conn_user conn) in
  let w := conn_workspace_id conn in
  let doc := default (fresh_document d (now env)) (document_at e w d) in
  let e' := step env (Receive c (Some data)) e in
  exists t top content,
    extends (mem e) (mem e') /\
    objs (mem e') !! t = Some top /\
    Untyped.op_type top = type /\ Untyped.op_user_id top = u /\
    Untyped.op_timestamp top = now env /\
    Untyped.apply_operation (doc_content doc) top = inr content /\
    operations_processed (stats e') = operations_processed (stats e) + 1 /\
    document_at e' w d = Some (document_after doc t content (now env)) /\
    (forall w' d', (w', d') <> (w, d) ->
       document_at e' w' d' = document_at e w' d') /\
    sent e'
      = sent e
        ++ ((fun c' =>
               (c', operation_message d (Untyped.op_type top)
                      (Untyped.op_position top) (Untyped.op_content top)
                      (Untyped.op_length top) (Untyped.op_user_id top)
                      (Untyped.op_timestamp top)))
            <$> audience e w (Some u)).
Proof. apply operation_step. Qed.

Lemma operation_is_applied_and_broadcast_witness :
  let e := two_clients in
  let conn :=
    mkWebSocketConnection (mkUser 0%N "testuser") "w" 0 0 true in
  let data := operation_data "insert" 0 (Some (txt "a")) None "d" in
  let d := "d"%string in
  let u := user_id (conn_user conn) in
  let w := conn_workspace_id conn in
  let doc := default (fresh_document d (now calm)) (document_at e w d) in
  let e' := step calm (Receive 1%N (Some data)) e in
  exists t top content,
    extends (mem e) (mem e') /\ objs (mem e') !! t = Some top /\
    Untyped.op_type top = INSERT /\ Untyped.op_user_id top = u /\
    Untyped.op_timestamp top = now calm /\
    Untyped.apply_operation (doc_content doc) top = inr content /\
    operations_processed (stats e') = operations_processed (stats e) + 1 /\
    document_at e' w d = Some (document_after doc t content (now calm)) /\
    (forall w' d', (w', d') <> (w, d) ->
       document_at e' w' d' = document_at e w' d') /\
    sent e'
      = sent e
        ++ ((fun c' =>
               (c', operation_message d (Untyped.op_type top)
                      (Untyped.op_position top) (Untyped.op_content top)
                      (Untyped.op_length top) (Untyped.op_user_id top)
                      (Untyped.op_timestamp top)))
            <$> audience e w (Some u)).
Proof.
  intros e conn data d.
  apply (operation_is_applied_and_broadcast calm e 1%N conn data
           (mkRawOperation (Some "insert"%string) (Some (VInt 0))
              (Some (VStr (txt "a"))) None)
           INSERT (VInt 0) d).
  - apply reachable_run, reachable_init.
  - vm_compute. reflexivity.
  - reflexivity.
  - reflexivity.
  - reflexivity.
  - vm_compute. reflexivity.
  - reflexivity.
  - discriminate.
  - intros doc Hdoc. vm_compute in Hdoc. discriminate.
Defined.

(** ** The version counter *)

(** C7: the version of a document goes up by exactly one for each
    operation that is applied to it, never goes down, and is changed
    by nothing else.  In full: every event either applies no
    operation, and then it counts none and every document keeps its
    version, its content and its history (a document that is not
    there stays absent, unless an operation that then fails creates
    it, with version 0, no content and no history); or it is an
    operation message that is applied to a document [d]: the content
    of [d] becomes what [apply_operation] returns, its history gains
    the operation, the operation is counted once and the version of
    [d] goes up by exactly one (from 0 for a document created by this
    operation), while no other document changes.  In both cases no
    version decreases.  And the second case is the one that happens
    whenever, in a state the engine can be in, an open connection
    sends an operation that can be read, for a document id that is
    not empty, when the fields of the operation and of the pending
    operations of other users have the declared types. *)
Theorem version_counter env ev e :
  let e' := step env ev e in
  ((operations_processed (stats e') = operations_processed (stats e) /\
    forall w d,
      match document_at e w d with
      | Some doc =>
          exists doc',
            document_at e' w d = Some doc' /\
            doc_version doc' = doc_version doc /\
            doc_content doc' = doc_content doc /\
            doc_operations doc' = doc_operations doc
      | None =>
          document_at e' w d = None \/
          exists doc',
            document_at e' w d = Some doc' /\
            doc_version doc' = 0 /\ doc_content doc' = [] /\
            doc_operations doc' = []
      end)
   \/
   (exists conn_id connection data d t top content,
      ev = Receive conn_id (Some data) /\
      sockets e !! conn_id = Some connection /\
      msg_type data = Some "operation"%string /\
      msg_document_id data = Some d /\
      let w := conn_workspace_id connection in
      let doc := default (fresh_document d (now env)) (document_at e w d) in
      objs (mem e') !! t = Some top /\
      Untyped.apply_operation (doc_content doc) top = inr content /\
      operations_processed (stats e') = operations_processed (stats e) + 1 /\
      (exists doc',
         document_at e' w d = Some doc' /\
         doc_version doc' = doc_version doc + 1 /\
         doc_content doc' = content /\
         doc_operations doc' = deque_append 1000 (doc_operations doc) t) /\
      forall w' d', (w', d') <> (w, d) ->
        document_at e' w' d' = document_at e w' d'))
  /\
  (forall w d v,
     doc_version <$> document_at e w d = Some v ->
     exists v', doc_version <$> document_at e' w d = Some v'
                /\ v <= v' <= v + 1)
  /\
  (forall conn_id connection data raw type position d,
     reachable e ->
     ev = Receive conn_id (Some data) ->
     sockets e !! conn_id = Some connection ->
     msg_type data = Some "operation"%string ->
     msg_operation data = Some raw -> declared_fields raw = true ->
     operation_of data = Some (type, position) ->
     msg_document_id data = Some d -> d <> EmptyString ->
     (forall doc,
        document_at e (conn_workspace_id connection) d = Some doc ->
        pending_declared (mem e) (user_id (conn_user connection)) doc) ->
     let w := conn_workspace_id connection in
     let doc := default (fresh_document d (now env)) (document_at e w d) in
     operations_processed (stats e') = operations_processed (stats e) + 1 /\
     doc_version <$> document_at e' w d = Some (doc_version doc + 1)).
Proof.
  intros e'.
  destruct (version_steps env ev e) as [Hcases Hmono].
  split; [exact Hcases |]. split; [exact Hmono |].
  intros conn_id connection data raw type position d Hreach -> Hs Htype Hraw
    Hfields Hop Hd Hne Hpending w doc.
  destruct (operation_step env e conn_id connection data raw type position d
              Hreach Hs Htype Hraw Hfields Hop Hd Hne Hpending)
    as (t & top & content & _ & _ & _ & _ & _ & _ & Hcount & Hdoc & _).
  split; [exact Hcount |].
  subst e'. fold w doc in Hdoc. by rewrite Hdoc.
Qed.

(** User 0 inserts ["a"] into the new document ["d"]: the operation is
    counted and the version of ["d"] is 1. *)
Lemma version_counter_witness :
  let e := two_clients in
  let e' :=
    step calm
      (Receive 1%N
         (Some (operation_data "insert" 0 (Some (txt "a")) None "d"))) e in
  operations_processed (stats e') = operations_processed (stats e) + 1 /\
  doc_version <$> document_at e' "w" "d" = Some 1.
Proof.
  intros e e'.
  pose proof (version_counter calm
                (Receive 1%N
                   (Some (operation_data "insert" 0 (Some (txt "a")) None
                            "d"))) e) as (_ & _ & H).
  apply (H 1%N (mkWebSocketConnection (mkUser 0%N "testuser") "w" 0 0 true)
           (operation_data "insert" 0 (Some (txt "a")) None "d")
           (mkRawOperation (Some "insert"%string) (Some (VInt 0))
              (Some (VStr (txt "a"))) None)
           INSERT (VInt 0) "d"%string).
  - apply reachable_run, reachable_init.
  - reflexivity.
  - vm_compute. reflexivity.
  - reflexivity.
  - reflexivity.
  - reflexivity.
  - vm_compute. reflexivity.
  - reflexivity.
  - discriminate.
  - intros doc Hdoc. vm_compute in Hdoc. discriminate.
Defined.

(** ** Operations that are not applied *)

Lemma try_except_bind_ok {S A B} (c : M S A) (k : A -> M S B) h (s s' : S) a :
  c s = (s', inr a) -> try_except (bind c k) h s = try_except (k a) h s'.
Proof. intros H. unfold try_except, bind. by rewrite H. Qed.

Lemma try_except_bind_raise {S A B} (c : M S A) (k : A -> M S B) h
    (s s' : S) x :
  c s = (s', inl x) -> try_except (bind c k) h s = h x s'.
Proof. intros H. unfold try_except, bind. by rewrite H. Qed.

Lemma bind_raise {S A B} (c : M S A) (k : A -> M S B) (s s' : S) x :
  c s = (s', inl x) -> bind c k s = (s', inl x).
Proof. intros H. unfold bind. by rewrite H. Qed.

(** [_handle_operation] up to the rebase: the operation is built and
    stored, and the document is made when it is not there. *)
Lemma handle_operation_begin env c conn data type position d e ws :
  workspaces e !! conn_workspace_id conn = Some ws ->
  operation_of data = Some (type, position) ->
  msg_document_id data = Some d -> d <> EmptyString ->
  exists raw e3,
    msg_operation data = Some raw /\
    let u := user_id (conn_user conn) in
    let w := conn_workspace_id conn in
    let op :=
      Untyped.mkOperation type position (dict_get (raw_content raw))
        (dict_get (raw_length raw)) None (now env) u (uuid_next (mem e)) in
    let operation := length (objs (mem e)) in
    _handle_operation env c conn data e
    = try_except
        (let! transformed_operation :=
           _apply_operational_transformation w d operation in
         let! transformed := lift_mem (deref transformed_operation) in
         let! document := document_get w d in
         let! content :=
           lift_exn (Untyped.apply_operation (doc_content document)
                       transformed) in
         let! _ := document_update w d
           (applied content transformed_operation (now env)) in
         let! _ :=
           _broadcast_operation env w d transformed_operation (Some u) in
         let! _ := _save_document_state in
         modify (with_stats (fun s =>
           mkStats (total_connections s) (active_workspaces s)
             (operations_processed s + 1) (conflicts_resolved s)
             (messages_sent s))))
        (fun _ => logger ERROR "Error handling operation") e3 /\
    mem e3 = mkMem (objs (mem e) ++ [op]) (N.succ (uuid_next (mem e))) /\
    documents_only e e3 /\
    document_at e3 w d
      = Some (default (fresh_document d (now env)) (document_at e w d)) /\
    forall w' d', (w', d') <> (w, d) ->
      document_at e3 w' d' = document_at e w' d'.
Proof.
  intros Hws Hop Hd Hne.
  destruct (operation_of_Some _ _ _ Hop) as (raw & tv & Hraw & Htv & Hty & Hpos).
  set (u := user_id (conn_user conn)).
  set (w := conn_workspace_id conn) in *.
  set (op := Untyped.mkOperation type position (dict_get (raw_content raw))
               (dict_get (raw_length raw)) None (now env) u
               (uuid_next (mem e))).
  set (m1 := mkMem (objs (mem e) ++ [op]) (N.succ (uuid_next (mem e)))).
  set (e2 := with_mem (fun _ => m1) e).
  set (e3 := match ws_documents ws !! d with
             | Some _ => e2
             | None =>
                 with_workspaces
                   (alter (set_documents
                      <[d := mkDocumentState d [] 0 [] ∅ [] (now env) false]>)
                      w) e2
             end).
  exists raw, e3. split; [done |]. cbv zeta. fold u w op m1.
  split; [| split; [| split; [| split]]].
  - unfold _handle_operation.
    rewrite (try_except_bind_ok _ _ _ e e raw) by (by rewrite Hraw).
    rewrite (try_except_bind_ok _ _ _ e e tv) by (by rewrite Htv).
    rewrite (try_except_bind_ok _ _ _ e e type) by (by rewrite Hty).
    rewrite (try_except_bind_ok _ _ _ e e position) by (by rewrite Hpos).
    rewrite (try_except_bind_ok _ _ _ e e2 (length (objs (mem e)))) by done.
    rewrite Hd. destruct d as [| c0 d0]; [done |].
    fold w u.
    rewrite (try_except_bind_ok _ _ _ e2 e2 ws)
      by (by apply workspaces_getitem_run).
    by rewrite (try_except_bind_ok _ _ _ e2 e3 tt)
      by (subst e3; by destruct (ws_documents ws !! String c0 d0)).
  - subst e3. by destruct (ws_documents ws !! d).
  - subst e3. destruct (ws_documents ws !! d); by repeat split.
  - subst e3. unfold document_at at 2. rewrite Hws.
    destruct (ws_documents ws !! d) as [doc |] eqn:Hdoc; cbn [default].
    + unfold document_at. change (workspaces e2) with (workspaces e).
      by rewrite Hws.
    + rewrite document_at_create, decide_True by done.
      change (workspaces e2) with (workspaces e). by rewrite Hws.
  - intros w' d' Hother. subst e3.
    destruct (ws_documents ws !! d); [done |].
    rewrite document_at_create. rewrite decide_False; [done |].
    intros [-> ->]. by apply Hother.
Qed.

(** X27: an operation that [apply_operation] cannot apply is stored all
    the same.  In a state the engine can be in, let an operation
    message be readable, with a document id that is not empty, and let
    the pending operations of the document all be by the sender, so
    that nothing is transformed.  When [apply_operation] raises on the
    operation built from the message (its position is [null], say),
    the error is logged and nothing is counted or sent; but the
    operation object has been made, the document has been made too
    when it was not there, and its pending buffer has taken the
    operation.  Content, version and history are as they were. *)
Theorem failed_operation_is_left_pending
    env e c conn data raw type position d x :
  reachable e ->
  sockets e !! c = Some conn ->
  msg_type data = Some "operation"%string ->
  msg_operation data = Some raw ->
  operation_of data = Some (type, position) ->
  msg_document_id data = Some d -> d <> EmptyString ->
  (forall r p,
     r ∈ doc_pending_operations
           (default (fresh_document d (now env))
              (document_at e (conn_workspace_id conn) d)) ->
     objs (mem e) !! r = Some p ->
     Untyped.op_user_id p = user_id (conn_user conn)) ->
  Untyped.apply_operation
    (doc_content (default (fresh_document d (now env))
                    (document_at e (conn_workspace_id conn) d)))
    (Untyped.mkOperation type position (dict_get (raw_content raw))
       (dict_get (raw_length raw)) None (now env) (user_id (conn_user conn))
       (uuid_next (mem e)))
  = inl x ->
  let u := user_id (conn_user conn) in
  let w := conn_workspace_id conn in
  let doc := default (fresh_document d (now env)) (document_at e w d) in
  let op :=
    Untyped.mkOperation type position (dict_get (raw_content raw))
      (dict_get (raw_length raw)) None (now env) u (uuid_next (mem e)) in
  let e' := step env (Receive c (Some data)) e in
  mem e' = mkMem (objs (mem e) ++ [op]) (N.succ (uuid_next (mem e))) /\
  document_at e' w d = Some (document_pending doc (length (objs (mem e)))) /\
  (forall w' d', (w', d') <> (w, d) ->
     document_at e' w' d' = document_at e w' d') /\
  stats e' = stats e /\ sent e' = sent e /\
  log e' = log e ++ [(ERROR, "Error handling operation"%string)].
Proof.
  intros Hreach Hs Htype Hraw Hop Hd Hne Hown Hfail u w doc op e'.
  pose proof (reachable_consistent e Hreach)
    as ((_ & _ & X3 & _) & _ & _ & _ & _ & F7 & _).
  destruct (F7 c conn Hs) as [ws Hws].
  destruct (handle_operation_begin env c conn data type position d e ws
              Hws Hop Hd Hne)
    as (raw' & e3 & Hraw' & Hrun & Hm3 & Do3 & Hdoc3 & Hothers3).
  assert (raw' = raw) as -> by congruence.
  cbv zeta in Hrun, Hm3, Hdoc3, Hothers3. fold u w in Hrun, Hm3, Hdoc3, Hothers3.
  fold op in Hm3. fold doc in Hdoc3.
  set (r := length (objs (mem e))) in *.
  assert (objs (mem e3) !! r = Some op) as Hr
    by (rewrite Hm3; apply lookup_new).
  destruct (apply_ot_own w d r e3 doc op Hdoc3 Hr)
    as (e4 & H4 & Hm4 & Hdoc4 & Hothers4).
  { intros r0 Hr0.
    assert (is_Some (objs (mem e) !! r0)) as [p Hp].
    { subst doc. destruct (document_at e w d) as [doc0 |] eqn:Hdoc0;
        cbn [default] in Hr0; [| by apply elem_of_nil in Hr0].
      destruct (reachable_buffers_bounded e Hreach w d doc0 Hdoc0)
        as (_ & _ & _ & _ & Vp). by apply Vp. }
    exists p. split; [rewrite Hm3; by apply lookup_old |].
    by apply (Hown r0 p). }
  pose proof (apply_ot_documents_only w d r _ _ _ H4)
    as (A4 & B4 & C4 & D4 & E4 & F4 & G4).
  destruct Do3 as (A3 & B3 & C3 & D3 & E3 & F3 & G3).
  assert (objs (mem e4) !! r = Some op) as Hr4 by (by rewrite Hm4).
  set (e4' := with_mem (fun _ => mem e4) e4).
  assert (e' = with_log (fun l => l ++ [(ERROR, "Error handling operation"%string)])
                 e4') as ->.
  { subst e'. unfold step. rewrite (receive_run env c conn) by done.
    cbn [handle_websocket_message].
    unfold _handle_collaboration_message. cbv zeta. rewrite Htype.
    rewrite bool_decide_eq_true_2 by done.
    assert (_handle_operation env c conn data e
            = (with_log (fun l => l ++ [(ERROR, "Error handling operation"%string)])
                 e4', inr tt)) as Hrun'.
    { rewrite Hrun.
      rewrite (try_except_bind_ok _ _ _ e3 e4 r) by done.
      rewrite (try_except_bind_ok _ _ _ e4 e4' op)
        by (unfold lift_mem, deref; by rewrite Hr4).
      rewrite (try_except_bind_ok _ _ _ e4' e4' (document_pending doc r))
        by (apply document_get_run; subst e4';
            by rewrite document_at_with_mem).
      rewrite (try_except_bind_raise _ _ _ e4' e4' x); [done |].
      unfold lift_exn.
      change (doc_content (document_pending doc r)) with (doc_content doc).
      fold u w doc op in Hfail. by rewrite Hfail. }
    by rewrite (try_except_ok _ _ _ _ tt Hrun'). }
  subst e4'. simpl_stats.
  split; [by rewrite Hm4 |].
  split; [exact Hdoc4 |].
  split.
  { intros w' d' Hother. change (document_at e4 w' d' = document_at e w' d').
    by rewrite Hothers4, Hothers3. }
  split; [by rewrite E4, E3 |]. split; [by rewrite F4, F3 |].
  by rewrite G4, G3.
Qed.

(** The first of two clients sends an insert whose position is [null]
    into the new document ["d"]. *)
Lemma failed_operation_is_left_pending_witness :
  let e := two_clients in
  let data := raw_operation_data "insert" VNone (VStr (txt "a")) VNone "d" in
  let op :=
    Untyped.mkOperation INSERT VNone (VStr (txt "a")) VNone None 0 0%N 4%N in
  let e' := step calm (Receive 1%N (Some data)) e in
  mem e' = mkMem (objs (mem e) ++ [op]) (N.succ (uuid_next (mem e))) /\
  document_at e' "w" "d"
    = Some (document_pending (fresh_document "d" 0) (length (objs (mem e)))) /\
  (forall w' d', (w', d') <> ("w"%string, "d"%string) ->
     document_at e' w' d' = document_at e w' d') /\
  stats e' = stats e /\ sent e' = sent e /\
  log e' = log e ++ [(ERROR, "Error handling operation"%string)].
Proof.
  intros e data op.
  apply (failed_operation_is_left_pending calm e 1%N
           (mkWebSocketConnection (mkUser 0%N "testuser") "w" 0 0 true) data
           (mkRawOperation (Some "insert"%string) (Some VNone)
              (Some (VStr (txt "a"))) (Some VNone))
           INSERT VNone "d"%string TypeError).
  - apply reachable_run, reachable_init.
  - vm_compute. reflexivity.
  - reflexivity.
  - reflexivity.
  - reflexivity.
  - reflexivity.
  - discriminate.
  - intros r p Hr. vm_compute in Hr. by apply elem_of_nil in Hr.
  - vm_compute. reflexivity.
Defined.

Lemma py_compare_None_r v : py_compare v VNone = inl TypeError.
Proof. by destruct v. Qed.

Lemma py_compare_None_l v : py_compare VNone v = inl TypeError.
Proof. by destruct v. Qed.

(** An insert or a delete cannot be transformed against an insert or a
    delete whose position is [None]: the comparison of the positions
    raises, before anything is built. *)
Lemma transform_operation_None h r1 r2 a b :
  objs h !! r1 = Some a -> objs h !! r2 = Some b ->
  Untyped.op_type a = INSERT \/ Untyped.op_type a = DELETE ->
  Untyped.op_type b = INSERT \/ Untyped.op_type b = DELETE ->
  Untyped.op_position b = VNone ->
  exists x, Untyped.transform_operation r1 r2 h = (h, inl x).
Proof.
  intros Ha Hb Ta Tb Pb.
  unfold Untyped.transform_operation, Untyped.transform_insert_delete,
    bind, deref, lift_exn, py_le, and_then.
  rewrite Ha, Hb. cbv beta iota. rewrite Pb.
  destruct Ta as [-> | ->], Tb as [-> | ->]; cbv beta iota;
    rewrite ?py_compare_None_r, ?py_compare_None_l; try by eexists.
  destruct (py_add (Untyped.op_position a)
              (py_or (Untyped.op_length a) (VInt 0))) as [x | v];
    cbv beta iota; rewrite ?py_compare_None_r; by eexists.
Qed.

Lemma rebase_fold_blocked operation op p b rest :
  forall own e,
    objs (mem e) !! operation = Some op ->
    (forall r, r ∈ own ->
       exists q, objs (mem e) !! r = Some q /\
                 Untyped.op_user_id q = Untyped.op_user_id op) ->
    objs (mem e) !! p = Some b ->
    Untyped.op_user_id b <> Untyped.op_user_id op ->
    Untyped.op_type op = INSERT \/ Untyped.op_type op = DELETE ->
    Untyped.op_type b = INSERT \/ Untyped.op_type b = DELETE ->
    Untyped.op_position b = VNone ->
    exists e' x,
      fold_m (rebase_against operation) (own ++ p :: rest) operation e
      = (e', inl x).
Proof.
  induction own as [| r own IH]; intros e Hop Hown Hp Hu Top Tb Pb.
  - cbn [app fold_m].
    destruct (transform_operation_None (mem e) operation p op b)
      as [x Hx]; try done.
    eexists _, x. apply bind_raise. unfold rebase_against.
    rewrite (bind_ok _ _ _ e b)
      by (unfold lift_mem, deref; rewrite Hp; by destruct e).
    rewrite (bind_ok _ _ _ e op)
      by (unfold lift_mem, deref; rewrite Hop; by destruct e).
    rewrite bool_decide_eq_true_2 by done.
    apply bind_raise. unfold lift_mem. by rewrite Hx.
  - cbn [app fold_m].
    destruct (Hown r) as (q & Hq & Uq); [by left |].
    rewrite (bind_ok _ _ _ e operation).
    + apply IH; try done. intros r' Hr'. apply Hown. by right.
    + unfold rebase_against.
      rewrite (bind_ok _ _ _ e q)
        by (unfold lift_mem, deref; rewrite Hq; by destruct e).
      rewrite (bind_ok _ _ _ e op)
        by (unfold lift_mem, deref; rewrite Hop; by destruct e).
      by rewrite bool_decide_eq_false_2 by (by intros ?).
Qed.

(** X28: a pending operation whose position is [null] stops the
    operations of the other users.  In a state the engine can be in,
    let the first pending operation of a document that is not by the
    sender be an insert or a delete with position [None].  Then an
    insert or a delete of the sender, whatever its fields, cannot be
    rebased: the comparison of the positions raises, the error is
    logged, and no document changes, nothing is counted and nothing is
    sent.  The operation object that was built stays in the store. *)
Theorem pending_null_position_blocks_other_users
    env e c conn data type position d doc own p b rest :
  reachable e ->
  sockets e !! c = Some conn ->
  msg_type data = Some "operation"%string ->
  operation_of data = Some (type, position) ->
  type = INSERT \/ type = DELETE ->
  msg_document_id data = Some d -> d <> EmptyString ->
  document_at e (conn_workspace_id conn) d = Some doc ->
  doc_pending_operations doc = own ++ p :: rest ->
  (forall r q, r ∈ own -> objs (mem e) !! r = Some q ->
     Untyped.op_user_id q = user_id (conn_user conn)) ->
  objs (mem e) !! p = Some b ->
  Untyped.op_user_id b <> user_id (conn_user conn) ->
  Untyped.op_type b = INSERT \/ Untyped.op_type b = DELETE ->
  Untyped.op_position b = VNone ->
  let e' := step env (Receive c (Some data)) e in
  extends (mem e) (mem e') /\
  (forall w' d', document_at e' w' d' = document_at e w' d') /\
  stats e' = stats e /\ sent e' = sent e /\
  log e' = log e ++ [(ERROR, "Error handling operation"%string)].
Proof.
  intros Hreach Hs Htype Hop Top Hd Hne Hdoc Hpending Hown Hp Hu Tb Pb e'.
  pose proof (reachable_consistent e Hreach)
    as ((_ & _ & X3 & _) & _ & _ & _ & _ & F7 & _).
  destruct (F7 c conn Hs) as [ws Hws].
  destruct (handle_operation_begin env c conn data type position d e ws
              Hws Hop Hd Hne)
    as (raw & e3 & Hraw & Hrun & Hm3 & Do3 & Hdoc3 & Hothers3).
  cbv zeta in Hrun, Hm3, Hdoc3, Hothers3.
  set (u := user_id (conn_user conn)) in *.
  set (w := conn_workspace_id conn) in *.
  set (op := Untyped.mkOperation type position (dict_get (raw_content raw))
               (dict_get (raw_length raw)) None (now env) u
               (uuid_next (mem e))) in *.
  set (r := length (objs (mem e))) in *.
  rewrite Hdoc in Hdoc3. cbn [default] in Hdoc3.
  assert (objs (mem e3) !! r = Some op) as Hr
    by (rewrite Hm3; apply lookup_new).
  assert (extends (mem e) (mem e3)) as Hext3
    by (rewrite Hm3; by eexists).
  destruct (rebase_fold_blocked r op p b rest own e3) as (e4 & x & Hfold);
    try done.
  { intros r0 Hr0.
    destruct (reachable_buffers_bounded e Hreach w d doc Hdoc)
      as (_ & _ & _ & _ & Vp).
    destruct (Vp r0) as [q Hq].
    { rewrite Hpending. apply elem_of_app. by left. }
    exists q. split; [by eapply extends_lookup |]. by apply (Hown r0 q). }
  { by eapply extends_lookup. }
  assert (_apply_operational_transformation w d r e3 = (e4, inl x)) as H4.
  { unfold _apply_operational_transformation.
    rewrite (bind_ok _ _ _ e3 doc) by (by apply document_get_run).
    apply bind_raise. by rewrite Hpending. }
  pose proof (apply_ot_documents_only w d r _ _ _ H4)
    as (A4 & B4 & C4 & D4 & E4 & F4 & G4).
  destruct (apply_ot_run _ _ _ _ _ _ _ Hdoc3 H4)
    as (Hext4 & _ & Hothers4 & Hdoc4 & _).
  destruct Do3 as (A3 & B3 & C3 & D3 & E3 & F3 & G3).
  assert (e' = with_log
                 (fun l => l ++ [(ERROR, "Error handling operation"%string)])
                 e4) as ->.
  { subst e'. unfold step. rewrite (receive_run env c conn) by done.
    cbn [handle_websocket_message].
    unfold _handle_collaboration_message. cbv zeta. rewrite Htype.
    rewrite bool_decide_eq_true_2 by done.
    assert (_handle_operation env c conn data e
            = (with_log
                 (fun l => l ++ [(ERROR, "Error handling operation"%string)])
                 e4, inr tt)) as Hrun'.
    { rewrite Hrun. by rewrite (try_except_bind_raise _ _ _ e3 e4 x). }
    by rewrite (try_except_ok _ _ _ _ tt Hrun'). }
  simpl_stats.
  split; [by eapply extends_trans |].
  split.
  { intros w' d'. change (document_at e4 w' d' = document_at e w' d').
    destruct (decide ((w', d') = (w, d))) as [[= -> ->] | Hother].
    - by rewrite Hdoc4, Hdoc.
    - by rewrite Hothers4, Hothers3. }
  split; [by rewrite E4, E3 |]. split; [by rewrite F4, F3 |].
  by rewrite G4, G3.
Qed.

(** The first client has sent an insert with a [null] position, which
    sits in the pending buffer of ["d"]; the second client then sends
    an insert at 0. *)
Lemma pending_null_position_blocks_other_users_witness :
  let e := stalled_pair in
  let data := operation_data "insert" 0 (Some (txt "b")) None "d" in
  let e' := step calm (Receive 3%N (Some data)) e in
  extends (mem e) (mem e') /\
  (forall w' d', document_at e' w' d' = document_at e w' d') /\
  stats e' = stats e /\ sent e' = sent e /\
  log e' = log e ++ [(ERROR, "Error handling operation"%string)].
Proof.
  intros e data.
  apply (pending_null_position_blocks_other_users calm e 3%N
           (mkWebSocketConnection (mkUser 2%N "testuser") "w" 0 0 true) data
           INSERT (VInt 0) "d"%string
           (document_pending (fresh_document "d" 0) 0%nat) [] 0%nat
           (Untyped.mkOperation INSERT VNone (VStr (txt "a")) VNone None 0 0%N
              4%N)
           []).
  - apply reachable_step, reachable_run, reachable_init.
  - vm_compute. reflexivity.
  - reflexivity.
  - reflexivity.
  - by left.
  - reflexivity.
  - discriminate.
  - vm_compute. reflexivity.
  - reflexivity.
  - intros r q Hr. by apply elem_of_nil in Hr.
  - vm_compute. reflexivity.
  - discriminate.
  - by left.
  - reflexivity.
Defined.

(** ** Broadcasts of the note API *)

Lemma collaborators_skip env u message (l : list (string * WorkspaceState)) e :
  (forall w ws, (w, ws) ∈ l -> ws_active_users ws !! u = None) ->
  for_each l (fun '(workspace_id, workspace) =>
    if decide (is_Some (ws_active_users workspace !! u)) then
      _broadcast_to_workspace env workspace_id message (Some u)
    else ret tt) e = (e, inr tt).
Proof.
  induction l as [| [w ws] l IH]; intros Hnone; [done |].
  simpl. rewrite decide_False.
  - rewrite (bind_ok _ _ _ e tt) by done. apply IH.
    intros w' ws' Hin. apply (Hnone w' ws'). by right.
  - rewrite (Hnone w ws) by (by left). by intros [? ?].
Qed.

Lemma collaborators_one env u message l1 w ws l2 e e' :
  (forall w' ws', (w', ws') ∈ l1 ++ l2 -> ws_active_users ws' !! u = None) ->
  is_Some (ws_active_users ws !! u) ->
  _broadcast_to_workspace env w message (Some u) e = (e', inr tt) ->
  for_each (l1 ++ (w, ws) :: l2) (fun '(workspace_id, workspace) =>
    if decide (is_Some (ws_active_users workspace !! u)) then
      _broadcast_to_workspace env workspace_id message (Some u)
    else ret tt) e = (e', inr tt).
Proof.
  intros Hnone Hp Hb. induction l1 as [| [w1 ws1] l1 IH].
  - simpl. rewrite decide_True by done.
    rewrite (bind_ok _ _ _ e' tt) by done.
    apply collaborators_skip. intros w' ws' Hin. by apply (Hnone w' ws').
  - simpl. rewrite decide_False.
    + rewrite (bind_ok _ _ _ e tt) by done. apply IH.
      intros w' ws' Hin. apply (Hnone w' ws'). by right.
    + rewrite (Hnone w1 ws1) by (by left). by intros [? ?].
Qed.

Lemma note_handler env ev u message :
  note_message ev = Some (u, message) ->
  handler env ev = broadcast_to_collaborators env u message.
Proof. destruct ev; try done; by intros [= <- <-]. Qed.

(** X25: [broadcast_note_created], [broadcast_note_updated] and
    [broadcast_update], in any state the engine can be in.  When the
    user is connected, each other active connection registered with
    the workspace of the user is sent the message once, and the
    connections of the user are sent none; when the user has no
    presence entry in any workspace, nothing happens. *)
Theorem note_broadcast_reaches_the_collaborators env ev u message e :
  reachable e ->
  note_message ev = Some (u, message) ->
  let e' := step env ev e in
  (forall c conn,
     connections_get e c = Some conn -> user_id (conn_user conn) = u ->
     sent e'
     = sent e
       ++ ((fun c' => (c', message))
           <$> audience e (conn_workspace_id conn) (Some u))) /\
  ((forall w, presence_at e w u = None) -> e' = e).
Proof.
  intros Hreach Hev e'.
  pose proof (reachable_consistent e Hreach) as Hcons.
  pose proof (reachable_well_formed e Hreach) as Hwf.
  subst e'. unfold step. rewrite (note_handler env ev u message Hev).
  unfold broadcast_to_collaborators. unfold bind at 1 2, get at 1 2.
  cbv beta iota.
  split.
  - intros c conn Hc Hu.
    set (w := conn_workspace_id conn).
    pose proof Hc as Hc'. apply connections_get_Some in Hc' as [Hin Hs].
    destruct Hwf as (I1 & I2 & _).
    destruct (I2 c Hin) as (conn' & Hs' & Hp).
    rewrite Hs in Hs'. injection Hs' as <-. rewrite Hu in Hp. fold w in Hp.
    unfold presence_at in Hp.
    destruct (workspaces e !! w) as [ws |] eqn:Hws; [| by destruct Hp].
    apply elem_of_map_to_list in Hws as Hel.
    apply list_elem_of_split in Hel as (l1 & l2 & Hl).
    pose proof (NoDup_fst_map_to_list (workspaces e)) as Hnd.
    rewrite Hl, fmap_app, fmap_cons in Hnd. cbn [fst] in Hnd.
    apply NoDup_app in Hnd as (_ & Hnot1 & Hnd2).
    apply NoDup_cons in Hnd2 as [Hnot2 _].
    destruct Hcons as ((X1 & _) & _ & _ & _ & _ & _ & F10).
    pose proof (broadcast_run env w message (Some u) e)
      as Hb.
    destruct (_broadcast_to_workspace env w message (Some u) e)
      as [e1 r1] eqn:H1.
    cbn [fst snd] in Hb.
    destruct Hb as (-> & Hsent & _);
      [by destruct (reachable_consistent e Hreach) as ((_ & _ & ? & _) & _) |].
    rewrite Hl. erewrite collaborators_one; [exact Hsent | | done | exact H1].
    intros w' ws' Hin'.
    assert ((w', ws') ∈ map_to_list (workspaces e)) as Hel'.
    { rewrite Hl. apply elem_of_app in Hin' as [? | ?];
        apply elem_of_app; [by left | right; by right]. }
    apply elem_of_map_to_list in Hel'.
    destruct (ws_active_users ws' !! u) as [p |] eqn:Hp'; [| done].
    exfalso.
    destruct (F10 w' u) as (c2 & conn2 & Hc2 & Hu2 & Hw2).
    { unfold presence_at. rewrite Hel'. by eexists. }
    apply connections_get_Some in Hc2 as [_ Hs2].
    destruct (I1 _ _ Hs) as [Hsucc _]. destruct (I1 _ _ Hs2) as [Hsucc2 _].
    assert (c2 = c) as -> by congruence.
    assert (conn2 = conn) as -> by congruence.
    fold w in Hw2. subst w'.
    apply elem_of_app in Hin' as [Hin' | Hin'].
    + apply (Hnot1 w); [| by left].
      apply list_elem_of_fmap. by exists (w, ws').
    + apply Hnot2. apply list_elem_of_fmap. by exists (w, ws').
  - intros Hnone. rewrite collaborators_skip; [done |].
    intros w ws Hin. apply elem_of_map_to_list in Hin.
    specialize (Hnone w). unfold presence_at in Hnone. by rewrite Hin in Hnone.
Qed.

Lemma note_broadcast_reaches_the_collaborators_witness :
  let e := two_clients in
  let message := note_created "n" 0%N in
  let e' := step calm (NoteCreated 0%N "n") e in
  (forall c conn,
     connections_get e c = Some conn -> user_id (conn_user conn) = 0%N ->
     sent e'
     = sent e
       ++ ((fun c' => (c', message))
           <$> audience e (conn_workspace_id conn) (Some 0%N))) /\
  ((forall w, presence_at e w 0%N = None) -> e' = e).
Proof.
  intros e message.
  apply (note_broadcast_reaches_the_collaborators calm
           (NoteCreated 0%N "n") 0%N message e).
  - apply reachable_run, reachable_init.
  - reflexivity.
Defined.

(** ** The health report *)

Lemma foldr_max_bounds (t : Z) (ts : list Z) :
  (forall x, x ∈ t :: ts -> x <= foldr Z.max t ts) /\
  foldr Z.max t ts ∈ t :: ts.
Proof.
  induction ts as [| a ts [IH1 IH2]]; simpl.
  - split; [| by left]. intros x Hx.
    apply list_elem_of_singleton in Hx. lia.
  - split.
    + intros x Hx. apply elem_of_cons in Hx as [-> | Hx].
      * specialize (IH1 t ltac:(by left)). lia.
      * apply elem_of_cons in Hx as [-> | Hx]; [lia |].
        specialize (IH1 x ltac:(by right)). lia.
    + destruct (Z.max_spec a (foldr Z.max t ts)) as [[_ ->] | [_ ->]].
      * apply elem_of_cons in IH2 as [-> | IH2]; [by left |].
        right. by right.
      * right. by left.
Qed.

(** X26: [health_check], in any state the engine can be in.  The active
    connections it reports are no more than the registered ones; the
    workspaces it counts are those the statistics count; and
    [last_activity] is the latest [last_activity] of a workspace: the
    one of some workspace, and no earlier than that of any.  With no
    workspace it is the time of the call. *)
Theorem health_reports_the_latest_activity env initialized e :
  reachable e ->
  let h := health_check env initialized e in
  0 <= h_active_connections h <= h_total_connections h /\
  h_active_workspaces h = active_workspaces (stats e) /\
  (forall w ws,
     workspaces e !! w = Some ws ->
     ws_last_activity ws <= h_last_activity h) /\
  (workspaces e = ∅ -> h_last_activity h = now env) /\
  (workspaces e <> ∅ ->
   exists w ws,
     workspaces e !! w = Some ws /\ h_last_activity h = ws_last_activity ws).
Proof.
  intros Hreach h. subst h.
  pose proof (reachable_consistent e Hreach) as (_ & _ & _ & F5 & _).
  unfold health_check, get_connection_count.
  cbn [h_active_connections h_total_connections h_active_workspaces
         h_last_activity].
  split.
  { split; [lia |]. apply inj_le.
    etransitivity; [apply List.filter_length_le |]. done. }
  split; [done |].
  assert (forall w ws, workspaces e !! w = Some ws ->
            ws_last_activity ws
              ∈ ws_last_activity <$> (snd <$> map_to_list (workspaces e)))
    as Hin.
  { intros w ws Hws. apply list_elem_of_fmap. exists ws. split; [done |].
    apply list_elem_of_fmap. exists (w, ws). split; [done |].
    by apply elem_of_map_to_list. }
  destruct (ws_last_activity <$> (snd <$> map_to_list (workspaces e)))
    as [| t ts] eqn:Hl.
  - apply fmap_nil_inv, fmap_nil_inv, map_to_list_empty_iff in Hl.
    split; [| split; [done |]].
    + intros w ws Hws. rewrite Hl in Hws. by rewrite lookup_empty in Hws.
    + by intros [].
  - destruct (foldr_max_bounds t ts) as [Hle Hmem].
    split; [| split].
    + intros w ws Hws. apply Hle. by eapply Hin.
    + intros Hemp. rewrite Hemp, map_to_list_empty in Hl. done.
    + intros _. rewrite <- Hl in Hmem.
      apply list_elem_of_fmap in Hmem as (ws & Heq & Hmem).
      apply list_elem_of_fmap in Hmem as ([w ws'] & -> & Hmem).
      apply elem_of_map_to_list in Hmem. by exists w, ws'.
Qed.

Lemma health_reports_the_latest_activity_witness :
  let h := health_check calm true two_clients in
  0 <= h_active_connections h <= h_total_connections h /\
  h_active_workspaces h = active_workspaces (stats two_clients) /\
  (forall w ws,
     workspaces two_clients !! w = Some ws ->
     ws_last_activity ws <= h_last_activity h) /\
  (workspaces two_clients = ∅ -> h_last_activity h = now calm) /\
  (workspaces two_clients <> ∅ ->
   exists w ws,
     workspaces two_clients !! w = Some ws /\
     h_last_activity h = ws_last_activity ws).
Proof.
  apply health_reports_the_latest_activity.
  apply reachable_run, reachable_init.
Defined.

End Sessions.
